(** * MOTION2NX: two-party BEAVY engine, OT extension flavors and FSS gates

    A shallow embedding of the parts of the repository that the
    specification speaks about:

    - [crypto/oblivious_transfer/ot_flavors.cpp] and [ot_provider.cpp]
      (module [OT]): batch registration, the per-flavor sender and receiver
      handles, their call-order checks;
    - [protocols/beavy/gate.cpp] (module [Beavy]): the Boolean and arithmetic
      BEAVY gates, their share arithmetic and readiness signalling;
    - [fss/fss_uint64.cpp] (module [FSS]): key generation and evaluation of
      the function-secret-sharing gate;
    - [abyncore/wire/wire.h] (module [AbynWire]): the one-shot online flag.

    Unsigned C++ integers of width [W] are integers in [Z] reduced modulo
    [2^W] at every store; [std::size_t] is 64 bits wide. *)

From Stdlib Require Import ZArith Lia Bool String.
From stdpp Require Import base tactics option list gmap.

Local Open Scope Z_scope.

(** ** Machine integers *)

Definition wrap (W : Z) (x : Z) : Z := x mod 2 ^ W.

(** [std::size_t] arithmetic. *)
Definition wrap_size (n : Z) : Z := wrap 64 n.

(** Congruence modulo [N] is [eqm N] of the standard library; sums,
    differences and products respect it. *)
#[global] Instance eqm_equivalence (N : Z) : Equivalence (eqm N) := eqm_setoid N.
#[global] Instance add_eqm (N : Z) : Proper (eqm N ==> eqm N ==> eqm N) Z.add :=
  Zplus_eqm N.
#[global] Instance sub_eqm (N : Z) : Proper (eqm N ==> eqm N ==> eqm N) Z.sub :=
  Zminus_eqm N.
#[global] Instance mul_eqm (N : Z) : Proper (eqm N ==> eqm N ==> eqm N) Z.mul :=
  Zmult_eqm N.

(** ** Outcomes of a method call

    A method either returns ([Ok]), throws a C++ exception ([Throw], with the
    state at the point of the throw), or waits on a condition or future that
    has not fired ([Blocked]). *)

Inductive outcome (S : Type) : Type :=
| Ok (s : S)
| Throw (what : string) (s : S)
| Blocked (s : S).
Arguments Ok {S} s.
Arguments Throw {S} what s.
Arguments Blocked {S} s.

Definition and_then {S} (o : outcome S) (f : S -> outcome S) : outcome S :=
  match o with
  | Ok s => f s
  | Throw w s => Throw w s
  | Blocked s => Blocked s
  end.
Notation "o >>> f" := (and_then o f) (at level 50, left associativity).

Definition raises {S} (o : outcome S) : Prop :=
  match o with Throw _ _ => True | _ => False end.

Definition state_of {S} (o : outcome S) : S :=
  match o with Ok s | Throw _ s | Blocked s => s end.

(** A counted [for] loop whose body may throw or block. *)
Fixpoint for_each {S} (body : nat -> S -> outcome S) (idx : list nat) (s : S)
  : outcome S :=
  match idx with
  | [] => Ok s
  | i :: rest => body i s >>> for_each body rest
  end.

Definition map_outcome {S T} (f : S -> T) (o : outcome S) : outcome T :=
  match o with
  | Ok s => Ok (f s)
  | Throw w s => Throw w (f s)
  | Blocked s => Blocked (f s)
  end.

(** The state a call returned with, when it returned. *)
Definition ok_state {S} (o : outcome S) : option S :=
  match o with Ok s => Some s | _ => None end.

(** * Oblivious-transfer extension: [ot_flavors.cpp], [ot_provider.cpp] *)

Module OT.

(** ** Bit vectors and their byte view

    [ENCRYPTO::BitVector<>] is a packed vector of bits; its class is not among
    the sources.  Bits are kept as a list; [GetData] is the byte buffer, bit
    [i] sitting in byte [i / 8] under the mask [SET_BIT_MASK[i mod 8]], with
    [SET_BIT_MASK[0]] the most significant bit.  [read_T W bv j] is
    [reinterpret_cast<const T*>(bv.GetData().data())[j]] on a little-endian
    machine, for [T] of [W] bits. *)

Abbreviation BitVector := (list bool).

Definition bit (bv : BitVector) (i : nat) : bool := nth i bv false.

Definition byte_at (bv : BitVector) (k : nat) : Z :=
  foldr (fun b acc => acc + (if bit bv (8 * k + b) then 2 ^ (7 - Z.of_nat b) else 0))
        0 (seq 0 8).

Definition GetData (bv : BitVector) : list Z :=
  map (byte_at bv) (seq 0 ((length bv + 7) / 8)).

Definition le_decode (bytes : list Z) : Z :=
  foldr (fun b acc => b + 256 * acc) 0 bytes.

Definition read_T (W : Z) (bv : BitVector) (j : nat) : Z :=
  let sz := Z.to_nat (W / 8) in
  wrap W (le_decode (take sz (drop (j * sz) (GetData bv)))).

(** [BitVector::Subset(from, to)] and the bitwise operators. *)
Definition Subset (bv : BitVector) (from to : Z) : BitVector :=
  take (Z.to_nat (to - from)) (drop (Z.to_nat from) bv).

Definition bv_xor (a b : BitVector) : BitVector := zip_with xorb a b.
Definition bv_and (a b : BitVector) : BitVector := zip_with andb a b.

(** [std::vector::at]: [None] stands for [std::out_of_range]. *)
Definition at_ {A} (l : list A) (k : Z) : option A := l !! Z.to_nat k.

(** ** Messages between the two parties *)

Inductive payload : Type :=
| Blocks (l : list Z)          (* block128_vector *)
| Bits (bv : BitVector)        (* BitVector<> *)
| Ints (l : list Z).           (* std::vector<T> *)

Inductive message : Type :=
| ReceiverCorrections (ot_id : Z) (corrections : BitVector)
| SenderMessage (ot_id : Z) (p : payload).

Inductive OTMsgType : Type :=
| msg_bit | msg_block128 | msg_uint8 | msg_uint16 | msg_uint32 | msg_uint64 | msg_uint128.

(** ** [OTExtensionSenderData], [OTExtensionReceiverData]
    ([data_storage/ot_extension_data.h]) *)

Record OTExtensionSenderData : Type := mkSenderData {
  y0_ : list BitVector;
  y1_ : list BitVector;
  snd_bitlengths_ : list Z;
  corrections_ : BitVector;
  snd_num_ots_in_batch_ : gmap Z Z;
  received_correction_offsets_ : gset Z;
  received_correction_offsets_cond_ : gset Z;
  snd_setup_finished_ : bool
}.

Record OTExtensionReceiverData : Type := mkReceiverData {
  outputs_ : list BitVector;
  rcv_bitlengths_ : list Z;
  random_choices_ : BitVector;
  real_choices_ : BitVector;
  set_real_choices_ : gset Z;
  real_choices_cond_ : gset Z;
  rcv_num_ots_in_batch_ : gmap Z Z;
  msg_type_ : gmap Z OTMsgType;
  (* ot_id -> (vector size, value of the promise once the message arrived) *)
  message_promises_ : gmap Z (Z * option payload);
  rcv_setup_finished_ : bool
}.

Definition with_outputs_ (o : list BitVector) (d : OTExtensionReceiverData)
  : OTExtensionReceiverData :=
  mkReceiverData o (rcv_bitlengths_ d) (random_choices_ d) (real_choices_ d)
    (set_real_choices_ d) (real_choices_cond_ d) (rcv_num_ots_in_batch_ d)
    (msg_type_ d) (message_promises_ d) (rcv_setup_finished_ d).
Definition with_message_promises_ (m : gmap Z (Z * option payload))
           (d : OTExtensionReceiverData) : OTExtensionReceiverData :=
  mkReceiverData (outputs_ d) (rcv_bitlengths_ d) (random_choices_ d) (real_choices_ d)
    (set_real_choices_ d) (real_choices_cond_ d) (rcv_num_ots_in_batch_ d)
    (msg_type_ d) m (rcv_setup_finished_ d).
Definition with_real_choices_ (c : BitVector) (done_ : gset Z)
           (d : OTExtensionReceiverData) : OTExtensionReceiverData :=
  mkReceiverData (outputs_ d) (rcv_bitlengths_ d) (random_choices_ d) c
    done_ (real_choices_cond_ d) (rcv_num_ots_in_batch_ d)
    (msg_type_ d) (message_promises_ d) (rcv_setup_finished_ d).

Definition empty_sender_data : OTExtensionSenderData :=
  mkSenderData [] [] [] [] ∅ ∅ ∅ false.
Definition empty_receiver_data : OTExtensionReceiverData :=
  mkReceiverData [] [] [] [] ∅ ∅ ∅ ∅ ∅ false.

(** ** Handles of the new-style flavors ([ot_flavors.cpp]) *)

Inductive Flavor : Type :=
| FixedXCOT128 | XCOTBit | ACOT (W : Z) | GOT128 | GOTBit.

Record OTSender : Type := mkSender {
  s_class : Flavor;
  s_ot_id_ : Z;
  s_num_ots_ : Z;
  s_bitlen_ : Z;
  s_vector_size_ : Z;
  correlations_ : list Z;      (* ACOT: std::vector<T> *)
  inputs_ : list Z;            (* GOT128: block128_vector of 2 * num_ots *)
  s_outputs_ : list Z;
  s_outputs_computed_ : bool
}.

Record OTReceiver : Type := mkReceiver {
  r_class : Flavor;
  r_ot_id_ : Z;
  r_num_ots_ : Z;
  r_bitlen_ : Z;
  r_vector_size_ : Z;
  choices_ : BitVector;
  corrections_sent_ : bool;
  r_outputs_ : list Z;          (* std::vector<T> or block128_vector *)
  r_outputs_bits_ : BitVector;  (* BitVector<> outputs of the bit flavors *)
  r_outputs_computed_ : bool
}.

(** One side of a party: the handle, the data block it refers to, and the
    messages handed to [Send_] so far. *)
Record SndSt : Type := mkSndSt {
  snd : OTSender; sdata : OTExtensionSenderData; s_sent : list message }.
Record RcvSt : Type := mkRcvSt {
  rcv : OTReceiver; rdata : OTExtensionReceiverData; r_sent : list message }.

Definition set_snd (f : OTSender -> OTSender) (s : SndSt) : SndSt :=
  mkSndSt (f (snd s)) (sdata s) (s_sent s).
Definition set_rcv (f : OTReceiver -> OTReceiver) (s : RcvSt) : RcvSt :=
  mkRcvSt (f (rcv s)) (rdata s) (r_sent s).
Definition Send_s (m : message) (s : SndSt) : SndSt :=
  mkSndSt (snd s) (sdata s) (s_sent s ++ [m]).
Definition Send_r (m : message) (s : RcvSt) : RcvSt :=
  mkRcvSt (rcv s) (rdata s) (r_sent s ++ [m]).

Definition with_s_outputs (o : list Z) (h : OTSender) : OTSender :=
  mkSender (s_class h) (s_ot_id_ h) (s_num_ots_ h) (s_bitlen_ h) (s_vector_size_ h)
           (correlations_ h) (inputs_ h) o (s_outputs_computed_ h).
Definition with_s_outputs_computed (b : bool) (h : OTSender) : OTSender :=
  mkSender (s_class h) (s_ot_id_ h) (s_num_ots_ h) (s_bitlen_ h) (s_vector_size_ h)
           (correlations_ h) (inputs_ h) (s_outputs_ h) b.
Definition with_correlations (c : list Z) (h : OTSender) : OTSender :=
  mkSender (s_class h) (s_ot_id_ h) (s_num_ots_ h) (s_bitlen_ h) (s_vector_size_ h)
           c (inputs_ h) (s_outputs_ h) (s_outputs_computed_ h).
Definition with_inputs (c : list Z) (h : OTSender) : OTSender :=
  mkSender (s_class h) (s_ot_id_ h) (s_num_ots_ h) (s_bitlen_ h) (s_vector_size_ h)
           (correlations_ h) c (s_outputs_ h) (s_outputs_computed_ h).

Definition with_choices (c : BitVector) (h : OTReceiver) : OTReceiver :=
  mkReceiver (r_class h) (r_ot_id_ h) (r_num_ots_ h) (r_bitlen_ h) (r_vector_size_ h)
             c (corrections_sent_ h) (r_outputs_ h) (r_outputs_bits_ h)
             (r_outputs_computed_ h).
Definition with_corrections_sent (b : bool) (h : OTReceiver) : OTReceiver :=
  mkReceiver (r_class h) (r_ot_id_ h) (r_num_ots_ h) (r_bitlen_ h) (r_vector_size_ h)
             (choices_ h) b (r_outputs_ h) (r_outputs_bits_ h) (r_outputs_computed_ h).
Definition with_r_outputs (o : list Z) (h : OTReceiver) : OTReceiver :=
  mkReceiver (r_class h) (r_ot_id_ h) (r_num_ots_ h) (r_bitlen_ h) (r_vector_size_ h)
             (choices_ h) (corrections_sent_ h) o (r_outputs_bits_ h)
             (r_outputs_computed_ h).
Definition with_r_outputs_bits (o : BitVector) (h : OTReceiver) : OTReceiver :=
  mkReceiver (r_class h) (r_ot_id_ h) (r_num_ots_ h) (r_bitlen_ h) (r_vector_size_ h)
             (choices_ h) (corrections_sent_ h) (r_outputs_ h) o (r_outputs_computed_ h).
Definition with_r_outputs_computed (b : bool) (h : OTReceiver) : OTReceiver :=
  mkReceiver (r_class h) (r_ot_id_ h) (r_num_ots_ h) (r_bitlen_ h) (r_vector_size_ h)
             (choices_ h) (corrections_sent_ h) (r_outputs_ h) (r_outputs_bits_ h) b.

(** The indices [0 .. n-1] of a [for (i = 0; i < n; ++i)] loop. *)
Definition upto (n : Z) : list nat := seq 0 (Z.to_nat n).


(** ** Receiver side *)

(** Modelled from the spec: [SetChoices] of the new-style receivers is
    declared in [ot_flavors.h], which is not among the sources; it stores the
    real choice bits in the handle ("Per-batch operations: SetCorrelations /
    SetChoices / SetInputs"). *)
Definition SetChoices (c : BitVector) (s : RcvSt) : outcome RcvSt :=
  Ok (set_rcv (with_choices c) s).

(** [BasicOTReceiver::SendCorrections] *)
Definition SendCorrections (s : RcvSt) : outcome RcvSt :=
  let h := rcv s in
  match choices_ h with
  | [] => Throw "Choices in COT must be set before calling SendCorrections()" s
  | _ =>
      let corrections :=
        bv_xor (choices_ h)
               (Subset (random_choices_ (rdata s)) (r_ot_id_ h)
                       (wrap_size (r_ot_id_ h + r_num_ots_ h))) in
      Ok (set_rcv (with_corrections_sent true)
            (Send_r (ReceiverCorrections (r_ot_id_ h) corrections) s))
  end.

(** [sender_message_future_.get()]: the promise lives in
    [data_.message_promises_*] under the batch's [ot_id]. *)
Definition future_get (s : RcvSt) : option payload :=
  match message_promises_ (rdata s) !! r_ot_id_ (rcv s) with
  | Some (_, Some p) => Some p
  | _ => None
  end.

Definition finish_r (s1 : RcvSt) (loop : outcome (list Z)) : outcome RcvSt :=
  map_outcome (fun outs => set_rcv (with_r_outputs outs) s1) loop
  >>> (fun s2 => Ok (set_rcv (with_r_outputs_computed true) s2)).

(** [ACOTReceiver<T>::ComputeOutputs], [T] of [W] bits *)
Definition ACOTReceiver_ComputeOutputs (W : Z) (s : RcvSt) : outcome RcvSt :=
  let h := rcv s in
  if r_outputs_computed_ h then Ok s
  else if negb (corrections_sent_ h) then
    Throw "Choices in COT must be se(n)t before calling ComputeOutputs()" s
  else
    let n := r_num_ots_ h in
    let vs := r_vector_size_ h in
    let s1 := set_rcv (with_r_outputs
                         (resize (Z.to_nat (wrap_size (n * vs))) 0 (r_outputs_ h))) s in
    match future_get s1 with
    | Some (Ints sender_message) =>
        let d := rdata s1 in
        finish_r s1
          (if decide (vs = 1) then
             for_each (fun ot_i outs =>
               match at_ (outputs_ d) (wrap_size (r_ot_id_ h + Z.of_nat ot_i)) with
               | None => Throw "vector::at" outs
               | Some ot_data =>
                   Ok (<[ot_i := if bit (choices_ h) ot_i
                                 then wrap W (nth ot_i sender_message 0 - read_T W ot_data 0)
                                 else read_T W ot_data 0]> outs)
               end) (upto n) (r_outputs_ (rcv s1))
           else
             for_each (fun ot_i outs =>
               match at_ (outputs_ d) (wrap_size (r_ot_id_ h + Z.of_nat ot_i)) with
               | None => Throw "vector::at" outs
               | Some ot_data =>
                   let base := (ot_i * Z.to_nat vs)%nat in
                   Ok (foldl (fun o j =>
                          <[(base + j)%nat :=
                              if bit (choices_ h) ot_i
                              then wrap W (nth (base + j) sender_message 0 - read_T W ot_data j)
                              else read_T W ot_data j]> o) outs (upto vs))
               end) (upto n) (r_outputs_ (rcv s1)))
    | _ => Blocked s1
    end.

(** [FixedXCOT128Receiver::ComputeOutputs] *)
Definition FixedXCOT128Receiver_ComputeOutputs (s : RcvSt) : outcome RcvSt :=
  let h := rcv s in
  if r_outputs_computed_ h then Ok s
  else if negb (corrections_sent_ h) then
    Throw "Choices in COT must be se(n)t before calling ComputeOutputs()" s
  else
    match future_get s with
    | Some (Blocks sender_message) =>
        finish_r s
          (for_each (fun i outs =>
             match at_ (outputs_ (rdata s)) (wrap_size (r_ot_id_ h + Z.of_nat i)) with
             | None => Throw "vector::at" outs
             | Some ot_data =>
                 let o := read_T 128 ot_data 0 in
                 Ok (<[i := if bit (choices_ h) i
                            then Z.lxor o (nth i sender_message 0) else o]> outs)
             end) (upto (r_num_ots_ h)) (r_outputs_ h))
    | _ => Blocked s
    end.

(** [XCOTBitReceiver::ComputeOutputs].  In the branch for longer vectors the
    stored pad is moved out of [data_.outputs_], which leaves an empty vector
    behind. *)
Definition XCOTBitReceiver_ComputeOutputs (s : RcvSt) : outcome RcvSt :=
  let h := rcv s in
  if r_outputs_computed_ h then Ok s
  else if negb (corrections_sent_ h) then
    Throw "Choices in COT must be se(n)t before calling ComputeOutputs()" s
  else
    let vs := r_vector_size_ h in
    let done_ s' := Ok (set_rcv (with_r_outputs_computed true) s') in
    if decide (vs = 1) then
      match future_get s with
      | Some (Bits sender_message) =>
          let s1 := set_rcv (with_r_outputs_bits (bv_and sender_message (choices_ h))) s in
          map_outcome (fun outs => set_rcv (with_r_outputs_bits outs) s1)
            (for_each (fun i outs =>
               match at_ (outputs_ (rdata s)) (wrap_size (r_ot_id_ h + Z.of_nat i)) with
               | None => Throw "vector::at" outs
               | Some ot_data => Ok (<[i := xorb (bit outs i) (bit ot_data 0)]> outs)
               end) (upto (r_num_ots_ h)) (r_outputs_bits_ (rcv s1)))
          >>> done_
      | _ => Blocked s
      end
    else
      match future_get s with
      | Some (Bits sender_message) =>
          for_each (fun ot_i s' =>
            let k := wrap_size (r_ot_id_ h + Z.of_nat ot_i) in
            match at_ (outputs_ (rdata s')) k with
            | None => Throw "vector::at" s'
            | Some ot_data =>
                let ot_data' :=
                  if bit (choices_ h) ot_i
                  then bv_xor ot_data
                         (Subset sender_message (wrap_size (Z.of_nat ot_i * vs))
                                 (wrap_size ((Z.of_nat ot_i + 1) * vs)))
                  else ot_data in
                let d := rdata s' in
                Ok (mkRcvSt
                      (with_r_outputs_bits (r_outputs_bits_ (rcv s') ++ ot_data') (rcv s'))
                      (with_outputs_ (<[Z.to_nat k := []]> (outputs_ d)) d)
                      (r_sent s'))
            end) (upto (r_num_ots_ h)) s
          >>> done_
      | _ => Blocked s
      end.

(** [GOT128Receiver::ComputeOutputs] *)
Definition GOT128Receiver_ComputeOutputs (s : RcvSt) : outcome RcvSt :=
  let h := rcv s in
  if r_outputs_computed_ h then Ok s
  else if negb (corrections_sent_ h) then
    Throw "Choices in OT must be se(n)t before calling ComputeOutputs()" s
  else
    match future_get s with
    | Some (Blocks sender_message) =>
        let random_choices :=
          Subset (random_choices_ (rdata s)) (r_ot_id_ h)
                 (wrap_size (r_ot_id_ h + r_num_ots_ h)) in
        finish_r s
          (for_each (fun i outs =>
             let diff := if bit random_choices i
                         then nth (2 * i + 1) sender_message 0
                         else nth (2 * i) sender_message 0 in
             match at_ (outputs_ (rdata s)) (wrap_size (r_ot_id_ h + Z.of_nat i)) with
             | None => Throw "vector::at" outs
             | Some ot_data => Ok (<[i := Z.lxor diff (read_T 128 ot_data 0)]> outs)
             end) (upto (r_num_ots_ h)) (r_outputs_ h))
    | _ => Blocked s
    end.

(** ** Sender side *)

(** Modelled from the spec: [SetCorrelations] and [SetInputs] are declared in
    [ot_flavors.h], which is not among the sources; they store the sender's
    correlations (ACOT) and its [2 * num_ots] input blocks (GOT128). *)
Definition SetCorrelations (c : list Z) (s : SndSt) : outcome SndSt :=
  Ok (set_snd (with_correlations c) s).
Definition SetInputs (v : list Z) (s : SndSt) : outcome SndSt :=
  Ok (set_snd (with_inputs v) s).

(** [WaitSetup()] followed by
    [data_.received_correction_offsets_cond_.at(ot_id_)->Wait()]. *)
Definition wait_corrections (s : SndSt) : outcome SndSt :=
  if decide (s_ot_id_ (snd s) ∈ received_correction_offsets_cond_ (sdata s)) then
    if decide (s_ot_id_ (snd s) ∈ received_correction_offsets_ (sdata s))
    then Ok s else Blocked s
  else Throw "unordered_map::at" s.

Definition WaitSetup_s (s : SndSt) : outcome SndSt :=
  if snd_setup_finished_ (sdata s) then Ok s else Blocked s.

Definition finish_s (s1 : SndSt) (loop : outcome (list Z)) : outcome SndSt :=
  map_outcome (fun outs => set_snd (with_s_outputs outs) s1) loop
  >>> (fun s2 => Ok (set_snd (with_s_outputs_computed true) s2)).

(** [ACOTSender<T>::ComputeOutputs] *)
Definition ACOTSender_ComputeOutputs (W : Z) (s : SndSt) : outcome SndSt :=
  let h := snd s in
  if s_outputs_computed_ h then Ok s
  else
    WaitSetup_s s >>> wait_corrections >>> (fun s =>
    let n := s_num_ots_ h in
    let vs := s_vector_size_ h in
    let d := sdata s in
    let s1 := set_snd (with_s_outputs
                         (resize (Z.to_nat (wrap_size (n * vs))) 0 (s_outputs_ h))) s in
    let corrections :=
      Subset (corrections_ d) (s_ot_id_ h) (wrap_size (s_ot_id_ h + n)) in
    finish_s s1
      (if decide (vs = 1) then
         for_each (fun ot_i outs =>
           let k := wrap_size (s_ot_id_ h + Z.of_nat ot_i) in
           match at_ (if bit corrections ot_i then y1_ d else y0_ d) k with
           | None => Throw "vector::at" outs
           | Some y => Ok (<[ot_i := read_T W y 0]> outs)
           end) (upto n) (s_outputs_ (snd s1))
       else
         for_each (fun ot_i outs =>
           let k := wrap_size (s_ot_id_ h + Z.of_nat ot_i) in
           match at_ (if bit corrections ot_i then y1_ d else y0_ d) k with
           | None => Throw "vector::at" outs
           | Some y =>
               let base := (ot_i * Z.to_nat vs)%nat in
               Ok (foldl (fun o j => <[(base + j)%nat := read_T W y j]> o) outs (upto vs))
           end) (upto n) (s_outputs_ (snd s1)))).

(** [ACOTSender<T>::SendMessages] *)
Definition ACOTSender_SendMessages (W : Z) (s : SndSt) : outcome SndSt :=
  let h := snd s in
  let n := s_num_ots_ h in
  let vs := s_vector_size_ h in
  let d := sdata s in
  map_outcome (fun buffer => Send_s (SenderMessage (s_ot_id_ h) (Ints buffer)) s)
    (if decide (vs = 1) then
       for_each (fun ot_i buffer =>
         let k := wrap_size (s_ot_id_ h + Z.of_nat ot_i) in
         match at_ (y0_ d) k with
         | None => Throw "vector::at" buffer
         | Some y0 =>
             let buffer1 := <[ot_i := wrap W (nth ot_i buffer 0 + read_T W y0 0)]> buffer in
             match at_ (y1_ d) k with
             | None => Throw "vector::at" buffer1
             | Some y1 =>
                 Ok (<[ot_i := wrap W (nth ot_i buffer1 0 + read_T W y1 0)]> buffer1)
             end
         end) (upto n) (correlations_ h)
     else
       for_each (fun ot_i buffer =>
         let k := wrap_size (s_ot_id_ h + Z.of_nat ot_i) in
         match at_ (y0_ d) k with
         | None => Throw "vector::at" buffer
         | Some y0 =>
             match at_ (y1_ d) k with
             | None => Throw "vector::at" buffer
             | Some y1 =>
                 let base := (ot_i * Z.to_nat vs)%nat in
                 Ok (foldl (fun b j =>
                        <[(base + j)%nat :=
                            wrap W (nth (base + j) b 0 + (read_T W y0 j + read_T W y1 j))]> b)
                      buffer (upto vs))
             end
         end) (upto n) (correlations_ h)).

(** [GOT128Sender::SendMessages] *)
Definition GOT128Sender_SendMessages (s : SndSt) : outcome SndSt :=
  let h := snd s in
  wait_corrections s >>> (fun s =>
  let d := sdata s in
  let corrections :=
    Subset (corrections_ d) (s_ot_id_ h) (wrap_size (s_ot_id_ h + s_num_ots_ h)) in
  (* buffer[2 * i] ^= f(y0); buffer[2 * i + 1] ^= f(y1) *)
  let xor_pair (f : Z -> Z) (i : nat) (buffer : list Z) : outcome (list Z) :=
    let k := wrap_size (s_ot_id_ h + Z.of_nat i) in
    match at_ (y0_ d) k with
    | None => Throw "vector::at" buffer
    | Some y0 =>
        let buffer1 :=
          <[(2 * i)%nat := Z.lxor (nth (2 * i) buffer 0) (f (read_T 128 y0 0))]> buffer in
        match at_ (y1_ d) k with
        | None => Throw "vector::at" buffer1
        | Some y1 =>
            Ok (<[(2 * i + 1)%nat :=
                    Z.lxor (nth (2 * i + 1) buffer1 0) (f (read_T 128 y1 0))]> buffer1)
        end
    end in
  map_outcome (fun buffer => Send_s (SenderMessage (s_ot_id_ h) (Blocks buffer)) s)
    (for_each (fun i buffer =>
       if bit corrections i then
         let diff := Z.lxor (nth (2 * i) buffer 0) (nth (2 * i + 1) buffer 0) in
         xor_pair (Z.lxor diff) i buffer
       else
         xor_pair (fun y => y) i buffer) (upto (s_num_ots_ h)) (inputs_ h))).

(** ** The message handler

    Modelled from the spec: [OTExtensionData::MessageReceived] is not among
    the sources.  "Each payload carries the batch-id so it is routed to the
    right future": a corrections message is copied into [corrections_] at the
    batch's offset and the offset is recorded in
    [received_correction_offsets_]; a sender message fulfils the promise
    registered under the batch's [ot_id]. *)

Definition copy_at (off : nat) (src dst : BitVector) : BitVector :=
  take off dst ++ take (length dst - off) src ++ drop (off + length src) dst.

Definition deliver_to_sender (m : message) (d : OTExtensionSenderData)
  : OTExtensionSenderData :=
  match m with
  | ReceiverCorrections ot_id corrections =>
      mkSenderData (y0_ d) (y1_ d) (snd_bitlengths_ d)
        (copy_at (Z.to_nat ot_id) corrections (corrections_ d))
        (snd_num_ots_in_batch_ d)
        ({[ot_id]} ∪ received_correction_offsets_ d)
        (received_correction_offsets_cond_ d) (snd_setup_finished_ d)
  | SenderMessage _ _ => d
  end.

Definition deliver_to_receiver (m : message) (d : OTExtensionReceiverData)
  : OTExtensionReceiverData :=
  match m with
  | SenderMessage ot_id p =>
      match message_promises_ d !! ot_id with
      | Some (size, _) =>
          with_message_promises_ (<[ot_id := (size, Some p)]> (message_promises_ d)) d
      | None => d
      end
  | ReceiverCorrections _ _ => d
  end.

Definition deliver_all_s (ms : list message) (s : SndSt) : SndSt :=
  mkSndSt (snd s) (foldl (fun d m => deliver_to_sender m d) (sdata s) ms) (s_sent s).
Definition deliver_all_r (ms : list message) (s : RcvSt) : RcvSt :=
  mkRcvSt (rcv s) (foldl (fun d m => deliver_to_receiver m d) (rdata s) ms) (r_sent s).


(** ** One batch, both parties

    The receiver and the sender of one batch sit in different processes; the
    messages each one hands to [Send_] are delivered to the other one's data
    block by the message handler. *)

Definition new_msgs (before after : list message) : list message :=
  drop (length before) after.

(** ACOT: choices and corrections, then correlations and the sender's
    message, then both [ComputeOutputs]. *)
Definition acot_run (W : Z) (c : BitVector) (corr : list Z) (r0 : RcvSt) (s0 : SndSt)
  : option (RcvSt * SndSt) :=
  r1 ← ok_state (SetChoices c r0 >>> SendCorrections);
  let s1 := deliver_all_s (new_msgs (r_sent r0) (r_sent r1)) s0 in
  s2 ← ok_state (SetCorrelations corr s1 >>> ACOTSender_SendMessages W
                  >>> ACOTSender_ComputeOutputs W);
  let r2 := deliver_all_r (new_msgs (s_sent s0) (s_sent s2)) r1 in
  r3 ← ok_state (ACOTReceiver_ComputeOutputs W r2);
  Some (r3, s2).

(** GOT128: choices and corrections, then the sender's inputs and message,
    then the receiver's [ComputeOutputs]. *)
Definition got128_run (x : BitVector) (inputs : list Z) (r0 : RcvSt) (s0 : SndSt)
  : option (RcvSt * SndSt) :=
  r1 ← ok_state (SetChoices x r0 >>> SendCorrections);
  let s1 := deliver_all_s (new_msgs (r_sent r0) (r_sent r1)) s0 in
  s2 ← ok_state (SetInputs inputs s1 >>> GOT128Sender_SendMessages);
  let r2 := deliver_all_r (new_msgs (s_sent s0) (s_sent s2)) r1 in
  r3 ← ok_state (GOT128Receiver_ComputeOutputs r2);
  Some (r3, s2).

(** What registration and the OT-extension setup leave behind for the batch
    [ot_id, ot_id + n): the arrays cover the batch, the sender's condition
    and the receiver's promise are registered, the sender's setup is
    finished, and the receiver's pad is the sender's pad selected by the
    random choice bit (the random OT that [SendSetup] and [ReceiveSetup]
    produce). *)
Record batch_ready (id n : Z) (r : RcvSt) (s : SndSt) : Prop := {
  br_id : 0 <= id;
  br_n : 0 < n;
  br_fit : id + n < 2 ^ 64;
  br_rid : r_ot_id_ (rcv r) = id;
  br_sid : s_ot_id_ (snd s) = id;
  br_rn : r_num_ots_ (rcv r) = n;
  br_sn : s_num_ots_ (snd s) = n;
  br_fresh_r : r_outputs_computed_ (rcv r) = false;
  br_fresh_s : s_outputs_computed_ (snd s) = false;
  br_setup : snd_setup_finished_ (sdata s) = true;
  br_cond : id ∈ received_correction_offsets_cond_ (sdata s);
  br_promise : is_Some (message_promises_ (rdata r) !! id);
  br_y0 : (Z.to_nat (id + n) <= length (y0_ (sdata s)))%nat;
  br_y1 : (Z.to_nat (id + n) <= length (y1_ (sdata s)))%nat;
  br_corr : (Z.to_nat (id + n) <= length (corrections_ (sdata s)))%nat;
  br_out : (Z.to_nat (id + n) <= length (outputs_ (rdata r)))%nat;
  br_rand : (Z.to_nat (id + n) <= length (random_choices_ (rdata r)))%nat;
  br_rot : forall k : nat, (Z.to_nat id <= k < Z.to_nat (id + n))%nat ->
      outputs_ (rdata r) !! k =
      (if bit (random_choices_ (rdata r)) k then y1_ (sdata s) else y0_ (sdata s)) !! k
}.

(** ** Old-style vectors ([ot_provider.cpp]) *)

Inductive OTProtocol : Type := P_GOT | P_XCOT | P_ACOT | P_ROT.

Record OTVectorSender : Type := mkVSender {
  v_p_ : OTProtocol;
  v_ot_id_ : Z;
  v_num_ots_ : Z;
  v_bitlen_ : Z;
  v_inputs_ : list BitVector;
  v_outputs_ : list BitVector
}.

Record OTVectorReceiver : Type := mkVReceiver {
  w_p_ : OTProtocol;
  w_ot_id_ : Z;
  w_num_ots_ : Z;
  w_bitlen_ : Z;
  w_choices_ : BitVector;
  w_choices_flag_ : bool;
  w_corrections_sent_ : bool;
  w_messages_ : list BitVector
}.

Record VSndSt : Type := mkVSndSt {
  vsnd : OTVectorSender; vsdata : OTExtensionSenderData; vs_sent : list message }.
Record VRcvSt : Type := mkVRcvSt {
  vrcv : OTVectorReceiver; vrdata : OTExtensionReceiverData; vr_sent : list message }.

Definition with_v_inputs (v : list BitVector) (h : OTVectorSender) : OTVectorSender :=
  mkVSender (v_p_ h) (v_ot_id_ h) (v_num_ots_ h) (v_bitlen_ h) v (v_outputs_ h).
Definition with_v_outputs (v : list BitVector) (h : OTVectorSender) : OTVectorSender :=
  mkVSender (v_p_ h) (v_ot_id_ h) (v_num_ots_ h) (v_bitlen_ h) (v_inputs_ h) v.

(** The inverse byte view: the [W / 8] little-endian bytes of a [T], each
    byte as eight bits, most significant first. *)
Definition byte_bits (b : Z) : BitVector :=
  map (fun k => Z.testbit b (7 - Z.of_nat k)) (seq 0 8).

Fixpoint le_bytes (n : nat) (v : Z) : list Z :=
  match n with
  | O => []
  | S n' => v mod 256 :: le_bytes n' (v / 256)
  end.

Definition write_T (W : Z) (v : Z) : BitVector :=
  flat_map byte_bits (le_bytes (Z.to_nat (W / 8)) (wrap W v)).

(** [*reinterpret_cast<T*>(bv.GetMutableData().data() + j * sizeof(T)) +=
     *reinterpret_cast<const T*>(src.GetData().data())] *)
Definition add_T_at (W : Z) (bv : BitVector) (j : nat) (src : BitVector) : BitVector :=
  let w := Z.to_nat W in
  take (j * w) bv ++ write_T W (read_T W bv j + read_T W src 0) ++ drop ((j + 1) * w) bv.

Definition is_acot_bitlen (b : Z) : bool :=
  (b =? 8) || (b =? 16) || (b =? 32) || (b =? 64) || (b =? 128).

(** [COTVectorSender::SetInputs] *)
Definition COTVectorSender_SetInputs (v : list BitVector) (s : VSndSt) : outcome VSndSt :=
  Ok (mkVSndSt (with_v_inputs v (vsnd s)) (vsdata s) (vs_sent s)).

Definition v_wait_setup (s : VSndSt) : outcome VSndSt :=
  if snd_setup_finished_ (vsdata s) then Ok s else Blocked s.

Definition v_wait_corrections (s : VSndSt) : outcome VSndSt :=
  if decide (v_ot_id_ (vsnd s) ∈ received_correction_offsets_cond_ (vsdata s)) then
    if decide (v_ot_id_ (vsnd s) ∈ received_correction_offsets_ (vsdata s))
    then Ok s else Blocked s
  else Throw "unordered_map::at" s.

(** [COTVectorSender::GetOutputs] *)
Definition COTVectorSender_GetOutputs (s : VSndSt) : outcome VSndSt :=
  let h := vsnd s in
  match v_inputs_ h with
  | [] => Throw "Inputs have to be chosen before calling GetOutputs()" s
  | _ =>
      v_wait_setup s >>> v_wait_corrections >>> (fun s =>
      let d := vsdata s in
      match v_outputs_ h with
      | _ :: _ => Ok s
      | [] =>
          let corrections :=
            Subset (corrections_ d) (v_ot_id_ h) (wrap_size (v_ot_id_ h + v_num_ots_ h)) in
          map_outcome
            (fun outs => mkVSndSt (with_v_outputs outs h) (vsdata s) (vs_sent s))
            (for_each (fun i outs =>
               let k := wrap_size (v_ot_id_ h + Z.of_nat i) in
               match at_ (y1_ d) k with
               | None => Throw "vector::at" outs
               | Some _ =>
                   match at_ (if bit corrections i then y1_ d else y0_ d) k with
                   | None => Throw "vector::at" outs
                   | Some y =>
                       match v_p_ h with
                       | P_ACOT =>
                           let bv := y ++ y in
                           if is_acot_bitlen (v_bitlen_ h) then
                             match at_ (v_inputs_ h) (Z.of_nat i) with
                             | None => Throw "vector::at" outs
                             | Some inp => Ok (outs ++ [add_T_at (v_bitlen_ h) bv 1 inp])
                             end
                           else Ok (outs ++ [bv])
                       | _ =>
                           match at_ (v_inputs_ h) (Z.of_nat i) with
                           | None => Throw "vector::at" outs
                           | Some inp => Ok (outs ++ [y ++ bv_xor inp y])
                           end
                       end
                   end
               end) (upto (v_num_ots_ h)) [])
      end)
  end.

(** [COTVectorSender::SendMessages] *)
Definition COTVectorSender_SendMessages (s : VSndSt) : outcome VSndSt :=
  let h := vsnd s in
  match v_inputs_ h with
  | [] => Throw "Inputs have to be chosen before calling SendMessages()" s
  | _ =>
      v_wait_setup s >>> (fun s =>
      let d := vsdata s in
      map_outcome (fun _ : Z => s)
        (for_each (fun i ot_batch_bit_size =>
           match at_ (y0_ d) (wrap_size (v_ot_id_ h + Z.of_nat i)) with
           | None => Throw "vector::at" ot_batch_bit_size
           | Some y => Ok (wrap_size (ot_batch_bit_size + Z.of_nat (length y)))
           end) (upto (v_num_ots_ h)) 0)
      >>> (fun s =>
      map_outcome
        (fun buffer => mkVSndSt (vsnd s) (vsdata s)
                         (vs_sent s ++ [SenderMessage (v_ot_id_ h) (Bits buffer)]))
        (for_each (fun i buffer =>
           let k := wrap_size (v_ot_id_ h + Z.of_nat i) in
           match v_p_ h with
           | P_ACOT =>
               match at_ (y0_ d) k with
               | None => Throw "vector::at" buffer
               | Some y0 =>
                   if is_acot_bitlen (v_bitlen_ h) then
                     match at_ (v_inputs_ h) (Z.of_nat i) with
                     | None => Throw "vector::at" buffer
                     | Some inp =>
                         match at_ (y1_ d) k with
                         | None => Throw "vector::at" buffer
                         | Some y1 =>
                             Ok (buffer ++
                                 add_T_at (v_bitlen_ h)
                                          (add_T_at (v_bitlen_ h) y0 0 inp) 0 y1)
                         end
                     end
                   else Throw "Unsupported bitlength" buffer
               end
           | P_XCOT =>
               match at_ (v_inputs_ h) (Z.of_nat i), at_ (y0_ d) k, at_ (y1_ d) k with
               | Some inp, Some y0, Some y1 => Ok (buffer ++ bv_xor (bv_xor inp y0) y1)
               | _, _, _ => Throw "vector::at" buffer
               end
           | _ => Throw "Unknown OT protocol" buffer
           end) (upto (v_num_ots_ h)) [])))
  end.

(** [COTVectorReceiver::SetChoices] *)
Definition COTVectorReceiver_SetChoices (v : BitVector) (s : VRcvSt) : outcome VRcvSt :=
  let h := vrcv s in
  let d := vrdata s in
  let h1 := mkVReceiver (w_p_ h) (w_ot_id_ h) (w_num_ots_ h) (w_bitlen_ h) v
                        (w_choices_flag_ h) (w_corrections_sent_ h) (w_messages_ h) in
  let d1 := with_real_choices_ (copy_at (Z.to_nat (w_ot_id_ h)) v (real_choices_ d))
                               ({[w_ot_id_ h]} ∪ set_real_choices_ d) d in
  if decide (w_ot_id_ h ∈ real_choices_cond_ d) then
    Ok (mkVRcvSt (mkVReceiver (w_p_ h) (w_ot_id_ h) (w_num_ots_ h) (w_bitlen_ h) v
                              true (w_corrections_sent_ h) (w_messages_ h))
                 d1 (vr_sent s))
  else Throw "unordered_map::at" (mkVRcvSt h1 d1 (vr_sent s)).

(** [COTVectorReceiver::SendCorrections] *)
Definition COTVectorReceiver_SendCorrections (s : VRcvSt) : outcome VRcvSt :=
  let h := vrcv s in
  match w_choices_ h with
  | [] => Throw "Choices in COT must be set before calling SendCorrections()" s
  | _ =>
      let corrections :=
        bv_xor (w_choices_ h)
               (Subset (random_choices_ (vrdata s)) (w_ot_id_ h)
                       (wrap_size (w_ot_id_ h + w_num_ots_ h))) in
      Ok (mkVRcvSt
            (mkVReceiver (w_p_ h) (w_ot_id_ h) (w_num_ots_ h) (w_bitlen_ h) (w_choices_ h)
                         (w_choices_flag_ h) true (w_messages_ h))
            (vrdata s)
            (vr_sent s ++ [ReceiverCorrections (w_ot_id_ h) corrections]))
  end.

(** ** Registration of batches ([OTProviderSender], [OTProviderReceiver]) *)

(** [std::unordered_map::emplace]: no effect when the key is present. *)
Definition emplace {A} (k : Z) (v : A) (m : gmap Z A) : gmap Z A :=
  match m !! k with
  | Some _ => m
  | None => <[k := v]> m
  end.

(** [std::vector::resize(n, x)] with [n] a [std::size_t]. *)
Definition vresize {A} (n : Z) (x : A) (l : list A) : list A :=
  resize (Z.to_nat n) x l.

Definition size {A} (l : list A) : Z := Z.of_nat (length l).

(** [BasicOTSender::BasicOTSender] *)
Definition BasicOTSender_ctor (ot_id num_ots bitlen : Z) (d : OTExtensionSenderData)
  : OTExtensionSenderData :=
  mkSenderData
    (vresize (wrap_size (size (y0_ d) + num_ots)) [] (y0_ d))
    (vresize (wrap_size (size (y1_ d) + num_ots)) [] (y1_ d))
    (vresize (wrap_size (size (snd_bitlengths_ d) + num_ots)) bitlen (snd_bitlengths_ d))
    (vresize (wrap_size (size (corrections_ d) + num_ots)) false (corrections_ d))
    (emplace ot_id num_ots (snd_num_ots_in_batch_ d))
    (received_correction_offsets_ d)
    ({[ot_id]} ∪ received_correction_offsets_cond_ d)
    (snd_setup_finished_ d).

(** [BasicOTReceiver::BasicOTReceiver] *)
Definition BasicOTReceiver_ctor (ot_id num_ots bitlen : Z) (d : OTExtensionReceiverData)
  : OTExtensionReceiverData :=
  mkReceiverData
    (vresize (wrap_size (ot_id + num_ots)) [] (outputs_ d))
    (vresize (wrap_size (ot_id + num_ots)) bitlen (rcv_bitlengths_ d))
    (random_choices_ d) (real_choices_ d) (set_real_choices_ d) (real_choices_cond_ d)
    (emplace ot_id num_ots (rcv_num_ots_in_batch_ d))
    (msg_type_ d) (message_promises_ d) (rcv_setup_finished_ d).

(** Bit length that each flavor's constructor hands to the base class. *)
Definition bitlen_of (f : Flavor) (vector_size : Z) : Z :=
  match f with
  | FixedXCOT128 => 128
  | XCOTBit => vector_size
  | ACOT W => wrap_size (W * vector_size)
  | GOT128 => 128
  | GOTBit => 1
  end.

Definition msg_type_of (f : Flavor) : OTMsgType :=
  match f with
  | FixedXCOT128 | GOT128 => msg_block128
  | XCOTBit | GOTBit => msg_bit
  | ACOT W =>
      if W =? 8 then msg_uint8 else if W =? 16 then msg_uint16
      else if W =? 32 then msg_uint32 else if W =? 64 then msg_uint64 else msg_uint128
  end.

(** Size of the sender message the receiver registers for. *)
Definition msg_size_of (f : Flavor) (num_ots vector_size : Z) : Z :=
  match f with
  | FixedXCOT128 => num_ots
  | XCOTBit | ACOT _ => wrap_size (num_ots * vector_size)
  | GOT128 | GOTBit => wrap_size (2 * num_ots)
  end.

(** The derived receiver constructors: message type and promise.
    Modelled from the spec: [RegisterFor...SenderMessage] is not among the
    sources; it files a promise for the sender message under the batch's
    [ot_id]. *)
Definition flavor_receiver_ctor (f : Flavor) (ot_id num_ots vector_size : Z)
           (d : OTExtensionReceiverData) : OTExtensionReceiverData :=
  let d1 := BasicOTReceiver_ctor ot_id num_ots (bitlen_of f vector_size) d in
  mkReceiverData (outputs_ d1) (rcv_bitlengths_ d1) (random_choices_ d1) (real_choices_ d1)
    (set_real_choices_ d1) (real_choices_cond_ d1) (rcv_num_ots_in_batch_ d1)
    (emplace ot_id (msg_type_of f) (msg_type_ d1))
    (emplace ot_id (msg_size_of f num_ots vector_size, None) (message_promises_ d1))
    (rcv_setup_finished_ d1).

(** [OTVectorSender::Reserve] of the old-style vectors. *)
Definition OTVectorSender_Reserve (id num_ots bitlen : Z) (d : OTExtensionSenderData)
  : outcome OTExtensionSenderData :=
  let y0 := vresize (wrap_size (size (y0_ d) + num_ots)) [] (y0_ d) in
  let y1 := vresize (wrap_size (size (y1_ d) + num_ots)) [] (y1_ d) in
  let bl := vresize (wrap_size (size (snd_bitlengths_ d) + num_ots)) 0 (snd_bitlengths_ d) in
  let co := vresize (wrap_size (size (corrections_ d) + num_ots)) false (corrections_ d) in
  let mk bl' emp :=
    mkSenderData y0 y1 bl' co (if emp : bool then emplace id num_ots (snd_num_ots_in_batch_ d)
                                else snd_num_ots_in_batch_ d)
      (received_correction_offsets_ d) (received_correction_offsets_cond_ d)
      (snd_setup_finished_ d) in
  map_outcome (fun bl' => mk bl' false)
    (for_each (fun i bl' =>
       let k := wrap_size (wrap_size (size bl' - 1) - Z.of_nat i) in
       match at_ bl' k with
       | None => Throw "vector::at" bl'
       | Some _ => Ok (<[Z.to_nat k := bitlen]> bl')
       end) (upto num_ots) bl)
  >>> (fun d' => Ok (mk (snd_bitlengths_ d') true)).

(** [OTVectorReceiver::Reserve] *)
Definition OTVectorReceiver_Reserve (id num_ots bitlen : Z) (d : OTExtensionReceiverData)
  : outcome OTExtensionReceiverData :=
  let out := vresize (wrap_size (id + num_ots)) [] (outputs_ d) in
  let bl := vresize (wrap_size (id + num_ots)) 0 (rcv_bitlengths_ d) in
  let mk bl' emp :=
    mkReceiverData out bl' (random_choices_ d) (real_choices_ d) (set_real_choices_ d)
      (real_choices_cond_ d)
      (if emp : bool then emplace id num_ots (rcv_num_ots_in_batch_ d)
       else rcv_num_ots_in_batch_ d)
      (msg_type_ d) (message_promises_ d) (rcv_setup_finished_ d) in
  map_outcome (fun bl' => mk bl' false)
    (for_each (fun i bl' =>
       let k := wrap_size (id + Z.of_nat i) in
       match at_ bl' k with
       | None => Throw "vector::at" bl'
       | Some _ => Ok (<[Z.to_nat k := bitlen]> bl')
       end) (upto num_ots) bl)
  >>> (fun d' => Ok (mk (rcv_bitlengths_ d') true)).

(** The provider of one peer: both counters and both data blocks. *)
Record OTProvider : Type := mkProvider {
  sender_total_ots_count_ : Z;
  receiver_total_ots_count_ : Z;
  sender_data_ : OTExtensionSenderData;
  receiver_data_ : OTExtensionReceiverData
}.

Definition new_provider : OTProvider :=
  mkProvider 0 0 empty_sender_data empty_receiver_data.

Inductive side : Type := Send | Receive.

(** A registration request: one of the [RegisterSend...] /
    [RegisterReceive...] functions of the new-style flavors, or the old-style
    [RegisterOTs(bitlen, num_ots, p)]. *)
Inductive request : Type :=
| Register (sd : side) (f : Flavor) (num_ots vector_size : Z)
| RegisterOTs (sd : side) (bitlen num_ots : Z) (p : OTProtocol).

Definition request_side (q : request) : side :=
  match q with Register sd _ _ _ | RegisterOTs sd _ _ _ => sd end.
Definition request_num_ots (q : request) : Z :=
  match q with Register _ _ n _ | RegisterOTs _ _ n _ => n end.

(** The batch a registration hands back: its side, offset and size. *)
Record batch : Type := mkBatch { b_side : side; b_ot_id : Z; b_num_ots : Z }.

Definition old_cot_rejects (p : OTProtocol) (bitlen : Z) : bool :=
  match p with P_ACOT => negb (is_acot_bitlen bitlen) | _ => false end.

(** One registration.  [const auto i = total_ots_count_; total_ots_count_ +=
    num_ots;] and then the constructor of the handle. *)
Definition register (q : request) (p : OTProvider) : outcome (OTProvider * option batch) :=
  match q with
  | Register Send f num_ots vector_size =>
      let i := sender_total_ots_count_ p in
      Ok (mkProvider (wrap_size (i + num_ots)) (receiver_total_ots_count_ p)
            (BasicOTSender_ctor i num_ots (bitlen_of f vector_size) (sender_data_ p))
            (receiver_data_ p),
          Some (mkBatch Send i num_ots))
  | Register Receive f num_ots vector_size =>
      let i := receiver_total_ots_count_ p in
      Ok (mkProvider (sender_total_ots_count_ p) (wrap_size (i + num_ots))
            (sender_data_ p)
            (flavor_receiver_ctor f i num_ots vector_size (receiver_data_ p)),
          Some (mkBatch Receive i num_ots))
  | RegisterOTs Send bitlen num_ots pr =>
      let i := sender_total_ots_count_ p in
      let with_data d b :=
        (mkProvider (wrap_size (i + num_ots)) (receiver_total_ots_count_ p) d
                    (receiver_data_ p), b) in
      map_outcome (fun d => with_data d None)
                  (OTVectorSender_Reserve i num_ots bitlen (sender_data_ p))
      >>> (fun '(p', _) =>
        let d := sender_data_ p' in
        if old_cot_rejects pr bitlen then
          Throw "Invalid parameter bitlen, only 8, 16, 32, 64, or 128 are allowed in ACOT"
                (p', None)
        else
          let d' :=
            match pr with
            | P_ROT => d
            | _ =>
                mkSenderData (y0_ d) (y1_ d) (snd_bitlengths_ d) (corrections_ d)
                  (snd_num_ots_in_batch_ d) (received_correction_offsets_ d)
                  ({[i]} ∪ received_correction_offsets_cond_ d) (snd_setup_finished_ d)
            end in
          Ok (with_data d' (Some (mkBatch Send i num_ots))))
  | RegisterOTs Receive bitlen num_ots pr =>
      let i := receiver_total_ots_count_ p in
      let total := wrap_size (i + num_ots) in
      let d0 := receiver_data_ p in
      let d1 :=
        match pr with
        | P_ROT => d0
        | _ =>
            mkReceiverData (outputs_ d0) (rcv_bitlengths_ d0) (random_choices_ d0)
              (real_choices_ d0) (set_real_choices_ d0) ({[i]} ∪ real_choices_cond_ d0)
              (rcv_num_ots_in_batch_ d0) (msg_type_ d0) (message_promises_ d0)
              (rcv_setup_finished_ d0)
        end in
      let with_data d b :=
        (mkProvider (sender_total_ots_count_ p) total (sender_data_ p) d, b) in
      map_outcome (fun d => with_data d None) (OTVectorReceiver_Reserve i num_ots bitlen d1)
      >>> (fun '(p', _) =>
        let d := receiver_data_ p' in
        if old_cot_rejects pr bitlen then
          Throw "Invalid parameter bitlen, only 8, 16, 32, 64, or 128 are allowed in ACOT"
                (p', None)
        else
          map_outcome (fun d => with_data d None)
            (match pr with
             | P_ROT => OTVectorReceiver_Reserve i num_ots bitlen d
             | _ => Ok d
             end)
          >>> (fun '(p'', _) =>
            let d := receiver_data_ p'' in
            Ok (with_data
                  (with_real_choices_ (vresize total false (real_choices_ d))
                                      (set_real_choices_ d) d)
                  (Some (mkBatch Receive i num_ots)))))
  end.

(** A sequence of registrations; a failed one hands back no batch and the
    later ones go on from the state it left. *)
Fixpoint register_all (qs : list request) (p : OTProvider)
  : OTProvider * list (option batch) :=
  match qs with
  | [] => (p, [])
  | q :: rest =>
      let '(p1, b) := state_of (register q p) in
      let '(p2, bs) := register_all rest p1 in
      (p2, (match register q p with Ok _ => b | _ => None end) :: bs)
  end.

(** Reading a provider: the counter, the size map and the shared arrays of
    one side. *)
Definition count (sd : side) (p : OTProvider) : Z :=
  match sd with
  | Send => sender_total_ots_count_ p
  | Receive => receiver_total_ots_count_ p
  end.

Definition num_ots_in_batch (sd : side) (p : OTProvider) : gmap Z Z :=
  match sd with
  | Send => snd_num_ots_in_batch_ (sender_data_ p)
  | Receive => rcv_num_ots_in_batch_ (receiver_data_ p)
  end.

(** Every shared array of the side reaches index [hi - 1]. *)
Definition arrays_cover (sd : side) (p : OTProvider) (hi : Z) : Prop :=
  match sd with
  | Send =>
      hi <= size (y0_ (sender_data_ p)) /\ hi <= size (y1_ (sender_data_ p)) /\
      hi <= size (snd_bitlengths_ (sender_data_ p)) /\
      hi <= size (corrections_ (sender_data_ p))
  | Receive =>
      hi <= size (outputs_ (receiver_data_ p)) /\
      hi <= size (rcv_bitlengths_ (receiver_data_ p))
  end.

(** Number of OTs asked for on one side by a sequence of requests. *)
Fixpoint requested (sd : side) (qs : list request) : Z :=
  match qs with
  | [] => 0
  | q :: rest =>
      (match request_side q, sd with
       | Send, Send | Receive, Receive => request_num_ots q
       | _, _ => 0
       end) + requested sd rest
  end.

(** The provider after a sequence of registrations on a new provider. *)
Definition after (qs : list request) : OTProvider := (register_all qs new_provider).1.
Definition batches (qs : list request) : list (option batch) :=
  (register_all qs new_provider).2.

(** Counters and array sizes agree, the state every registration keeps as
    long as the counter does not wrap. *)
Record consistent (p : OTProvider) : Prop := {
  cs_count : 0 <= sender_total_ots_count_ p;
  cs_y0 : size (y0_ (sender_data_ p)) = sender_total_ots_count_ p;
  cs_y1 : size (y1_ (sender_data_ p)) = sender_total_ots_count_ p;
  cs_bl : size (snd_bitlengths_ (sender_data_ p)) = sender_total_ots_count_ p;
  cs_co : size (corrections_ (sender_data_ p)) = sender_total_ots_count_ p;
  cr_count : 0 <= receiver_total_ots_count_ p;
  cr_out : size (outputs_ (receiver_data_ p)) = receiver_total_ots_count_ p;
  cr_bl : size (rcv_bitlengths_ (receiver_data_ p)) = receiver_total_ots_count_ p
}.

Definition other (sd : side) : side := match sd with Send => Receive | Receive => Send end.

(** Sizes are [std::size_t] values. *)
Definition sizes_ok (qs : list request) : Prop :=
  Forall (fun q => 0 <= request_num_ots q) qs.

(** The handle objects the constructors initialise. *)
Definition new_sender (f : Flavor) (ot_id num_ots vector_size : Z) : OTSender :=
  mkSender f ot_id num_ots (bitlen_of f vector_size) vector_size [] [] [] false.

Definition new_receiver (f : Flavor) (ot_id num_ots vector_size : Z) : OTReceiver :=
  mkReceiver f ot_id num_ots (bitlen_of f vector_size) vector_size [] false
    (match f with
     | FixedXCOT128 | GOT128 => replicate (Z.to_nat num_ots) 0
     | _ => []
     end)
    [] false.

End OT.

(** ** Sample batches *)

Module OTSamples.
Import OT.

(** Eight bits, most significant first: the pad of an 8-bit OT. *)
Definition pad8 (v : Z) : BitVector := byte_bits v.

(** A 128-bit pad whose block value is [v] (little-endian bytes). *)
Definition pad128 (v : Z) : BitVector := write_T 128 v.

(** A provider pair after both sides registered a batch of two OTs and then
    a batch of three OTs (offset 2), and after the OT-extension setup filled
    in the pads.  The receiver's pad is the sender's pad chosen by the random
    choice bit. *)
Definition random_choices : BitVector := [true; false; true; true; false].

Definition sender_data_8 : OTExtensionSenderData :=
  mkSenderData (map pad8 [11; 12; 13; 14; 15]) (map pad8 [101; 102; 103; 104; 250])
    [8; 8; 8; 8; 8] [false; false; false; false; false]
    {[0 := 2; 2 := 3]} ∅ ({[0]} ∪ {[2]}) true.

Definition receiver_data_8 : OTExtensionReceiverData :=
  mkReceiverData (map pad8 [101; 12; 103; 104; 15]) [8; 8; 8; 8; 8] random_choices
    [] ∅ ∅ {[0 := 2; 2 := 3]} {[2 := msg_uint8]} {[2 := (3, None)]} true.

Definition acot_sender : SndSt := mkSndSt (new_sender (ACOT 8) 2 3 1) sender_data_8 [].
Definition acot_receiver : RcvSt := mkRcvSt (new_receiver (ACOT 8) 2 3 1) receiver_data_8 [].

Definition sender_data_128 : OTExtensionSenderData :=
  mkSenderData (map pad128 [11; 12; 13; 14; 15]) (map pad128 [101; 102; 103; 104; 250])
    [128; 128; 128; 128; 128] [false; false; false; false; false]
    {[0 := 2; 2 := 3]} ∅ ({[0]} ∪ {[2]}) true.

Definition receiver_data_128 : OTExtensionReceiverData :=
  mkReceiverData (map pad128 [101; 12; 103; 104; 15]) [128; 128; 128; 128; 128]
    random_choices [] ∅ ∅ {[0 := 2; 2 := 3]} {[2 := msg_block128]} {[2 := (6, None)]} true.

Definition got_sender : SndSt := mkSndSt (new_sender GOT128 2 3 1) sender_data_128 [].
Definition got_receiver : RcvSt := mkRcvSt (new_receiver GOT128 2 3 1) receiver_data_128 [].

(** A receiver batch of zero OTs, straight from registration. *)
Definition zero_batch_receiver : RcvSt :=
  mkRcvSt (new_receiver XCOTBit 0 0 1)
          (receiver_data_ (state_of (register (Register Receive XCOTBit 0 1) new_provider)).1)
          [].

(** An old-style XCOT sender for the batch at offset 2. *)
Definition xcot_vector_sender : VSndSt :=
  mkVSndSt (mkVSender P_XCOT 2 3 8 [] []) sender_data_8 [].

(** Registrations of several flavors on both sides.  The sixth one is
    refused (old-style ACOT with a bit length of 7) after its OTs were
    counted; the seventh is a batch of zero OTs. *)
Definition sample_requests : list request :=
  [ Register Send (ACOT 64) 4 1;
    Register Receive XCOTBit 3 1;
    RegisterOTs Send 8 2 P_ACOT;
    Register Receive GOT128 2 1;
    RegisterOTs Receive 1 5 P_ROT;
    RegisterOTs Send 7 1 P_ACOT;
    Register Send GOTBit 0 1;
    Register Send FixedXCOT128 6 1 ].

(** Registrations whose sizes add up to more than 2^64. *)
Definition wrapping_requests : list request :=
  [ Register Send XCOTBit 5 1;
    Register Send XCOTBit (2 ^ 64 - 3) 1;
    Register Send XCOTBit 3 1 ].

End OTSamples.

(** ** The XOR-correlated flavors: senders ([ot_flavors.cpp]) *)

Module OTXCOT.
Import OT.

(** [FixedXCOT128Sender]: the members of [BasicOTSender], the outputs and
    the flag are those of the handle in [fx_st]; the class adds one
    correlation block. *)
Record FixedXCOT128Sender : Type := mkFXSender {
  fx_st : SndSt;
  correlation_ : Z
}.

Definition fx_lift (f : SndSt -> outcome SndSt) (x : FixedXCOT128Sender)
  : outcome FixedXCOT128Sender :=
  map_outcome (fun s => mkFXSender s (correlation_ x)) (f (fx_st x)).

(** Modelled from the spec: [SetCorrelation] is declared in [ot_flavors.h],
    which is not among the sources; it stores the one correlation block of
    the batch ("Per-batch operations: SetCorrelations / SetChoices /
    SetInputs"). *)
Definition SetCorrelation (c : Z) (x : FixedXCOT128Sender) : outcome FixedXCOT128Sender :=
  Ok (mkFXSender (fx_st x) c).

(** [FixedXCOT128Sender::ComputeOutputs] *)
Definition FixedXCOT128Sender_ComputeOutputs (x : FixedXCOT128Sender)
  : outcome FixedXCOT128Sender :=
  fx_lift (fun s =>
    let h := snd s in
    if s_outputs_computed_ h then Ok s
    else
      WaitSetup_s s >>> wait_corrections >>> (fun s =>
      let n := s_num_ots_ h in
      let d := sdata s in
      let s1 := set_snd (with_s_outputs (resize (Z.to_nat n) 0 (s_outputs_ h))) s in
      let corrections :=
        Subset (corrections_ d) (s_ot_id_ h) (wrap_size (s_ot_id_ h + n)) in
      finish_s s1
        (for_each (fun i outs =>
           match at_ (if bit corrections i then y1_ d else y0_ d)
                     (wrap_size (s_ot_id_ h + Z.of_nat i)) with
           | None => Throw "vector::at" outs
           | Some y => Ok (<[i := read_T 128 y 0]> outs)
           end) (upto n) (s_outputs_ (snd s1))))) x.

(** [FixedXCOT128Sender::SendMessages]; it waits for nothing. *)
Definition FixedXCOT128Sender_SendMessages (x : FixedXCOT128Sender)
  : outcome FixedXCOT128Sender :=
  fx_lift (fun s =>
    let h := snd s in
    let d := sdata s in
    map_outcome (fun buffer => Send_s (SenderMessage (s_ot_id_ h) (Blocks buffer)) s)
      (for_each (fun i buffer =>
         let k := wrap_size (s_ot_id_ h + Z.of_nat i) in
         match at_ (y0_ d) k with
         | None => Throw "vector::at" buffer
         | Some y0 =>
             let buffer1 := <[i := Z.lxor (nth i buffer 0) (read_T 128 y0 0)]> buffer in
             match at_ (y1_ d) k with
             | None => Throw "vector::at" buffer1
             | Some y1 => Ok (<[i := Z.lxor (nth i buffer1 0) (read_T 128 y1 0)]> buffer1)
             end
         end) (upto (s_num_ots_ h))
         (replicate (Z.to_nat (s_num_ots_ h)) (correlation_ x)))) x.

Definition fx_deliver (ms : list message) (x : FixedXCOT128Sender) : FixedXCOT128Sender :=
  mkFXSender (deliver_all_s ms (fx_st x)) (correlation_ x).

(** One batch, both parties: choices and corrections, then the correlation
    and the sender's message and outputs, then the receiver's outputs. *)
Definition xcot128_run (c : BitVector) (correlation : Z) (r0 : RcvSt)
           (s0 : FixedXCOT128Sender) : option (RcvSt * FixedXCOT128Sender) :=
  r1 ← ok_state (SetChoices c r0 >>> SendCorrections);
  let s1 := fx_deliver (new_msgs (r_sent r0) (r_sent r1)) s0 in
  s2 ← ok_state (SetCorrelation correlation s1 >>> FixedXCOT128Sender_SendMessages
                  >>> FixedXCOT128Sender_ComputeOutputs);
  let r2 := deliver_all_r (new_msgs (s_sent (fx_st s0)) (s_sent (fx_st s2))) r1 in
  r3 ← ok_state (FixedXCOT128Receiver_ComputeOutputs r2);
  Some (r3, s2).

(** [XCOTBitSender]: beside the members in [xb_st] the class has bit vectors
    for its correlations and its outputs. *)
Record XCOTBitSender : Type := mkXBSender {
  xb_st : SndSt;
  xb_correlations_ : BitVector;
  xb_outputs_ : BitVector
}.

Definition xb_with_st (s : SndSt) (x : XCOTBitSender) : XCOTBitSender :=
  mkXBSender s (xb_correlations_ x) (xb_outputs_ x).
Definition xb_with_outputs (o : BitVector) (x : XCOTBitSender) : XCOTBitSender :=
  mkXBSender (xb_st x) (xb_correlations_ x) o.

(** Modelled from the spec: [SetCorrelations] of the bit flavor is declared
    in [ot_flavors.h], which is not among the sources; it stores the
    correlation bits. *)
Definition XCOTBit_SetCorrelations (c : BitVector) (x : XCOTBitSender)
  : outcome XCOTBitSender :=
  Ok (mkXBSender (xb_st x) c (xb_outputs_ x)).

(** [XCOTBitSender::ComputeOutputs].  [GetData()[0] & SET_BIT_MASK[0]] is
    the first bit of the pad. *)
Definition XCOTBitSender_ComputeOutputs (x : XCOTBitSender) : outcome XCOTBitSender :=
  let h := snd (xb_st x) in
  if s_outputs_computed_ h then Ok x
  else
    map_outcome (fun s => xb_with_st s x) (WaitSetup_s (xb_st x) >>> wait_corrections)
    >>> (fun x =>
    let n := s_num_ots_ h in
    let vs := s_vector_size_ h in
    let d := sdata (xb_st x) in
    let corrections :=
      Subset (corrections_ d) (s_ot_id_ h) (wrap_size (s_ot_id_ h + n)) in
    map_outcome (fun outs => xb_with_outputs outs x)
      (if decide (vs = 1) then
         for_each (fun i outs =>
           match at_ (if bit corrections i then y1_ d else y0_ d)
                     (wrap_size (s_ot_id_ h + Z.of_nat i)) with
           | None => Throw "vector::at" outs
           | Some y => Ok (<[i := bit y 0]> outs)
           end) (upto n) (resize (Z.to_nat n) false (xb_outputs_ x))
       else
         for_each (fun i outs =>
           match at_ (if bit corrections i then y1_ d else y0_ d)
                     (wrap_size (s_ot_id_ h + Z.of_nat i)) with
           | None => Throw "vector::at" outs
           | Some y => Ok (outs ++ y)
           end) (upto n) (xb_outputs_ x))
    >>> (fun x => Ok (xb_with_st (set_snd (with_s_outputs_computed true) (xb_st x)) x))).

(** A loop over a local buffer inside a method of [x]: a failure of the loop
    is a failure of the method. *)
Definition with_buffer {B S} (loop : outcome B) (x : S) (f : B -> outcome S) : outcome S :=
  match loop with
  | Ok buffer => f buffer
  | Throw what _ => Throw what x
  | Blocked _ => Blocked x
  end.

(** [XCOTBitSender::SendMessages].  The [assert] on the buffer's size stops
    the program when it fails (in a build that keeps assertions); it is a
    [Throw] here. *)
Definition XCOTBitSender_SendMessages (x : XCOTBitSender) : outcome XCOTBitSender :=
  let h := snd (xb_st x) in
  let n := s_num_ots_ h in
  let vs := s_vector_size_ h in
  let d := sdata (xb_st x) in
  with_buffer
    (if decide (vs = 1) then
       for_each (fun i buffer =>
         let k := wrap_size (s_ot_id_ h + Z.of_nat i) in
         let tmp := bit buffer i in
         match at_ (y0_ d) k with
         | None => Throw "vector::at" buffer
         | Some y0 =>
             let tmp := xorb tmp (bit y0 0) in
             match at_ (y1_ d) k with
             | None => Throw "vector::at" buffer
             | Some y1 => Ok (<[i := xorb tmp (bit y1 0)]> buffer)
             end
         end) (upto n) (xb_correlations_ x)
     else
       map_outcome (fun tmp => bv_xor (xb_correlations_ x) tmp)
         (for_each (fun ot_i tmp =>
            let k := wrap_size (s_ot_id_ h + Z.of_nat ot_i) in
            match at_ (y0_ d) k with
            | None => Throw "vector::at" tmp
            | Some y0_p =>
                match at_ (y1_ d) k with
                | None => Throw "vector::at" tmp
                | Some y1_p => Ok (tmp ++ bv_xor y0_p y1_p)
                end
            end) (upto n) []))
    x
    (fun buffer =>
       if decide (size buffer = wrap_size (n * vs))
       then Ok (xb_with_st (Send_s (SenderMessage (s_ot_id_ h) (Bits buffer)) (xb_st x)) x)
       else Throw "assert(buffer.GetSize() == num_ots_ * vector_size_)" x).

(** The pads that the OT-extension setup leaves for the batch have
    [vector_size] bits each. *)
Definition pads_sized (id n vs : Z) (d : OTExtensionSenderData) : Prop :=
  forall k : nat, (Z.to_nat id <= k < Z.to_nat (id + n))%nat ->
    length (y0_ d !!! k) = Z.to_nat vs /\ length (y1_ d !!! k) = Z.to_nat vs.

Definition xb_deliver (ms : list message) (x : XCOTBitSender) : XCOTBitSender :=
  xb_with_st (deliver_all_s ms (xb_st x)) x.

Definition xcot_bit_run (c : BitVector) (correlations : BitVector) (r0 : RcvSt)
           (s0 : XCOTBitSender) : option (RcvSt * XCOTBitSender) :=
  r1 ← ok_state (SetChoices c r0 >>> SendCorrections);
  let s1 := xb_deliver (new_msgs (r_sent r0) (r_sent r1)) s0 in
  s2 ← ok_state (XCOTBit_SetCorrelations correlations s1 >>> XCOTBitSender_SendMessages
                  >>> XCOTBitSender_ComputeOutputs);
  let r2 := deliver_all_r (new_msgs (s_sent (xb_st s0)) (s_sent (xb_st s2))) r1 in
  r3 ← ok_state (XCOTBitReceiver_ComputeOutputs r2);
  Some (r3, s2).

End OTXCOT.

Module OTXCOTSamples.
Import OT OTSamples OTXCOT.

Definition receiver_data_xcot128 : OTExtensionReceiverData :=
  mkReceiverData (map pad128 [101; 12; 103; 104; 15]) [128; 128; 128; 128; 128]
    random_choices [] ∅ ∅ {[0 := 2; 2 := 3]} {[2 := msg_block128]} {[2 := (3, None)]} true.

Definition xcot128_receiver : RcvSt :=
  mkRcvSt (new_receiver FixedXCOT128 2 3 1) receiver_data_xcot128 [].
Definition xcot128_sender : FixedXCOT128Sender :=
  mkFXSender (mkSndSt (new_sender FixedXCOT128 2 3 1) sender_data_128 []) 0.

(** One-bit pads for the batch at offset 2. *)
Definition sender_data_1 : OTExtensionSenderData :=
  mkSenderData [[true]; [false]; [false]; [true]; [true]]
               [[false]; [true]; [true]; [true]; [false]]
    [1; 1; 1; 1; 1] [false; false; false; false; false]
    {[0 := 2; 2 := 3]} ∅ ({[0]} ∪ {[2]}) true.
Definition receiver_data_1 : OTExtensionReceiverData :=
  mkReceiverData [[false]; [false]; [true]; [true]; [true]] [1; 1; 1; 1; 1]
    random_choices [] ∅ ∅ {[0 := 2; 2 := 3]} {[2 := msg_bit]} {[2 := (3, None)]} true.

(** Two-bit pads for the batch at offset 2. *)
Definition sender_data_2 : OTExtensionSenderData :=
  mkSenderData [[true; true]; [false; true]; [false; false]; [true; false]; [true; true]]
               [[false; true]; [true; true]; [true; false]; [true; true]; [false; false]]
    [2; 2; 2; 2; 2] [false; false; false; false; false]
    {[0 := 2; 2 := 3]} ∅ ({[0]} ∪ {[2]}) true.
Definition receiver_data_2 : OTExtensionReceiverData :=
  mkReceiverData [[false; true]; [false; true]; [true; false]; [true; true]; [true; true]]
    [2; 2; 2; 2; 2]
    random_choices [] ∅ ∅ {[0 := 2; 2 := 3]} {[2 := msg_bit]} {[2 := (6, None)]} true.

Definition xcot_bit2_receiver : RcvSt :=
  mkRcvSt (new_receiver XCOTBit 2 3 2) receiver_data_2 [].
Definition xcot_bit2_sender : XCOTBitSender :=
  mkXBSender (mkSndSt (new_sender XCOTBit 2 3 2) sender_data_2 []) [] [].

Definition xcot_bit_receiver : RcvSt :=
  mkRcvSt (new_receiver XCOTBit 2 3 1) receiver_data_1 [].
Definition xcot_bit_sender : XCOTBitSender :=
  mkXBSender (mkSndSt (new_sender XCOTBit 2 3 1) sender_data_1 []) [] [].

(** Pads of two 8-bit elements for the batch at offset 2 (an ACOT batch
    with vectors of two elements). *)
Definition pad8x2 (a b : Z) : BitVector := pad8 a ++ pad8 b.
Definition sender_data_8x2 : OTExtensionSenderData :=
  mkSenderData
    [pad8x2 11 21; pad8x2 12 22; pad8x2 13 23; pad8x2 14 24; pad8x2 15 25]
    [pad8x2 101 201; pad8x2 102 202; pad8x2 103 203; pad8x2 104 204; pad8x2 250 251]
    [16; 16; 16; 16; 16] [false; false; false; false; false]
    {[0 := 2; 2 := 3]} ∅ ({[0]} ∪ {[2]}) true.
Definition receiver_data_8x2 : OTExtensionReceiverData :=
  mkReceiverData
    [pad8x2 101 201; pad8x2 12 22; pad8x2 103 203; pad8x2 104 204; pad8x2 15 25]
    [16; 16; 16; 16; 16] random_choices [] ∅ ∅ {[0 := 2; 2 := 3]}
    {[2 := msg_uint8]} {[2 := (6, None)]} true.

Definition acot_vector_sender : SndSt :=
  mkSndSt (new_sender (ACOT 8) 2 3 2) sender_data_8x2 [].
Definition acot_vector_receiver : RcvSt :=
  mkRcvSt (new_receiver (ACOT 8) 2 3 2) receiver_data_8x2 [].

End OTXCOTSamples.

(** ** The general OT on single bits ([ot_flavors.cpp]) *)

Module OTGOTBit.
Import OT OTXCOT.

(** [GOTBitSender]: beside the members in [gb_st] the class holds its
    [2 * num_ots] input bits. *)
Record GOTBitSender : Type := mkGBSender {
  gb_st : SndSt;
  gb_inputs_ : BitVector
}.

Definition gb_with_st (s : SndSt) (x : GOTBitSender) : GOTBitSender :=
  mkGBSender s (gb_inputs_ x).

(** Modelled from the spec: [SetInputs] of the bit flavor is declared in
    [ot_flavors.h], which is not among the sources; it stores the input
    bits, the pair of OT [i] at the positions [2 * i] and [2 * i + 1]. *)
Definition GOTBit_SetInputs (v : BitVector) (x : GOTBitSender) : outcome GOTBitSender :=
  Ok (mkGBSender (gb_st x) v).

(** [GOTBitSender::SendMessages] *)
Definition GOTBitSender_SendMessages (x : GOTBitSender) : outcome GOTBitSender :=
  let h := snd (gb_st x) in
  map_outcome (fun s => gb_with_st s x) (wait_corrections (gb_st x)) >>> (fun x =>
  let d := sdata (gb_st x) in
  let corrections :=
    Subset (corrections_ d) (s_ot_id_ h) (wrap_size (s_ot_id_ h + s_num_ots_ h)) in
  with_buffer
    (for_each (fun i buffer =>
       let b0 := bit buffer (2 * i) in
       let b1 := bit buffer (2 * i + 1) in
       let k := wrap_size (s_ot_id_ h + Z.of_nat i) in
       match at_ (y0_ d) k with
       | None => Throw "vector::at" buffer
       | Some y0 =>
           let buffer1 :=
             <[(2 * i)%nat := xorb (if bit corrections i then b1 else b0) (bit y0 0)]>
               buffer in
           match at_ (y1_ d) k with
           | None => Throw "vector::at" buffer1
           | Some y1 =>
               Ok (<[(2 * i + 1)%nat :=
                       xorb (if bit corrections i then b0 else b1) (bit y1 0)]> buffer1)
           end
       end) (upto (s_num_ots_ h)) (gb_inputs_ x))
    x
    (fun buffer =>
       Ok (gb_with_st (Send_s (SenderMessage (s_ot_id_ h) (Bits buffer)) (gb_st x)) x))).

(** The handle that [GOTBitReceiver]'s constructor initialises:
    [outputs_(num_ots)]. *)
Definition new_gotbit_receiver (ot_id num_ots : Z) : OTReceiver :=
  with_r_outputs_bits (replicate (Z.to_nat num_ots) false)
                      (new_receiver GOTBit ot_id num_ots 1).

(** [GOTBitReceiver::ComputeOutputs] *)
Definition GOTBitReceiver_ComputeOutputs (s : RcvSt) : outcome RcvSt :=
  let h := rcv s in
  if r_outputs_computed_ h then Ok s
  else if negb (corrections_sent_ h) then
    Throw "Choices in OT must be se(n)t before calling ComputeOutputs()" s
  else
    match future_get s with
    | Some (Bits sender_message) =>
        let random_choices :=
          Subset (random_choices_ (rdata s)) (r_ot_id_ h)
                 (wrap_size (r_ot_id_ h + r_num_ots_ h)) in
        map_outcome (fun outs => set_rcv (with_r_outputs_bits outs) s)
          (for_each (fun i outs =>
             let diff := if bit random_choices i
                         then bit sender_message (2 * i + 1)
                         else bit sender_message (2 * i) in
             match at_ (outputs_ (rdata s)) (wrap_size (r_ot_id_ h + Z.of_nat i)) with
             | None => Throw "vector::at" outs
             | Some ot_data => Ok (<[i := xorb diff (bit ot_data 0)]> outs)
             end) (upto (r_num_ots_ h)) (r_outputs_bits_ h))
        >>> (fun s => Ok (set_rcv (with_r_outputs_computed true) s))
    | _ => Blocked s
    end.

Definition gb_deliver (ms : list message) (x : GOTBitSender) : GOTBitSender :=
  gb_with_st (deliver_all_s ms (gb_st x)) x.

(** One batch, both parties: choices and corrections, then the sender's
    inputs and message, then the receiver's outputs. *)
Definition gotbit_run (c : BitVector) (inputs : BitVector) (r0 : RcvSt) (s0 : GOTBitSender)
  : option (RcvSt * GOTBitSender) :=
  r1 ← ok_state (SetChoices c r0 >>> SendCorrections);
  let s1 := gb_deliver (new_msgs (r_sent r0) (r_sent r1)) s0 in
  s2 ← ok_state (GOTBit_SetInputs inputs s1 >>> GOTBitSender_SendMessages);
  let r2 := deliver_all_r (new_msgs (s_sent (gb_st s0)) (s_sent (gb_st s2))) r1 in
  r3 ← ok_state (GOTBitReceiver_ComputeOutputs r2);
  Some (r3, s2).

End OTGOTBit.

Module OTGOTBitSamples.
Import OT OTSamples OTXCOTSamples OTGOTBit.

Definition receiver_data_gotbit : OTExtensionReceiverData :=
  mkReceiverData [[false]; [false]; [true]; [true]; [true]] [1; 1; 1; 1; 1]
    random_choices [] ∅ ∅ {[0 := 2; 2 := 3]} {[2 := msg_bit]} {[2 := (6, None)]} true.

Definition gotbit_receiver : RcvSt :=
  mkRcvSt (new_gotbit_receiver 2 3) receiver_data_gotbit [].
Definition gotbit_sender : GOTBitSender :=
  mkGBSender (mkSndSt (new_sender GOTBit 2 3 1) sender_data_1 []) [].

End OTGOTBitSamples.

(** * BEAVY gates: [protocols/beavy/gate.cpp] *)

Module Beavy.

(** ** Wires

    The wire classes ([BooleanBEAVYWire], [ArithmeticBEAVYWire<T>]) are
    declared in [protocols/beavy/wire.h], which is not among the sources: a
    wire carries its SIMD width, a secret share, a public share and the two
    readiness flags. *)

Record ArithmeticBEAVYWire : Type := mkAWire {
  a_num_simd : Z;
  a_secret_share : list Z;
  a_public_share : list Z;
  a_setup_ready : bool;
  a_online_ready : bool
}.

Record BooleanBEAVYWire : Type := mkBWire {
  b_num_simd : Z;
  b_secret_share : list bool;
  b_public_share : list bool;
  b_setup_ready : bool;
  b_online_ready : bool
}.

(** [std::make_shared<ArithmeticBEAVYWire<T>>(num_simd)] *)
Definition new_awire (num_simd : Z) : ArithmeticBEAVYWire :=
  mkAWire num_simd [] [] false false.
Definition new_bwire (num_simd : Z) : BooleanBEAVYWire :=
  mkBWire num_simd [] [] false false.

(** Modelled from the spec: "[set_setup_ready()], [set_online_ready()] fire
    exactly once; firing twice is a fatal programming error", and
    "[wait_setup()], [wait_online()] block the calling cooperative task until
    the corresponding condition fires". *)
Definition a_set_setup_ready (w : ArithmeticBEAVYWire) : outcome ArithmeticBEAVYWire :=
  if a_setup_ready w then Throw "setup-ready fired twice" w
  else Ok (mkAWire (a_num_simd w) (a_secret_share w) (a_public_share w) true
                   (a_online_ready w)).
Definition a_set_online_ready (w : ArithmeticBEAVYWire) : outcome ArithmeticBEAVYWire :=
  if a_online_ready w then Throw "online-ready fired twice" w
  else Ok (mkAWire (a_num_simd w) (a_secret_share w) (a_public_share w)
                   (a_setup_ready w) true).

Definition a_with_secret (v : list Z) (w : ArithmeticBEAVYWire) : ArithmeticBEAVYWire :=
  mkAWire (a_num_simd w) v (a_public_share w) (a_setup_ready w) (a_online_ready w).
Definition a_with_public (v : list Z) (w : ArithmeticBEAVYWire) : ArithmeticBEAVYWire :=
  mkAWire (a_num_simd w) (a_secret_share w) v (a_setup_ready w) (a_online_ready w).

(** ** [std::transform] on vectors of [T]

    [std::transform(begin(a), end(a), begin(out), f)] and
    [std::transform(begin(a), end(a), begin(b), begin(out), f)]: the first
    [a.size()] slots of [out] are overwritten.  Every result is stored in a
    [T] of [W] bits. *)
Definition transform1 (W : Z) (f : Z -> Z) (a out : list Z) : list Z :=
  map (fun x => wrap W (f x)) a ++ drop (length a) out.
Definition transform2 (W : Z) (f : Z -> Z -> Z) (a b out : list Z) : list Z :=
  zip_with (fun x y => wrap W (f x y)) a b ++ drop (length a) out.

(** [std::vector<T>::resize(n)] *)
Definition resize_T (n : Z) (v : list Z) : list Z := resize (Z.to_nat n) 0 v.

(** Modelled from the spec: [BEAVYProvider::is_my_job] is not among the
    sources; "whose_job is a deterministic split based on gate id ensuring
    exactly one party adds the Delta_a * Delta_b term", "typically gate_id
    mod 2". *)
Definition is_my_job (my_id gate_id : Z) : bool := gate_id mod 2 =? my_id.

(** Modelled from the spec: the integer-multiplication sessions of the
    arithmetic provider are not among the sources.  "A session takes one
    side's input vector x and produces, after one interaction, a share of
    x * y with the peer who input y."  A session keeps the inputs the gate
    set and the output share that the interaction with the peer delivers. *)
Record IntegerMultiplication : Type := mkSession {
  im_inputs : list Z;
  im_outputs : list Z
}.

Definition set_inputs (v : list Z) (m : IntegerMultiplication) : IntegerMultiplication :=
  mkSession v (im_outputs m).
Definition get_outputs (m : IntegerMultiplication) : list Z := im_outputs m.

(** The sender's and the receiver's outputs of one session add up to the
    product of their inputs, slot by slot. *)
Definition shares_of_product (W : Z) (sender receiver : IntegerMultiplication) : Prop :=
  forall j : nat,
    wrap W (nth j (im_outputs sender) 0 + nth j (im_outputs receiver) 0)
    = wrap W (nth j (im_inputs sender) 0 * nth j (im_inputs receiver) 0).

(** ** [ArithmeticBEAVYMULGate<T>] *)

Record ArithmeticBEAVYMULGate : Type := mkMUL {
  mul_my_id : Z;
  mul_gate_id : Z;
  mul_input_a_ : ArithmeticBEAVYWire;
  mul_input_b_ : ArithmeticBEAVYWire;
  mul_output_ : ArithmeticBEAVYWire;
  mul_Delta_y_share_ : list Z;
  mul_mult_sender_ : IntegerMultiplication;
  mul_mult_receiver_ : IntegerMultiplication;
  mul_share_future_ : option (list Z);   (* the peer's broadcast, once it arrived *)
  mul_sent : list (Z * list Z)           (* broadcast_ints_message(gate_id, ...) *)
}.

(** The constructor: the output wire is new, the sessions are registered. *)
Definition ArithmeticBEAVYMULGate_ctor (my_id gate_id : Z)
           (in_a in_b : ArithmeticBEAVYWire) (snd_out rcv_out : list Z)
  : outcome ArithmeticBEAVYMULGate :=
  let g := mkMUL my_id gate_id in_a in_b (new_awire (a_num_simd in_a)) []
                 (mkSession [] snd_out) (mkSession [] rcv_out) None [] in
  if decide (a_num_simd in_a = a_num_simd in_b) then Ok g
  else Throw "number of SIMD values need to be the same for all wires" g.

Definition mul_with_output (w : ArithmeticBEAVYWire) (g : ArithmeticBEAVYMULGate)
  : ArithmeticBEAVYMULGate :=
  mkMUL (mul_my_id g) (mul_gate_id g) (mul_input_a_ g) (mul_input_b_ g) w
        (mul_Delta_y_share_ g) (mul_mult_sender_ g) (mul_mult_receiver_ g)
        (mul_share_future_ g) (mul_sent g).
Definition mul_with_Delta (d : list Z) (g : ArithmeticBEAVYMULGate)
  : ArithmeticBEAVYMULGate :=
  mkMUL (mul_my_id g) (mul_gate_id g) (mul_input_a_ g) (mul_input_b_ g) (mul_output_ g)
        d (mul_mult_sender_ g) (mul_mult_receiver_ g) (mul_share_future_ g) (mul_sent g).
Definition mul_with_sessions (s r : IntegerMultiplication) (g : ArithmeticBEAVYMULGate)
  : ArithmeticBEAVYMULGate :=
  mkMUL (mul_my_id g) (mul_gate_id g) (mul_input_a_ g) (mul_input_b_ g) (mul_output_ g)
        (mul_Delta_y_share_ g) s r (mul_share_future_ g) (mul_sent g).
Definition mul_broadcast (m : list Z) (g : ArithmeticBEAVYMULGate)
  : ArithmeticBEAVYMULGate :=
  mkMUL (mul_my_id g) (mul_gate_id g) (mul_input_a_ g) (mul_input_b_ g) (mul_output_ g)
        (mul_Delta_y_share_ g) (mul_mult_sender_ g) (mul_mult_receiver_ g)
        (mul_share_future_ g) (mul_sent g ++ [(mul_gate_id g, m)]).
Definition mul_receive (m : list Z) (g : ArithmeticBEAVYMULGate)
  : ArithmeticBEAVYMULGate :=
  mkMUL (mul_my_id g) (mul_gate_id g) (mul_input_a_ g) (mul_input_b_ g) (mul_output_ g)
        (mul_Delta_y_share_ g) (mul_mult_sender_ g) (mul_mult_receiver_ g)
        (Some m) (mul_sent g).

Definition lift_output (g : ArithmeticBEAVYMULGate) (o : outcome ArithmeticBEAVYWire)
  : outcome ArithmeticBEAVYMULGate :=
  map_outcome (fun w => mul_with_output w g) o.

(** [ArithmeticBEAVYMULGate<T>::evaluate_setup]; [random] is the value of
    [Helpers::RandomVector<T>(num_simd)]. *)
Definition MUL_evaluate_setup (W : Z) (random : list Z) (g : ArithmeticBEAVYMULGate)
  : outcome ArithmeticBEAVYMULGate :=
  let num_simd := a_num_simd (mul_input_a_ g) in
  lift_output g (a_set_setup_ready (a_with_secret random (mul_output_ g))) >>> (fun g =>
  if negb (a_setup_ready (mul_input_a_ g)) then Blocked g
  else if negb (a_setup_ready (mul_input_b_ g)) then Blocked g
  else
    let delta_a_share := a_secret_share (mul_input_a_ g) in
    let delta_b_share := a_secret_share (mul_input_b_ g) in
    let delta_y_share := a_secret_share (mul_output_ g) in
    let mult_receiver := set_inputs delta_a_share (mul_mult_receiver_ g) in
    let mult_sender := set_inputs delta_b_share (mul_mult_sender_ g) in
    let D0 := resize_T num_simd (mul_Delta_y_share_ g) in
    (* [Delta_y]_i = [delta_a]_i * [delta_b]_i *)
    let D1 := transform2 W Z.mul delta_a_share delta_b_share D0 in
    (* [Delta_y]_i += [delta_y]_i *)
    let D2 := transform2 W Z.add D1 delta_y_share D1 in
    let delta_ab_share1 := get_outputs mult_receiver in
    let delta_ab_share2 := get_outputs mult_sender in
    let D3 := transform2 W Z.add D2 delta_ab_share1 D2 in
    let D4 := transform2 W Z.add D3 delta_ab_share2 D3 in
    Ok (mul_with_Delta D4 (mul_with_sessions mult_sender mult_receiver g))).

(** [evaluate_online] up to and including the broadcast of [Delta_y]_i. *)
Definition MUL_evaluate_online_send (W : Z) (g : ArithmeticBEAVYMULGate)
  : outcome ArithmeticBEAVYMULGate :=
  let num_simd := a_num_simd (mul_input_a_ g) in
  if negb (a_online_ready (mul_input_a_ g)) then Blocked g
  else if negb (a_online_ready (mul_input_b_ g)) then Blocked g
  else
    let Delta_a := a_public_share (mul_input_a_ g) in
    let Delta_b := a_public_share (mul_input_b_ g) in
    let delta_a_share := a_secret_share (mul_input_a_ g) in
    let delta_b_share := a_secret_share (mul_input_b_ g) in
    let tmp0 := replicate (Z.to_nat num_simd) 0 in
    (* [Delta_y]_i -= Delta_a * [delta_b]_i *)
    let tmp1 := transform2 W Z.mul Delta_a delta_b_share tmp0 in
    let D1 := transform2 W Z.sub (mul_Delta_y_share_ g) tmp1 (mul_Delta_y_share_ g) in
    (* [Delta_y]_i -= Delta_b * [delta_a]_i *)
    let tmp2 := transform2 W Z.mul Delta_b delta_a_share tmp1 in
    let D2 := transform2 W Z.sub D1 tmp2 D1 in
    (* [Delta_y]_i += Delta_ab (== Delta_a * Delta_b) *)
    let D3 :=
      if is_my_job (mul_my_id g) (mul_gate_id g) then
        let tmp3 := transform2 W Z.mul Delta_a Delta_b tmp2 in
        transform2 W Z.add D2 tmp3 D2
      else D2 in
    Ok (mul_broadcast D3 (mul_with_Delta D3 g)).

(** The rest of [evaluate_online], from [share_future_.get()] on. *)
Definition MUL_evaluate_online_receive (W : Z) (g : ArithmeticBEAVYMULGate)
  : outcome ArithmeticBEAVYMULGate :=
  match mul_share_future_ g with
  | None => Blocked g
  | Some other =>
      (* Delta_y = [Delta_y]_i + [Delta_y]_(1-i) *)
      let D := transform2 W Z.add (mul_Delta_y_share_ g) other (mul_Delta_y_share_ g) in
      let g1 := mul_with_Delta [] (mul_with_output (a_with_public D (mul_output_ g)) g) in
      lift_output g1 (a_set_online_ready (mul_output_ g1))
  end.

(** Between the two phases the gates that own the input wires set their
    public shares and mark them online-ready; the gate sees that through its
    shared pointers. *)
Definition mul_inputs_now (a b : ArithmeticBEAVYWire) (g : ArithmeticBEAVYMULGate)
  : ArithmeticBEAVYMULGate :=
  mkMUL (mul_my_id g) (mul_gate_id g) a b (mul_output_ g) (mul_Delta_y_share_ g)
        (mul_mult_sender_ g) (mul_mult_receiver_ g) (mul_share_future_ g) (mul_sent g).

(** The views the two parties have of one wire: each holds its own secret
    share, both hold the public share once it is there. *)
Record wire_views : Type := mkViews {
  at_setup_0 : ArithmeticBEAVYWire;   (* party 0, when the setup phase runs *)
  at_setup_1 : ArithmeticBEAVYWire;
  at_online_0 : ArithmeticBEAVYWire;  (* party 0, when the online phase runs *)
  at_online_1 : ArithmeticBEAVYWire
}.

(** The BEAVY wire invariant for plaintext [x] on [n] SIMD slots: the
    vectors have [n] entries, the secret shares stay what they were at
    setup, both parties hold the same public share, and
    public = plaintext + both secret shares modulo 2^W. *)
Record beavy_wire (W : Z) (n : Z) (x : list Z) (v : wire_views) : Prop := {
  bw_simd : a_num_simd (at_setup_0 v) = n /\ a_num_simd (at_setup_1 v) = n /\
            a_num_simd (at_online_0 v) = n /\ a_num_simd (at_online_1 v) = n;
  bw_len0 : length (a_secret_share (at_setup_0 v)) = Z.to_nat n;
  bw_len1 : length (a_secret_share (at_setup_1 v)) = Z.to_nat n;
  bw_lenp : length (a_public_share (at_online_0 v)) = Z.to_nat n;
  bw_ready_s : a_setup_ready (at_setup_0 v) = true /\ a_setup_ready (at_setup_1 v) = true;
  bw_ready_o : a_online_ready (at_online_0 v) = true /\ a_online_ready (at_online_1 v) = true;
  bw_kept0 : a_secret_share (at_online_0 v) = a_secret_share (at_setup_0 v);
  bw_kept1 : a_secret_share (at_online_1 v) = a_secret_share (at_setup_1 v);
  bw_same : a_public_share (at_online_0 v) = a_public_share (at_online_1 v);
  bw_inv : forall j : nat, (j < Z.to_nat n)%nat ->
      nth j (a_public_share (at_online_0 v)) 0
      = wrap W (nth j x 0 + nth j (a_secret_share (at_setup_0 v)) 0
                + nth j (a_secret_share (at_setup_1 v)) 0)
}.

Definition last_sent (g : ArithmeticBEAVYMULGate) : list Z :=
  match last (mul_sent g) with Some (_, m) => m | None => [] end.

(** The MUL gate on both parties: setup on each, online up to the broadcast
    on each, delivery of the two broadcasts, the rest of online. *)
Definition mul_protocol (W : Z) (random0 random1 : list Z) (a b : wire_views)
           (g0 g1 : ArithmeticBEAVYMULGate)
  : option (ArithmeticBEAVYMULGate * ArithmeticBEAVYMULGate) :=
  s0 ← ok_state (MUL_evaluate_setup W random0 g0);
  s1 ← ok_state (MUL_evaluate_setup W random1 g1);
  o0 ← ok_state (MUL_evaluate_online_send W
                   (mul_inputs_now (at_online_0 a) (at_online_0 b) s0));
  o1 ← ok_state (MUL_evaluate_online_send W
                   (mul_inputs_now (at_online_1 a) (at_online_1 b) s1));
  f0 ← ok_state (MUL_evaluate_online_receive W (mul_receive (last_sent o1) o0));
  f1 ← ok_state (MUL_evaluate_online_receive W (mul_receive (last_sent o0) o1));
  Some (f0, f1).

End Beavy.

(** ** Sample wires and gates: W = 8, two SIMD slots *)

Module BeavySamples.
Import Beavy.

(** A wire as the two parties see it: [l0], [l1] the secret shares, [p] the
    public share that the owning gate sets before the online phase. *)
Definition views (l0 l1 p : list Z) : wire_views :=
  mkViews (mkAWire 2 l0 [] true false) (mkAWire 2 l1 [] true false)
          (mkAWire 2 l0 p true true) (mkAWire 2 l1 p true true).

(** a = [3; 200] masked by 10 + 30 and 20 + 40; b = [5; 7] masked by 1 + 3
    and 2 + 4. *)
Definition wire_a : wire_views := views [10; 20] [30; 40] [43; 4].
Definition wire_b : wire_views := views [1; 2] [3; 4] [9; 13].

(** Session outputs: [7 + 23 = 1 * 30], [9 + 71 = 2 * 40] for party 0 as
    sender; [100 + 186 = 3 * 10], [200 + 136 = 4 * 20] modulo 256 for party 1
    as sender. *)
Definition mul_gate_0 : ArithmeticBEAVYMULGate :=
  mkMUL 0 7 (at_setup_0 wire_a) (at_setup_0 wire_b) (new_awire 2) []
        (mkSession [] [7; 9]) (mkSession [] [186; 136]) None [].
Definition mul_gate_1 : ArithmeticBEAVYMULGate :=
  mkMUL 1 7 (at_setup_1 wire_a) (at_setup_1 wire_b) (new_awire 2) []
        (mkSession [] [100; 200]) (mkSession [] [23; 71]) None [].

End BeavySamples.

(** ** [ArithmeticBEAVYSQRGate<T>] *)

Module BeavySqr.
Import Beavy.

(** [mult_sender_] and [mult_receiver_] are [unique_ptr]s, one of them null. *)
Record ArithmeticBEAVYSQRGate : Type := mkSQR {
  sqr_my_id : Z;
  sqr_gate_id : Z;
  sqr_input_ : ArithmeticBEAVYWire;
  sqr_output_ : ArithmeticBEAVYWire;
  sqr_Delta_y_share_ : list Z;
  sqr_mult_sender_ : option IntegerMultiplication;
  sqr_mult_receiver_ : option IntegerMultiplication;
  sqr_share_future_ : option (list Z);
  sqr_sent : list (Z * list Z)
}.

(** The constructor; [session_out] is what the registered session will
    deliver to this party. *)
Definition ArithmeticBEAVYSQRGate_ctor (my_id gate_id : Z) (input : ArithmeticBEAVYWire)
           (session_out : list Z) : ArithmeticBEAVYSQRGate :=
  let output := new_awire (a_num_simd input) in
  if my_id =? 0
  then mkSQR my_id gate_id input output [] (Some (mkSession [] session_out)) None None []
  else mkSQR my_id gate_id input output [] None (Some (mkSession [] session_out)) None [].

(** How many sessions a gate holds. *)
Definition sessions (g : ArithmeticBEAVYSQRGate) : nat :=
  (length (option_list (sqr_mult_sender_ g))
   + length (option_list (sqr_mult_receiver_ g)))%nat.

Definition sqr_with_output (w : ArithmeticBEAVYWire) (g : ArithmeticBEAVYSQRGate)
  : ArithmeticBEAVYSQRGate :=
  mkSQR (sqr_my_id g) (sqr_gate_id g) (sqr_input_ g) w (sqr_Delta_y_share_ g)
        (sqr_mult_sender_ g) (sqr_mult_receiver_ g) (sqr_share_future_ g) (sqr_sent g).
Definition sqr_with_Delta (d : list Z) (g : ArithmeticBEAVYSQRGate)
  : ArithmeticBEAVYSQRGate :=
  mkSQR (sqr_my_id g) (sqr_gate_id g) (sqr_input_ g) (sqr_output_ g) d
        (sqr_mult_sender_ g) (sqr_mult_receiver_ g) (sqr_share_future_ g) (sqr_sent g).
Definition sqr_with_sessions (s r : option IntegerMultiplication)
           (g : ArithmeticBEAVYSQRGate) : ArithmeticBEAVYSQRGate :=
  mkSQR (sqr_my_id g) (sqr_gate_id g) (sqr_input_ g) (sqr_output_ g)
        (sqr_Delta_y_share_ g) s r (sqr_share_future_ g) (sqr_sent g).
Definition sqr_broadcast (m : list Z) (g : ArithmeticBEAVYSQRGate)
  : ArithmeticBEAVYSQRGate :=
  mkSQR (sqr_my_id g) (sqr_gate_id g) (sqr_input_ g) (sqr_output_ g)
        (sqr_Delta_y_share_ g) (sqr_mult_sender_ g) (sqr_mult_receiver_ g)
        (sqr_share_future_ g) (sqr_sent g ++ [(sqr_gate_id g, m)]).
Definition sqr_receive (m : list Z) (g : ArithmeticBEAVYSQRGate)
  : ArithmeticBEAVYSQRGate :=
  mkSQR (sqr_my_id g) (sqr_gate_id g) (sqr_input_ g) (sqr_output_ g)
        (sqr_Delta_y_share_ g) (sqr_mult_sender_ g) (sqr_mult_receiver_ g)
        (Some m) (sqr_sent g).
Definition sqr_input_now (a : ArithmeticBEAVYWire) (g : ArithmeticBEAVYSQRGate)
  : ArithmeticBEAVYSQRGate :=
  mkSQR (sqr_my_id g) (sqr_gate_id g) a (sqr_output_ g) (sqr_Delta_y_share_ g)
        (sqr_mult_sender_ g) (sqr_mult_receiver_ g) (sqr_share_future_ g) (sqr_sent g).

Definition sqr_lift (g : ArithmeticBEAVYSQRGate) (o : outcome ArithmeticBEAVYWire)
  : outcome ArithmeticBEAVYSQRGate :=
  map_outcome (fun w => sqr_with_output w g) o.

(** [ArithmeticBEAVYSQRGate<T>::evaluate_setup].  The input's secret share is
    read without waiting for the input wire.  With both session pointers
    null the code dereferences a null pointer; the constructor never leaves
    a gate so. *)
Definition SQR_evaluate_setup (W : Z) (random : list Z) (g : ArithmeticBEAVYSQRGate)
  : outcome ArithmeticBEAVYSQRGate :=
  let num_simd := a_num_simd (sqr_input_ g) in
  sqr_lift g (a_set_setup_ready (a_with_secret random (sqr_output_ g))) >>> (fun g =>
  let delta_a_share := a_secret_share (sqr_input_ g) in
  let delta_y_share := a_secret_share (sqr_output_ g) in
  let rest (snd rcv : option IntegerMultiplication) (delta_aa_share : list Z) :=
    let D0 := resize_T num_simd (sqr_Delta_y_share_ g) in
    (* [Delta_y]_i = [delta_a]_i * [delta_a]_i *)
    let D1 := transform1 W (fun x => x * x) delta_a_share D0 in
    (* [Delta_y]_i += [delta_y]_i *)
    let D2 := transform2 W Z.add D1 delta_y_share D1 in
    (* [Delta_y]_i += 2 * [[delta_a]_i * [delta_a]_(1-i)]_i *)
    let D3 := transform2 W (fun x y => x + 2 * y) D2 delta_aa_share D2 in
    Ok (sqr_with_Delta D3 (sqr_with_sessions snd rcv g)) in
  match sqr_mult_sender_ g, sqr_mult_receiver_ g with
  | Some m, rcv =>
      let m := set_inputs delta_a_share m in rest (Some m) rcv (get_outputs m)
  | None, Some m =>
      let m := set_inputs delta_a_share m in rest None (Some m) (get_outputs m)
  | None, None => Throw "null session" g
  end).

(** [ArithmeticBEAVYSQRGate<T>::evaluate_online] up to and including the
    broadcast. *)
Definition SQR_evaluate_online_send (W : Z) (g : ArithmeticBEAVYSQRGate)
  : outcome ArithmeticBEAVYSQRGate :=
  let num_simd := a_num_simd (sqr_input_ g) in
  if negb (a_online_ready (sqr_input_ g)) then Blocked g
  else
    let Delta_a := a_public_share (sqr_input_ g) in
    let delta_a_share := a_secret_share (sqr_input_ g) in
    let tmp := replicate (Z.to_nat num_simd) 0 in
    (* [Delta_y]_i -= 2 * Delta_a * [delta_a]_i *)
    let tmp := transform2 W (fun x y => 2 * x * y) Delta_a delta_a_share tmp in
    let D := transform2 W Z.sub (sqr_Delta_y_share_ g) tmp (sqr_Delta_y_share_ g) in
    (* [Delta_y]_i += Delta_aa (== Delta_a * Delta_a) *)
    let D := if is_my_job (sqr_my_id g) (sqr_gate_id g)
             then transform2 W (fun x y => x + y * y) D Delta_a D
             else D in
    (* broadcast [Delta_y]_i *)
    Ok (sqr_broadcast D (sqr_with_Delta D g)).

(** The rest of [evaluate_online], from [share_future_.get()] on. *)
Definition SQR_evaluate_online_receive (W : Z) (g : ArithmeticBEAVYSQRGate)
  : outcome ArithmeticBEAVYSQRGate :=
  match sqr_share_future_ g with
  | None => Blocked g
  | Some other =>
      (* Delta_y = [Delta_y]_i + [Delta_y]_(1-i) *)
      let D := transform2 W Z.add (sqr_Delta_y_share_ g) other (sqr_Delta_y_share_ g) in
      let g1 := sqr_with_Delta [] (sqr_with_output (a_with_public D (sqr_output_ g)) g) in
      sqr_lift g1 (a_set_online_ready (sqr_output_ g1))
  end.

Definition sqr_last_sent (g : ArithmeticBEAVYSQRGate) : list Z :=
  match last (sqr_sent g) with Some (_, m) => m | None => [] end.

(** The SQR gate on both parties. *)
Definition sqr_protocol (W : Z) (random0 random1 : list Z) (a : wire_views)
           (g0 g1 : ArithmeticBEAVYSQRGate)
  : option (ArithmeticBEAVYSQRGate * ArithmeticBEAVYSQRGate) :=
  s0 ← ok_state (SQR_evaluate_setup W random0 g0);
  s1 ← ok_state (SQR_evaluate_setup W random1 g1);
  o0 ← ok_state (SQR_evaluate_online_send W (sqr_input_now (at_online_0 a) s0));
  o1 ← ok_state (SQR_evaluate_online_send W (sqr_input_now (at_online_1 a) s1));
  f0 ← ok_state (SQR_evaluate_online_receive W (sqr_receive (sqr_last_sent o1) o0));
  f1 ← ok_state (SQR_evaluate_online_receive W (sqr_receive (sqr_last_sent o0) o1));
  Some (f0, f1).

(** Sample gates on [BeavySamples.wire_a]: the session shares
    [10 * 30 = 44 = 50 + 250] and [20 * 40 = 32 = 60 + 228] modulo 256. *)
Definition sqr_gate_0 : ArithmeticBEAVYSQRGate :=
  ArithmeticBEAVYSQRGate_ctor 0 7 (at_setup_0 BeavySamples.wire_a) [50; 60].
Definition sqr_gate_1 : ArithmeticBEAVYSQRGate :=
  ArithmeticBEAVYSQRGate_ctor 1 7 (at_setup_1 BeavySamples.wire_a) [250; 228].

End BeavySqr.

(** ** Boolean gates on a shared store of wires *)

Module BeavyBool.
Import Beavy.

#[global] Instance BooleanBEAVYWire_inhabited : Inhabited BooleanBEAVYWire :=
  populate (new_bwire 0).

(** What a gate can reach besides its own fields: the Boolean wires, held
    through [std::shared_ptr]s (a pointer is an index into [wires], a new
    wire is appended), and the messages handed to the communication layer
    ([sent]: gate id and payload). *)
Record World : Type := mkWorld {
  wires : list BooleanBEAVYWire;
  sent : list (Z * list bool)
}.

Definition wire_at (w : World) (p : nat) : BooleanBEAVYWire := wires w !!! p.
Definition put (p : nat) (x : BooleanBEAVYWire) (w : World) : World :=
  mkWorld (<[p := x]> (wires w)) (sent w).

Definition b_with_secret (v : list bool) (x : BooleanBEAVYWire) : BooleanBEAVYWire :=
  mkBWire (b_num_simd x) v (b_public_share x) (b_setup_ready x) (b_online_ready x).
Definition b_with_public (v : list bool) (x : BooleanBEAVYWire) : BooleanBEAVYWire :=
  mkBWire (b_num_simd x) (b_secret_share x) v (b_setup_ready x) (b_online_ready x).

(** Modelled from the spec: the readiness calls of [BooleanBEAVYWire]
    ([protocols/beavy/wire.h] is not among the sources), "fire exactly once;
    firing twice is a fatal programming error". *)
Definition b_set_setup_ready (p : nat) (w : World) : outcome World :=
  let x := wire_at w p in
  if b_setup_ready x then Throw "setup-ready fired twice" w
  else Ok (put p (mkBWire (b_num_simd x) (b_secret_share x) (b_public_share x) true
                          (b_online_ready x)) w).
Definition b_set_online_ready (p : nat) (w : World) : outcome World :=
  let x := wire_at w p in
  if b_online_ready x then Throw "online-ready fired twice" w
  else Ok (put p (mkBWire (b_num_simd x) (b_secret_share x) (b_public_share x)
                          (b_setup_ready x) true) w).

(** [detail::BasicBooleanBEAVYBinaryGate] *)
Record BasicBooleanBEAVYBinaryGate : Type := mkBinary {
  gate_id_ : Z;
  num_wires_ : nat;
  inputs_a_ : list nat;
  inputs_b_ : list nat;
  outputs_ : list nat
}.

(** The constructor.  Its first parameter is named [in_b] and its second
    [in_a]; [inl] is the [std::logic_error] it throws. *)
Definition BasicBooleanBEAVYBinaryGate_ctor (gate_id : Z) (in_b in_a : list nat) (w : World)
  : string + (BasicBooleanBEAVYBinaryGate * World) :=
  let num_wires := length in_a in
  if decide (num_wires = 0%nat) then inl "number of wires need to be positive"%string
  else if decide (num_wires <> length in_b)
  then inl "number of wires need to be the same for both inputs"%string
  else
    let num_simd := b_num_simd (wire_at w (in_a !!! 0%nat)) in
    if forallb (fun wire_i =>
                  bool_decide (b_num_simd (wire_at w (in_a !!! wire_i)) = num_simd) &&
                  bool_decide (b_num_simd (wire_at w (in_b !!! wire_i)) = num_simd))
               (seq 0 num_wires)
    then
      let outputs := seq (length (wires w)) num_wires in
      inr (mkBinary gate_id num_wires in_a in_b outputs,
           mkWorld (wires w ++ replicate num_wires (new_bwire num_simd)) (sent w))
    else inl "number of SIMD values need to be the same for all wires"%string.

(** [BooleanBEAVYXORGate]: the constructor passes its two wire vectors on. *)
Definition BooleanBEAVYXORGate_ctor (gate_id : Z) (in_a in_b : list nat) (w : World)
  : string + (BasicBooleanBEAVYBinaryGate * World) :=
  BasicBooleanBEAVYBinaryGate_ctor gate_id in_a in_b w.

(** [BooleanBEAVYXORGate::evaluate_setup] *)
Definition XOR_evaluate_setup (g : BasicBooleanBEAVYBinaryGate) (w : World)
  : outcome World :=
  for_each (fun wire_i w =>
    let w_a := inputs_a_ g !!! wire_i in
    let w_b := inputs_b_ g !!! wire_i in
    if negb (b_setup_ready (wire_at w w_a)) then Blocked w
    else if negb (b_setup_ready (wire_at w w_b)) then Blocked w
    else
      let w_o := outputs_ g !!! wire_i in
      let w := put w_o (b_with_secret
                          (OT.bv_xor (b_secret_share (wire_at w w_a))
                                     (b_secret_share (wire_at w w_b)))
                          (wire_at w w_o)) w in
      b_set_setup_ready w_o w)
    (seq 0 (num_wires_ g)) w.

(** [BooleanBEAVYXORGate::evaluate_online] *)
Definition XOR_evaluate_online (g : BasicBooleanBEAVYBinaryGate) (w : World)
  : outcome World :=
  for_each (fun wire_i w =>
    let w_a := inputs_a_ g !!! wire_i in
    let w_b := inputs_b_ g !!! wire_i in
    if negb (b_online_ready (wire_at w w_a)) then Blocked w
    else if negb (b_online_ready (wire_at w w_b)) then Blocked w
    else
      let w_o := outputs_ g !!! wire_i in
      let w := put w_o (b_with_public
                          (OT.bv_xor (b_public_share (wire_at w w_a))
                                     (b_public_share (wire_at w w_b)))
                          (wire_at w w_o)) w in
      b_set_online_ready w_o w)
    (seq 0 (num_wires_ g)) w.

(** The input wires of a gate are ready for a phase. *)
Definition inputs_ready (ready : BooleanBEAVYWire -> bool)
           (g : BasicBooleanBEAVYBinaryGate) (w : World) : Prop :=
  forall p, p ∈ inputs_a_ g ++ inputs_b_ g -> ready (wire_at w p) = true.

(** Two stores differ at most on the wires [ps]. *)
Definition same_outside (ps : list nat) (w w' : World) : Prop :=
  sent w' = sent w /\ length (wires w') = length (wires w) /\
  forall p, p ∉ ps -> wires w' !! p = wires w !! p.

(** Where the constructor leaves a gate: as many inputs on each side as
    wires, inputs that existed before, [base], and the outputs right
    after. *)
Record placed (g : BasicBooleanBEAVYBinaryGate) (base : nat) : Prop := {
  pl_a : length (inputs_a_ g) = num_wires_ g;
  pl_b : length (inputs_b_ g) = num_wires_ g;
  pl_out : outputs_ g = seq base (num_wires_ g);
  pl_in : forall p, p ∈ inputs_a_ g ++ inputs_b_ g -> (p < base)%nat
}.

(** Two wires [a0 a1] and [b0 b1] of SIMD width 3, ready for both phases,
    and a message that some other gate sent. *)
Definition sample_world : World :=
  mkWorld [ mkBWire 3 [true; false; true] [false; false; true] true true;
            mkBWire 3 [false; false; false] [true; true; true] true true;
            mkBWire 3 [true; true; false] [false; true; true] true true;
            mkBWire 3 [false; true; false] [true; false; false] true true ]
          [(5, [true])].

(** The XOR gate that the constructor builds on [a0 a1] and [b0 b1], and
    the store it leaves. *)
Definition sample_xor_gate : BasicBooleanBEAVYBinaryGate :=
  mkBinary 9 2 [2; 3]%nat [0; 1]%nat [4; 5]%nat.
Definition sample_world_1 : World :=
  mkWorld (wires sample_world ++ [new_bwire 3; new_bwire 3]) (sent sample_world).

End BeavyBool.
(** ** [BooleanBEAVYHAMGate<T>] *)

Module BeavyHam.
Import Beavy BeavyBool.
Import OT (BitVector, bit, bv_xor, Subset).

#[global] Instance ArithmeticBEAVYWire_inhabited : Inhabited ArithmeticBEAVYWire :=
  populate (new_awire 0).

Definition b2z (b : bool) : Z := if b then 1 else 0.

(** *** What a call comes to

    Beside returning, throwing and waiting, a call of this gate can leave
    defined behaviour: it goes through a null pointer, or it indexes a
    [std::vector] with [operator[]] outside its size. *)
Inductive fault : Type :=
| NullDereference (what : string)
| OutOfRange (what : string) (index size : nat).

Inductive run (S : Type) : Type :=
| Done (s : S)
| Thrown (what : string) (s : S)
| Waits (s : S)
| Undefined (f : fault).
Arguments Done {S} s.
Arguments Thrown {S} what s.
Arguments Waits {S} s.
Arguments Undefined {S} f.

Definition and_next {S} (r : run S) (f : S -> run S) : run S :=
  match r with
  | Done s => f s
  | Thrown w s => Thrown w s
  | Waits s => Waits s
  | Undefined x => Undefined x
  end.
Notation "r >>! f" := (and_next r f) (at level 50, left associativity).

Definition of_outcome {S} (o : outcome S) : run S :=
  match o with
  | Ok s => Done s
  | Throw w s => Thrown w s
  | Blocked s => Waits s
  end.

Definition done_state {S} (r : run S) : option S :=
  match r with Done s => Some s | _ => None end.

(** A counted [for] loop. *)
Fixpoint run_each {S} (body : nat -> S -> run S) (idx : list nat) (s : S) : run S :=
  match idx with
  | [] => Done s
  | i :: rest => body i s >>! run_each body rest
  end.

(** [v[j]] on a [std::vector]. *)
Definition vec_at {A} (what : string) (v : list A) (j : nat) : fault + A :=
  match v !! j with
  | Some x => inr x
  | None => inl (OutOfRange what j (length v))
  end.

(** *** The gate

    [beavy_arithmetic_wires_[i]] holds one pointer, the result of the
    [dynamic_pointer_cast]; it is kept here as the wire it points to, [None]
    for the null pointer.  Wires are kept by value: [input_] is what the gate
    sees through its shared pointers at the time of the call. *)
Record BooleanBEAVYHAMGate : Type := mkHAM {
  ham_my_id : Z;
  ham_gate_id : Z;
  ham_num_wires_ : nat;
  ham_input_ : list BooleanBEAVYWire;
  ham_random_values_ : list BitVector;
  ham_boolean_wires_ : list BooleanBEAVYWire;
  ham_beavy_arithmetic_wires_ : list (option ArithmeticBEAVYWire);
  ham_public_bits_ : list BitVector;
  ham_output_ : ArithmeticBEAVYWire;
  ham_share_future_ : option BitVector;
  ham_sent : list (Z * Z * BitVector)      (* send_bits_message(to, gate_id, bits) *)
}.

Definition ham_with_random (rs : list BitVector) (bws : list BooleanBEAVYWire)
           (g : BooleanBEAVYHAMGate) : BooleanBEAVYHAMGate :=
  mkHAM (ham_my_id g) (ham_gate_id g) (ham_num_wires_ g) (ham_input_ g) rs bws
        (ham_beavy_arithmetic_wires_ g) (ham_public_bits_ g) (ham_output_ g)
        (ham_share_future_ g) (ham_sent g).
Definition ham_with_arithmetic (ws : list (option ArithmeticBEAVYWire))
           (g : BooleanBEAVYHAMGate) : BooleanBEAVYHAMGate :=
  mkHAM (ham_my_id g) (ham_gate_id g) (ham_num_wires_ g) (ham_input_ g)
        (ham_random_values_ g) (ham_boolean_wires_ g) ws (ham_public_bits_ g)
        (ham_output_ g) (ham_share_future_ g) (ham_sent g).
Definition ham_send (to : Z) (m : BitVector) (g : BooleanBEAVYHAMGate)
  : BooleanBEAVYHAMGate :=
  mkHAM (ham_my_id g) (ham_gate_id g) (ham_num_wires_ g) (ham_input_ g)
        (ham_random_values_ g) (ham_boolean_wires_ g) (ham_beavy_arithmetic_wires_ g)
        (ham_public_bits_ g) (ham_output_ g) (ham_share_future_ g)
        (ham_sent g ++ [(to, ham_gate_id g, m)]).
Definition ham_receive (m : BitVector) (g : BooleanBEAVYHAMGate) : BooleanBEAVYHAMGate :=
  mkHAM (ham_my_id g) (ham_gate_id g) (ham_num_wires_ g) (ham_input_ g)
        (ham_random_values_ g) (ham_boolean_wires_ g) (ham_beavy_arithmetic_wires_ g)
        (ham_public_bits_ g) (ham_output_ g) (Some m) (ham_sent g).
Definition ham_with_public_bits (pb : list BitVector) (g : BooleanBEAVYHAMGate)
  : BooleanBEAVYHAMGate :=
  mkHAM (ham_my_id g) (ham_gate_id g) (ham_num_wires_ g) (ham_input_ g)
        (ham_random_values_ g) (ham_boolean_wires_ g) (ham_beavy_arithmetic_wires_ g)
        pb (ham_output_ g) (ham_share_future_ g) (ham_sent g).
Definition ham_with_output (o : ArithmeticBEAVYWire) (g : BooleanBEAVYHAMGate)
  : BooleanBEAVYHAMGate :=
  mkHAM (ham_my_id g) (ham_gate_id g) (ham_num_wires_ g) (ham_input_ g)
        (ham_random_values_ g) (ham_boolean_wires_ g) (ham_beavy_arithmetic_wires_ g)
        (ham_public_bits_ g) o (ham_share_future_ g) (ham_sent g).
Definition ham_inputs_now (ins : list BooleanBEAVYWire) (g : BooleanBEAVYHAMGate)
  : BooleanBEAVYHAMGate :=
  mkHAM (ham_my_id g) (ham_gate_id g) (ham_num_wires_ g) ins
        (ham_random_values_ g) (ham_boolean_wires_ g) (ham_beavy_arithmetic_wires_ g)
        (ham_public_bits_ g) (ham_output_ g) (ham_share_future_ g) (ham_sent g).

Definition ham_lift (g : BooleanBEAVYHAMGate) (o : outcome ArithmeticBEAVYWire)
  : run BooleanBEAVYHAMGate :=
  of_outcome (map_outcome (fun w => ham_with_output w g) o).

Definition ham_last_sent (g : BooleanBEAVYHAMGate) : BitVector :=
  match last (ham_sent g) with Some (_, _, m) => m | None => [] end.

Definition num_simd_of (g : BooleanBEAVYHAMGate) : Z := b_num_simd (ham_input_ g !!! 0%nat).

(** The constructor, for the ring type [T] of [W] bits.  [input_[0]] on an
    empty vector is out of range.  The conversion gates are made for
    [std::uint64_t] whatever [T] is, so the [dynamic_pointer_cast] of their
    output wire to [ArithmeticBEAVYWire<T>] gives the wire for [W = 64] and
    the null pointer for every other width.  The output wire is made with
    [std::make_shared<ArithmeticBEAVYWire<T>>(num_simd)] and nothing else is
    done to it: its two shares have no slots.

    Modelled from the spec: [external_make_convert_bit_to_arithmetic_beavy_gate]
    is not among the sources; it makes a conversion gate and that gate's
    output wire, "an arithmetic BEAVY wire". *)
Definition BooleanBEAVYHAMGate_ctor (W : Z) (gate_id my_id : Z)
           (in_ : list BooleanBEAVYWire) : run BooleanBEAVYHAMGate :=
  match in_ with
  | [] => Undefined (OutOfRange "input_" 0 0)
  | in0 :: _ =>
      let num_simd := b_num_simd in0 in
      let num_wires := length in_ in
      let arith_wire_p :=
        if decide (W = 64) then Some (new_awire num_simd) else None in
      Done (mkHAM my_id gate_id num_wires in_ []
                  (replicate num_wires (new_bwire num_simd))
                  (replicate num_wires arith_wire_p)
                  [] (new_awire num_simd) None [])
  end.

(** The private wire [boolean_wires_[i]] after the first loop of the setup:
    an all-zero public share, the random bits as secret share, both flags
    fired. *)
Definition make_boolean_wire (num_simd : Z) (r : BitVector) (x : BooleanBEAVYWire)
  : outcome BooleanBEAVYWire :=
  let x := mkBWire (b_num_simd x) r (replicate (Z.to_nat num_simd) false)
                   (b_setup_ready x) (b_online_ready x) in
  if b_setup_ready x then Throw "setup-ready fired twice" x
  else if b_online_ready x then Throw "online-ready fired twice" x
  else Ok (mkBWire (b_num_simd x) (b_secret_share x) (b_public_share x) true true).

(** [p->wait_setup()] and [p->wait_online()] through a pointer of
    [beavy_arithmetic_wires_]. *)
Definition wait_through (flag : ArithmeticBEAVYWire -> bool) (i : nat)
           (g : BooleanBEAVYHAMGate) : run BooleanBEAVYHAMGate :=
  match vec_at "beavy_arithmetic_wires_" (ham_beavy_arithmetic_wires_ g) i with
  | inl f => Undefined f
  | inr None => Undefined (NullDereference "beavy_arithmetic_wires_[i][0]")
  | inr (Some a) => if flag a then Done g else Waits g
  end.

(** [evaluate_setup_with_context] up to and including [send_bits_message].
    [randoms !!! i] is the value of [BitVector<>::Random(num_simd)] for wire
    [i].

    Modelled from the spec: the conversion gates [bit2a_gates_] are not among
    the sources; [converted] are their output wires as the gates leave them,
    each "an arithmetic BEAVY wire" whose value is the bit of
    [boolean_wires_[i]] "cast to the ring".  The gate sees these wires
    through the pointers its constructor stored. *)
Definition HAM_setup_send (randoms : list BitVector) (converted : list ArithmeticBEAVYWire)
           (g : BooleanBEAVYHAMGate) : run BooleanBEAVYHAMGate :=
  let num_simd := num_simd_of g in
  let n := ham_num_wires_ g in
  (* Make wires! *)
  run_each (fun i g =>
      let r := randoms !!! i in
      of_outcome
        (map_outcome (fun x => ham_with_random (<[i := r]> (ham_random_values_ g))
                                               (<[i := x]> (ham_boolean_wires_ g)) g)
                     (make_boolean_wire num_simd r (ham_boolean_wires_ g !!! i))))
    (seq 0 n)
    (ham_with_random (resize n [] (ham_random_values_ g)) (ham_boolean_wires_ g) g)
  >>! (fun g =>
  (* Run the Bit2A protocol! *)
  let g :=
    ham_with_arithmetic
      (imap (fun i p => match p with
                        | Some _ => Some (converted !!! i)
                        | None => None
                        end) (ham_beavy_arithmetic_wires_ g)) g in
  run_each (wait_through a_setup_ready) (seq 0 n) g
  >>! run_each (wait_through a_online_ready) (seq 0 n)
  >>! (fun g =>
  if negb (forallb (fun i => b_setup_ready (ham_input_ g !!! i)) (seq 0 n))
  then Waits g
  else
    let for_other_party :=
      concat (map (fun i => bv_xor (b_secret_share (ham_input_ g !!! i))
                                   (ham_random_values_ g !!! i))
                  (seq 0 n)) in
    Done (ham_send (1 - ham_my_id g) for_other_party g))).

(** The rest of the setup, from [share_future_.get()] on; [random] is the
    value of [Helpers::RandomVector<T>(num_simd)]. *)
Definition HAM_setup_receive (random : list Z) (g : BooleanBEAVYHAMGate)
  : run BooleanBEAVYHAMGate :=
  let num_simd := num_simd_of g in
  let n := ham_num_wires_ g in
  match ham_share_future_ g with
  | None => Waits g
  | Some other_party_share =>
      let for_other_party := ham_last_sent g in
      let public_bits :=
        ham_public_bits_ g
        ++ map (fun i : nat =>
                  let from := Z.of_nat i * num_simd in
                  let to := (Z.of_nat i + 1) * num_simd in
                  let myy := Subset for_other_party from to in
                  let otherr := Subset other_party_share from to in
                  bv_xor myy otherr)
               (seq 0 n) in
      let g := ham_with_public_bits public_bits g in
      ham_lift g (a_set_setup_ready (a_with_secret random (ham_output_ g)))
  end.

(** One slot [j] of the online loop for wire [i]: what the two assignments
    leave in [output_->get_public_share()[j]], whose value was [old]. *)
Definition online_slot (W : Z) (my_id : Z) (i : nat) (ai Delta lambda old : Z) : Z :=
  let old :=
    if my_id =? 0
    then (if (i =? 0)%nat then wrap W (ai + Delta - 2 * ai * Delta)
          else wrap W (old + (ai + Delta - 2 * ai * Delta)))
    else old in
  if (i =? 0)%nat then wrap W (lambda * (2 * ai - 1))
  else wrap W (old + lambda * (2 * ai - 1)).

(** The body of the inner loop: every [operator[]] of the two assignments
    has to be inside its vector; [P] is the output public share. *)
Definition HAM_online_slot (W : Z) (my_id : Z) (i j : nat) (ai : Z)
           (arith : ArithmeticBEAVYWire) (P : list Z) : fault + list Z :=
  let store :=
    match vec_at "beavy_arithmetic_wires_[i][0]->get_secret_share()"
                 (a_secret_share arith) j with
    | inl f => inl f
    | inr lambda =>
        match vec_at "output_->get_public_share()" P j with
        | inl f => inl f
        | inr old =>
            let Delta := nth j (a_public_share arith) 0 in
            inr (<[j := online_slot W my_id i ai Delta lambda old]> P)
        end
    end in
  if my_id =? 0 then
    match vec_at "beavy_arithmetic_wires_[i][0]->get_public_share()"
                 (a_public_share arith) j with
    | inl f => inl f
    | inr _ =>
        match vec_at "output_->get_public_share()" P j with
        | inl f => inl f
        | inr _ => store
        end
    end
  else store.

Fixpoint HAM_online_slots (W : Z) (my_id : Z) (i : nat) (a : BitVector)
         (arith : ArithmeticBEAVYWire) (slots : list nat) (P : list Z) : fault + list Z :=
  match slots with
  | [] => inr P
  | j :: rest =>
      match HAM_online_slot W my_id i j (b2z (bit a j)) arith P with
      | inl f => inl f
      | inr P => HAM_online_slots W my_id i a arith rest P
      end
  end.

(** The body of the online loop for wire [i]. *)
Definition HAM_online_wire (W : Z) (i : nat) (g : BooleanBEAVYHAMGate)
  : run BooleanBEAVYHAMGate :=
  let num_simd := num_simd_of g in
  if negb (b_online_ready (ham_input_ g !!! i)) then Waits g
  else
    let public_value := b_public_share (ham_input_ g !!! i) in
    match vec_at "public_bits_" (ham_public_bits_ g) i with
    | inl f => Undefined f
    | inr bits =>
        let a := bv_xor public_value bits in
        if decide (0 < num_simd) then
          match vec_at "beavy_arithmetic_wires_" (ham_beavy_arithmetic_wires_ g) i with
          | inl f => Undefined f
          | inr None => Undefined (NullDereference "beavy_arithmetic_wires_[i][0]")
          | inr (Some arith) =>
              match HAM_online_slots W (ham_my_id g) i a arith
                      (seq 0 (Z.to_nat num_simd)) (a_public_share (ham_output_ g)) with
              | inl f => Undefined f
              | inr P => Done (ham_with_output (a_with_public P (ham_output_ g)) g)
              end
          end
        else Done g
    end.

(** [evaluate_online_with_context] *)
Definition HAM_evaluate_online (W : Z) (g : BooleanBEAVYHAMGate)
  : run BooleanBEAVYHAMGate :=
  if negb (a_setup_ready (ham_output_ g)) then Waits g
  else
    run_each (HAM_online_wire W) (seq 0 (ham_num_wires_ g)) g >>! (fun g =>
    (* IMPORTANT: output_ public shares are set. They are different for both
       the parties! *)
    ham_lift g (a_set_online_ready (ham_output_ g))).

(** *** The popcount sample: 16 wires, one SIMD slot

    Wire [i] carries bit [i] of [0x1234]; the masks and the random bits
    follow fixed patterns. *)
Module Sample.

Definition plain (i : nat) : bool := Z.testbit 0x1234 (Z.of_nat i).
Definition mask0 (i : nat) : bool := Nat.odd i.
Definition mask1 (i : nat) : bool := (i mod 3 =? 0)%nat.
Definition rand0 (i : nat) : bool := (i mod 4 =? 1)%nat.
Definition rand1 (i : nat) : bool := (i mod 5 =? 0)%nat.

Definition ins_setup (mask : nat -> bool) : list BooleanBEAVYWire :=
  map (fun i => mkBWire 1 [mask i] [] true false) (seq 0 16).
Definition ins_online (mask : nat -> bool) : list BooleanBEAVYWire :=
  map (fun i => mkBWire 1 [mask i] [xorb (xorb (plain i) (mask0 i)) (mask1 i)] true true)
      (seq 0 16).

Definition randoms (rand : nat -> bool) : list BitVector :=
  map (fun i => [rand i]) (seq 0 16).

(** The arithmetic wire for the random bit of wire [i], as the conversion
    gate of party [k] leaves it: secret shares [i + 1] and [2 * i + 3]. *)
Definition converted (k : Z) : list ArithmeticBEAVYWire :=
  map (fun i : nat =>
         let l0 := Z.of_nat i + 1 in
         let l1 := 2 * Z.of_nat i + 3 in
         mkAWire 1 [if k =? 0 then l0 else l1]
                 [wrap 64 (b2z (xorb (rand0 i) (rand1 i)) + l0 + l1)] true true)
      (seq 0 16).

(** The peer's message of the setup: its input secret shares xor its random
    bits. *)
Definition message (mask rand : nat -> bool) : BitVector :=
  map (fun i => xorb (mask i) (rand i)) (seq 0 16).

(** Party 0's gate with gate id 3, for the ring type of [W] bits: the
    constructor, the setup with the peer's message, the online phase. *)
Definition built (W : Z) : run BooleanBEAVYHAMGate :=
  BooleanBEAVYHAMGate_ctor W 3 0 (ins_setup mask0).
Definition after_setup (W : Z) : run BooleanBEAVYHAMGate :=
  built W >>! HAM_setup_send (randoms rand0) (converted 0)
  >>! (fun p => HAM_setup_receive [7] (ham_receive (message mask1 rand1) p)).
Definition after_online (W : Z) : run BooleanBEAVYHAMGate :=
  after_setup W >>! (fun g => HAM_evaluate_online W (ham_inputs_now (ins_online mask0) g)).

End Sample.

End BeavyHam.
(** ** Arithmetic gates without interaction, input and output gates *)

Module BeavyArith.
Import Beavy.

(** *** [detail::BasicArithmeticBEAVYBinaryGate<T>] and
    [detail::BasicArithmeticBEAVYUnaryGate<T>] *)

Record BasicArithmeticBEAVYBinaryGate : Type := mkABinary {
  bin_gate_id : Z;
  bin_input_a_ : ArithmeticBEAVYWire;
  bin_input_b_ : ArithmeticBEAVYWire;
  bin_output_ : ArithmeticBEAVYWire
}.

Record BasicArithmeticBEAVYUnaryGate : Type := mkAUnary {
  un_gate_id : Z;
  un_input_ : ArithmeticBEAVYWire;
  un_output_ : ArithmeticBEAVYWire
}.

Definition bin_with_output (w : ArithmeticBEAVYWire) (g : BasicArithmeticBEAVYBinaryGate)
  : BasicArithmeticBEAVYBinaryGate :=
  mkABinary (bin_gate_id g) (bin_input_a_ g) (bin_input_b_ g) w.
Definition un_with_output (w : ArithmeticBEAVYWire) (g : BasicArithmeticBEAVYUnaryGate)
  : BasicArithmeticBEAVYUnaryGate :=
  mkAUnary (un_gate_id g) (un_input_ g) w.

(** The member initialisers make the output wire; the body throws when the
    SIMD widths differ. *)
Definition BasicArithmeticBEAVYBinaryGate_ctor (gate_id : Z)
           (in_a in_b : ArithmeticBEAVYWire) : outcome BasicArithmeticBEAVYBinaryGate :=
  let g := mkABinary gate_id in_a in_b (new_awire (a_num_simd in_a)) in
  if decide (a_num_simd in_a <> a_num_simd in_b)
  then Throw "number of SIMD values need to be the same for all wires" g
  else Ok g.

Definition BasicArithmeticBEAVYUnaryGate_ctor (gate_id : Z) (in_ : ArithmeticBEAVYWire)
  : outcome BasicArithmeticBEAVYUnaryGate :=
  Ok (mkAUnary gate_id in_ (new_awire (a_num_simd in_))).

(** [get_public_share().resize(n)] and [get_secret_share().resize(n)] *)
Definition resize_shares (n : Z) (w : ArithmeticBEAVYWire) : ArithmeticBEAVYWire :=
  a_with_secret (resize_T n (a_secret_share w))
                (a_with_public (resize_T n (a_public_share w)) w).

(** Between the two phases the gates that own the input wires set their
    public shares and mark them online-ready. *)
Definition bin_inputs_now (a b : ArithmeticBEAVYWire) (g : BasicArithmeticBEAVYBinaryGate)
  : BasicArithmeticBEAVYBinaryGate :=
  mkABinary (bin_gate_id g) a b (bin_output_ g).
Definition un_input_now (a : ArithmeticBEAVYWire) (g : BasicArithmeticBEAVYUnaryGate)
  : BasicArithmeticBEAVYUnaryGate :=
  mkAUnary (un_gate_id g) a (un_output_ g).

(** *** [ArithmeticBEAVYADDGate<T>] *)

Definition ArithmeticBEAVYADDGate_ctor (gate_id : Z) (in_a in_b : ArithmeticBEAVYWire)
  : outcome BasicArithmeticBEAVYBinaryGate :=
  BasicArithmeticBEAVYBinaryGate_ctor gate_id in_a in_b >>> (fun g =>
  Ok (bin_with_output (resize_shares (a_num_simd (bin_input_a_ g)) (bin_output_ g)) g)).

(** [evaluate_setup]; the two [assert]s compare sizes and store nothing. *)
Definition ADD_evaluate_setup (W : Z) (g : BasicArithmeticBEAVYBinaryGate)
  : outcome BasicArithmeticBEAVYBinaryGate :=
  if negb (a_setup_ready (bin_input_a_ g)) then Blocked g
  else if negb (a_setup_ready (bin_input_b_ g)) then Blocked g
  else
    let out := bin_output_ g in
    let sum := transform2 W Z.add (a_secret_share (bin_input_a_ g))
                          (a_secret_share (bin_input_b_ g)) (a_secret_share out) in
    map_outcome (fun w => bin_with_output w g) (a_set_setup_ready (a_with_secret sum out)).

Definition ADD_evaluate_online (W : Z) (g : BasicArithmeticBEAVYBinaryGate)
  : outcome BasicArithmeticBEAVYBinaryGate :=
  if negb (a_online_ready (bin_input_a_ g)) then Blocked g
  else if negb (a_online_ready (bin_input_b_ g)) then Blocked g
  else
    let out := bin_output_ g in
    let sum := transform2 W Z.add (a_public_share (bin_input_a_ g))
                          (a_public_share (bin_input_b_ g)) (a_public_share out) in
    map_outcome (fun w => bin_with_output w g) (a_set_online_ready (a_with_public sum out)).

(** *** [ArithmeticBEAVYNEGGate<T>] *)

Definition ArithmeticBEAVYNEGGate_ctor (gate_id : Z) (in_ : ArithmeticBEAVYWire)
  : outcome BasicArithmeticBEAVYUnaryGate :=
  BasicArithmeticBEAVYUnaryGate_ctor gate_id in_ >>> (fun g =>
  Ok (un_with_output (resize_shares (a_num_simd (un_input_ g)) (un_output_ g)) g)).

Definition NEG_evaluate_setup (W : Z) (g : BasicArithmeticBEAVYUnaryGate)
  : outcome BasicArithmeticBEAVYUnaryGate :=
  if negb (a_setup_ready (un_input_ g)) then Blocked g
  else
    let out := un_output_ g in
    let neg := transform1 W Z.opp (a_secret_share (un_input_ g)) (a_secret_share out) in
    map_outcome (fun w => un_with_output w g) (a_set_setup_ready (a_with_secret neg out)).

Definition NEG_evaluate_online (W : Z) (g : BasicArithmeticBEAVYUnaryGate)
  : outcome BasicArithmeticBEAVYUnaryGate :=
  if negb (a_online_ready (un_input_ g)) then Blocked g
  else
    let out := un_output_ g in
    let neg := transform1 W Z.opp (a_public_share (un_input_ g)) (a_public_share out) in
    map_outcome (fun w => un_with_output w g) (a_set_online_ready (a_with_public neg out)).

(** Both parties run a gate without interaction: setup on each, then online
    on each once the inputs carry their public shares.  The result is the
    output wire as the two parties see it after each phase. *)
Definition add_protocol (W : Z) (a b : wire_views) (g0 g1 : BasicArithmeticBEAVYBinaryGate)
  : option wire_views :=
  s0 ← ok_state (ADD_evaluate_setup W g0);
  s1 ← ok_state (ADD_evaluate_setup W g1);
  o0 ← ok_state (ADD_evaluate_online W (bin_inputs_now (at_online_0 a) (at_online_0 b) s0));
  o1 ← ok_state (ADD_evaluate_online W (bin_inputs_now (at_online_1 a) (at_online_1 b) s1));
  Some (mkViews (bin_output_ s0) (bin_output_ s1) (bin_output_ o0) (bin_output_ o1)).

Definition neg_protocol (W : Z) (a : wire_views) (g0 g1 : BasicArithmeticBEAVYUnaryGate)
  : option wire_views :=
  s0 ← ok_state (NEG_evaluate_setup W g0);
  s1 ← ok_state (NEG_evaluate_setup W g1);
  o0 ← ok_state (NEG_evaluate_online W (un_input_now (at_online_0 a) s0));
  o1 ← ok_state (NEG_evaluate_online W (un_input_now (at_online_1 a) s1));
  Some (mkViews (un_output_ s0) (un_output_ s1) (un_output_ o0) (un_output_ o1)).

(** The readiness for setup is still there when the online phase runs. *)
Definition setup_kept (v : wire_views) : Prop :=
  a_setup_ready (at_online_0 v) = true /\ a_setup_ready (at_online_1 v) = true.

(** Slot by slot: the plaintext vector [f x_j y_j] on [n] slots. *)
Definition slotwise (f : Z -> Z -> Z) (n : Z) (x y : list Z) : list Z :=
  map (fun j => f (nth j x 0) (nth j y 0)) (seq 0 (Z.to_nat n)).

(** *** Messages of the input and output gates

    [broadcast_ints_message(gate_id, v)] and
    [send_ints_message(party, gate_id, v)] of the provider. *)
Inductive ints_message : Type :=
| Broadcast (gate_id : Z) (v : list Z)
| SendTo (party : Z) (gate_id : Z) (v : list Z).

Definition payload_of (m : ints_message) : list Z :=
  match m with Broadcast _ v | SendTo _ _ v => v end.

(** Modelled from the spec: the randomness generators of the base provider
    are not among the sources.  "Its initial public share is lambda plus the
    sum of per-peer pseudorandom streams seeded from shared key material.
    The peer, in its own setup, derives the same pseudorandom stream and
    stores it as its secret share."  [GetUnsigned<T>(input_id, num_simd)] of
    the generator kept for [party_id] is a function of its arguments. *)
Record MotionBaseProvider : Type := mkMBP {
  get_my_randomness_generator : Z -> Z -> Z -> list Z;
  get_their_randomness_generator : Z -> Z -> Z -> list Z
}.

(** *** [ArithmeticBEAVYInputGateSender<T>] *)

Record ArithmeticBEAVYInputGateSender : Type := mkInS {
  ins_gate_id : Z;
  ins_my_id : Z;
  ins_num_parties : Z;
  ins_mbp : MotionBaseProvider;
  ins_num_simd_ : Z;
  ins_input_id_ : Z;
  ins_input_future_ : option (list Z);   (* the caller's input, once it is there *)
  ins_output_ : ArithmeticBEAVYWire;
  ins_sent : list ints_message
}.

Definition ins_with_output (w : ArithmeticBEAVYWire) (g : ArithmeticBEAVYInputGateSender)
  : ArithmeticBEAVYInputGateSender :=
  mkInS (ins_gate_id g) (ins_my_id g) (ins_num_parties g) (ins_mbp g) (ins_num_simd_ g)
        (ins_input_id_ g) (ins_input_future_ g) w (ins_sent g).
Definition ins_send (m : ints_message) (g : ArithmeticBEAVYInputGateSender)
  : ArithmeticBEAVYInputGateSender :=
  mkInS (ins_gate_id g) (ins_my_id g) (ins_num_parties g) (ins_mbp g) (ins_num_simd_ g)
        (ins_input_id_ g) (ins_input_future_ g) (ins_output_ g) (ins_sent g ++ [m]).
Definition ins_set_input (v : list Z) (g : ArithmeticBEAVYInputGateSender)
  : ArithmeticBEAVYInputGateSender :=
  mkInS (ins_gate_id g) (ins_my_id g) (ins_num_parties g) (ins_mbp g) (ins_num_simd_ g)
        (ins_input_id_ g) (Some v) (ins_output_ g) (ins_sent g).

(** The constructor; [input_id] is the value of
    [beavy_provider.get_next_input_id(1)]. *)
Definition ArithmeticBEAVYInputGateSender_ctor (gate_id my_id num_parties : Z)
           (mbp : MotionBaseProvider) (num_simd input_id : Z)
  : ArithmeticBEAVYInputGateSender :=
  let output := new_awire num_simd in
  mkInS gate_id my_id num_parties mbp num_simd input_id None
        (a_with_public (resize_T num_simd (a_public_share output)) output) [].

(** [evaluate_setup]; [random] is the value of
    [Helpers::RandomVector<T>(num_simd_)]. *)
Definition InS_evaluate_setup (W : Z) (random : list Z) (g : ArithmeticBEAVYInputGateSender)
  : outcome ArithmeticBEAVYInputGateSender :=
  map_outcome (fun w => ins_with_output w g)
              (a_set_setup_ready (a_with_secret random (ins_output_ g)))
  >>> (fun g =>
  let my_secret_share := a_secret_share (ins_output_ g) in
  let my_public_share :=
    foldl (fun public party_id =>
             if decide (party_id = ins_my_id g) then public
             else transform2 W Z.add public
                    (get_my_randomness_generator (ins_mbp g) party_id
                       (ins_input_id_ g) (ins_num_simd_ g))
                    public)
          my_secret_share
          (map Z.of_nat (seq 0 (Z.to_nat (ins_num_parties g)))) in
  Ok (ins_with_output (a_with_public my_public_share (ins_output_ g)) g)).

Definition InS_evaluate_online (W : Z) (g : ArithmeticBEAVYInputGateSender)
  : outcome ArithmeticBEAVYInputGateSender :=
  match ins_input_future_ g with
  | None => Blocked g
  | Some input =>
      if decide (Z.of_nat (length input) <> ins_num_simd_ g)
      then Throw "size of input bit vector != num_simd_" g
      else
        let my_public_share :=
          transform2 W Z.add (a_public_share (ins_output_ g)) input
                     (a_public_share (ins_output_ g)) in
        map_outcome (fun w => ins_with_output w g)
                    (a_set_online_ready (a_with_public my_public_share (ins_output_ g)))
        >>> (fun g => Ok (ins_send (Broadcast (ins_gate_id g)
                                              (a_public_share (ins_output_ g))) g))
  end.

(** *** [ArithmeticBEAVYInputGateReceiver<T>] *)

Record ArithmeticBEAVYInputGateReceiver : Type := mkInR {
  inr_gate_id : Z;
  inr_mbp : MotionBaseProvider;
  inr_num_simd_ : Z;
  inr_input_owner_ : Z;
  inr_input_id_ : Z;
  inr_output_ : ArithmeticBEAVYWire;
  inr_public_share_future_ : option (list Z)   (* the owner's broadcast *)
}.

Definition inr_with_output (w : ArithmeticBEAVYWire) (g : ArithmeticBEAVYInputGateReceiver)
  : ArithmeticBEAVYInputGateReceiver :=
  mkInR (inr_gate_id g) (inr_mbp g) (inr_num_simd_ g) (inr_input_owner_ g)
        (inr_input_id_ g) w (inr_public_share_future_ g).
Definition inr_receive (v : list Z) (g : ArithmeticBEAVYInputGateReceiver)
  : ArithmeticBEAVYInputGateReceiver :=
  mkInR (inr_gate_id g) (inr_mbp g) (inr_num_simd_ g) (inr_input_owner_ g)
        (inr_input_id_ g) (inr_output_ g) (Some v).

Definition ArithmeticBEAVYInputGateReceiver_ctor (gate_id : Z) (mbp : MotionBaseProvider)
           (num_simd input_owner input_id : Z) : ArithmeticBEAVYInputGateReceiver :=
  mkInR gate_id mbp num_simd input_owner input_id (new_awire num_simd) None.

Definition InR_evaluate_setup (g : ArithmeticBEAVYInputGateReceiver)
  : outcome ArithmeticBEAVYInputGateReceiver :=
  let secret :=
    get_their_randomness_generator (inr_mbp g) (inr_input_owner_ g)
      (inr_input_id_ g) (inr_num_simd_ g) in
  map_outcome (fun w => inr_with_output w g)
              (a_set_setup_ready (a_with_secret secret (inr_output_ g))).

Definition InR_evaluate_online (g : ArithmeticBEAVYInputGateReceiver)
  : outcome ArithmeticBEAVYInputGateReceiver :=
  match inr_public_share_future_ g with
  | None => Blocked g
  | Some public =>
      map_outcome (fun w => inr_with_output w g)
                  (a_set_online_ready (a_with_public public (inr_output_ g)))
  end.

(** What the owner of an input broadcast last. *)
Definition ins_last_sent (g : ArithmeticBEAVYInputGateSender) : list Z :=
  match last (ins_sent g) with Some m => payload_of m | None => [] end.

(** An input of the party [ins_my_id s], shared with the other party: both
    setups, the owner's online phase, delivery of its broadcast, the other
    party's online phase. *)
Definition input_protocol (W : Z) (random input : list Z)
           (s : ArithmeticBEAVYInputGateSender) (r : ArithmeticBEAVYInputGateReceiver)
  : option (ArithmeticBEAVYInputGateSender * ArithmeticBEAVYInputGateReceiver *
            ArithmeticBEAVYInputGateSender * ArithmeticBEAVYInputGateReceiver) :=
  s1 ← ok_state (InS_evaluate_setup W random s);
  r1 ← ok_state (InR_evaluate_setup r);
  s2 ← ok_state (InS_evaluate_online W (ins_set_input input s1));
  r2 ← ok_state (InR_evaluate_online (inr_receive (ins_last_sent s2) r1));
  Some (s1, r1, s2, r2).

(** The wire as the two parties see it, party 0 first. *)
Definition input_views (owner : Z)
           (s1 : ArithmeticBEAVYInputGateSender) (r1 : ArithmeticBEAVYInputGateReceiver)
           (s2 : ArithmeticBEAVYInputGateSender) (r2 : ArithmeticBEAVYInputGateReceiver)
  : wire_views :=
  if decide (owner = 0)
  then mkViews (ins_output_ s1) (inr_output_ r1) (ins_output_ s2) (inr_output_ r2)
  else mkViews (inr_output_ r1) (ins_output_ s1) (inr_output_ r2) (ins_output_ s2).

(** *** [ArithmeticBEAVYOutputGate<T>]

    [ALL_PARTIES] is a constant of the provider's header, which is not among
    the sources; the gate compares [output_owner_] with it and with
    [my_id]. *)

Section OutputGate.

Variable ALL_PARTIES : Z.

Record ArithmeticBEAVYOutputGate : Type := mkOut {
  out_gate_id : Z;
  out_my_id : Z;
  out_output_owner_ : Z;
  out_input_ : ArithmeticBEAVYWire;
  out_share_registered : bool;            (* register_for_ints_message was called *)
  out_share_future_ : option (list Z);    (* the peer's secret share *)
  out_output_promise_ : option (list Z);
  out_sent : list ints_message
}.

Definition out_send (m : ints_message) (g : ArithmeticBEAVYOutputGate)
  : ArithmeticBEAVYOutputGate :=
  mkOut (out_gate_id g) (out_my_id g) (out_output_owner_ g) (out_input_ g)
        (out_share_registered g) (out_share_future_ g) (out_output_promise_ g)
        (out_sent g ++ [m]).
Definition out_set_value (v : list Z) (g : ArithmeticBEAVYOutputGate)
  : ArithmeticBEAVYOutputGate :=
  mkOut (out_gate_id g) (out_my_id g) (out_output_owner_ g) (out_input_ g)
        (out_share_registered g) (out_share_future_ g) (Some v) (out_sent g).
Definition out_receive (v : list Z) (g : ArithmeticBEAVYOutputGate)
  : ArithmeticBEAVYOutputGate :=
  mkOut (out_gate_id g) (out_my_id g) (out_output_owner_ g) (out_input_ g)
        (out_share_registered g)
        (if out_share_registered g then Some v else out_share_future_ g)
        (out_output_promise_ g) (out_sent g).
Definition out_input_now (a : ArithmeticBEAVYWire) (g : ArithmeticBEAVYOutputGate)
  : ArithmeticBEAVYOutputGate :=
  mkOut (out_gate_id g) (out_my_id g) (out_output_owner_ g) a
        (out_share_registered g) (out_share_future_ g) (out_output_promise_ g)
        (out_sent g).

Definition mine (g : ArithmeticBEAVYOutputGate) : bool :=
  bool_decide (out_output_owner_ g = ALL_PARTIES) ||
  bool_decide (out_output_owner_ g = out_my_id g).

Definition ArithmeticBEAVYOutputGate_ctor (gate_id my_id : Z) (input : ArithmeticBEAVYWire)
           (output_owner : Z) : ArithmeticBEAVYOutputGate :=
  mkOut gate_id my_id output_owner input
        (bool_decide (output_owner = ALL_PARTIES) || bool_decide (output_owner = my_id))
        None None [].

(** [get_output_future]: the future of [output_promise_], or
    [std::logic_error]. *)
Definition get_output_future (g : ArithmeticBEAVYOutputGate)
  : string + option (list Z) :=
  if mine g then inr (out_output_promise_ g)
  else inl "not this parties output"%string.

Definition Out_evaluate_setup (g : ArithmeticBEAVYOutputGate)
  : outcome ArithmeticBEAVYOutputGate :=
  if decide (out_output_owner_ g <> out_my_id g) then
    if negb (a_setup_ready (out_input_ g)) then Blocked g
    else
      let my_secret_share := a_secret_share (out_input_ g) in
      if decide (out_output_owner_ g = ALL_PARTIES)
      then Ok (out_send (Broadcast (out_gate_id g) my_secret_share) g)
      else Ok (out_send (SendTo (out_output_owner_ g) (out_gate_id g) my_secret_share) g)
  else Ok g.

Definition Out_evaluate_online (W : Z) (g : ArithmeticBEAVYOutputGate)
  : outcome ArithmeticBEAVYOutputGate :=
  if mine g then
    if negb (a_setup_ready (out_input_ g)) then Blocked g
    else
      let my_secret_share := a_secret_share (out_input_ g) in
      match out_share_future_ g with
      | None => Blocked g
      | Some other_secret_share =>
          let sum := transform2 W Z.add my_secret_share other_secret_share
                                my_secret_share in
          if negb (a_online_ready (out_input_ g)) then Blocked g
          else
            Ok (out_set_value
                  (transform2 W Z.sub (a_public_share (out_input_ g)) sum sum) g)
      end
  else Ok g.

(** The messages of [from] that reach the party [to_]. *)
Definition reaches (to_ : Z) (m : ints_message) : bool :=
  match m with
  | Broadcast _ _ => true
  | SendTo party _ _ => bool_decide (party = to_)
  end.

Definition deliver (to_ : Z) (ms : list ints_message) (g : ArithmeticBEAVYOutputGate)
  : ArithmeticBEAVYOutputGate :=
  foldl (fun g m => if reaches to_ m then out_receive (payload_of m) g else g) g ms.

(** The output gate on both parties: setup on each, delivery of what each
    one sent, online on each. *)
Definition output_protocol (W : Z) (a : wire_views) (g0 g1 : ArithmeticBEAVYOutputGate)
  : option (ArithmeticBEAVYOutputGate * ArithmeticBEAVYOutputGate) :=
  s0 ← ok_state (Out_evaluate_setup g0);
  s1 ← ok_state (Out_evaluate_setup g1);
  f0 ← ok_state (Out_evaluate_online W
                   (out_input_now (at_online_0 a) (deliver 0 (out_sent s1) s0)));
  f1 ← ok_state (Out_evaluate_online W
                   (out_input_now (at_online_1 a) (deliver 1 (out_sent s0) s1)));
  Some (f0, f1).

(** The plaintext [x] reaches the party: its future holds [x] modulo 2^W
    on [n] slots. *)
Definition reveals (W n : Z) (x : list Z) (f : ArithmeticBEAVYOutputGate) : Prop :=
  exists v, get_output_future f = inr (Some v) /\
            length v = Z.to_nat n /\
            forall j, (j < Z.to_nat n)%nat -> nth j v 0 = wrap W (nth j x 0).

End OutputGate.

(** *** [ArithmeticBEAVYMULNIGate<T>] *)

Record ArithmeticBEAVYMULNIGate : Type := mkMULNI {
  ni_my_id : Z;
  ni_gate_id : Z;
  ni_input_a_ : ArithmeticBEAVYWire;
  ni_input_b_ : ArithmeticBEAVYWire;
  ni_output_ : ArithmeticBEAVYWire;
  ni_Delta_y_share_ : list Z;
  ni_mult_sender_ : IntegerMultiplication;
  ni_mult_receiver_ : IntegerMultiplication
}.

Definition ni_with_output (w : ArithmeticBEAVYWire) (g : ArithmeticBEAVYMULNIGate)
  : ArithmeticBEAVYMULNIGate :=
  mkMULNI (ni_my_id g) (ni_gate_id g) (ni_input_a_ g) (ni_input_b_ g) w
          (ni_Delta_y_share_ g) (ni_mult_sender_ g) (ni_mult_receiver_ g).
Definition ni_with_Delta (d : list Z) (g : ArithmeticBEAVYMULNIGate)
  : ArithmeticBEAVYMULNIGate :=
  mkMULNI (ni_my_id g) (ni_gate_id g) (ni_input_a_ g) (ni_input_b_ g) (ni_output_ g)
          d (ni_mult_sender_ g) (ni_mult_receiver_ g).
Definition ni_with_sessions (s r : IntegerMultiplication) (g : ArithmeticBEAVYMULNIGate)
  : ArithmeticBEAVYMULNIGate :=
  mkMULNI (ni_my_id g) (ni_gate_id g) (ni_input_a_ g) (ni_input_b_ g) (ni_output_ g)
          (ni_Delta_y_share_ g) s r.
Definition ni_inputs_now (a b : ArithmeticBEAVYWire) (g : ArithmeticBEAVYMULNIGate)
  : ArithmeticBEAVYMULNIGate :=
  mkMULNI (ni_my_id g) (ni_gate_id g) a b (ni_output_ g) (ni_Delta_y_share_ g)
          (ni_mult_sender_ g) (ni_mult_receiver_ g).

(** The constructor; [snd_out] and [rcv_out] are what the two sessions it
    registers will deliver. *)
Definition ArithmeticBEAVYMULNIGate_ctor (my_id gate_id : Z)
           (in_a in_b : ArithmeticBEAVYWire) (snd_out rcv_out : list Z)
  : outcome ArithmeticBEAVYMULNIGate :=
  map_outcome (fun g => mkMULNI my_id gate_id (bin_input_a_ g) (bin_input_b_ g)
                                (bin_output_ g) [] (mkSession [] snd_out)
                                (mkSession [] rcv_out))
              (BasicArithmeticBEAVYBinaryGate_ctor gate_id in_a in_b).

Definition MULNI_evaluate_setup (W : Z) (random : list Z) (g : ArithmeticBEAVYMULNIGate)
  : outcome ArithmeticBEAVYMULNIGate :=
  let num_simd := a_num_simd (ni_input_a_ g) in
  map_outcome (fun w => ni_with_output w g)
              (a_set_setup_ready (a_with_secret random (ni_output_ g)))
  >>> (fun g =>
  if negb (a_setup_ready (ni_input_a_ g)) then Blocked g
  else if negb (a_setup_ready (ni_input_b_ g)) then Blocked g
  else
    let delta_a_share := a_secret_share (ni_input_a_ g) in
    let delta_b_share := a_secret_share (ni_input_b_ g) in
    let mult_receiver := set_inputs delta_a_share (ni_mult_receiver_ g) in
    let mult_sender := set_inputs delta_b_share (ni_mult_sender_ g) in
    let D0 := resize_T num_simd (ni_Delta_y_share_ g) in
    (* [Delta_y]_i = [delta_a]_i * [delta_b]_i *)
    let D1 := transform2 W Z.mul delta_a_share delta_b_share D0 in
    let delta_ab_share1 := get_outputs mult_receiver in
    let delta_ab_share2 := get_outputs mult_sender in
    let D2 := transform2 W Z.add D1 delta_ab_share1 D1 in
    let D3 := transform2 W Z.add D2 delta_ab_share2 D2 in
    Ok (ni_with_Delta D3 (ni_with_sessions mult_sender mult_receiver g))).

(** [evaluate_online]: nothing is broadcast; [Delta_y_share_] is moved into
    the output's public share. *)
Definition MULNI_evaluate_online (W : Z) (g : ArithmeticBEAVYMULNIGate)
  : outcome ArithmeticBEAVYMULNIGate :=
  let num_simd := a_num_simd (ni_input_a_ g) in
  if negb (a_online_ready (ni_input_a_ g)) then Blocked g
  else if negb (a_online_ready (ni_input_b_ g)) then Blocked g
  else
    let Delta_a := a_public_share (ni_input_a_ g) in
    let Delta_b := a_public_share (ni_input_b_ g) in
    let delta_a_share := a_secret_share (ni_input_a_ g) in
    let delta_b_share := a_secret_share (ni_input_b_ g) in
    let tmp0 := replicate (Z.to_nat num_simd) 0 in
    (* [Delta_y]_i -= Delta_a * [delta_b]_i *)
    let tmp1 := transform2 W Z.mul Delta_a delta_b_share tmp0 in
    let D1 := transform2 W Z.sub (ni_Delta_y_share_ g) tmp1 (ni_Delta_y_share_ g) in
    (* [Delta_y]_i -= Delta_b * [delta_a]_i *)
    let tmp2 := transform2 W Z.mul Delta_b delta_a_share tmp1 in
    let D2 := transform2 W Z.sub D1 tmp2 D1 in
    (* [Delta_y]_i += Delta_ab (== Delta_a * Delta_b) *)
    let D3 :=
      if is_my_job (ni_my_id g) (ni_gate_id g) then
        let tmp3 := transform2 W Z.mul Delta_a Delta_b tmp2 in
        transform2 W Z.add D2 tmp3 D2
      else D2 in
    let g1 := ni_with_Delta [] (ni_with_output (a_with_public D3 (ni_output_ g)) g) in
    map_outcome (fun w => ni_with_output w g1) (a_set_online_ready (ni_output_ g1)).

Definition mulni_protocol (W : Z) (random0 random1 : list Z) (a b : wire_views)
           (g0 g1 : ArithmeticBEAVYMULNIGate)
  : option (ArithmeticBEAVYMULNIGate * ArithmeticBEAVYMULNIGate) :=
  s0 ← ok_state (MULNI_evaluate_setup W random0 g0);
  s1 ← ok_state (MULNI_evaluate_setup W random1 g1);
  f0 ← ok_state (MULNI_evaluate_online W
                   (ni_inputs_now (at_online_0 a) (at_online_0 b) s0));
  f1 ← ok_state (MULNI_evaluate_online W
                   (ni_inputs_now (at_online_1 a) (at_online_1 b) s1));
  Some (f0, f1).

End BeavyArith.

(** ** Samples for the gates above: W = 8, two SIMD slots *)

Module BeavyArithSamples.
Import Beavy BeavyArith BeavySamples.

(** The generator the two parties share gives [40; 50] for input 3. *)
Definition mbp : MotionBaseProvider :=
  mkMBP (fun _ input_id _ => if decide (input_id = 3) then [40; 50] else [0; 0])
        (fun _ input_id _ => if decide (input_id = 3) then [40; 50] else [0; 0]).

Definition input_sender : ArithmeticBEAVYInputGateSender :=
  ArithmeticBEAVYInputGateSender_ctor 11 1 2 mbp 2 3.
Definition input_receiver : ArithmeticBEAVYInputGateReceiver :=
  ArithmeticBEAVYInputGateReceiver_ctor 11 mbp 2 1 3.

Definition all_parties : Z := 2 ^ 64 - 1.

Definition output_gate (my_id owner : Z) (w : ArithmeticBEAVYWire)
  : ArithmeticBEAVYOutputGate :=
  ArithmeticBEAVYOutputGate_ctor all_parties 12 my_id w owner.

Definition mulni_gate_0 : ArithmeticBEAVYMULNIGate :=
  mkMULNI 0 7 (at_setup_0 wire_a) (at_setup_0 wire_b) (new_awire 2) []
          (mkSession [] [7; 9]) (mkSession [] [186; 136]).
Definition mulni_gate_1 : ArithmeticBEAVYMULNIGate :=
  mkMULNI 1 7 (at_setup_1 wire_a) (at_setup_1 wire_b) (new_awire 2) []
          (mkSession [] [100; 200]) (mkSession [] [23; 71]).

End BeavyArithSamples.
(** ** The Boolean INV gate *)

Module BeavyInv.
Import Beavy BeavyBool.

(** [detail::BasicBooleanBEAVYUnaryGate] *)
Record BasicBooleanBEAVYUnaryGate : Type := mkUnary {
  u_gate_id_ : Z;
  u_num_wires_ : nat;
  u_inputs_ : list nat;
  u_outputs_ : list nat
}.

(** The constructor: with [forward] the output wires are the input wires
    themselves (the same pointers), otherwise new wires. *)
Definition BasicBooleanBEAVYUnaryGate_ctor (gate_id : Z) (in_ : list nat) (forward : bool)
           (w : World) : string + (BasicBooleanBEAVYUnaryGate * World) :=
  let num_wires := length in_ in
  if decide (num_wires = 0%nat) then inl "number of wires need to be positive"%string
  else
    let num_simd := b_num_simd (wire_at w (in_ !!! 0%nat)) in
    if forallb (fun wire_i =>
                  bool_decide (b_num_simd (wire_at w (in_ !!! wire_i)) = num_simd))
               (seq 0 num_wires)
    then
      if forward
      then inr (mkUnary gate_id num_wires in_ in_, w)
      else
        inr (mkUnary gate_id num_wires in_ (seq (length (wires w)) num_wires),
             mkWorld (wires w ++ replicate num_wires (new_bwire num_simd)) (sent w))
    else inl "number of SIMD values need to be the same for all wires"%string.

(** [BooleanBEAVYINVGate] *)
Record BooleanBEAVYINVGate : Type := mkINV {
  inv_base : BasicBooleanBEAVYUnaryGate;
  is_my_job_ : bool
}.

Definition BooleanBEAVYINVGate_ctor (my_id gate_id : Z) (in_ : list nat) (w : World)
  : string + (BooleanBEAVYINVGate * World) :=
  match BasicBooleanBEAVYUnaryGate_ctor gate_id in_ (negb (is_my_job my_id gate_id)) w with
  | inl e => inl e
  | inr (g, w) => inr (mkINV g (is_my_job my_id gate_id), w)
  end.

(** [operator~] of the bit vector *)
Definition bv_not (v : list bool) : list bool := map negb v.

Definition INV_evaluate_setup (g : BooleanBEAVYINVGate) (w : World) : outcome World :=
  if negb (is_my_job_ g) then Ok w
  else
    for_each (fun wire_i w =>
      let w_in := u_inputs_ (inv_base g) !!! wire_i in
      if negb (b_setup_ready (wire_at w w_in)) then Blocked w
      else
        let w_o := u_outputs_ (inv_base g) !!! wire_i in
        let w := put w_o (b_with_secret (bv_not (b_secret_share (wire_at w w_in)))
                                        (wire_at w w_o)) w in
        b_set_setup_ready w_o w)
      (seq 0 (u_num_wires_ (inv_base g))) w.

Definition INV_evaluate_online (g : BooleanBEAVYINVGate) (w : World) : outcome World :=
  if negb (is_my_job_ g) then Ok w
  else
    for_each (fun wire_i w =>
      let w_in := u_inputs_ (inv_base g) !!! wire_i in
      if negb (b_online_ready (wire_at w w_in)) then Blocked w
      else
        let w_o := u_outputs_ (inv_base g) !!! wire_i in
        let w := put w_o (b_with_public (b_public_share (wire_at w w_in))
                                        (wire_at w w_o)) w in
        b_set_online_ready w_o w)
      (seq 0 (u_num_wires_ (inv_base g))) w.

(** The gate of one party on wires that are ready for both phases: the
    constructor, then the two phases. *)
Definition inv_run (my_id gate_id : Z) (in_ : list nat) (w : World)
  : option (BooleanBEAVYINVGate * World) :=
  match BooleanBEAVYINVGate_ctor my_id gate_id in_ w with
  | inl _ => None
  | inr (g, w1) =>
      w2 ← ok_state (INV_evaluate_setup g w1 >>> INV_evaluate_online g);
      Some (g, w2)
  end.

(** The input wires of one party: they exist, have one SIMD width and are
    ready for both phases. *)
Record inv_inputs (in_ : list nat) (w : World) : Prop := {
  ii_some : in_ <> [];
  ii_exist : forall p, p ∈ in_ -> (p < length (wires w))%nat;
  ii_simd : forall p, p ∈ in_ ->
      b_num_simd (wire_at w p) = b_num_simd (wire_at w (in_ !!! 0%nat));
  ii_setup : forall p, p ∈ in_ -> b_setup_ready (wire_at w p) = true;
  ii_online : forall p, p ∈ in_ -> b_online_ready (wire_at w p) = true
}.

(** Party 0 holds the wires [a0 a1] of [BeavyBool.sample_world]; party 1
    holds the same wires with its own secret shares. *)
Definition sample_world_party1 : World :=
  mkWorld [ mkBWire 3 [true; true; true] [false; false; true] true true;
            mkBWire 3 [false; true; false] [true; true; true] true true ]
          [].

End BeavyInv.

(** ** The Boolean input gates *)

Module BeavyBoolInput.
Import Beavy BeavyBool.

(** Modelled from the spec: the randomness generators of the base provider
    are not among the sources.  The owner's public share starts as its
    secret share combined with "per-peer pseudorandom streams seeded from
    shared key material", and the peer "derives the same pseudorandom
    stream".  [GetBits(id, num)] of the generator kept for [party_id] is a
    function of its arguments: [my_GetBits party_id id num] stands for
    [get_my_randomness_generator(party_id).GetBits(id, num)], and
    [their_GetBits] for the generator that [get_their_randomness_generator]
    returns. *)
Record BitGenerators : Type := mkBitGenerators {
  my_GetBits : Z -> Z -> Z -> list bool;
  their_GetBits : Z -> Z -> Z -> list bool
}.

(** *** [BooleanBEAVYInputGateSender]

    [sender_my_id] and [sender_num_parties] are what the provider answers to
    [get_my_id()] and [get_num_parties()]. *)
Record BooleanBEAVYInputGateSender : Type := mkInputSender {
  sender_gate_id_ : Z;
  sender_my_id : Z;
  sender_num_parties : Z;
  sender_mbp : BitGenerators;
  sender_num_wires_ : nat;
  sender_num_simd_ : Z;
  sender_input_id_ : Z;
  sender_outputs_ : list nat
}.

(** The constructor: [num_wires] new wires of the given SIMD width;
    [input_id] is the value of [beavy_provider.get_next_input_id(num_wires)]. *)
Definition BooleanBEAVYInputGateSender_ctor (gate_id my_id num_parties : Z)
           (mbp : BitGenerators) (num_wires : nat) (num_simd input_id : Z) (w : World)
  : BooleanBEAVYInputGateSender * World :=
  (mkInputSender gate_id my_id num_parties mbp num_wires num_simd input_id
                 (seq (length (wires w)) num_wires),
   mkWorld (wires w ++ replicate num_wires (new_bwire num_simd)) (sent w)).

(** [evaluate_setup]; [Random wire_i] is the value that
    [BitVector<>::Random(num_simd_)] returns in round [wire_i].  The wire is
    marked before its public share is touched. *)
Definition InputSender_evaluate_setup (Random : nat -> list bool)
           (g : BooleanBEAVYInputGateSender) (w : World) : outcome World :=
  for_each (fun wire_i w =>
    let wire := sender_outputs_ g !!! wire_i in
    let w := put wire (b_with_secret (Random wire_i) (wire_at w wire)) w in
    b_set_setup_ready wire w >>> (fun w =>
    let w := put wire (b_with_public (b_secret_share (wire_at w wire)) (wire_at w wire)) w in
    Ok (foldl (fun w party_id =>
                 if decide (party_id = sender_my_id g) then w
                 else
                   put wire
                       (b_with_public
                          (OT.bv_xor (b_public_share (wire_at w wire))
                                     (my_GetBits (sender_mbp g) party_id
                                        (sender_input_id_ g + Z.of_nat wire_i)
                                        (sender_num_simd_ g)))
                          (wire_at w wire)) w)
              w (map Z.of_nat (seq 0 (Z.to_nat (sender_num_parties g)))))))
    (seq 0 (sender_num_wires_ g)) w.

(** [evaluate_online]; [input_future] is the caller's input once it is
    there.  The loop carries the local [public_shares] along with the
    wires; [inputs.at(wire_i)] throws [std::out_of_range]. *)
Definition InputSender_evaluate_online (input_future : option (list (list bool)))
           (g : BooleanBEAVYInputGateSender) (w : World) : outcome World :=
  match input_future with
  | None => Blocked w
  | Some inputs =>
      map_outcome fst
        (for_each (fun wire_i (s : World * list bool) =>
           let '(w, public_shares) := s in
           let w_o := sender_outputs_ g !!! wire_i in
           match inputs !! wire_i with
           | None => Throw "vector::at" s
           | Some input_bits =>
               if decide (Z.of_nat (length input_bits) <> sender_num_simd_ g)
               then Throw "size of input bit vector != num_simd_" s
               else
                 let w := put w_o (b_with_public
                                     (OT.bv_xor (b_public_share (wire_at w w_o)) input_bits)
                                     (wire_at w w_o)) w in
                 map_outcome (fun w => (w, public_shares)) (b_set_online_ready w_o w)
                 >>> (fun '(w, public_shares) =>
                        Ok (w, public_shares ++ b_public_share (wire_at w w_o)))
           end)
           (seq 0 (sender_num_wires_ g)) (w, [])
         >>> (fun '(w, public_shares) =>
                Ok (mkWorld (wires w) (sent w ++ [(sender_gate_id_ g, public_shares)]),
                    public_shares)))
  end.

(** *** [BooleanBEAVYInputGateReceiver] *)
Record BooleanBEAVYInputGateReceiver : Type := mkInputReceiver {
  receiver_gate_id_ : Z;
  receiver_mbp : BitGenerators;
  receiver_num_wires_ : nat;
  receiver_num_simd_ : Z;
  receiver_input_owner_ : Z;
  receiver_input_id_ : Z;
  receiver_outputs_ : list nat
}.

(** The constructor; the future that [register_for_bits_message] returns
    is handed to the online phase when the owner's message is there. *)
Definition BooleanBEAVYInputGateReceiver_ctor (gate_id : Z) (mbp : BitGenerators)
           (num_wires : nat) (num_simd input_owner input_id : Z) (w : World)
  : BooleanBEAVYInputGateReceiver * World :=
  (mkInputReceiver gate_id mbp num_wires num_simd input_owner input_id
                   (seq (length (wires w)) num_wires),
   mkWorld (wires w ++ replicate num_wires (new_bwire num_simd)) (sent w)).

Definition InputReceiver_evaluate_setup (g : BooleanBEAVYInputGateReceiver) (w : World)
  : outcome World :=
  for_each (fun wire_i w =>
    let wire := receiver_outputs_ g !!! wire_i in
    let w := put wire (b_with_secret
                         (their_GetBits (receiver_mbp g) (receiver_input_owner_ g)
                            (receiver_input_id_ g + Z.of_nat wire_i)
                            (receiver_num_simd_ g))
                         (wire_at w wire)) w in
    b_set_setup_ready wire w)
    (seq 0 (receiver_num_wires_ g)) w.

(** [BitVector::Subset(from, to)] is declared in a header that is not among
    the sources; here it is the bits at the positions [from .. to - 1]. *)
Definition Subset (v : list bool) (from to : Z) : list bool :=
  take (Z.to_nat (to - from)) (drop (Z.to_nat from) v).

Definition InputReceiver_evaluate_online (public_share_future_ : option (list bool))
           (g : BooleanBEAVYInputGateReceiver) (w : World) : outcome World :=
  match public_share_future_ with
  | None => Blocked w
  | Some public_shares =>
      for_each (fun wire_i w =>
        let wire := receiver_outputs_ g !!! wire_i in
        let w := put wire (b_with_public
                             (Subset public_shares
                                (Z.of_nat wire_i * receiver_num_simd_ g)
                                ((Z.of_nat wire_i + 1) * receiver_num_simd_ g))
                             (wire_at w wire)) w in
        b_set_online_ready wire w)
        (seq 0 (receiver_num_wires_ g)) w
  end.

(** An owner with one peer, two wires of SIMD width 3. *)
Definition sample_generators : BitGenerators :=
  mkBitGenerators (fun party_id id num => replicate (Z.to_nat num) (Z.odd (party_id + id)))
                  (fun party_id id num => replicate (Z.to_nat num) (Z.odd (party_id + id))).
Definition sample_Random (wire_i : nat) : list bool :=
  if decide (wire_i = 0%nat) then [true; false; false] else [false; true; true].
Definition sample_inputs : list (list bool) := [[true; true; false]; [false; false; true]].

End BeavyBoolInput.

(** ** Readiness of the output wires of a gate *)

Module Readiness.
Import Beavy BeavyBool BeavyBoolInput.

(** The two flags of the Boolean wires [ps] in a store, setup first, and
    those of an arithmetic wire. *)
Definition wire_flags (ps : list nat) (w : World) : list (bool * bool) :=
  map (fun p => (b_setup_ready (wire_at w p), b_online_ready (wire_at w p))) ps.
Definition a_flags (x : ArithmeticBEAVYWire) : list (bool * bool) :=
  [(a_setup_ready x, a_online_ready x)].

(** A call throws with the message [what]. *)
Definition fatal {S} (what : string) (o : outcome S) : Prop :=
  exists s, o = Throw what s.

(** A gate whose output wires have the flags [flags] marks each of them
    once in each phase: the wires are unmarked when the gate is made, the
    setup phase returns with every one of them setup-ready and none
    online-ready, the online phase then returns with every one of them
    online-ready as well, and running a phase again on wires it has marked
    is the fatal error of the wire. *)
Definition fires_once {S} (flags : S -> list (bool * bool))
           (evaluate_setup evaluate_online : S -> outcome S) (s : S) : Prop :=
  flags s <> [] /\
  Forall (eq (false, false)) (flags s) /\
  exists s1,
    evaluate_setup s = Ok s1 /\
    Forall (eq (true, false)) (flags s1) /\
    fatal "setup-ready fired twice" (evaluate_setup s1) /\
    exists s2,
      evaluate_online s1 = Ok s2 /\
      Forall (eq (true, true)) (flags s2) /\
      fatal "setup-ready fired twice" (evaluate_setup s2) /\
      fatal "online-ready fired twice" (evaluate_online s2).

(** Wires that are setup-ready and online-ready. *)
Definition ready_wires (ps : list nat) (w : World) : Prop :=
  forall p, p ∈ ps ->
    (p < length (wires w))%nat /\
    b_setup_ready (wire_at w p) = true /\ b_online_ready (wire_at w p) = true.
Definition a_ready (x : ArithmeticBEAVYWire) : Prop :=
  a_setup_ready x = true /\ a_online_ready x = true.

(** Two new wires of SIMD width 3 that no gate has marked yet. *)
Definition unmarked_world : World := mkWorld [new_bwire 3; new_bwire 3] [].

(** A step of a gate writes a share of the wire [p] and nothing else. *)
Definition keeps_flags (p : nat) (w w' : World) : Prop :=
  same_outside [p] w w' /\
  b_setup_ready (wire_at w' p) = b_setup_ready (wire_at w p) /\
  b_online_ready (wire_at w' p) = b_online_ready (wire_at w p).

(** The input gate of party 0, gate 6, on two wires behind two wires that
    are there already. *)
Definition sample_sender : BooleanBEAVYInputGateSender * World :=
  BooleanBEAVYInputGateSender_ctor 6 0 2 sample_generators 2 3 0 unmarked_world.

End Readiness.

(** * Function secret sharing: [fss/fss_uint64.cpp], [fss/fss_uint64.h] *)

Module FSS.

Section Gates.

(** [sizeof(R_t_64)].  The header defines [R_t_64] as [int8_t] unless the
    build defines it otherwise. *)
Variable sizeof_R_t : nat.

(** The generator [G_tiny] / [G_ni] of [aes.h], which is not among the
    sources: the [G_OUT_LEN_64] bytes of [g_out] as a function of the input
    block. *)
Variable G : list Z -> list Z.

(** The bytes that [rand() % 256] yields after [srand(100)]. *)
Variable rand_bytes : list Z.

Definition SEC_PARAM : nat := 128.
Definition BETA : Z := 1.
Definition CEIL (x y : nat) : nat := ((x - 1) / y + 1)%nat.
Definition N_BITS : nat := (sizeof_R_t * 8)%nat.
Definition G_IN_LEN : nat := CEIL SEC_PARAM 8.
Definition OUT_LEN : nat := CEIL (2 * SEC_PARAM + 2 * N_BITS + 2) 8.
Definition G_OUT_LEN : nat := (CEIL OUT_LEN G_IN_LEN * G_IN_LEN)%nat.
Definition S_LEN : nat := G_IN_LEN.
Definition V_LEN : nat := sizeof_R_t.

(** Positions of the left and right elements in the output of [G]. *)
Definition S_L_PTR : nat := 0.
Definition S_R_PTR : nat := (S_L_PTR + S_LEN)%nat.
Definition V_L_PTR : nat := (S_R_PTR + S_LEN)%nat.
Definition V_R_PTR : nat := (V_L_PTR + V_LEN)%nat.
Definition T_L_PTR : nat := (V_R_PTR + V_LEN)%nat.
Definition T_R_PTR : nat := (T_L_PTR + 1)%nat.

(** The ring: [R_t_64] values are kept as residues modulo [2^N_BITS]. *)
Definition R_bits : Z := Z.of_nat N_BITS.
Definition to_R (v : Z) : Z := wrap R_bits v.

(** [buf + p] *)
Definition ptr (buf : list Z) (p : nat) : list Z := drop p buf.
(** [TO_R_t_64(p)], on a little-endian machine, and [TO_BOOL_64(p)]. *)
Definition TO_R_t (p : list Z) : Z := to_R (OT.le_decode (take sizeof_R_t p)).
Definition TO_BOOL (p : list Z) : bool := Z.odd (nth 0 p 0).

Definition xor_c (a b : list Z) (s_len : nat) : list Z :=
  zip_with Z.lxor (take s_len a) (take s_len b).

Definition bit_decomposition (value : Z) : list bool :=
  map (fun i => Z.testbit value (Z.of_nat (N_BITS - i - 1))) (seq 0 N_BITS).

Definition xor_cond (a b : list Z) (len : nat) (cond : bool) : list Z :=
  if cond then xor_c a b len else take len a.

(** [random_buffer_seeded_64]: both branches seed with 100. *)
Definition random_buffer_seeded (buffer_len : nat) (seed : option (list Z)) : list Z :=
  take buffer_len rand_bytes.
Definition random_buffer (buffer_len : nat) : list Z :=
  random_buffer_seeded buffer_len None.

(** ** The key

    A key is [KEY_LEN_64] bytes: the state [s], then for each of the
    [N_BITS] levels a correction word [s_cw | V_cw | t_cw_L | t_cw_R], then
    the last correction value.  It is kept here as these fields; the
    positions do not overlap. *)
Record correction_word : Type := mkCW {
  s_cw : list Z;
  V_cw : Z;
  t_cw_L : bool;
  t_cw_R : bool
}.

#[global] Instance correction_word_inhabited : Inhabited correction_word :=
  populate (mkCW [] 0 false false).

Record key : Type := mkKey {
  k_s : list Z;
  k_chain : list correction_word;
  k_last : Z
}.

Definition sign (t : bool) : Z := if t then -1 else 1.
Definition b2z (b : bool) : Z := if b then 1 else 0.

(** ** Key generation *)

Record gen_state : Type := mkGen {
  s0_i : list Z;
  s1_i : list Z;
  t0 : bool;
  t1 : bool;
  V_alpha : Z
}.

(** One round of the main loop of [DCF_gen_seeded_64] for the bit
    [alpha_bit]. *)
Definition gen_round (alpha_bit : bool) (st : gen_state) : correction_word * gen_state :=
  let g_out_0 := G (s0_i st) in
  let g_out_1 := G (s1_i st) in
  let t0_L := TO_BOOL (ptr g_out_0 T_L_PTR) in
  let t0_R := TO_BOOL (ptr g_out_0 T_R_PTR) in
  let t1_L := TO_BOOL (ptr g_out_1 T_L_PTR) in
  let t1_R := TO_BOOL (ptr g_out_1 T_R_PTR) in
  (* keep = R, lose = L when the bit is set; keep = L, lose = R otherwise *)
  let S_keep := if alpha_bit then S_R_PTR else S_L_PTR in
  let S_lose := if alpha_bit then S_L_PTR else S_R_PTR in
  let V_keep := if alpha_bit then V_R_PTR else V_L_PTR in
  let V_lose := if alpha_bit then V_L_PTR else V_R_PTR in
  let T_keep := if alpha_bit then T_R_PTR else T_L_PTR in
  let s_cw := xor_c (ptr g_out_0 S_lose) (ptr g_out_1 S_lose) S_LEN in
  let V_cw := to_R (sign (t1 st)
                    * (TO_R_t (ptr g_out_1 V_lose) - TO_R_t (ptr g_out_0 V_lose)
                       - V_alpha st)) in
  let V_cw := to_R (V_cw + b2z alpha_bit * sign (t1 st) * BETA) in
  let V_alpha := to_R (V_alpha st
                       + (TO_R_t (ptr g_out_0 V_keep) - TO_R_t (ptr g_out_1 V_keep)
                          + sign (t1 st) * V_cw)) in
  let t_cw_L := xorb (xorb (xorb t0_L t1_L) alpha_bit) true in
  let t_cw_R := xorb (xorb t0_R t1_R) alpha_bit in
  let t_cw_keep := if alpha_bit then t_cw_R else t_cw_L in
  let s0 := xor_cond (ptr g_out_0 S_keep) s_cw S_LEN (t0 st) in
  let t0' := xorb (TO_BOOL (ptr g_out_0 T_keep)) (t0 st && t_cw_keep) in
  let s1 := xor_cond (ptr g_out_1 S_keep) s_cw S_LEN (t1 st) in
  let t1' := xorb (TO_BOOL (ptr g_out_1 T_keep)) (t1 st && t_cw_keep) in
  (mkCW s_cw V_cw t_cw_L t_cw_R, mkGen s0 s1 t0' t1' V_alpha).

(** The main loop: round [i] stores its correction word at position [i] of
    the chain. *)
Definition gen_loop (alpha_bits : list bool) (st : gen_state)
  : list correction_word * gen_state :=
  foldl (fun acc i =>
           let '(cw, st) := gen_round (alpha_bits !!! i) acc.2 in
           (acc.1 ++ [cw], st))
        ([], st) (seq 0 N_BITS).

(** [DCF_gen_seeded_64]; [None] is a null seed pointer. *)
Definition DCF_gen_seeded_64 (alpha : Z) (s0 s1 : option (list Z)) : key * key :=
  let alpha_bits := bit_decomposition alpha in
  let '(s0_first, s1_first) :=
    match s0, s1 with
    | Some s0, Some s1 => (take S_LEN s0, take S_LEN s1)
    | _, _ => (random_buffer S_LEN, random_buffer S_LEN)
    end in
  let '(chain, st) := gen_loop alpha_bits (mkGen s0_first s1_first false true 0) in
  let V_alpha := to_R (sign (t1 st) * (TO_R_t (s1_i st) - TO_R_t (s0_i st)
                                        - V_alpha st)) in
  (mkKey s0_first chain V_alpha, mkKey s1_first chain V_alpha).

(** [DPF_gen_64] *)
Definition DPF_gen_64 (alpha : Z) : key * key :=
  DCF_gen_seeded_64 alpha None None.

(** ** Evaluation *)

Record eval_state : Type := mkEval {
  e_s : list Z;
  e_t : bool;
  e_V : Z
}.

(** One round of the main loop of [DPF_eval_64] for the bit [x_bit]. *)
Definition eval_round (b : bool) (x_bit : bool) (cw : correction_word) (st : eval_state)
  : eval_state :=
  let g_out := G (e_s st) in
  if negb x_bit
  then (* Pick the Left branch *)
    mkEval (xor_cond (ptr g_out S_L_PTR) (s_cw cw) S_LEN (e_t st))
           (xorb (TO_BOOL (ptr g_out T_L_PTR)) (e_t st && t_cw_L cw))
           (to_R (e_V st + sign b * (TO_R_t (ptr g_out V_L_PTR) + b2z (e_t st) * V_cw cw)))
  else (* Pick the Right branch *)
    mkEval (xor_cond (ptr g_out S_R_PTR) (s_cw cw) S_LEN (e_t st))
           (xorb (TO_BOOL (ptr g_out T_R_PTR)) (e_t st && t_cw_R cw))
           (to_R (e_V st + sign b * (TO_R_t (ptr g_out V_R_PTR) + b2z (e_t st) * V_cw cw))).

Definition eval_last (b : bool) (last : Z) (st : eval_state) : Z :=
  to_R (e_V st + sign b * (TO_R_t (e_s st) + b2z (e_t st) * last)).

(** [DPF_eval_64] *)
Definition DPF_eval_64 (b : bool) (kb : key) (x_hat : Z) : Z :=
  let x_bits := bit_decomposition x_hat in
  let st := foldl (fun st i => eval_round b (x_bits !!! i) (k_chain kb !!! i) st)
                  (mkEval (take S_LEN (k_s kb)) b 0) (seq 0 N_BITS) in
  eval_last b (k_last kb) st.

(** ** The loops by recursion on the bits, for the proofs *)

Fixpoint gen_rounds (alpha_bits : list bool) (st : gen_state)
  : list correction_word * gen_state :=
  match alpha_bits with
  | [] => ([], st)
  | a :: rest =>
      let '(cw, st) := gen_round a st in
      let '(chain, st) := gen_rounds rest st in
      (cw :: chain, st)
  end.

Fixpoint eval_rounds (b : bool) (x_bits : list bool) (chain : list correction_word)
         (st : eval_state) : eval_state :=
  match x_bits, chain with
  | x :: x_bits, cw :: chain => eval_rounds b x_bits chain (eval_round b x cw st)
  | _, _ => st
  end.

(** [x] is below [alpha], both read most significant bit first. *)
Fixpoint bits_lt (x_bits alpha_bits : list bool) : bool :=
  match x_bits, alpha_bits with
  | x :: x_bits, a :: alpha_bits =>
      if eqb x a then bits_lt x_bits alpha_bits else a
  | _, _ => false
  end.

End Gates.

(** A generator for trying the gate out: byte [k] of the output is the sum
    of the input bytes times [k + 1], plus [7 k], modulo 256. *)
Definition G_toy (sizeof_R_t : nat) (s : list Z) : list Z :=
  map (fun k : nat => (foldr Z.add 0 s * (Z.of_nat k + 1) + 7 * Z.of_nat k) mod 256)
      (seq 0 (G_OUT_LEN sizeof_R_t)).

Definition rand_toy : list Z := map (fun k : nat => (Z.of_nat k * 73 + 41) mod 256) (seq 0 64).

End FSS.
(** ** The comparison gate and the interval gate of [fss/fss_uint64.cpp] *)

Module FSSGates.
Import FSS.

Section Gates.

Variable sizeof_R_t : nat.
Variable G : list Z -> list Z.
Variable rand_bytes : list Z.

(** [DCF_gen_64]: the seeds [0, 0] it passes on are null pointers. *)
Definition DCF_gen_64 (alpha : Z) : key * key :=
  DCF_gen_seeded_64 sizeof_R_t G rand_bytes alpha None None.

(** [DCF_eval_64] *)
Definition DCF_eval_64 (b : bool) (kb : key) (x_hat : Z) : Z :=
  let x_bits := bit_decomposition sizeof_R_t x_hat in
  let s := take S_LEN (k_s kb) in
  let step (st : eval_state) (i : nat) : eval_state :=
    let g_out := G (e_s st) in
    let cw := k_chain kb !!! i in
    if negb (x_bits !!! i)
    then
      mkEval (xor_cond (ptr g_out S_L_PTR) (s_cw cw) S_LEN (e_t st))
             (xorb (TO_BOOL (ptr g_out (T_L_PTR sizeof_R_t))) (e_t st && t_cw_L cw))
             (to_R sizeof_R_t
                (e_V st + sign b * (TO_R_t sizeof_R_t (ptr g_out V_L_PTR)
                                    + b2z (e_t st) * V_cw cw)))
    else
      mkEval (xor_cond (ptr g_out S_R_PTR) (s_cw cw) S_LEN (e_t st))
             (xorb (TO_BOOL (ptr g_out (T_R_PTR sizeof_R_t))) (e_t st && t_cw_R cw))
             (to_R sizeof_R_t
                (e_V st + sign b * (TO_R_t sizeof_R_t (ptr g_out (V_R_PTR sizeof_R_t))
                                    + b2z (e_t st) * V_cw cw))) in
  let st := foldl step (mkEval s b 0) (seq 0 (N_BITS sizeof_R_t)) in
  to_R sizeof_R_t
    (e_V st + sign b * (TO_R_t sizeof_R_t (e_s st) + b2z (e_t st) * k_last kb)).

(** ** Interval containment

    [U(x)] is [(unsigned)(x)]: the value of the integer expression [x]
    reduced modulo 2^32, [unsigned] having 32 bits.  The operands [p], [q],
    [r_in], [x_hat] are the C values of the [R_t_64] parameters; the sums
    inside [U] are those of the promoted operands.  A comparison yields [1]
    or [0]. *)
Definition U (x : Z) : Z := x mod 2 ^ 32.

(** The key of the interval gate: the key of the comparison gate and the
    value [z] at [Z_PTR_64]. *)
Record ic_key : Type := mkICKey {
  ic_dcf : key;
  ic_z : Z
}.

(** [IC_gen_64]; [random_dtype] is the value of [random_dtype_64()], which
    seeds the generator of the C library with the time. *)
Definition IC_gen_64 (random_dtype : Z) (r_in r_out p q : Z) : ic_key * ic_key :=
  let '(k0, k1) := DCF_gen_64 (r_in - 1) in
  let z0 := to_R sizeof_R_t random_dtype in
  let z1 := to_R sizeof_R_t
              (- z0 + r_out
               + b2z (U (q + r_in) <? U (p + r_in))        (* alpha_p > alpha_q *)
               - b2z (U p <? U (p + r_in))                 (* alpha_p > p *)
               + b2z (U (q + 1) <? U (q + r_in + 1))       (* alpha_q_prime > q_prime *)
               + b2z (U (q + r_in + 1) =? U 0)) in         (* alpha_q_prime = -1 *)
  (mkICKey k0 z0, mkICKey k1 z1).

(** [IC_eval_64] *)
Definition IC_eval_64 (b : bool) (p q : Z) (kb_ic : ic_key) (x_hat : Z) : Z :=
  let output_1 := DCF_eval_64 b (ic_dcf kb_ic) (x_hat - p - 1) in
  let output_2 := DCF_eval_64 b (ic_dcf kb_ic) (x_hat - q - 2) in
  to_R sizeof_R_t
    (b2z b * (b2z (U p <? U x_hat) - b2z (U (q + 1) <? U x_hat))
     - output_1 + output_2 + ic_z kb_ic).

End Gates.

End FSSGates.

(** * Wires of the older core: [abyncore/wire/wire.h] *)

Module AbynWire.

(** The fields of [ABYN::Wires::Wire] that its methods read or write;
    [waiting_gate_ids_] is a [std::unordered_set]. *)
Record Wire : Type := mkWire {
  wire_id_ : Z;
  is_constant_ : bool;
  is_done_ : bool;
  waiting_gate_ids_ : gset Z
}.

(** A wire together with the calls [UnregisterWireIdFromGate(gate_id,
    wire_id, core_)] made so far; that function is defined elsewhere. *)
Record State : Type := mkState {
  wire : Wire;
  unregistered : list (Z * Z)
}.

(** [Wire::RegisterWaitingGate], [Wire::UnregisterWaitingGate] *)
Definition RegisterWaitingGate (gate_id : Z) (w : Wire) : Wire :=
  mkWire (wire_id_ w) (is_constant_ w) (is_done_ w) ({[gate_id]} ∪ waiting_gate_ids_ w).
Definition UnregisterWaitingGate (gate_id : Z) (w : Wire) : Wire :=
  mkWire (wire_id_ w) (is_constant_ w) (is_done_ w) (waiting_gate_ids_ w ∖ {[gate_id]}).

(** [Wire::SetOnlineFinished]; the loop visits the set in an order of its
    own, here that of [elements].  The source formats the thrown message
    with the wire's id and puts quotation marks around the words online
    phase ready; the text kept here is that message without the id and the
    quotation marks. *)
Definition SetOnlineFinished (s : State) : outcome State :=
  let w := wire s in
  if is_done_ w
  then Throw "Marking wire as online phase ready twice" s
  else
    Ok (mkState (mkWire (wire_id_ w) (is_constant_ w) true (waiting_gate_ids_ w))
                (unregistered s
                 ++ map (fun gate_id => (gate_id, wire_id_ w))
                        (elements (waiting_gate_ids_ w)))).

(** [Wire::IsReady] *)
Definition IsReady (w : Wire) : bool :=
  if is_constant_ w then is_constant_ w else is_done_ w.

Definition with_wire (f : Wire -> Wire) (s : State) : State :=
  mkState (f (wire s)) (unregistered s).

Definition sample_wire : State := mkState (mkWire 4 false false {[7; 9]}) [].

End AbynWire.

(** * Properties

    Machine integers and loops *)

Lemma wrap_range W x : 0 <= W -> 0 <= wrap W x < 2 ^ W.
Proof. intros HW. unfold wrap. apply Z.mod_pos_bound. by apply Z.pow_pos_nonneg. Qed.

Lemma wrap_small W x : 0 <= x < 2 ^ W -> wrap W x = x.
Proof. intros H. unfold wrap. by apply Z.mod_small. Qed.

Lemma wrap_wrap W x : wrap W (wrap W x) = wrap W x.
Proof. unfold wrap. apply Zmod_mod. Qed.

Lemma wrap_eqm W x y : (x mod 2 ^ W = y mod 2 ^ W) -> wrap W x = wrap W y.
Proof. done. Qed.

Lemma for_each_pure {S} (body : nat -> S -> outcome S) (upd : nat -> S -> S) idx s :
  (forall i s', i ∈ idx -> body i s' = Ok (upd i s')) ->
  for_each body idx s = Ok (foldl (fun s' i => upd i s') s idx).
Proof.
  revert s. induction idx as [|i rest IH]; intros s Hb; [done|].
  simpl. rewrite Hb by set_solver. simpl. apply IH. intros. apply Hb. set_solver.
Qed.

(** Writing slot [i] of a vector for every [i < n], in increasing order. *)
Lemma foldl_insert_lookup {A} (f : nat -> A) (n : nat) (l : list A) (j : nat) :
  (n <= length l)%nat -> (j < n)%nat ->
  foldl (fun acc i => <[i := f i]> acc) l (seq 0 n) !! j = Some (f j).
Proof.
  revert j. induction n as [|n IH]; intros j Hn Hj; [lia|].
  rewrite seq_S, foldl_app. simpl.
  assert (Hlen : forall m, length (foldl (fun acc i => <[i := f i]> acc) l (seq 0 m)) = length l).
  { clear. intros m. induction m as [|m IHm]; [done|].
    rewrite seq_S, foldl_app. simpl. by rewrite length_insert. }
  destruct (decide (j = n)) as [->|Hne].
  - apply list_lookup_insert_eq. rewrite Hlen. lia.
  - rewrite list_lookup_insert_ne by done. apply IH; lia.
Qed.

Lemma foldl_insert_length {A} (f : nat -> A) (n : nat) (l : list A) :
  length (foldl (fun acc i => <[i := f i]> acc) l (seq 0 n)) = length l.
Proof.
  induction n as [|n IH]; [done|].
  rewrite seq_S, foldl_app. simpl. by rewrite length_insert.
Qed.

(** The loop rule: an invariant indexed by the number of completed
    iterations. *)
Lemma for_each_seq {S} (body : nat -> S -> outcome S) (Inv : nat -> S -> Prop)
      (a n : nat) (s : S) :
  Inv a s ->
  (forall i s', (a <= i < a + n)%nat -> Inv i s' ->
                exists s'', body i s' = Ok s'' /\ Inv (Datatypes.S i) s'') ->
  exists s', for_each body (seq a n) s = Ok s' /\ Inv (a + n)%nat s'.
Proof.
  revert a s. induction n as [|n IH]; intros a s H0 Hstep.
  - exists s. by rewrite Nat.add_0_r.
  - simpl. destruct (Hstep a s) as (s1 & Hb & H1); [lia|done|].
    rewrite Hb. simpl.
    destruct (IH (Datatypes.S a) s1 H1) as (s' & Hrun & Hinv).
    { intros i s'' Hi. apply Hstep. lia. }
    exists s'. split; [done|]. by replace (a + Datatypes.S n)%nat with (Datatypes.S a + n)%nat by lia.
Qed.

Lemma for_each_upto {S} (body : nat -> S -> outcome S) (Inv : nat -> S -> Prop)
      (n : nat) (s : S) :
  Inv 0%nat s ->
  (forall i s', (i < n)%nat -> Inv i s' ->
                exists s'', body i s' = Ok s'' /\ Inv (Datatypes.S i) s'') ->
  exists s', for_each body (seq 0 n) s = Ok s' /\ Inv n s'.
Proof.
  intros H0 Hstep. apply (for_each_seq body Inv 0 n s H0).
  intros i s' Hi. apply Hstep. lia.
Qed.

(** ** Arithmetic modulo 2^W *)

Lemma wrap_eqm_iff (W x y : Z) : wrap W x = wrap W y <-> eqm (2 ^ W) x y.
Proof. done. Qed.

Lemma eqm_wrap (W x : Z) : eqm (2 ^ W) (wrap W x) x.
Proof. unfold wrap. apply Zmod_eqm. Qed.

Lemma wrap_of_eqm (W x y : Z) : eqm (2 ^ W) x y -> wrap W x = wrap W y.
Proof. done. Qed.

Lemma eqm_of_eq (N x y : Z) : x = y -> eqm N x y.
Proof. by intros ->. Qed.

Lemma eqm_by_multiple (N x y k : Z) : x = y + k * N -> eqm N x y.
Proof. intros ->. unfold eqm. apply Z_mod_plus_full. Qed.

Lemma eqm_multiple (N x y : Z) : eqm N x y -> exists k, x = y + k * N.
Proof.
  unfold eqm. intros H. destruct (Z.eq_dec N 0) as [->|HN].
  - exists 0. rewrite !Z.mod_0_r in H. lia.
  - exists (x / N - y / N).
    pose proof (Z.div_mod x N HN). pose proof (Z.div_mod y N HN). lia.
Qed.

Lemma foldl_ext {A B} (f g : A -> B -> A) (l : list B) (a : A) :
  (forall a x, f a x = g a x) -> foldl f a l = foldl g a l.
Proof.
  intros H. revert a. induction l as [|x l IH]; intros a; [done|].
  cbn. by rewrite H, IH.
Qed.

(** * Oblivious-transfer flavors: correctness and call order *)

Module OTFacts.
Import OT.

Lemma wrap_add_l W a b : wrap W (wrap W a + b) = wrap W (a + b).
Proof. unfold wrap. by rewrite Zplus_mod_idemp_l. Qed.

Lemma wrap_add_r W a b : wrap W (a + wrap W b) = wrap W (a + b).
Proof. unfold wrap. by rewrite Zplus_mod_idemp_r. Qed.

Lemma wrap_sub_l W a b : wrap W (wrap W a - b) = wrap W (a - b).
Proof. unfold wrap. by rewrite Zminus_mod_idemp_l. Qed.

Lemma wrap_sub_r W a b : wrap W (a - wrap W b) = wrap W (a - b).
Proof. unfold wrap. by rewrite Zminus_mod_idemp_r. Qed.

Lemma read_T_wrapped W bv j : wrap W (read_T W bv j) = read_T W bv j.
Proof. unfold read_T. apply wrap_wrap. Qed.

Lemma bit_lookup (bv : BitVector) (i : nat) : bit bv i = default false (bv !! i).
Proof. unfold bit. apply nth_lookup. Qed.

Lemma bit_Subset (bv : BitVector) (from to : Z) (i : nat) :
  0 <= from -> (i < Z.to_nat (to - from))%nat ->
  bit (Subset bv from to) i = bit bv (Z.to_nat from + i).
Proof.
  intros Hf Hi. rewrite !bit_lookup. unfold Subset.
  rewrite lookup_take_lt by done. by rewrite lookup_drop.
Qed.

Lemma length_Subset (bv : BitVector) (from to : Z) :
  0 <= from <= to -> (Z.to_nat to <= length bv)%nat ->
  length (Subset bv from to) = Z.to_nat (to - from).
Proof.
  intros Hf Hl. unfold Subset. rewrite length_take, length_drop. lia.
Qed.

Lemma bit_bv_xor (a b : BitVector) (i : nat) :
  (i < length a)%nat -> (i < length b)%nat ->
  bit (bv_xor a b) i = xorb (bit a i) (bit b i).
Proof.
  intros Ha Hb. rewrite !bit_lookup. unfold bv_xor.
  rewrite lookup_zip_with.
  destruct (lookup_lt_is_Some_2 a i Ha) as [x ->].
  destruct (lookup_lt_is_Some_2 b i Hb) as [y ->]. done.
Qed.

Lemma length_bv_xor (a b : BitVector) :
  length (bv_xor a b) = Nat.min (length a) (length b).
Proof. unfold bv_xor. apply length_zip_with. Qed.

Lemma bit_copy_at (off : nat) (src dst : BitVector) (i : nat) :
  (off + length src <= length dst)%nat -> (i < length src)%nat ->
  bit (copy_at off src dst) (off + i) = bit src i.
Proof.
  intros Hl Hi. rewrite !bit_lookup. unfold copy_at.
  rewrite lookup_app_r by (rewrite length_take; lia).
  rewrite length_take, Nat.min_l by lia.
  replace (off + i - off)%nat with i by lia.
  rewrite lookup_app_l by (rewrite length_take; lia).
  by rewrite lookup_take_lt by lia.
Qed.

Lemma length_copy_at (off : nat) (src dst : BitVector) :
  (off + length src <= length dst)%nat ->
  length (copy_at off src dst) = length dst.
Proof.
  intros Hl. unfold copy_at. rewrite !length_app, !length_take, length_drop. lia.
Qed.

Lemma nth_insert_eq {A} (l : list A) (i : nat) (x d : A) :
  (i < length l)%nat -> nth i (<[i := x]> l) d = x.
Proof. intros H. rewrite nth_lookup. by rewrite list_lookup_insert_eq. Qed.

Lemma wrap_size_small (n : Z) : 0 <= n < 2 ^ 64 -> wrap_size n = n.
Proof. apply wrap_small. Qed.

Lemma at_batch {A} (l : list A) (id n : Z) (i : nat) :
  0 <= id -> id + n < 2 ^ 64 -> (i < Z.to_nat n)%nat ->
  at_ l (wrap_size (id + Z.of_nat i)) = l !! (Z.to_nat id + i)%nat.
Proof.
  intros Hid Hfit Hi. unfold at_. rewrite wrap_size_small by lia.
  f_equal. lia.
Qed.

Lemma SendCorrections_after_SetChoices (c : BitVector) (r : RcvSt) :
  c <> [] ->
  SetChoices c r >>> SendCorrections =
  Ok (mkRcvSt (with_corrections_sent true (with_choices c (rcv r))) (rdata r)
        (r_sent r ++
         [ReceiverCorrections (r_ot_id_ (rcv r))
            (bv_xor c (Subset (random_choices_ (rdata r)) (r_ot_id_ (rcv r))
                              (wrap_size (r_ot_id_ (rcv r) + r_num_ots_ (rcv r)))))])).
Proof. intros Hc. destruct c; [done|]. reflexivity. Qed.

Lemma ACOTSender_SendMessages_ok (W : Z) (s : SndSt) (id n : Z) :
  s_vector_size_ (snd s) = 1 -> s_ot_id_ (snd s) = id -> s_num_ots_ (snd s) = n ->
  0 <= id -> 0 <= n -> id + n < 2 ^ 64 ->
  (Z.to_nat (id + n) <= length (y0_ (sdata s)))%nat ->
  (Z.to_nat (id + n) <= length (y1_ (sdata s)))%nat ->
  length (correlations_ (snd s)) = Z.to_nat n ->
  exists buffer,
    ACOTSender_SendMessages W s = Ok (Send_s (SenderMessage id (Ints buffer)) s) /\
    length buffer = Z.to_nat n /\
    forall i, (i < Z.to_nat n)%nat ->
      exists y0 y1,
        y0_ (sdata s) !! (Z.to_nat id + i)%nat = Some y0 /\
        y1_ (sdata s) !! (Z.to_nat id + i)%nat = Some y1 /\
        buffer !! i =
          Some (wrap W (wrap W (nth i (correlations_ (snd s)) 0 + read_T W y0 0)
                        + read_T W y1 0)).
Proof.
  intros Hvs Hid Hn Hid0 Hn0 Hfit Hy0 Hy1 Hlen.
  unfold ACOTSender_SendMessages. rewrite Hvs, Hid, Hn.
  destruct (decide (1 = 1)) as [_|]; [|done].
  set (body := fun (ot_i : nat) (buffer : list Z) => _).
  destruct (for_each_upto body
    (fun m buf =>
       length buf = Z.to_nat n /\
       (forall j, (j < m)%nat ->
          exists y0 y1,
            y0_ (sdata s) !! (Z.to_nat id + j)%nat = Some y0 /\
            y1_ (sdata s) !! (Z.to_nat id + j)%nat = Some y1 /\
            buf !! j =
              Some (wrap W (wrap W (nth j (correlations_ (snd s)) 0 + read_T W y0 0)
                            + read_T W y1 0))) /\
       (forall j, (m <= j)%nat -> buf !! j = correlations_ (snd s) !! j))
    (Z.to_nat n) (correlations_ (snd s))) as (buf & Hrun & Hl & Hlow & _).
  - split; [done|]. split; [intros; lia|done].
  - intros i buf Hi (Hl & Hlow & Hhigh). unfold body.
    rewrite !(at_batch _ id n) by done.
    destruct (lookup_lt_is_Some_2 (y0_ (sdata s)) (Z.to_nat id + i)) as [y0 E0]; [lia|].
    destruct (lookup_lt_is_Some_2 (y1_ (sdata s)) (Z.to_nat id + i)) as [y1 E1]; [lia|].
    rewrite E0, E1. eexists. split; [done|].
    rewrite nth_insert_eq by lia. rewrite list_insert_insert_eq.
    split; [by rewrite length_insert|]. split.
    + intros j Hj. destruct (decide (j = i)) as [->|Hne].
      * exists y0, y1. split; [done|]. split; [done|].
        rewrite list_lookup_insert_eq by lia.
        rewrite !nth_lookup, (Hhigh i) by lia. done.
      * rewrite list_lookup_insert_ne by done. apply Hlow. lia.
    + intros j Hj. rewrite list_lookup_insert_ne by lia. apply Hhigh. lia.
  - unfold upto. rewrite Hrun. simpl. eauto.
Qed.

Lemma ACOTSender_ComputeOutputs_ok (W : Z) (s : SndSt) (id n : Z) :
  s_vector_size_ (snd s) = 1 -> s_ot_id_ (snd s) = id -> s_num_ots_ (snd s) = n ->
  0 <= id -> 0 <= n -> id + n < 2 ^ 64 ->
  s_outputs_computed_ (snd s) = false ->
  snd_setup_finished_ (sdata s) = true ->
  id ∈ received_correction_offsets_cond_ (sdata s) ->
  id ∈ received_correction_offsets_ (sdata s) ->
  (Z.to_nat (id + n) <= length (y0_ (sdata s)))%nat ->
  (Z.to_nat (id + n) <= length (y1_ (sdata s)))%nat ->
  exists outs,
    ACOTSender_ComputeOutputs W s =
      Ok (set_snd (with_s_outputs_computed true) (set_snd (with_s_outputs outs) s)) /\
    length outs = Z.to_nat n /\
    forall i, (i < Z.to_nat n)%nat ->
      exists y,
        (if bit (Subset (corrections_ (sdata s)) id (id + n)) i
         then y1_ (sdata s) else y0_ (sdata s)) !! (Z.to_nat id + i)%nat = Some y /\
        outs !! i = Some (read_T W y 0).
Proof.
  intros Hvs Hid Hn Hid0 Hn0 Hfit Hfresh Hsetup Hcond Hrecv Hy0 Hy1.
  unfold ACOTSender_ComputeOutputs, WaitSetup_s, wait_corrections.
  rewrite Hfresh, Hsetup. simpl. rewrite Hid.
  rewrite decide_True by done. rewrite decide_True by done. simpl.
  rewrite Hvs, Hn, ?Hid. rewrite decide_True by done.
  rewrite (wrap_size_small (id + n)) by lia.
  rewrite Z.mul_1_r, (wrap_size_small n) by lia.
  set (body := fun (ot_i : nat) (outs : list Z) => _).
  set (l0 := resize (Z.to_nat n) 0 (s_outputs_ (snd s))).
  destruct (for_each_upto body
    (fun m outs =>
       length outs = Z.to_nat n /\
       forall j, (j < m)%nat ->
         exists y,
           (if bit (Subset (corrections_ (sdata s)) id (id + n)) j
            then y1_ (sdata s) else y0_ (sdata s)) !! (Z.to_nat id + j)%nat = Some y /\
           outs !! j = Some (read_T W y 0))
    (Z.to_nat n) l0) as (outs & Hrun & Hl & Hlow).
  - split; [by unfold l0; rewrite length_resize|]. intros; lia.
  - intros i outs Hi (Hl & Hlow). unfold body.
    rewrite (at_batch _ id n) by done.
    set (ys := if bit _ i then _ else _).
    destruct (lookup_lt_is_Some_2 ys (Z.to_nat id + i)) as [y E].
    { unfold ys. destruct (bit _ i); lia. }
    rewrite E. eexists. split; [done|]. split; [by rewrite length_insert|].
    intros j Hj. destruct (decide (j = i)) as [->|Hne].
    + exists y. split; [done|]. by rewrite list_lookup_insert_eq by lia.
    + rewrite list_lookup_insert_ne by done. apply Hlow. lia.
  - exists outs. split; [|done].
    unfold finish_s, upto. simpl. fold l0. rewrite Hrun. reflexivity.
Qed.

Lemma ACOTReceiver_ComputeOutputs_ok (W : Z) (r : RcvSt) (id n : Z) (msg : list Z)
      (size : Z) :
  r_vector_size_ (rcv r) = 1 -> r_ot_id_ (rcv r) = id -> r_num_ots_ (rcv r) = n ->
  0 <= id -> 0 <= n -> id + n < 2 ^ 64 ->
  r_outputs_computed_ (rcv r) = false ->
  corrections_sent_ (rcv r) = true ->
  message_promises_ (rdata r) !! id = Some (size, Some (Ints msg)) ->
  (Z.to_nat (id + n) <= length (outputs_ (rdata r)))%nat ->
  exists outs,
    ACOTReceiver_ComputeOutputs W r =
      Ok (set_rcv (with_r_outputs_computed true) (set_rcv (with_r_outputs outs) r)) /\
    length outs = Z.to_nat n /\
    forall i, (i < Z.to_nat n)%nat ->
      exists ot_data,
        outputs_ (rdata r) !! (Z.to_nat id + i)%nat = Some ot_data /\
        outs !! i =
          Some (if bit (choices_ (rcv r)) i
                then wrap W (nth i msg 0 - read_T W ot_data 0)
                else read_T W ot_data 0).
Proof.
  intros Hvs Hid Hn Hid0 Hn0 Hfit Hfresh Hsent Hmsg Hout.
  unfold ACOTReceiver_ComputeOutputs.
  rewrite Hfresh, Hsent. simpl. unfold future_get. simpl.
  rewrite Hid, Hmsg, Hvs, Hn. rewrite decide_True by done.
  rewrite Z.mul_1_r, (wrap_size_small n) by lia.
  set (body := fun (ot_i : nat) (outs : list Z) => _).
  set (l0 := resize (Z.to_nat n) 0 (r_outputs_ (rcv r))).
  destruct (for_each_upto body
    (fun m outs =>
       length outs = Z.to_nat n /\
       forall j, (j < m)%nat ->
         exists ot_data,
           outputs_ (rdata r) !! (Z.to_nat id + j)%nat = Some ot_data /\
           outs !! j =
             Some (if bit (choices_ (rcv r)) j
                   then wrap W (nth j msg 0 - read_T W ot_data 0)
                   else read_T W ot_data 0))
    (Z.to_nat n) l0) as (outs & Hrun & Hl & Hlow).
  - split; [by unfold l0; rewrite length_resize|]. intros; lia.
  - intros i outs Hi (Hl & Hlow). unfold body.
    rewrite (at_batch _ id n) by done.
    destruct (lookup_lt_is_Some_2 (outputs_ (rdata r)) (Z.to_nat id + i)) as [y E]; [lia|].
    rewrite E. eexists. split; [done|]. split; [by rewrite length_insert|].
    intros j Hj. destruct (decide (j = i)) as [->|Hne].
    + exists y. split; [done|]. by rewrite list_lookup_insert_eq by lia.
    + rewrite list_lookup_insert_ne by done. apply Hlow. lia.
  - exists outs. split; [|done].
    unfold finish_r, upto. simpl. fold l0. rewrite Hrun. reflexivity.
Qed.

Lemma new_msgs_app (l : list message) (m : message) : new_msgs l (l ++ [m]) = [m].
Proof. unfold new_msgs. by rewrite drop_app_length. Qed.

Lemma wrap_acot_cancel W corr a b :
  wrap W (wrap W (wrap W (corr + a) + b) - a) = wrap W (b + corr).
Proof.
  rewrite wrap_sub_l.
  replace (wrap W (corr + a) + b - a) with (wrap W (corr + a) + (b - a)) by lia.
  rewrite wrap_add_l. f_equal. lia.
Qed.

Lemma wrap_acot_cancel' W corr a b :
  wrap W (wrap W (wrap W (corr + a) + b) - b) = wrap W (a + corr).
Proof.
  rewrite wrap_sub_l.
  replace (wrap W (corr + a) + b - b) with (wrap W (corr + a) + 0) by lia.
  rewrite wrap_add_l. f_equal. lia.
Qed.

(** C2: in an ACOT<T> batch with vector_size = 1, once the receiver has set
    its choices and sent corrections, the sender has set correlations and
    sent its message, and both have computed outputs, the receiver's i-th
    output is the sender's i-th output when choice bit i is 0, and the
    sender's output plus the i-th correlation modulo 2^W when it is 1. *)
Theorem acot_outputs_correlated (W : Z) (id n : Z) (c : BitVector) (corr : list Z)
        (r0 : RcvSt) (s0 : SndSt) :
  W ∈ [8; 16; 32; 64; 128] ->
  batch_ready id n r0 s0 ->
  r_vector_size_ (rcv r0) = 1 -> s_vector_size_ (snd s0) = 1 ->
  length c = Z.to_nat n -> length corr = Z.to_nat n ->
  exists r s,
    acot_run W c corr r0 s0 = Some (r, s) /\
    forall i, (i < Z.to_nat n)%nat ->
      exists out_s out_r,
        s_outputs_ (snd s) !! i = Some out_s /\
        r_outputs_ (rcv r) !! i = Some out_r /\
        out_r = if bit c i then wrap W (out_s + nth i corr 0) else out_s.
Proof.
  intros _ [Hid0 Hn0 Hfit Hrid Hsid Hrn Hsn Hfr Hfs Hsetup Hcond [[size fut] Hprom]
            Hy0 Hy1 Hcorr Hout Hrand Hrot] Hrvs Hsvs Hc Hcr.
  assert (Hcne : c <> []) by (intros ->; simpl in Hc; lia).
  unfold acot_run. rewrite (SendCorrections_after_SetChoices c r0 Hcne). simpl.
  rewrite new_msgs_app. unfold deliver_all_s. simpl.
  rewrite Hrid, Hrn, (wrap_size_small (id + n)) by lia.
  set (corrs := bv_xor c (Subset (random_choices_ (rdata r0)) id (id + n))).
  assert (Hlc : length corrs = Z.to_nat n).
  { unfold corrs. rewrite length_bv_xor, length_Subset by lia. lia. }
  set (sd1 := mkSenderData _ _ _ _ _ _ _ _).
  set (s1 := mkSndSt (with_correlations corr (snd s0)) sd1 (s_sent s0)).
  destruct (ACOTSender_SendMessages_ok W s1 id n ltac:(done) ltac:(done) ltac:(done)
              ltac:(done) ltac:(lia) ltac:(done) ltac:(done) ltac:(done) ltac:(done))
    as (buffer & Hsend & Hlb & Hbuf).
  replace (set_snd (with_correlations corr) (mkSndSt (snd s0) sd1 (s_sent s0)))
    with s1 by done.
  rewrite Hsend. simpl.
  set (s2 := Send_s _ s1).
  destruct (ACOTSender_ComputeOutputs_ok W s2 id n ltac:(done) ltac:(done) ltac:(done)
              ltac:(done) ltac:(lia) ltac:(done) ltac:(done) ltac:(done) ltac:(done)
              ltac:(simpl; set_solver) ltac:(done) ltac:(done))
    as (outs_s & Hcomp & Hls & Houts).
  rewrite Hcomp. simpl. rewrite new_msgs_app. unfold deliver_all_r. simpl.
  rewrite ?Hrid, Hprom.
  set (rd2 := with_message_promises_ _ _).
  set (r2 := mkRcvSt _ rd2 _).
  destruct (ACOTReceiver_ComputeOutputs_ok W r2 id n buffer size ltac:(done) ltac:(done)
              ltac:(done) ltac:(done) ltac:(lia) ltac:(done) ltac:(done) ltac:(done)
              ltac:(simpl; by rewrite lookup_insert_eq) ltac:(done))
    as (outs_r & Hrc & Hlr & Houtr).
  rewrite Hrc. simpl. eexists _, _. split; [done|]. simpl.
  intros i Hi.
  destruct (Houts i Hi) as (y & Hy & Hos).
  destruct (Houtr i Hi) as (od & Hod & Hor).
  destruct (Hbuf i Hi) as (y0 & y1 & E0 & E1 & Hb).
  exists (read_T W y 0). eexists. split; [done|]. split; [done|].
  simpl in *.
  (* the correction bit the sender sees is choice xor random choice *)
  assert (Hbit : bit (Subset (copy_at (Z.to_nat id) corrs (corrections_ (sdata s0))) id (id + n)) i
                 = xorb (bit c i) (bit (random_choices_ (rdata r0)) (Z.to_nat id + i))).
  { rewrite bit_Subset by lia. rewrite bit_copy_at by lia.
    unfold corrs. rewrite bit_bv_xor by (rewrite ?length_Subset; lia).
    by rewrite bit_Subset by lia. }
  rewrite Hbit in Hy.
  rewrite Hrot in Hod by lia.
  rewrite nth_lookup, Hb. simpl.
  destruct (bit c i), (bit (random_choices_ (rdata r0)) (Z.to_nat id + i)); simpl in *;
    simplify_eq; rewrite ?wrap_acot_cancel, ?wrap_acot_cancel'; try done.
  all: f_equal; rewrite nth_lookup; done.
Qed.

(** *** GOT128 *)

Lemma lxor_cancel_r a y : Z.lxor (Z.lxor a y) y = a.
Proof. by rewrite Z.lxor_assoc, Z.lxor_nilpotent, Z.lxor_0_r. Qed.

Lemma lxor_swap a b y : Z.lxor (Z.lxor a (Z.lxor (Z.lxor a b) y)) y = b.
Proof.
  rewrite <- (Z.lxor_assoc a), <- (Z.lxor_assoc a), Z.lxor_nilpotent, Z.lxor_0_l.
  apply lxor_cancel_r.
Qed.

Lemma lxor_swap' a b y : Z.lxor (Z.lxor b (Z.lxor (Z.lxor a b) y)) y = a.
Proof. rewrite (Z.lxor_comm a b). apply lxor_swap. Qed.

Lemma GOT128Sender_SendMessages_ok (s : SndSt) (id n : Z) :
  s_ot_id_ (snd s) = id -> s_num_ots_ (snd s) = n ->
  0 <= id -> 0 <= n -> id + n < 2 ^ 64 ->
  id ∈ received_correction_offsets_cond_ (sdata s) ->
  id ∈ received_correction_offsets_ (sdata s) ->
  (Z.to_nat (id + n) <= length (y0_ (sdata s)))%nat ->
  (Z.to_nat (id + n) <= length (y1_ (sdata s)))%nat ->
  length (inputs_ (snd s)) = (2 * Z.to_nat n)%nat ->
  exists buffer,
    GOT128Sender_SendMessages s = Ok (Send_s (SenderMessage id (Blocks buffer)) s) /\
    forall i, (i < Z.to_nat n)%nat ->
      exists y0 y1,
        y0_ (sdata s) !! (Z.to_nat id + i)%nat = Some y0 /\
        y1_ (sdata s) !! (Z.to_nat id + i)%nat = Some y1 /\
        let in0 := nth (2 * i) (inputs_ (snd s)) 0 in
        let in1 := nth (2 * i + 1) (inputs_ (snd s)) 0 in
        let f := if bit (Subset (corrections_ (sdata s)) id (id + n)) i
                 then Z.lxor (Z.lxor in0 in1) else fun y => y in
        buffer !! (2 * i)%nat = Some (Z.lxor in0 (f (read_T 128 y0 0))) /\
        buffer !! (2 * i + 1)%nat = Some (Z.lxor in1 (f (read_T 128 y1 0))).
Proof.
  intros Hid Hn Hid0 Hn0 Hfit Hcond Hrecv Hy0 Hy1 Hlen.
  unfold GOT128Sender_SendMessages, wait_corrections.
  rewrite Hid. rewrite decide_True by done. rewrite decide_True by done.
  cbn [and_then].
  rewrite Hn, ?Hid, (wrap_size_small (id + n)) by lia.
  set (body := fun (i : nat) (buffer : list Z) => _).
  destruct (for_each_upto body
    (fun m buf =>
       length buf = (2 * Z.to_nat n)%nat /\
       (forall j, (j < m)%nat ->
          exists y0 y1,
            y0_ (sdata s) !! (Z.to_nat id + j)%nat = Some y0 /\
            y1_ (sdata s) !! (Z.to_nat id + j)%nat = Some y1 /\
            let in0 := nth (2 * j) (inputs_ (snd s)) 0 in
            let in1 := nth (2 * j + 1) (inputs_ (snd s)) 0 in
            let f := if bit (Subset (corrections_ (sdata s)) id (id + n)) j
                     then Z.lxor (Z.lxor in0 in1) else fun y => y in
            buf !! (2 * j)%nat = Some (Z.lxor in0 (f (read_T 128 y0 0))) /\
            buf !! (2 * j + 1)%nat = Some (Z.lxor in1 (f (read_T 128 y1 0)))) /\
       (forall k, (2 * m <= k)%nat -> buf !! k = inputs_ (snd s) !! k))
    (Z.to_nat n) (inputs_ (snd s))) as (buf & Hrun & Hl & Hlow & _).
  - split; [done|]. split; [intros; lia|done].
  - intros i buf Hi (Hl & Hlow & Hhigh).
    destruct (lookup_lt_is_Some_2 (y0_ (sdata s)) (Z.to_nat id + i)) as [y0 E0]; [lia|].
    destruct (lookup_lt_is_Some_2 (y1_ (sdata s)) (Z.to_nat id + i)) as [y1 E1]; [lia|].
    assert (Hstep : forall f : Z -> Z,
      exists buf',
        (match at_ (y0_ (sdata s)) (wrap_size (id + Z.of_nat i)) with
         | None => Throw "vector::at" buf
         | Some y0 =>
             let buffer1 :=
               <[(2 * i)%nat := Z.lxor (nth (2 * i) buf 0) (f (read_T 128 y0 0))]> buf in
             match at_ (y1_ (sdata s)) (wrap_size (id + Z.of_nat i)) with
             | None => Throw "vector::at" buffer1
             | Some y1 =>
                 Ok (<[(2 * i + 1)%nat :=
                         Z.lxor (nth (2 * i + 1) buffer1 0) (f (read_T 128 y1 0))]> buffer1)
             end
         end) = Ok buf' /\
        length buf' = (2 * Z.to_nat n)%nat /\
        buf' !! (2 * i)%nat =
          Some (Z.lxor (nth (2 * i) (inputs_ (snd s)) 0) (f (read_T 128 y0 0))) /\
        buf' !! (2 * i + 1)%nat =
          Some (Z.lxor (nth (2 * i + 1) (inputs_ (snd s)) 0) (f (read_T 128 y1 0))) /\
        (forall k, k <> (2 * i)%nat -> k <> (2 * i + 1)%nat -> buf' !! k = buf !! k)).
    { intros f. rewrite !(at_batch _ id n) by done. rewrite E0, E1.
      eexists. split; [done|]. rewrite !length_insert.
      split; [done|]. split.
      - rewrite list_lookup_insert_ne by lia. rewrite list_lookup_insert_eq by lia.
        by rewrite !nth_lookup, (Hhigh (2 * i)%nat) by lia.
      - split.
        + rewrite list_lookup_insert_eq by (rewrite length_insert; lia).
          rewrite (nth_lookup (<[_ := _]> buf)), list_lookup_insert_ne by lia.
          by rewrite !nth_lookup, (Hhigh (2 * i + 1)%nat) by lia.
        + intros k Hk0 Hk1. by rewrite !list_lookup_insert_ne by done. }
    assert (Hin0 : nth (2 * i) buf 0 = nth (2 * i) (inputs_ (snd s)) 0)
      by (by rewrite !nth_lookup, (Hhigh (2 * i)%nat) by lia).
    assert (Hin1 : nth (2 * i + 1) buf 0 = nth (2 * i + 1) (inputs_ (snd s)) 0)
      by (by rewrite !nth_lookup, (Hhigh (2 * i + 1)%nat) by lia).
    unfold body.
    set (d := bit (Subset (corrections_ (sdata s)) id (id + n)) i).
    destruct (Hstep (if d then Z.lxor (Z.lxor (nth (2 * i) (inputs_ (snd s)) 0)
                                             (nth (2 * i + 1) (inputs_ (snd s)) 0))
                     else fun y => y))
      as (buf' & Hb & Hl' & H0 & H1 & Hoth).
    exists buf'. split.
    { rewrite <- Hb. rewrite Hin0, Hin1. by destruct d. }
    split; [done|]. split.
    + intros j Hj. destruct (decide (j = i)) as [->|Hne].
      * exists y0, y1. split; [done|]. split; [done|]. simpl. fold d. by split.
      * destruct (Hlow j) as (z0 & z1 & F0 & F1 & G0 & G1); [lia|].
        exists z0, z1. split; [done|]. split; [done|]. simpl in *.
        rewrite !Hoth by lia. by split.
    + intros k Hk. rewrite Hoth by lia. apply Hhigh. lia.
  - unfold upto. rewrite Hrun. simpl. exists buf. split; [done|]. exact Hlow.
Qed.

Lemma GOT128Receiver_ComputeOutputs_ok (r : RcvSt) (id n : Z) (msg : list Z) (size : Z) :
  r_ot_id_ (rcv r) = id -> r_num_ots_ (rcv r) = n ->
  0 <= id -> 0 <= n -> id + n < 2 ^ 64 ->
  r_outputs_computed_ (rcv r) = false ->
  corrections_sent_ (rcv r) = true ->
  message_promises_ (rdata r) !! id = Some (size, Some (Blocks msg)) ->
  (Z.to_nat (id + n) <= length (outputs_ (rdata r)))%nat ->
  length (r_outputs_ (rcv r)) = Z.to_nat n ->
  exists outs,
    GOT128Receiver_ComputeOutputs r =
      Ok (set_rcv (with_r_outputs_computed true) (set_rcv (with_r_outputs outs) r)) /\
    forall i, (i < Z.to_nat n)%nat ->
      exists ot_data,
        outputs_ (rdata r) !! (Z.to_nat id + i)%nat = Some ot_data /\
        outs !! i =
          Some (Z.lxor (if bit (Subset (random_choices_ (rdata r)) id (id + n)) i
                        then nth (2 * i + 1) msg 0 else nth (2 * i) msg 0)
                       (read_T 128 ot_data 0)).
Proof.
  intros Hid Hn Hid0 Hn0 Hfit Hfresh Hsent Hmsg Hout Hlen.
  unfold GOT128Receiver_ComputeOutputs.
  rewrite Hfresh, Hsent. simpl. unfold future_get.
  rewrite Hid, Hmsg, Hn. rewrite (wrap_size_small (id + n)) by lia.
  set (body := fun (i : nat) (outs : list Z) => _).
  destruct (for_each_upto body
    (fun m outs =>
       length outs = Z.to_nat n /\
       forall j, (j < m)%nat ->
         exists ot_data,
           outputs_ (rdata r) !! (Z.to_nat id + j)%nat = Some ot_data /\
           outs !! j =
             Some (Z.lxor (if bit (Subset (random_choices_ (rdata r)) id (id + n)) j
                           then nth (2 * j + 1) msg 0 else nth (2 * j) msg 0)
                          (read_T 128 ot_data 0)))
    (Z.to_nat n) (r_outputs_ (rcv r))) as (outs & Hrun & Hl & Hlow).
  - split; [done|]. intros; lia.
  - intros i outs Hi (Hl & Hlow). unfold body.
    rewrite (at_batch _ id n) by done.
    destruct (lookup_lt_is_Some_2 (outputs_ (rdata r)) (Z.to_nat id + i)) as [y E]; [lia|].
    rewrite E. eexists. split; [done|]. split; [by rewrite length_insert|].
    intros j Hj. destruct (decide (j = i)) as [->|Hne].
    + exists y. split; [done|]. by rewrite list_lookup_insert_eq by lia.
    + rewrite list_lookup_insert_ne by done. apply Hlow. lia.
  - exists outs. split; [|done].
    unfold finish_r, upto. rewrite Hrun. reflexivity.
Qed.

(** C10: in a GOT128 batch, after the receiver has set its real choice bits
    and sent corrections and the sender has set its 2 * num_ots input blocks
    and sent its message, the receiver's i-th output block is the sender's
    input block [inputs_[2 * i + x_i]] chosen by the real choice bit [x_i],
    whatever the precomputed random choice bit was. *)
Theorem got128_outputs_selected (id n : Z) (x : BitVector) (inputs : list Z)
        (r0 : RcvSt) (s0 : SndSt) :
  batch_ready id n r0 s0 ->
  length (r_outputs_ (rcv r0)) = Z.to_nat n ->
  length x = Z.to_nat n -> length inputs = (2 * Z.to_nat n)%nat ->
  exists r s,
    got128_run x inputs r0 s0 = Some (r, s) /\
    forall i, (i < Z.to_nat n)%nat ->
      r_outputs_ (rcv r) !! i =
        Some (nth (2 * i + (if bit x i then 1 else 0)) inputs 0).
Proof.
  intros [Hid0 Hn0 Hfit Hrid Hsid Hrn Hsn Hfr Hfs Hsetup Hcond [[size fut] Hprom]
            Hy0 Hy1 Hcorr Hout Hrand Hrot] Hlo Hx Hin.
  assert (Hxne : x <> []) by (intros ->; simpl in Hx; lia).
  unfold got128_run. rewrite (SendCorrections_after_SetChoices x r0 Hxne).
  cbn [ok_state mbind option_bind r_sent]. rewrite new_msgs_app.
  unfold deliver_all_s. cbn [foldl deliver_to_sender sdata snd s_sent].
  rewrite Hrid, Hrn, (wrap_size_small (id + n)) by lia.
  set (corrs := bv_xor x (Subset (random_choices_ (rdata r0)) id (id + n))).
  assert (Hlc : length corrs = Z.to_nat n).
  { unfold corrs. rewrite length_bv_xor, length_Subset by lia. lia. }
  set (sd1 := mkSenderData _ _ _ _ _ _ _ _).
  set (s1 := mkSndSt (with_inputs inputs (snd s0)) sd1 (s_sent s0)).
  destruct (GOT128Sender_SendMessages_ok s1 id n ltac:(done) ltac:(done) ltac:(done)
              ltac:(lia) ltac:(done) ltac:(done) ltac:(simpl; set_solver) ltac:(done)
              ltac:(done) ltac:(done))
    as (buffer & Hsend & Hbuf).
  unfold SetInputs. cbn [and_then].
  replace (set_snd (with_inputs inputs) (mkSndSt (snd s0) sd1 (s_sent s0)))
    with s1 by done.
  rewrite Hsend. cbn [ok_state mbind option_bind].
  replace (s_sent (Send_s (SenderMessage id (Blocks buffer)) s1))
    with (s_sent s0 ++ [SenderMessage id (Blocks buffer)]) by done.
  rewrite new_msgs_app. unfold deliver_all_r.
  cbn [foldl deliver_to_receiver rdata rcv r_sent]. rewrite Hprom.
  set (rd2 := with_message_promises_ _ _).
  set (r2 := mkRcvSt _ rd2 _).
  destruct (GOT128Receiver_ComputeOutputs_ok r2 id n buffer size ltac:(done) ltac:(done)
              ltac:(done) ltac:(lia) ltac:(done) ltac:(done) ltac:(done)
              ltac:(simpl; by rewrite lookup_insert_eq) ltac:(done) ltac:(done))
    as (outs_r & Hrc & Houtr).
  rewrite Hrc. cbn [ok_state mbind option_bind]. eexists _, _. split; [done|].
  intros i Hi. cbn [rcv set_rcv with_r_outputs_computed with_r_outputs r_outputs_].
  destruct (Houtr i Hi) as (od & Hod & Hor).
  destruct (Hbuf i Hi) as (y0 & y1 & E0 & E1 & Hb0 & Hb1).
  rewrite Hor. f_equal.
  cbn [rdata r2 rd2 random_choices_ outputs_ sdata s1 sd1 corrections_ y0_ y1_ snd
       with_inputs inputs_ with_message_promises_] in *.
  assert (Hbit : bit (Subset (copy_at (Z.to_nat id) corrs (corrections_ (sdata s0))) id (id + n)) i
                 = xorb (bit x i) (bit (random_choices_ (rdata r0)) (Z.to_nat id + i))).
  { rewrite bit_Subset by lia. rewrite bit_copy_at by lia.
    unfold corrs. rewrite bit_bv_xor by (rewrite ?length_Subset; lia).
    by rewrite bit_Subset by lia. }
  rewrite Hbit in Hb0, Hb1.
  rewrite Hrot in Hod by lia.
  rewrite bit_Subset by lia.
  rewrite !nth_lookup, Hb0, Hb1. cbn [default].
  rewrite <- !nth_lookup.
  destruct (bit x i), (bit (random_choices_ (rdata r0)) (Z.to_nat id + i));
    cbn [xorb] in *; simplify_eq; rewrite ?Nat.add_0_r.
  - apply lxor_cancel_r.
  - apply lxor_swap.
  - apply lxor_swap'.
  - apply lxor_cancel_r.
Qed.

(** *** Call order *)

Lemma not_raises_Ok {S} (s : S) : ~ raises (Ok s).
Proof. by intros []. Qed.

Lemma not_raises_Blocked {S} (s : S) : ~ raises (Blocked s).
Proof. by intros []. Qed.

Lemma not_raises_map {S T} (f : S -> T) (o : outcome S) :
  ~ raises o -> ~ raises (map_outcome f o).
Proof. by destruct o. Qed.

Lemma at_index {A} (l : list A) (i : nat) :
  (i < length l)%nat -> exists x, at_ l (Z.of_nat i) = Some x.
Proof.
  intros Hi. unfold at_. rewrite Nat2Z.id.
  destruct (lookup_lt_is_Some_2 l i Hi) as [x Hx]. eauto.
Qed.

(** The loops of the ACOT receiver do not throw once the pads cover the
    batch, whatever the vector size. *)
Lemma ACOTReceiver_ComputeOutputs_no_raise (W : Z) (r : RcvSt) (id n : Z) :
  r_ot_id_ (rcv r) = id -> r_num_ots_ (rcv r) = n ->
  0 <= id -> 0 <= n -> id + n < 2 ^ 64 ->
  corrections_sent_ (rcv r) = true ->
  (Z.to_nat (id + n) <= length (outputs_ (rdata r)))%nat ->
  ~ raises (ACOTReceiver_ComputeOutputs W r).
Proof.
  intros Hid Hn Hid0 Hn0 Hfit Hsent Hout.
  unfold ACOTReceiver_ComputeOutputs.
  destruct (r_outputs_computed_ (rcv r)); [apply not_raises_Ok|].
  rewrite Hsent. cbn [negb].
  destruct (future_get _) as [[| |msg]|]; try apply not_raises_Blocked.
  rewrite Hid, Hn.
  match goal with |- ~ raises (finish_r ?s1 ?loop) =>
    assert (Hloop : exists outs, loop = Ok outs) end.
  { destruct (decide (r_vector_size_ (rcv r) = 1)).
    - match goal with |- exists _, for_each ?b _ ?l = _ =>
        destruct (for_each_upto b (fun _ _ => True) (Z.to_nat n) l I) as (o & Ho & _)
      end; [|unfold upto; eauto].
      intros i outs Hi _. rewrite (at_batch _ id n) by done.
      destruct (lookup_lt_is_Some_2 (outputs_ (rdata r)) (Z.to_nat id + i)) as [y E]; [lia|].
      cbn [rdata set_rcv]. rewrite E. eauto.
    - match goal with |- exists _, for_each ?b _ ?l = _ =>
        destruct (for_each_upto b (fun _ _ => True) (Z.to_nat n) l I) as (o & Ho & _)
      end; [|unfold upto; eauto].
      intros i outs Hi _. rewrite (at_batch _ id n) by done.
      destruct (lookup_lt_is_Some_2 (outputs_ (rdata r)) (Z.to_nat id + i)) as [y E]; [lia|].
      cbn [rdata set_rcv]. rewrite E. eauto. }
  destruct Hloop as [outs ->]. apply not_raises_Ok.
Qed.

Lemma COTVectorSender_GetOutputs_no_raise (s : VSndSt) (id n : Z) :
  v_ot_id_ (vsnd s) = id -> v_num_ots_ (vsnd s) = n ->
  0 <= id -> 0 <= n -> id + n < 2 ^ 64 ->
  id ∈ received_correction_offsets_cond_ (vsdata s) ->
  (Z.to_nat (id + n) <= length (y0_ (vsdata s)))%nat ->
  (Z.to_nat (id + n) <= length (y1_ (vsdata s)))%nat ->
  length (v_inputs_ (vsnd s)) = Z.to_nat n ->
  v_inputs_ (vsnd s) <> [] ->
  ~ raises (COTVectorSender_GetOutputs s).
Proof.
  intros Hid Hn Hid0 Hn0 Hfit Hcond Hy0 Hy1 Hlen Hne.
  unfold COTVectorSender_GetOutputs.
  destruct (v_inputs_ (vsnd s)) as [|x0 xs] eqn:Hin; [done|]. rewrite <- Hin. clear Hne.
  unfold v_wait_setup. destruct (snd_setup_finished_ (vsdata s)); [|apply not_raises_Blocked].
  cbn [and_then]. unfold v_wait_corrections. rewrite Hid.
  rewrite decide_True by done.
  destruct (decide (id ∈ _)); [|apply not_raises_Blocked]. cbn [and_then].
  destruct (v_outputs_ (vsnd s)); [|apply not_raises_Ok].
  apply not_raises_map. rewrite Hn.
  match goal with |- ~ raises (for_each ?b _ ?l) =>
    destruct (for_each_upto b (fun _ _ => True) (Z.to_nat n) l I) as (o & Ho & _)
  end; [|unfold upto; rewrite Ho; apply not_raises_Ok].
  intros i outs Hi _. rewrite !(at_batch _ id n) by done.
  destruct (lookup_lt_is_Some_2 (y1_ (vsdata s)) (Z.to_nat id + i)) as [y1 E1]; [lia|].
  rewrite E1.
  set (ys := if bit _ i then _ else _).
  destruct (lookup_lt_is_Some_2 ys (Z.to_nat id + i)) as [y E].
  { unfold ys. destruct (bit _ i); lia. }
  rewrite E.
  destruct (at_index (v_inputs_ (vsnd s)) i) as [inp Hinp]; [rewrite Hin in *; lia|].
  rewrite Hinp.
  destruct (v_p_ (vsnd s)); try destruct (is_acot_bitlen _); eauto.
Qed.

Lemma COTVectorSender_SendMessages_no_raise (s : VSndSt) (id n : Z) :
  v_ot_id_ (vsnd s) = id -> v_num_ots_ (vsnd s) = n ->
  0 <= id -> 0 <= n -> id + n < 2 ^ 64 ->
  (v_p_ (vsnd s) = P_XCOT \/
   (v_p_ (vsnd s) = P_ACOT /\ is_acot_bitlen (v_bitlen_ (vsnd s)) = true)) ->
  (Z.to_nat (id + n) <= length (y0_ (vsdata s)))%nat ->
  (Z.to_nat (id + n) <= length (y1_ (vsdata s)))%nat ->
  length (v_inputs_ (vsnd s)) = Z.to_nat n ->
  v_inputs_ (vsnd s) <> [] ->
  ~ raises (COTVectorSender_SendMessages s).
Proof.
  intros Hid Hn Hid0 Hn0 Hfit Hp Hy0 Hy1 Hlen Hne.
  unfold COTVectorSender_SendMessages.
  destruct (v_inputs_ (vsnd s)) as [|x0 xs] eqn:Hin; [done|]. rewrite <- Hin. clear Hne.
  unfold v_wait_setup. destruct (snd_setup_finished_ (vsdata s)); [|apply not_raises_Blocked].
  cbn [and_then]. rewrite Hn, Hid.
  match goal with |- ~ raises (map_outcome _ (for_each ?b _ ?l) >>> _) =>
    destruct (for_each_upto b (fun _ _ => True) (Z.to_nat n) l I) as (o & Ho & _)
  end.
  { intros i acc Hi _. rewrite (at_batch _ id n) by done.
    destruct (lookup_lt_is_Some_2 (y0_ (vsdata s)) (Z.to_nat id + i)) as [y E]; [lia|].
    rewrite E. eauto. }
  unfold upto. rewrite Ho. cbn [map_outcome and_then].
  apply not_raises_map.
  match goal with |- ~ raises (for_each ?b _ ?l) =>
    destruct (for_each_upto b (fun _ _ => True) (Z.to_nat n) l I) as (o' & Ho' & _)
  end; [|rewrite Ho'; apply not_raises_Ok].
  intros i buffer Hi _. rewrite !(at_batch _ id n) by done.
  destruct (lookup_lt_is_Some_2 (y0_ (vsdata s)) (Z.to_nat id + i)) as [y0 E0]; [lia|].
  destruct (lookup_lt_is_Some_2 (y1_ (vsdata s)) (Z.to_nat id + i)) as [y1 E1]; [lia|].
  destruct (at_index (v_inputs_ (vsnd s)) i) as [inp Hinp]; [rewrite Hin in *; lia|].
  rewrite E0, E1, Hinp.
  destruct Hp as [-> | [-> ->]]; eauto.
Qed.

Lemma FixedXCOT128Receiver_ComputeOutputs_no_raise (r : RcvSt) (id n : Z) :
  r_ot_id_ (rcv r) = id -> r_num_ots_ (rcv r) = n ->
  0 <= id -> 0 <= n -> id + n < 2 ^ 64 ->
  corrections_sent_ (rcv r) = true ->
  (Z.to_nat (id + n) <= length (outputs_ (rdata r)))%nat ->
  ~ raises (FixedXCOT128Receiver_ComputeOutputs r).
Proof.
  intros Hid Hn Hid0 Hn0 Hfit Hsent Hout.
  unfold FixedXCOT128Receiver_ComputeOutputs.
  destruct (r_outputs_computed_ (rcv r)); [apply not_raises_Ok|].
  rewrite Hsent. cbn [negb].
  destruct (future_get _) as [[msg| |]|]; try apply not_raises_Blocked.
  rewrite Hid, Hn.
  match goal with |- ~ raises (finish_r _ (for_each ?b _ ?l)) =>
    destruct (for_each_upto b (fun _ _ => True) (Z.to_nat n) l I) as (o & Ho & _)
  end; [|unfold upto; rewrite Ho; apply not_raises_Ok].
  intros i outs Hi _. rewrite (at_batch _ id n) by done.
  destruct (lookup_lt_is_Some_2 (outputs_ (rdata r)) (Z.to_nat id + i)) as [y E]; [lia|].
  rewrite E. eauto.
Qed.

Lemma XCOTBitReceiver_ComputeOutputs_no_raise (r : RcvSt) (id n : Z) :
  r_ot_id_ (rcv r) = id -> r_num_ots_ (rcv r) = n ->
  0 <= id -> 0 <= n -> id + n < 2 ^ 64 ->
  corrections_sent_ (rcv r) = true ->
  (Z.to_nat (id + n) <= length (outputs_ (rdata r)))%nat ->
  ~ raises (XCOTBitReceiver_ComputeOutputs r).
Proof.
  intros Hid Hn Hid0 Hn0 Hfit Hsent Hout.
  unfold XCOTBitReceiver_ComputeOutputs.
  destruct (r_outputs_computed_ (rcv r)); [apply not_raises_Ok|].
  rewrite Hsent. cbn [negb]. rewrite Hid, Hn.
  destruct (decide (r_vector_size_ (rcv r) = 1)).
  - destruct (future_get _) as [[|msg|]|]; try apply not_raises_Blocked.
    match goal with |- ~ raises (map_outcome _ (for_each ?b _ ?l) >>> _) =>
      destruct (for_each_upto b (fun _ _ => True) (Z.to_nat n) l I) as (o & Ho & _)
    end; [|unfold upto; rewrite Ho; apply not_raises_Ok].
    intros i outs Hi _. rewrite (at_batch _ id n) by done.
    destruct (lookup_lt_is_Some_2 (outputs_ (rdata r)) (Z.to_nat id + i)) as [y E]; [lia|].
    rewrite E. eauto.
  - destruct (future_get _) as [[|msg|]|]; try apply not_raises_Blocked.
    match goal with |- ~ raises (for_each ?b _ ?l >>> _) =>
      destruct (for_each_upto b
        (fun _ s' => length (outputs_ (rdata s')) = length (outputs_ (rdata r)))
        (Z.to_nat n) l eq_refl) as (o & Ho & _)
    end; [|unfold upto; rewrite Ho; apply not_raises_Ok].
    intros i s' Hi Hl. rewrite (at_batch _ id n) by done.
    destruct (lookup_lt_is_Some_2 (outputs_ (rdata s')) (Z.to_nat id + i)) as [y E]; [lia|].
    rewrite E. eexists. split; [done|]. cbn [rdata with_outputs_ outputs_].
    by rewrite length_insert.
Qed.


(** *** The sample batches are ready *)

Lemma acot_sample_ready : batch_ready 2 3 OTSamples.acot_receiver OTSamples.acot_sender.
Proof.
  split;
    [lia | lia | lia | reflexivity | reflexivity | reflexivity | reflexivity
    | reflexivity | reflexivity | reflexivity
    | apply (bool_decide_unpack _); vm_compute; exact I
    | vm_compute; eauto
    | vm_compute; lia | vm_compute; lia | vm_compute; lia | vm_compute; lia
    | vm_compute; lia | ].
  - intros k Hk.
    assert (Hc : k = 2%nat \/ k = 3%nat \/ k = 4%nat) by lia.
    destruct Hc as [-> | [-> | ->]]; reflexivity.
Defined.

Lemma got_sample_ready : batch_ready 2 3 OTSamples.got_receiver OTSamples.got_sender.
Proof.
  split;
    [lia | lia | lia | reflexivity | reflexivity | reflexivity | reflexivity
    | reflexivity | reflexivity | reflexivity
    | apply (bool_decide_unpack _); vm_compute; exact I
    | vm_compute; eauto
    | vm_compute; lia | vm_compute; lia | vm_compute; lia | vm_compute; lia
    | vm_compute; lia | ].
  - intros k Hk.
    assert (Hc : k = 2%nat \/ k = 3%nat \/ k = 4%nat) by lia.
    destruct Hc as [-> | [-> | ->]]; reflexivity.
Defined.

Lemma acot_outputs_correlated_witness :
  exists r s,
    acot_run 8 [true; false; true] [7; 9; 100] OTSamples.acot_receiver OTSamples.acot_sender
      = Some (r, s) /\
    forall i, (i < Z.to_nat 3)%nat ->
      exists out_s out_r,
        s_outputs_ (snd s) !! i = Some out_s /\
        r_outputs_ (rcv r) !! i = Some out_r /\
        out_r = if bit [true; false; true] i
                then wrap 8 (out_s + nth i [7; 9; 100] 0) else out_s.
Proof.
  apply (acot_outputs_correlated 8 2 3 [true; false; true] [7; 9; 100]
           OTSamples.acot_receiver OTSamples.acot_sender).
  - apply (bool_decide_unpack _). vm_compute. exact I.
  - exact acot_sample_ready.
  - reflexivity.
  - reflexivity.
  - reflexivity.
  - reflexivity.
Defined.

Lemma got128_outputs_selected_witness :
  exists r s,
    got128_run [true; false; true] [1; 2; 3; 4; 5; 6]
               OTSamples.got_receiver OTSamples.got_sender = Some (r, s) /\
    forall i, (i < Z.to_nat 3)%nat ->
      r_outputs_ (rcv r) !! i =
        Some (nth (2 * i + (if bit [true; false; true] i then 1 else 0))
                  [1; 2; 3; 4; 5; 6] 0).
Proof.
  apply (got128_outputs_selected 2 3 [true; false; true] [1; 2; 3; 4; 5; 6]
           OTSamples.got_receiver OTSamples.got_sender).
  - exact got_sample_ready.
  - reflexivity.
  - reflexivity.
  - reflexivity.
Defined.

(** The sample runs, evaluated. *)
Example acot_sample_outputs :
  (fun '(r, s) => (r_outputs_ (rcv r), s_outputs_ (snd s))) <$>
    acot_run 8 [true; false; true] [7; 9; 100] OTSamples.acot_receiver OTSamples.acot_sender
  = Some ([20; 104; 94], [13; 104; 250]).
Proof. vm_compute. reflexivity. Qed.

Example got_sample_outputs :
  (fun '(r, _) => r_outputs_ (rcv r)) <$>
    got128_run [true; false; true] [1; 2; 3; 4; 5; 6]
               OTSamples.got_receiver OTSamples.got_sender
  = Some [2; 3; 6].
Proof. vm_compute. reflexivity. Qed.



End OTFacts.

(** * Registration: offsets, disjoint ranges, fixed sizes *)

Module OTRegister.
Import OT.

Lemma new_provider_consistent : consistent new_provider.
Proof. by split. Qed.

Lemma size_vresize {A} (n : Z) (x : A) (l : list A) : 0 <= n -> size (vresize n x l) = n.
Proof. intros Hn. unfold size, vresize. rewrite length_resize. lia. Qed.

Lemma wrap_size_id (n : Z) : 0 <= n < 2 ^ 64 -> wrap_size n = n.
Proof. apply wrap_small. Qed.

Lemma emplace_keeps {A} (k k' : Z) (v v' : A) (m : gmap Z A) :
  m !! k' = Some v' -> emplace k v m !! k' = Some v'.
Proof.
  intros H. unfold emplace. destruct (m !! k) eqn:E; [done|].
  destruct (decide (k = k')) as [->|Hne]; [congruence|].
  by rewrite lookup_insert_ne.
Qed.

(** The loop that stores the bit length of a fresh batch stays inside the
    resized array. *)
Lemma bitlength_loop_ok (idx : nat -> list Z -> Z) (bitlen : Z) (n : nat) (bl : list Z) :
  (forall i acc, (i < n)%nat -> length acc = length bl ->
                 0 <= idx i acc /\ (Z.to_nat (idx i acc) < length bl)%nat) ->
  exists bl',
    for_each (fun i bl' =>
       match at_ bl' (idx i bl') with
       | None => Throw "vector::at" bl'
       | Some _ => Ok (<[Z.to_nat (idx i bl') := bitlen]> bl')
       end) (seq 0 n) bl = Ok bl' /\
    length bl' = length bl.
Proof.
  intros Hidx.
  apply (for_each_upto _ (fun _ acc => length acc = length bl)); [done|].
  intros i acc Hi Hl. destruct (Hidx i acc Hi Hl) as [H0 H1].
  unfold at_. destruct (lookup_lt_is_Some_2 acc (Z.to_nat (idx i acc))) as [x ->]; [lia|].
  eexists. split; [done|]. by rewrite length_insert.
Qed.

Lemma OTVectorSender_Reserve_ok (id n bitlen : Z) (d : OTExtensionSenderData) (c : Z) :
  0 <= c -> 0 <= n -> c + n < 2 ^ 64 ->
  size (y0_ d) = c -> size (y1_ d) = c -> size (snd_bitlengths_ d) = c ->
  size (corrections_ d) = c ->
  exists d',
    OTVectorSender_Reserve id n bitlen d = Ok d' /\
    size (y0_ d') = c + n /\ size (y1_ d') = c + n /\
    size (snd_bitlengths_ d') = c + n /\ size (corrections_ d') = c + n /\
    snd_num_ots_in_batch_ d' = emplace id n (snd_num_ots_in_batch_ d).
Proof.
  intros Hc Hn Hfit H0 H1 H2 H3. unfold OTVectorSender_Reserve.
  rewrite H0, H1, H2, H3, !(wrap_size_id (c + n)) by lia.
  set (bl := vresize (c + n) 0 (snd_bitlengths_ d)).
  assert (Hbl : size bl = c + n) by (apply size_vresize; lia).
  destruct (bitlength_loop_ok
              (fun i bl' => wrap_size (wrap_size (size bl' - 1) - Z.of_nat i))
              bitlen (Z.to_nat n) bl) as (bl' & Hrun & Hlen).
  { intros i acc Hi Hl. unfold size in *. rewrite Hl.
    rewrite (wrap_size_id (Z.of_nat (length bl) - 1)) by lia.
    rewrite wrap_size_id by lia. lia. }
  unfold upto. rewrite Hrun. cbn [map_outcome and_then snd_bitlengths_].
  eexists. split; [done|]. cbn.
  rewrite !size_vresize by lia. unfold size in *. rewrite Hlen. done.
Qed.

Lemma OTVectorReceiver_Reserve_ok (id n bitlen : Z) (d : OTExtensionReceiverData) :
  0 <= id -> 0 <= n -> id + n < 2 ^ 64 ->
  exists d',
    OTVectorReceiver_Reserve id n bitlen d = Ok d' /\
    size (outputs_ d') = id + n /\ size (rcv_bitlengths_ d') = id + n /\
    rcv_num_ots_in_batch_ d' = emplace id n (rcv_num_ots_in_batch_ d) /\
    real_choices_ d' = real_choices_ d /\ set_real_choices_ d' = set_real_choices_ d.
Proof.
  intros Hc Hn Hfit. unfold OTVectorReceiver_Reserve.
  rewrite !(wrap_size_id (id + n)) by lia.
  set (bl := vresize (id + n) 0 (rcv_bitlengths_ d)).
  assert (Hbl : size bl = id + n) by (apply size_vresize; lia).
  destruct (bitlength_loop_ok
              (fun i (_ : list Z) => wrap_size (id + Z.of_nat i))
              bitlen (Z.to_nat n) bl) as (bl' & Hrun & Hlen).
  { intros i acc Hi Hl. unfold size in *.
    rewrite !wrap_size_id by lia. lia. }
  unfold upto. rewrite Hrun. cbn [map_outcome and_then rcv_bitlengths_].
  eexists. split; [done|]. cbn.
  rewrite !size_vresize by lia. unfold size in *. rewrite Hlen. done.
Qed.

Lemma register_step (q : request) (p : OTProvider) :
  consistent p -> 0 <= request_num_ots q ->
  count (request_side q) p + request_num_ots q < 2 ^ 64 ->
  exists p' ob,
    state_of (register q p) = (p', ob) /\ consistent p' /\
    count (request_side q) p' = count (request_side q) p + request_num_ots q /\
    count (other (request_side q)) p' = count (other (request_side q)) p /\
    (forall b, (match register q p with Ok _ => ob | _ => None end) = Some b ->
               b = mkBatch (request_side q) (count (request_side q) p) (request_num_ots q)) /\
    (forall sd k v, num_ots_in_batch sd p !! k = Some v ->
                    num_ots_in_batch sd p' !! k = Some v).
Proof.
  intros [Hcs H0 H1 H2 H3 Hcr H4 H5] Hn Hfit.
  destruct q as [[|] f n vs | [|] bitlen n pr]; cbn [request_side request_num_ots count] in *.
  - (* new-style sender *)
    eexists _, _. split; [reflexivity|].
    split; [|split; [|split; [|split]]].
    + split; cbn; rewrite ?size_vresize, ?H0, ?H1, ?H2, ?H3, ?wrap_size_id;
        rewrite ?wrap_size_id; lia.
    + cbn. by rewrite wrap_size_id by lia.
    + done.
    + cbn. by intros b [= <-].
    + intros [|] k v; cbn; [apply emplace_keeps|done].
  - (* new-style receiver *)
    eexists _, _. split; [reflexivity|].
    split; [|split; [|split; [|split]]].
    + split; cbn; rewrite ?size_vresize, ?wrap_size_id; rewrite ?wrap_size_id; lia.
    + cbn. by rewrite wrap_size_id by lia.
    + done.
    + cbn. by intros b [= <-].
    + intros [|] k v; cbn; [done|apply emplace_keeps].
  - (* old-style sender *)
    destruct (OTVectorSender_Reserve_ok (sender_total_ots_count_ p) n bitlen
                (sender_data_ p) (sender_total_ots_count_ p))
      as (d' & Hres & G0 & G1 & G2 & G3 & Gm); try done.
    unfold register. rewrite Hres. cbn [map_outcome and_then sender_data_].
    rewrite (wrap_size_id (_ + n)) by lia.
    destruct (old_cot_rejects pr bitlen); cbn [state_of].
    + eexists _, _. split; [reflexivity|].
      split; [|split; [|split; [|split]]]; try done.
      * split; cbn; lia.
      * intros [|] k v; cbn; [rewrite Gm; apply emplace_keeps|done].
    + eexists _, _. split; [reflexivity|].
      split; [|split; [|split; [|split]]]; try done.
      * split; destruct pr; cbn; lia.
      * by intros b [= <-].
      * intros [|] k v; destruct pr; cbn; try done; rewrite Gm; apply emplace_keeps.
  - (* old-style receiver *)
    set (i := receiver_total_ots_count_ p) in *.
    unfold register. fold i.
    match goal with |- context [OTVectorReceiver_Reserve _ _ _ ?d] => set (d1 := d) end.
    destruct (OTVectorReceiver_Reserve_ok i n bitlen d1)
      as (d' & Hres & G0 & G1 & Gm & _); try done.
    assert (Hd1 : rcv_num_ots_in_batch_ d1 = rcv_num_ots_in_batch_ (receiver_data_ p))
      by (unfold d1; by destruct pr).
    rewrite Hres.
    cbn [map_outcome and_then receiver_data_].
    rewrite (wrap_size_id (_ + n)) by lia.
    destruct (old_cot_rejects pr bitlen) eqn:Hrej; cbn [state_of].
    + eexists _, _. split; [reflexivity|].
      split; [|split; [|split; [|split]]]; try done.
      * split; cbn; lia.
      * intros [|] k v; cbn; [done|rewrite Gm, Hd1; apply emplace_keeps].
    + destruct (OTVectorReceiver_Reserve_ok i n bitlen d')
        as (d'' & Hres2 & K0 & K1 & Km & _); try done.
      assert (Hsecond :
        exists d2, (match pr with
                    | P_ROT => OTVectorReceiver_Reserve i n bitlen d'
                    | _ => Ok d'
                    end) = Ok d2 /\
                   size (outputs_ d2) = i + n /\ size (rcv_bitlengths_ d2) = i + n /\
                   forall k v, rcv_num_ots_in_batch_ d' !! k = Some v ->
                               rcv_num_ots_in_batch_ d2 !! k = Some v).
      { destruct pr; try (exists d'; by repeat split).
        exists d''. repeat split; try done. intros k v. rewrite Km. apply emplace_keeps. }
      destruct Hsecond as (d2 & -> & L0 & L1 & Lm).
      cbn [map_outcome and_then receiver_data_ state_of].
      eexists _, _. split; [reflexivity|].
      split; [|split; [|split; [|split]]]; try done.
      * split; cbn; lia.
      * by intros b [= <-].
      * intros [|] k v; cbn; [done|]. intros Hk. apply Lm. rewrite Gm, Hd1.
        by apply emplace_keeps.
Qed.

Lemma emplace_idem {A} (k : Z) (v : A) (m : gmap Z A) :
  emplace k v (emplace k v m) = emplace k v m.
Proof.
  unfold emplace at 1. destruct (emplace k v m !! k) eqn:E; [done|].
  exfalso. unfold emplace in E. destruct (m !! k) eqn:E'; [congruence|].
  by rewrite lookup_insert_eq in E.
Qed.

Lemma emplace_lookup {A} (k : Z) (v : A) (m : gmap Z A) :
  emplace k v m !! k = Some (default v (m !! k)).
Proof.
  unfold emplace. destruct (m !! k) eqn:E; [by rewrite E|]. by rewrite lookup_insert_eq.
Qed.

Lemma emplace_lookup_ne {A} (k k' : Z) (v : A) (m : gmap Z A) :
  k <> k' -> emplace k v m !! k' = m !! k'.
Proof.
  intros Hne. unfold emplace. destruct (m !! k); [done|]. by rewrite lookup_insert_ne.
Qed.

(** What one registration does to the size maps: [emplace] under the offset
    it hands out, on its own side only; a registration that is refused has
    made its entry all the same. *)
Lemma register_entries (q : request) (p : OTProvider) :
  consistent p -> 0 <= request_num_ots q ->
  count (request_side q) p + request_num_ots q < 2 ^ 64 ->
  num_ots_in_batch (request_side q) (state_of (register q p)).1
  = emplace (count (request_side q) p) (request_num_ots q)
            (num_ots_in_batch (request_side q) p) /\
  num_ots_in_batch (other (request_side q)) (state_of (register q p)).1
  = num_ots_in_batch (other (request_side q)) p.
Proof.
  intros [Hcs H0 H1 H2 H3 Hcr H4 H5] Hn Hfit.
  destruct q as [[|] f n vs | [|] bitlen n pr];
    cbn [request_side request_num_ots count other] in *.
  - by cbn.
  - by cbn.
  - destruct (OTVectorSender_Reserve_ok (sender_total_ots_count_ p) n bitlen
                (sender_data_ p) (sender_total_ots_count_ p))
      as (d' & Hres & _ & _ & _ & _ & Gm); try done.
    unfold register. rewrite Hres. cbn [map_outcome and_then sender_data_].
    destruct (old_cot_rejects pr bitlen); cbn [state_of fst num_ots_in_batch sender_data_
      receiver_data_]; [done|].
    split; [|done]. by destruct pr.
  - set (i := receiver_total_ots_count_ p) in *.
    unfold register. fold i.
    match goal with |- context [OTVectorReceiver_Reserve _ _ _ ?d] => set (d1 := d) end.
    destruct (OTVectorReceiver_Reserve_ok i n bitlen d1)
      as (d' & Hres & _ & _ & Gm & _); try done.
    assert (Hd1 : rcv_num_ots_in_batch_ d1 = rcv_num_ots_in_batch_ (receiver_data_ p))
      by (unfold d1; by destruct pr).
    rewrite Hres. cbn [map_outcome and_then receiver_data_].
    destruct (old_cot_rejects pr bitlen) eqn:Hrej;
      cbn [state_of fst num_ots_in_batch sender_data_ receiver_data_].
    + by rewrite Gm, Hd1.
    + destruct (OTVectorReceiver_Reserve_ok i n bitlen d')
        as (d'' & Hres2 & _ & _ & Km & _); try done.
      assert (Hsecond :
        exists d2, (match pr with
                    | P_ROT => OTVectorReceiver_Reserve i n bitlen d'
                    | _ => Ok d'
                    end) = Ok d2 /\
                   rcv_num_ots_in_batch_ d2 = emplace i n (rcv_num_ots_in_batch_ d1)).
      { destruct pr; try (exists d'; by split).
        exists d''. split; [done|]. by rewrite Km, Gm, emplace_idem. }
      destruct Hsecond as (d2 & -> & Lm).
      cbn [map_outcome and_then receiver_data_ state_of fst num_ots_in_batch
           sender_data_ with_real_choices_ rcv_num_ots_in_batch_].
      by rewrite Lm, Hd1.
Qed.

Lemma requested_nonneg (sd : side) (qs : list request) : sizes_ok qs -> 0 <= requested sd qs.
Proof.
  induction 1 as [|q rest Hq _ IH]; [done|]. cbn.
  destruct (request_side q), sd; lia.
Qed.

Lemma requested_app (sd : side) (l1 l2 : list request) :
  requested sd (l1 ++ l2) = requested sd l1 + requested sd l2.
Proof. induction l1 as [|q l1 IH]; cbn; [done|]. rewrite IH. lia. Qed.

Lemma requested_side_self (q : request) :
  requested (request_side q) [q] = request_num_ots q.
Proof. cbn. destruct (request_side q); lia. Qed.

Lemma requested_cons_self (q : request) (rest : list request) :
  requested (request_side q) (q :: rest)
  = request_num_ots q + requested (request_side q) rest.
Proof. cbn. by destruct (request_side q). Qed.

Lemma requested_cons_other (q : request) (rest : list request) :
  requested (other (request_side q)) (q :: rest) = requested (other (request_side q)) rest.
Proof. cbn. by destruct (request_side q). Qed.

Lemma requested_take_le (sd : side) (qs : list request) (i : nat) :
  sizes_ok qs -> requested sd (take i qs) <= requested sd qs.
Proof.
  intros H. rewrite <- (take_drop i qs) at 2. rewrite requested_app.
  assert (0 <= requested sd (drop i qs)); [|lia].
  apply requested_nonneg. unfold sizes_ok. by apply Forall_drop.
Qed.

Lemma requested_take_mono (sd : side) (qs : list request) (i j : nat) :
  sizes_ok qs -> (i <= j)%nat -> requested sd (take i qs) <= requested sd (take j qs).
Proof.
  intros H Hij. replace (take i qs) with (take i (take j qs)).
  - apply requested_take_le. unfold sizes_ok. by apply Forall_take.
  - rewrite take_take. f_equal. lia.
Qed.

Lemma take_S_snoc {A} (l : list A) (i : nat) (x : A) :
  l !! i = Some x -> take (S i) l = take i l ++ [x].
Proof. intros H. by apply take_S_r. Qed.

Lemma register_all_app (l1 l2 : list request) (p : OTProvider) :
  register_all (l1 ++ l2) p =
  let '(p1, b1) := register_all l1 p in
  let '(p2, b2) := register_all l2 p1 in (p2, b1 ++ b2).
Proof.
  revert p. induction l1 as [|q l1 IH]; intros p.
  - cbn. by destruct (register_all l2 p).
  - cbn. destruct (state_of (register q p)) as [p1 b]. rewrite IH.
    destruct (register_all l1 p1) as [p2 bs]. by destruct (register_all l2 p2).
Qed.

Lemma count_cases (sd sd' : side) : sd' = sd \/ sd' = other sd.
Proof. destruct sd, sd'; auto. Qed.

(** What a run of registrations does, from any consistent provider. *)
Lemma register_all_spec (qs : list request) (p : OTProvider) :
  consistent p -> sizes_ok qs ->
  count Send p + requested Send qs < 2 ^ 64 ->
  count Receive p + requested Receive qs < 2 ^ 64 ->
  consistent (register_all qs p).1 /\
  (forall sd, count sd (register_all qs p).1 = count sd p + requested sd qs) /\
  (forall i q b,
      qs !! i = Some q -> (register_all qs p).2 !! i = Some (Some b) ->
      b = mkBatch (request_side q)
                  (count (request_side q) p + requested (request_side q) (take i qs))
                  (request_num_ots q)) /\
  (forall sd k v, num_ots_in_batch sd p !! k = Some v ->
                  num_ots_in_batch sd (register_all qs p).1 !! k = Some v).
Proof.
  revert p. induction qs as [|q rest IH]; intros p Hp Hsz Hs Hr.
  - cbn [register_all fst snd requested].
    split; [done|]. split; [intros sd; lia|].
    split; [intros i q b Hq; by rewrite lookup_nil in Hq|done].
  - apply Forall_cons in Hsz as [Hq Hrest].
    assert (Hrs : forall sd, 0 <= requested sd rest) by (intros; by apply requested_nonneg).
    assert (Hfit : count (request_side q) p + request_num_ots q < 2 ^ 64).
    { pose proof (Hrs Send). pose proof (Hrs Receive). cbn in Hs, Hr.
      destruct (request_side q); cbn [count] in *; lia. }
    destruct (register_step q p Hp Hq Hfit) as (p1 & ob & Hst & Hp1 & Hc1 & Hc2 & Hb & Hm).
    assert (Hcount : forall sd, count sd p1 + requested sd rest
                                = count sd p + requested sd (q :: rest)).
    { intros sd. destruct (count_cases (request_side q) sd) as [-> | ->].
      - rewrite Hc1, requested_cons_self. lia.
      - rewrite Hc2, requested_cons_other. lia. }
    destruct (IH p1 Hp1 Hrest) as (Hcons & Hcnt & Hbs & Hmono).
    { rewrite Hcount. done. }
    { rewrite Hcount. done. }
    cbn [register_all]. rewrite Hst.
    destruct (register_all rest p1) as [p2 bs] eqn:Hall. cbn [fst snd] in *.
    split; [done|]. split; [|split].
    + intros sd. rewrite Hcnt. apply Hcount.
    + intros [|i] q' b Hq' Hlook; cbn in Hq', Hlook.
      * injection Hq' as <-. injection Hlook as Hlook. rewrite (Hb b Hlook).
        cbn [take requested]. f_equal. lia.
      * rewrite (Hbs i q' b Hq' Hlook). f_equal.
        destruct (count_cases (request_side q) (request_side q')) as [E | E]; rewrite E.
        -- rewrite Hc1. cbn [take]. rewrite requested_cons_self. lia.
        -- rewrite Hc2. cbn [take]. rewrite requested_cons_other. lia.
    + intros sd k v Hk. by apply Hmono, Hm.
Qed.

Lemma after_take (qs : list request) (i : nat) :
  register_all qs new_provider =
  let '(p2, b2) := register_all (drop i qs) (after (take i qs)) in
  (p2, batches (take i qs) ++ b2).
Proof.
  rewrite <- (take_drop i qs) at 1. rewrite register_all_app.
  unfold after, batches. by destruct (register_all (take i qs) new_provider).
Qed.

Lemma after_snoc (qs : list request) (q : request) :
  after (qs ++ [q]) = (state_of (register q (after qs))).1.
Proof.
  unfold after. rewrite register_all_app.
  destruct (register_all qs new_provider) as [p1 b1]. cbn [register_all fst].
  by destruct (state_of (register q p1)).
Qed.

Lemma after_spec (qs : list request) :
  sizes_ok qs -> requested Send qs < 2 ^ 64 -> requested Receive qs < 2 ^ 64 ->
  consistent (after qs) /\ forall sd, count sd (after qs) = requested sd qs.
Proof.
  intros Hsz Hs Hr.
  destruct (register_all_spec qs new_provider new_provider_consistent Hsz)
    as (Hc & Hcnt & _); [done|done|].
  split; [done|]. intros sd. unfold after. rewrite Hcnt. by destruct sd.
Qed.

(** Every entry of a size map was made by a registration of that side, under
    the offset that registration was given, and the range it describes lies
    below the side's counter. *)
Lemma entries_below_count (qs : list request) :
  sizes_ok qs -> requested Send qs < 2 ^ 64 -> requested Receive qs < 2 ^ 64 ->
  forall sd k v,
    num_ots_in_batch sd (after qs) !! k = Some v ->
    0 <= v /\ k + v <= count sd (after qs) /\
    exists j q', qs !! j = Some q' /\ request_side q' = sd /\
                 count sd (after (take j qs)) = k.
Proof.
  induction qs as [|q qs IH] using rev_ind; intros Hsz Hs Hr sd k v Hk.
  - destruct sd; cbn in Hk; by rewrite lookup_empty in Hk.
  - apply Forall_app in Hsz as [Hsz Hq]. apply Forall_cons in Hq as [Hq _].
    rewrite !requested_app in Hs, Hr.
    pose proof (requested_nonneg Send [q] ltac:(by repeat constructor)) as Hq0.
    pose proof (requested_nonneg Receive [q] ltac:(by repeat constructor)) as Hq1.
    destruct (after_spec qs Hsz ltac:(lia) ltac:(lia)) as [Hc Hcnt].
    assert (Hfit : count (request_side q) (after qs) + request_num_ots q < 2 ^ 64).
    { rewrite Hcnt. pose proof (requested_side_self q) as E.
      destruct (request_side q); lia. }
    destruct (register_entries q (after qs) Hc Hq Hfit) as [Hown Hoth].
    destruct (register_step q (after qs) Hc Hq Hfit)
      as (p' & ob & Hst & _ & Hc1 & Hc2 & _).
    rewrite after_snoc in Hk |- *. rewrite Hst in Hown, Hoth, Hk |- *. cbn [fst] in *.
    assert (Hold : forall j, (j <= length qs)%nat -> take j (qs ++ [q]) = take j qs).
    { intros j Hj. by rewrite take_app_le. }
    assert (Hlift : forall k' v',
              num_ots_in_batch sd (after qs) !! k' = Some v' ->
              count sd (after qs) <= count sd p' ->
              0 <= v' /\ k' + v' <= count sd p' /\
              exists j q', (qs ++ [q]) !! j = Some q' /\ request_side q' = sd /\
                           count sd (after (take j (qs ++ [q]))) = k').
    { intros k' v' Hk' Hle.
      destruct (IH Hsz ltac:(lia) ltac:(lia) sd k' v' Hk') as (Hv & Hkv & j & q' & Hj & Hs' & Hj').
      split; [done|]. split; [lia|]. exists j, q'.
      split; [by apply lookup_app_l_Some|]. split; [done|].
      rewrite Hold; [done|]. apply lookup_lt_Some in Hj. lia. }
    destruct (count_cases (request_side q) sd) as [-> | ->].
    + rewrite Hown in Hk. rewrite Hc1.
      destruct (decide (count (request_side q) (after qs) = k)) as [<-|Hne].
      * rewrite emplace_lookup in Hk.
        destruct (num_ots_in_batch (request_side q) (after qs)
                    !! count (request_side q) (after qs)) as [v0|] eqn:E.
        -- injection Hk as <-. cbn [default].
           destruct (Hlift _ v0 E) as (? & ? & ?); [rewrite Hc1; lia|].
           rewrite Hc1 in *. done.
        -- injection Hk as <-. cbn [default]. split; [done|]. split; [lia|].
           exists (length qs), q. split; [by apply list_lookup_middle|].
           split; [done|]. by rewrite Hold by done; rewrite take_ge by done.
      * rewrite emplace_lookup_ne in Hk by done.
        destruct (Hlift _ v Hk) as (? & ? & ?); [rewrite Hc1; lia|].
        rewrite Hc1 in *. done.
    + rewrite Hoth in Hk. rewrite Hc2.
      destruct (Hlift _ v Hk) as (? & ? & ?); [rewrite Hc2; lia|].
      rewrite Hc2 in *. done.
Qed.



Example sample_batches :
  batches OTSamples.sample_requests =
    [Some (mkBatch Send 0 4); Some (mkBatch Receive 0 3); Some (mkBatch Send 4 2);
     Some (mkBatch Receive 3 2); Some (mkBatch Receive 5 5); None;
     Some (mkBatch Send 7 0); Some (mkBatch Send 7 6)].
Proof. vm_compute. reflexivity. Qed.

Lemma sample_requests_sizes_ok : sizes_ok OTSamples.sample_requests.
Proof. unfold sizes_ok, OTSamples.sample_requests. repeat constructor; cbn; lia. Defined.


End OTRegister.

(** * The XOR-correlated flavors, end to end *)

Module OTXCOTFacts.
Import OT OTXCOT OTFacts.

(** The correction bit the sender finds for OT [i] of the batch is the
    receiver's choice bit xor its random choice bit. *)
Lemma correction_bit (id n : Z) (c rand corrections : BitVector) (i : nat) :
  0 <= id -> 0 < n -> (i < Z.to_nat n)%nat -> length c = Z.to_nat n ->
  (Z.to_nat (id + n) <= length rand)%nat ->
  (Z.to_nat (id + n) <= length corrections)%nat ->
  bit (Subset (copy_at (Z.to_nat id) (bv_xor c (Subset rand id (id + n))) corrections)
              id (id + n)) i
  = xorb (bit c i) (bit rand (Z.to_nat id + i)).
Proof.
  intros Hid Hn Hi Hc Hrand Hcorr.
  rewrite bit_Subset by lia. rewrite bit_copy_at by (rewrite length_bv_xor, length_Subset; lia).
  rewrite bit_bv_xor by (rewrite ?length_Subset; lia).
  by rewrite bit_Subset by lia.
Qed.

Lemma FixedXCOT128Sender_SendMessages_ok (x : FixedXCOT128Sender) (id n : Z) :
  s_ot_id_ (snd (fx_st x)) = id -> s_num_ots_ (snd (fx_st x)) = n ->
  0 <= id -> 0 <= n -> id + n < 2 ^ 64 ->
  (Z.to_nat (id + n) <= length (y0_ (sdata (fx_st x))))%nat ->
  (Z.to_nat (id + n) <= length (y1_ (sdata (fx_st x))))%nat ->
  exists buffer,
    FixedXCOT128Sender_SendMessages x
    = Ok (mkFXSender (Send_s (SenderMessage id (Blocks buffer)) (fx_st x)) (correlation_ x)) /\
    length buffer = Z.to_nat n /\
    forall i, (i < Z.to_nat n)%nat ->
      exists y0 y1,
        y0_ (sdata (fx_st x)) !! (Z.to_nat id + i)%nat = Some y0 /\
        y1_ (sdata (fx_st x)) !! (Z.to_nat id + i)%nat = Some y1 /\
        buffer !! i
        = Some (Z.lxor (Z.lxor (correlation_ x) (read_T 128 y0 0)) (read_T 128 y1 0)).
Proof.
  intros Hid Hn Hid0 Hn0 Hfit Hy0 Hy1.
  unfold FixedXCOT128Sender_SendMessages, fx_lift. rewrite Hid, Hn.
  set (body := fun (i : nat) (buffer : list Z) => _).
  destruct (for_each_upto body
    (fun m buf =>
       length buf = Z.to_nat n /\
       (forall j, (j < m)%nat ->
          exists y0 y1,
            y0_ (sdata (fx_st x)) !! (Z.to_nat id + j)%nat = Some y0 /\
            y1_ (sdata (fx_st x)) !! (Z.to_nat id + j)%nat = Some y1 /\
            buf !! j
            = Some (Z.lxor (Z.lxor (correlation_ x) (read_T 128 y0 0)) (read_T 128 y1 0))) /\
       (forall j, (m <= j < Z.to_nat n)%nat -> buf !! j = Some (correlation_ x)))
    (Z.to_nat n) (replicate (Z.to_nat n) (correlation_ x))) as (buf & Hrun & Hl & Hlow & _).
  - split; [by rewrite length_replicate|]. split; [intros; lia|].
    intros j Hj. apply lookup_replicate_2. lia.
  - intros i buf Hi (Hl & Hlow & Hhigh). unfold body.
    rewrite !(at_batch _ id n) by done.
    destruct (lookup_lt_is_Some_2 (y0_ (sdata (fx_st x))) (Z.to_nat id + i)) as [y0 E0]; [lia|].
    destruct (lookup_lt_is_Some_2 (y1_ (sdata (fx_st x))) (Z.to_nat id + i)) as [y1 E1]; [lia|].
    rewrite E0, E1. eexists. split; [done|].
    rewrite nth_insert_eq by lia. rewrite list_insert_insert_eq.
    split; [by rewrite length_insert|]. split.
    + intros j Hj. destruct (decide (j = i)) as [->|Hne].
      * exists y0, y1. split; [done|]. split; [done|].
        rewrite list_lookup_insert_eq by lia.
        rewrite nth_lookup, (Hhigh i) by lia. done.
      * rewrite list_lookup_insert_ne by done. apply Hlow. lia.
    + intros j Hj. rewrite list_lookup_insert_ne by lia. apply Hhigh. lia.
  - unfold upto. rewrite Hrun. cbn [map_outcome]. eauto.
Qed.

Lemma FixedXCOT128Sender_ComputeOutputs_ok (x : FixedXCOT128Sender) (id n : Z) :
  s_ot_id_ (snd (fx_st x)) = id -> s_num_ots_ (snd (fx_st x)) = n ->
  0 <= id -> 0 <= n -> id + n < 2 ^ 64 ->
  s_outputs_computed_ (snd (fx_st x)) = false ->
  snd_setup_finished_ (sdata (fx_st x)) = true ->
  id ∈ received_correction_offsets_cond_ (sdata (fx_st x)) ->
  id ∈ received_correction_offsets_ (sdata (fx_st x)) ->
  (Z.to_nat (id + n) <= length (y0_ (sdata (fx_st x))))%nat ->
  (Z.to_nat (id + n) <= length (y1_ (sdata (fx_st x))))%nat ->
  exists outs,
    FixedXCOT128Sender_ComputeOutputs x
    = Ok (mkFXSender (set_snd (with_s_outputs_computed true)
                        (set_snd (with_s_outputs outs) (fx_st x))) (correlation_ x)) /\
    length outs = Z.to_nat n /\
    forall i, (i < Z.to_nat n)%nat ->
      exists y,
        (if bit (Subset (corrections_ (sdata (fx_st x))) id (id + n)) i
         then y1_ (sdata (fx_st x)) else y0_ (sdata (fx_st x))) !! (Z.to_nat id + i)%nat
        = Some y /\
        outs !! i = Some (read_T 128 y 0).
Proof.
  intros Hid Hn Hid0 Hn0 Hfit Hfresh Hsetup Hcond Hrecv Hy0 Hy1.
  unfold FixedXCOT128Sender_ComputeOutputs, fx_lift, WaitSetup_s, wait_corrections.
  rewrite Hfresh, Hsetup. cbn [and_then]. rewrite Hid.
  rewrite decide_True by done. rewrite decide_True by done. cbn [and_then].
  rewrite Hn, ?Hid. rewrite (wrap_size_small (id + n)) by lia.
  set (body := fun (i : nat) (outs : list Z) => _).
  set (l0 := resize (Z.to_nat n) 0 (s_outputs_ (snd (fx_st x)))).
  destruct (for_each_upto body
    (fun m outs =>
       length outs = Z.to_nat n /\
       forall j, (j < m)%nat ->
         exists y,
           (if bit (Subset (corrections_ (sdata (fx_st x))) id (id + n)) j
            then y1_ (sdata (fx_st x)) else y0_ (sdata (fx_st x))) !! (Z.to_nat id + j)%nat
           = Some y /\
           outs !! j = Some (read_T 128 y 0))
    (Z.to_nat n) l0) as (outs & Hrun & Hl & Hlow).
  - split; [by unfold l0; rewrite length_resize|]. intros; lia.
  - intros i outs Hi (Hl & Hlow). unfold body.
    rewrite (at_batch _ id n) by done.
    set (ys := if bit _ i then _ else _).
    destruct (lookup_lt_is_Some_2 ys (Z.to_nat id + i)) as [y E].
    { unfold ys. destruct (bit _ i); lia. }
    rewrite E. eexists. split; [done|]. split; [by rewrite length_insert|].
    intros j Hj. destruct (decide (j = i)) as [->|Hne].
    + exists y. split; [done|]. by rewrite list_lookup_insert_eq by lia.
    + rewrite list_lookup_insert_ne by done. apply Hlow. lia.
  - exists outs. split; [|done].
    unfold finish_s, upto. cbn [set_snd snd with_s_outputs s_outputs_ sdata].
    fold l0. rewrite Hrun. reflexivity.
Qed.

Lemma FixedXCOT128Receiver_ComputeOutputs_ok (r : RcvSt) (id n : Z) (msg : list Z)
      (size : Z) :
  r_ot_id_ (rcv r) = id -> r_num_ots_ (rcv r) = n ->
  0 <= id -> 0 <= n -> id + n < 2 ^ 64 ->
  r_outputs_computed_ (rcv r) = false ->
  corrections_sent_ (rcv r) = true ->
  message_promises_ (rdata r) !! id = Some (size, Some (Blocks msg)) ->
  (Z.to_nat (id + n) <= length (outputs_ (rdata r)))%nat ->
  length (r_outputs_ (rcv r)) = Z.to_nat n ->
  exists outs,
    FixedXCOT128Receiver_ComputeOutputs r
    = Ok (set_rcv (with_r_outputs_computed true) (set_rcv (with_r_outputs outs) r)) /\
    length outs = Z.to_nat n /\
    forall i, (i < Z.to_nat n)%nat ->
      exists ot_data,
        outputs_ (rdata r) !! (Z.to_nat id + i)%nat = Some ot_data /\
        outs !! i =
          Some (if bit (choices_ (rcv r)) i
                then Z.lxor (read_T 128 ot_data 0) (nth i msg 0)
                else read_T 128 ot_data 0).
Proof.
  intros Hid Hn Hid0 Hn0 Hfit Hfresh Hsent Hmsg Hout Hlo.
  unfold FixedXCOT128Receiver_ComputeOutputs.
  rewrite Hfresh, Hsent. cbn [negb]. unfold future_get.
  rewrite Hid, Hmsg, Hn.
  set (body := fun (i : nat) (outs : list Z) => _).
  destruct (for_each_upto body
    (fun m outs =>
       length outs = Z.to_nat n /\
       forall j, (j < m)%nat ->
         exists ot_data,
           outputs_ (rdata r) !! (Z.to_nat id + j)%nat = Some ot_data /\
           outs !! j =
             Some (if bit (choices_ (rcv r)) j
                   then Z.lxor (read_T 128 ot_data 0) (nth j msg 0)
                   else read_T 128 ot_data 0))
    (Z.to_nat n) (r_outputs_ (rcv r))) as (outs & Hrun & Hl & Hlow).
  - split; [done|]. intros; lia.
  - intros i outs Hi (Hl & Hlow). unfold body.
    rewrite (at_batch _ id n) by done.
    destruct (lookup_lt_is_Some_2 (outputs_ (rdata r)) (Z.to_nat id + i)) as [y E]; [lia|].
    rewrite E. eexists. split; [done|]. split; [by rewrite length_insert|].
    intros j Hj. destruct (decide (j = i)) as [->|Hne].
    + exists y. split; [done|]. by rewrite list_lookup_insert_eq by lia.
    + rewrite list_lookup_insert_ne by done. apply Hlow. lia.
  - exists outs. split; [|done].
    unfold finish_r, upto. rewrite Hrun. reflexivity.
Qed.

Lemma lxor_xcot_0 d y0 y1 : Z.lxor y0 (Z.lxor (Z.lxor d y0) y1) = Z.lxor y1 d.
Proof.
  rewrite (Z.lxor_comm d y0), <- !Z.lxor_assoc, Z.lxor_nilpotent, Z.lxor_0_l.
  apply Z.lxor_comm.
Qed.

Lemma lxor_xcot_1 d y0 y1 : Z.lxor y1 (Z.lxor (Z.lxor d y0) y1) = Z.lxor y0 d.
Proof.
  rewrite (Z.lxor_comm (Z.lxor d y0) y1), <- !Z.lxor_assoc, Z.lxor_nilpotent, Z.lxor_0_l.
  apply Z.lxor_comm.
Qed.

(** The fixed-correlation XOR OT on 128-bit blocks, end to end.  Once the
    receiver has set its choices and sent corrections, the sender has set
    its correlation block, sent its message and computed its outputs, and
    the receiver has computed its outputs, every call has returned and the
    receiver's i-th block is the sender's i-th block when choice bit i is 0,
    and the sender's block xor the correlation when it is 1. *)
Theorem xcot128_outputs_correlated (id n : Z) (c : BitVector) (correlation : Z)
        (r0 : RcvSt) (s0 : FixedXCOT128Sender) :
  batch_ready id n r0 (fx_st s0) ->
  length (r_outputs_ (rcv r0)) = Z.to_nat n ->
  length c = Z.to_nat n ->
  exists r s,
    xcot128_run c correlation r0 s0 = Some (r, s) /\
    forall i, (i < Z.to_nat n)%nat ->
      exists out_s out_r,
        s_outputs_ (snd (fx_st s)) !! i = Some out_s /\
        r_outputs_ (rcv r) !! i = Some out_r /\
        out_r = if bit c i then Z.lxor out_s correlation else out_s.
Proof.
  intros [Hid0 Hn0 Hfit Hrid Hsid Hrn Hsn Hfr Hfs Hsetup Hcond [[size fut] Hprom]
            Hy0 Hy1 Hcorr Hout Hrand Hrot] Hlo Hc.
  assert (Hcne : c <> []) by (intros ->; simpl in Hc; lia).
  unfold xcot128_run. rewrite (SendCorrections_after_SetChoices c r0 Hcne).
  cbn [ok_state mbind option_bind r_sent]. rewrite new_msgs_app.
  unfold fx_deliver, deliver_all_s. cbn [foldl deliver_to_sender].
  rewrite Hrid, Hrn, (wrap_size_small (id + n)) by lia.
  set (corrs := bv_xor c (Subset (random_choices_ (rdata r0)) id (id + n))).
  set (sd1 := mkSenderData _ _ _ _ _ _ _ _).
  unfold SetCorrelation. cbn [and_then fx_st correlation_].
  set (x1 := mkFXSender (mkSndSt (snd (fx_st s0)) sd1 (s_sent (fx_st s0))) correlation).
  destruct (FixedXCOT128Sender_SendMessages_ok x1 id n ltac:(done) ltac:(done)
              ltac:(done) ltac:(lia) ltac:(done) ltac:(done) ltac:(done))
    as (buffer & Hsend & Hlb & Hbuf).
  rewrite Hsend. cbn [and_then].
  set (x2 := mkFXSender _ _).
  destruct (FixedXCOT128Sender_ComputeOutputs_ok x2 id n ltac:(done) ltac:(done)
              ltac:(done) ltac:(lia) ltac:(done) ltac:(done) ltac:(done) ltac:(done)
              ltac:(simpl; set_solver) ltac:(done) ltac:(done))
    as (outs_s & Hcomp & Hls & Houts).
  rewrite Hcomp. cbn [ok_state mbind option_bind fx_st set_snd s_sent Send_s x2 x1].
  rewrite new_msgs_app. unfold deliver_all_r.
  cbn [foldl deliver_to_receiver rdata message_promises_].
  rewrite Hprom.
  set (rd2 := with_message_promises_ _ _).
  set (r2 := mkRcvSt _ rd2 _).
  destruct (FixedXCOT128Receiver_ComputeOutputs_ok r2 id n buffer size ltac:(done)
              ltac:(done) ltac:(done) ltac:(lia) ltac:(done) ltac:(done) ltac:(done)
              ltac:(simpl; by rewrite lookup_insert_eq) ltac:(done) ltac:(done))
    as (outs_r & Hrc & Hlr & Houtr).
  rewrite Hrc. cbn [ok_state mbind option_bind]. eexists _, _. split; [done|].
  cbn [fx_st snd set_snd with_s_outputs_computed with_s_outputs s_outputs_
       rcv set_rcv with_r_outputs_computed with_r_outputs r_outputs_].
  intros i Hi.
  destruct (Houts i Hi) as (y & Hy & Hos).
  destruct (Houtr i Hi) as (od & Hod & Hor).
  destruct (Hbuf i Hi) as (y0 & y1 & E0 & E1 & Hb).
  exists (read_T 128 y 0). eexists. split; [done|]. split; [done|].
  cbn in Hy, Hod, Hor, E0, E1, Hb.
  unfold corrs in Hy. rewrite correction_bit in Hy by done.
  rewrite Hrot in Hod by lia.
  rewrite nth_lookup, Hb. subst r2. simpl.
  destruct (bit c i), (bit (random_choices_ (rdata r0)) (Z.to_nat id + i));
    cbn [xorb] in *; simplify_eq; rewrite ?lxor_xcot_0, ?lxor_xcot_1; done.
Qed.

Lemma xcot128_sample_ready :
  batch_ready 2 3 OTXCOTSamples.xcot128_receiver (fx_st OTXCOTSamples.xcot128_sender).
Proof.
  split;
    [lia | lia | lia | reflexivity | reflexivity | reflexivity | reflexivity
    | reflexivity | reflexivity | reflexivity
    | apply (bool_decide_unpack _); vm_compute; exact I
    | vm_compute; eauto
    | vm_compute; lia | vm_compute; lia | vm_compute; lia | vm_compute; lia
    | vm_compute; lia | ].
  - intros k Hk.
    assert (Hc : k = 2%nat \/ k = 3%nat \/ k = 4%nat) by lia.
    destruct Hc as [-> | [-> | ->]]; reflexivity.
Defined.

Lemma xcot128_outputs_correlated_witness :
  exists r s,
    xcot128_run [true; false; true] 6 OTXCOTSamples.xcot128_receiver
                OTXCOTSamples.xcot128_sender = Some (r, s) /\
    forall i, (i < Z.to_nat 3)%nat ->
      exists out_s out_r,
        s_outputs_ (snd (fx_st s)) !! i = Some out_s /\
        r_outputs_ (rcv r) !! i = Some out_r /\
        out_r = if bit [true; false; true] i then Z.lxor out_s 6 else out_s.
Proof.
  apply (xcot128_outputs_correlated 2 3 [true; false; true] 6
           OTXCOTSamples.xcot128_receiver OTXCOTSamples.xcot128_sender).
  - exact xcot128_sample_ready.
  - reflexivity.
  - reflexivity.
Defined.

Example xcot128_sample_outputs :
  (fun '(r, s) => (r_outputs_ (rcv r), s_outputs_ (snd (fx_st s)))) <$>
    xcot128_run [true; false; true] 6 OTXCOTSamples.xcot128_receiver
                OTXCOTSamples.xcot128_sender
  = Some ([11; 104; 252], [13; 104; 250]).
Proof. vm_compute. reflexivity. Qed.

(** *** XCOTBit *)

Lemma length_concat_chunks {A} (f : nat -> list A) (vs n : nat) :
  (forall k, (k < n)%nat -> length (f k) = vs) ->
  length (concat (map f (seq 0 n))) = (n * vs)%nat.
Proof.
  induction n as [|n IH]; intros Hlen; [done|].
  rewrite seq_S, map_app, concat_app, length_app, IH by (intros; apply Hlen; lia).
  cbn [map concat]. rewrite app_nil_r, Hlen by lia. lia.
Qed.

Lemma bit_concat_chunks (f : nat -> BitVector) (vs n i j : nat) :
  (forall k, (k < n)%nat -> length (f k) = vs) -> (i < n)%nat -> (j < vs)%nat ->
  bit (concat (map f (seq 0 n))) (i * vs + j) = bit (f i) j.
Proof.
  induction n as [|n IH]; intros Hlen Hi Hj; [lia|].
  rewrite seq_S, map_app, concat_app. cbn [map concat Nat.add]. rewrite app_nil_r.
  rewrite !bit_lookup.
  assert (Hl := length_concat_chunks f vs n ltac:(intros; apply Hlen; lia)).
  destruct (decide (i = n)) as [->|Hne].
  - rewrite lookup_app_r by lia. rewrite Hl. f_equal. f_equal. lia.
  - rewrite lookup_app_l by nia. rewrite <- !bit_lookup. apply IH; [|lia|done].
    intros; apply Hlen; lia.
Qed.

Lemma at_batch_total (l : list BitVector) (id n : Z) (i : nat) :
  0 <= id -> id + n < 2 ^ 64 -> (i < Z.to_nat n)%nat ->
  (Z.to_nat (id + n) <= length l)%nat ->
  at_ l (wrap_size (id + Z.of_nat i)) = Some (l !!! (Z.to_nat id + i)%nat).
Proof.
  intros Hid Hfit Hi Hl. rewrite (at_batch _ id n) by done.
  apply list_lookup_lookup_total_lt. lia.
Qed.

Lemma XCOTBitSender_SendMessages_ok (x : XCOTBitSender) (id n vs : Z) :
  s_ot_id_ (snd (xb_st x)) = id -> s_num_ots_ (snd (xb_st x)) = n ->
  s_vector_size_ (snd (xb_st x)) = vs ->
  0 <= id -> 0 <= n -> id + n < 2 ^ 64 -> 0 < vs -> n * vs < 2 ^ 64 ->
  (Z.to_nat (id + n) <= length (y0_ (sdata (xb_st x))))%nat ->
  (Z.to_nat (id + n) <= length (y1_ (sdata (xb_st x))))%nat ->
  pads_sized id n vs (sdata (xb_st x)) ->
  length (xb_correlations_ x) = Z.to_nat (n * vs) ->
  exists buffer,
    XCOTBitSender_SendMessages x
    = Ok (xb_with_st (Send_s (SenderMessage id (Bits buffer)) (xb_st x)) x) /\
    length buffer = Z.to_nat (n * vs) /\
    forall i j, (i < Z.to_nat n)%nat -> (j < Z.to_nat vs)%nat ->
      bit buffer (i * Z.to_nat vs + j)
      = xorb (bit (xb_correlations_ x) (i * Z.to_nat vs + j))
             (xorb (bit (y0_ (sdata (xb_st x)) !!! (Z.to_nat id + i)%nat) j)
                   (bit (y1_ (sdata (xb_st x)) !!! (Z.to_nat id + i)%nat) j)).
Proof.
  intros Hid Hn Hvs Hid0 Hn0 Hfit Hvs0 Hnv Hy0 Hy1 Hpads Hlen.
  unfold XCOTBitSender_SendMessages. rewrite Hid, Hn, Hvs.
  rewrite (wrap_size_small (n * vs)) by nia.
  destruct (decide (vs = 1)) as [->|Hne].
  - rewrite Z.mul_1_r in *.
    set (body := fun (i : nat) (buffer : BitVector) => _).
    destruct (for_each_upto body
      (fun m buf =>
         length buf = Z.to_nat n /\
         (forall j, (j < m)%nat ->
            bit buf j
            = xorb (bit (xb_correlations_ x) j)
                   (xorb (bit (y0_ (sdata (xb_st x)) !!! (Z.to_nat id + j)%nat) 0)
                         (bit (y1_ (sdata (xb_st x)) !!! (Z.to_nat id + j)%nat) 0))) /\
         (forall j, (m <= j)%nat -> bit buf j = bit (xb_correlations_ x) j))
      (Z.to_nat n) (xb_correlations_ x)) as (buf & Hrun & Hl & Hlow & _).
    + split; [done|]. split; [intros; lia|done].
    + intros i buf Hi (Hl & Hlow & Hhigh). unfold body.
      rewrite !(at_batch_total _ id n) by done.
      eexists. split; [done|]. split; [by rewrite length_insert|]. split.
      * intros j Hj. rewrite !bit_lookup. destruct (decide (j = i)) as [->|Hji].
        -- rewrite list_lookup_insert_eq by lia. cbn [default].
           rewrite <- !bit_lookup, Hhigh by lia. by rewrite xorb_assoc.
        -- rewrite list_lookup_insert_ne by done. rewrite <- !bit_lookup. apply Hlow. lia.
      * intros j Hj. rewrite bit_lookup, list_lookup_insert_ne by lia.
        rewrite <- bit_lookup. apply Hhigh. lia.
    + unfold upto. rewrite Hrun. cbn [with_buffer]. unfold size.
      rewrite decide_True by lia. exists buf. split; [done|]. split; [done|].
      intros i j Hi Hj. assert (j = 0%nat) as -> by lia.
      replace (i * Z.to_nat 1 + 0)%nat with i by lia. by apply Hlow.
  - set (chunk := fun i : nat =>
                    bv_xor (y0_ (sdata (xb_st x)) !!! (Z.to_nat id + i)%nat)
                           (y1_ (sdata (xb_st x)) !!! (Z.to_nat id + i)%nat)).
    set (body := fun (i : nat) (tmp : BitVector) => _).
    destruct (for_each_upto body
      (fun m tmp => tmp = concat (map chunk (seq 0 m)))
      (Z.to_nat n) []) as (tmp & Hrun & ->).
    + done.
    + intros i tmp Hi ->. unfold body.
      rewrite !(at_batch_total _ id n) by done.
      eexists. split; [done|].
      rewrite seq_S, map_app, concat_app. cbn [map concat Nat.add]. by rewrite app_nil_r.
    + assert (Hchunk : forall k, (k < Z.to_nat n)%nat -> length (chunk k) = Z.to_nat vs).
      { intros k Hk. unfold chunk. destruct (Hpads (Z.to_nat id + k)%nat) as [H0 H1]; [lia|].
        rewrite length_bv_xor, H0, H1. lia. }
      assert (Hlt := length_concat_chunks chunk _ _ Hchunk).
      unfold upto. rewrite Hrun. cbn [map_outcome with_buffer]. unfold size.
      rewrite decide_True by (rewrite length_bv_xor, Hlt, Hlen; nia).
      eexists. split; [done|]. split; [rewrite length_bv_xor, Hlt, Hlen; nia|].
      intros i j Hi Hj.
      rewrite bit_bv_xor by (rewrite ?Hlt, ?Hlen; nia).
      rewrite (bit_concat_chunks chunk) by done. f_equal.
      destruct (Hpads (Z.to_nat id + i)%nat) as [H0 H1]; [lia|].
      unfold chunk. by rewrite bit_bv_xor by lia.
Qed.

Lemma XCOTBitSender_ComputeOutputs_ok (x : XCOTBitSender) (id n vs : Z) :
  s_ot_id_ (snd (xb_st x)) = id -> s_num_ots_ (snd (xb_st x)) = n ->
  s_vector_size_ (snd (xb_st x)) = vs ->
  0 <= id -> 0 <= n -> id + n < 2 ^ 64 -> 0 < vs ->
  s_outputs_computed_ (snd (xb_st x)) = false ->
  snd_setup_finished_ (sdata (xb_st x)) = true ->
  id ∈ received_correction_offsets_cond_ (sdata (xb_st x)) ->
  id ∈ received_correction_offsets_ (sdata (xb_st x)) ->
  (Z.to_nat (id + n) <= length (y0_ (sdata (xb_st x))))%nat ->
  (Z.to_nat (id + n) <= length (y1_ (sdata (xb_st x))))%nat ->
  pads_sized id n vs (sdata (xb_st x)) ->
  xb_outputs_ x = [] ->
  exists x',
    XCOTBitSender_ComputeOutputs x = Ok x' /\
    xb_st x' = set_snd (with_s_outputs_computed true) (xb_st x) /\
    length (xb_outputs_ x') = Z.to_nat (n * vs) /\
    forall i j, (i < Z.to_nat n)%nat -> (j < Z.to_nat vs)%nat ->
      bit (xb_outputs_ x') (i * Z.to_nat vs + j)
      = bit ((if bit (Subset (corrections_ (sdata (xb_st x))) id (id + n)) i
              then y1_ (sdata (xb_st x)) else y0_ (sdata (xb_st x)))
             !!! (Z.to_nat id + i)%nat) j.
Proof.
  intros Hid Hn Hvs Hid0 Hn0 Hfit Hvs0 Hfresh Hsetup Hcond Hrecv Hy0 Hy1 Hpads Hempty.
  unfold XCOTBitSender_ComputeOutputs, WaitSetup_s, wait_corrections.
  rewrite Hfresh, Hsetup. cbn [and_then]. rewrite Hid.
  rewrite decide_True by done. rewrite decide_True by done.
  cbn [map_outcome and_then xb_with_st xb_st xb_outputs_].
  rewrite Hn, Hvs, (wrap_size_small (id + n)) by lia.
  set (sel := fun i : nat =>
                if bit (Subset (corrections_ (sdata (xb_st x))) id (id + n)) i
                then y1_ (sdata (xb_st x)) else y0_ (sdata (xb_st x))).
  assert (Hsel : forall i, (i < Z.to_nat n)%nat ->
            at_ (sel i) (wrap_size (id + Z.of_nat i)) = Some (sel i !!! (Z.to_nat id + i)%nat)).
  { intros i Hi. apply (at_batch_total _ id n); try done. unfold sel. by destruct (bit _ i). }
  destruct (decide (vs = 1)) as [->|Hne].
  - rewrite Z.mul_1_r.
    set (body := fun (i : nat) (outs : BitVector) => _).
    destruct (for_each_upto body
      (fun m outs =>
         length outs = Z.to_nat n /\
         forall j, (j < m)%nat -> bit outs j = bit (sel j !!! (Z.to_nat id + j)%nat) 0)
      (Z.to_nat n) (resize (Z.to_nat n) false (xb_outputs_ x))) as (outs & Hrun & Hl & Hlow).
    + split; [by rewrite length_resize|]. intros; lia.
    + intros i outs Hi (Hl & Hlow). unfold body. fold (sel i). rewrite Hsel by done.
      eexists. split; [done|]. split; [by rewrite length_insert|].
      intros j Hj. rewrite bit_lookup. destruct (decide (j = i)) as [->|Hji].
      * by rewrite list_lookup_insert_eq by lia.
      * rewrite list_lookup_insert_ne by done. rewrite <- bit_lookup. apply Hlow. lia.
    + unfold upto. rewrite Hrun. cbn [map_outcome and_then].
      eexists. split; [done|]. cbn [xb_st xb_with_st xb_with_outputs xb_outputs_].
      split; [done|]. split; [done|].
      intros i j Hi Hj. assert (j = 0%nat) as -> by lia.
      replace (i * Z.to_nat 1 + 0)%nat with i by lia. by apply Hlow.
  - set (chunk := fun i : nat => sel i !!! (Z.to_nat id + i)%nat).
    set (body := fun (i : nat) (outs : BitVector) => _).
    destruct (for_each_upto body
      (fun m outs => outs = concat (map chunk (seq 0 m)))
      (Z.to_nat n) (xb_outputs_ x)) as (outs & Hrun & ->).
    + by rewrite Hempty.
    + intros i outs Hi ->. unfold body. fold (sel i). rewrite Hsel by done.
      eexists. split; [done|].
      rewrite seq_S, map_app, concat_app. cbn [map concat Nat.add]. by rewrite app_nil_r.
    + assert (Hchunk : forall k, (k < Z.to_nat n)%nat -> length (chunk k) = Z.to_nat vs).
      { intros k Hk. unfold chunk, sel.
        destruct (Hpads (Z.to_nat id + k)%nat) as [H0 H1]; [lia|]. by destruct (bit _ k). }
      unfold upto. rewrite Hrun. cbn [map_outcome and_then].
      eexists. split; [done|]. cbn [xb_st xb_with_st xb_with_outputs xb_outputs_].
      split; [done|]. split; [rewrite (length_concat_chunks chunk _ _ Hchunk); nia|].
      intros i j Hi Hj. by rewrite (bit_concat_chunks chunk) by done.
Qed.

Lemma bit_bv_and (a b : BitVector) (i : nat) :
  (i < length a)%nat -> (i < length b)%nat ->
  bit (bv_and a b) i = bit a i && bit b i.
Proof.
  intros Ha Hb. rewrite !bit_lookup. unfold bv_and.
  rewrite lookup_zip_with.
  destruct (lookup_lt_is_Some_2 a i Ha) as [x ->].
  destruct (lookup_lt_is_Some_2 b i Hb) as [y ->]. done.
Qed.

Lemma XCOTBitReceiver_ComputeOutputs_ok (r : RcvSt) (id n vs : Z) (msg : BitVector)
      (size : Z) :
  r_ot_id_ (rcv r) = id -> r_num_ots_ (rcv r) = n -> r_vector_size_ (rcv r) = vs ->
  0 <= id -> 0 <= n -> id + n < 2 ^ 64 -> 0 < vs -> n * vs < 2 ^ 64 ->
  r_outputs_computed_ (rcv r) = false ->
  corrections_sent_ (rcv r) = true ->
  message_promises_ (rdata r) !! id = Some (size, Some (Bits msg)) ->
  (Z.to_nat (id + n) <= length (outputs_ (rdata r)))%nat ->
  (forall k : nat, (Z.to_nat id <= k < Z.to_nat (id + n))%nat ->
     length (outputs_ (rdata r) !!! k) = Z.to_nat vs) ->
  length msg = Z.to_nat (n * vs) ->
  length (choices_ (rcv r)) = Z.to_nat n ->
  r_outputs_bits_ (rcv r) = [] ->
  exists r',
    XCOTBitReceiver_ComputeOutputs r = Ok r' /\
    length (r_outputs_bits_ (rcv r')) = Z.to_nat (n * vs) /\
    forall i j, (i < Z.to_nat n)%nat -> (j < Z.to_nat vs)%nat ->
      bit (r_outputs_bits_ (rcv r')) (i * Z.to_nat vs + j)
      = xorb (bit (outputs_ (rdata r) !!! (Z.to_nat id + i)%nat) j)
             (bit (choices_ (rcv r)) i && bit msg (i * Z.to_nat vs + j)).
Proof.
  intros Hid Hn Hvs Hid0 Hn0 Hfit Hvs0 Hnv Hfresh Hsent Hmsg Hout Hpads Hlm Hlc Hempty.
  unfold XCOTBitReceiver_ComputeOutputs.
  rewrite Hfresh, Hsent. cbn [negb]. unfold future_get.
  rewrite Hid, Hmsg, Hn, Hvs.
  destruct (decide (vs = 1)) as [->|Hne].
  - rewrite Z.mul_1_r in *.
    cbn [rcv set_rcv with_r_outputs_bits r_outputs_bits_ rdata].
    set (body := fun (i : nat) (outs : BitVector) => _).
    destruct (for_each_upto body
      (fun m outs =>
         length outs = Z.to_nat n /\
         (forall j, (j < m)%nat ->
            bit outs j
            = xorb (bit msg j && bit (choices_ (rcv r)) j)
                   (bit (outputs_ (rdata r) !!! (Z.to_nat id + j)%nat) 0)) /\
         (forall j, (m <= j < Z.to_nat n)%nat ->
            bit outs j = bit msg j && bit (choices_ (rcv r)) j))
      (Z.to_nat n) (bv_and msg (choices_ (rcv r)))) as (outs & Hrun & Hl & Hlow & _).
    + split; [unfold bv_and; rewrite length_zip_with; lia|].
      split; [intros; lia|]. intros j Hj. apply bit_bv_and; lia.
    + intros i outs Hi (Hl & Hlow & Hhigh). unfold body.
      rewrite (at_batch_total _ id n) by done.
      eexists. split; [done|]. split; [by rewrite length_insert|]. split.
      * intros j Hj. rewrite bit_lookup. destruct (decide (j = i)) as [->|Hji].
        -- rewrite list_lookup_insert_eq by lia. cbn [default]. by rewrite Hhigh by lia.
        -- rewrite list_lookup_insert_ne by done. rewrite <- bit_lookup. apply Hlow. lia.
      * intros j Hj. rewrite bit_lookup, list_lookup_insert_ne by lia.
        rewrite <- bit_lookup. apply Hhigh. lia.
    + unfold upto. rewrite Hrun. cbn [map_outcome and_then].
      eexists. split; [done|].
      cbn [rcv set_rcv with_r_outputs_bits with_r_outputs_computed r_outputs_bits_].
      split; [done|].
      intros i j Hi Hj. assert (j = 0%nat) as -> by lia.
      replace (i * Z.to_nat 1 + 0)%nat with i by lia.
      rewrite Hlow by done. rewrite xorb_comm. f_equal. apply andb_comm.
  - set (pad := fun i : nat => outputs_ (rdata r) !!! (Z.to_nat id + i)%nat).
    set (chunk := fun i : nat =>
                    if bit (choices_ (rcv r)) i
                    then bv_xor (pad i)
                           (Subset msg (Z.of_nat i * vs) ((Z.of_nat i + 1) * vs))
                    else pad i).
    set (body := fun (ot_i : nat) (s' : RcvSt) => _).
    destruct (for_each_upto body
      (fun m s' =>
         r_outputs_bits_ (rcv s') = concat (map chunk (seq 0 m)) /\
         forall k, (Z.to_nat id + m <= k)%nat ->
                   outputs_ (rdata s') !! k = outputs_ (rdata r) !! k)
      (Z.to_nat n) r) as (r' & Hrun & Hbits & _).
    + split; [by rewrite Hempty|done].
    + intros i s' Hi (Hbits & Hrest). unfold body.
      rewrite (at_batch _ id n) by done.
      rewrite Hrest by lia.
      rewrite (list_lookup_lookup_total_lt (outputs_ (rdata r))) by lia.
      eexists. split; [done|].
      cbn [rcv rdata with_r_outputs_bits r_outputs_bits_ with_outputs_ outputs_].
      split.
      * rewrite Hbits, seq_S, map_app, concat_app. cbn [map concat Nat.add].
        rewrite app_nil_r. f_equal. unfold chunk, pad.
        rewrite !wrap_size_small by nia. done.
      * intros k Hk. rewrite list_lookup_insert_ne by (rewrite wrap_size_small; lia).
        apply Hrest. lia.
    + assert (Hchunk : forall k, (k < Z.to_nat n)%nat -> length (chunk k) = Z.to_nat vs).
      { intros k Hk. unfold chunk, pad. destruct (bit _ k); [|apply Hpads; lia].
        rewrite length_bv_xor, Hpads, length_Subset by nia. lia. }
      unfold upto. rewrite Hrun. cbn [and_then].
      eexists. split; [done|].
      cbn [rcv set_rcv with_r_outputs_computed r_outputs_bits_]. rewrite Hbits.
      split; [rewrite (length_concat_chunks chunk _ _ Hchunk); nia|].
      intros i j Hi Hj. rewrite (bit_concat_chunks chunk) by done.
      unfold chunk, pad. destruct (bit (choices_ (rcv r)) i); cbn [andb].
      * rewrite bit_bv_xor by (rewrite ?Hpads, ?length_Subset by nia; lia).
        rewrite bit_Subset by nia. do 2 f_equal. nia.
      * by rewrite xorb_false_r.
Qed.

(** The XOR-correlated OT on bit vectors, end to end, for every vector size.
    Once the receiver has set its choices and sent corrections, the sender
    has set its correlation bits, sent its message and computed its outputs,
    and the receiver has computed its outputs, every call has returned, both
    output vectors hold [num_ots * vector_size] bits, and bit [j] of the
    receiver's i-th output is the sender's bit when choice bit i is 0, and
    the sender's bit xor the correlation bit when it is 1. *)
Theorem xcot_bit_outputs_correlated (id n vs : Z) (c correlations : BitVector)
        (r0 : RcvSt) (s0 : XCOTBitSender) :
  batch_ready id n r0 (xb_st s0) ->
  r_vector_size_ (rcv r0) = vs -> s_vector_size_ (snd (xb_st s0)) = vs ->
  0 < vs -> n * vs < 2 ^ 64 ->
  pads_sized id n vs (sdata (xb_st s0)) ->
  r_outputs_bits_ (rcv r0) = [] -> xb_outputs_ s0 = [] ->
  length c = Z.to_nat n -> length correlations = Z.to_nat (n * vs) ->
  exists r s,
    xcot_bit_run c correlations r0 s0 = Some (r, s) /\
    length (r_outputs_bits_ (rcv r)) = Z.to_nat (n * vs) /\
    length (xb_outputs_ s) = Z.to_nat (n * vs) /\
    forall i j, (i < Z.to_nat n)%nat -> (j < Z.to_nat vs)%nat ->
      bit (r_outputs_bits_ (rcv r)) (i * Z.to_nat vs + j)
      = xorb (bit (xb_outputs_ s) (i * Z.to_nat vs + j))
             (bit c i && bit correlations (i * Z.to_nat vs + j)).
Proof.
  intros [Hid0 Hn0 Hfit Hrid Hsid Hrn Hsn Hfr Hfs Hsetup Hcond [[size fut] Hprom]
            Hy0 Hy1 Hcorr Hout Hrand Hrot] Hrvs Hsvs Hvs0 Hnv Hpads Hrempty Hsempty Hc Hcr.
  assert (Hcne : c <> []) by (intros ->; simpl in Hc; lia).
  unfold xcot_bit_run. rewrite (SendCorrections_after_SetChoices c r0 Hcne).
  cbn [ok_state mbind option_bind r_sent]. rewrite new_msgs_app.
  unfold xb_deliver, deliver_all_s. cbn [foldl deliver_to_sender].
  rewrite Hrid, Hrn, (wrap_size_small (id + n)) by lia.
  set (corrs := bv_xor c (Subset (random_choices_ (rdata r0)) id (id + n))).
  set (sd1 := mkSenderData _ _ _ _ _ _ _ _).
  unfold XCOTBit_SetCorrelations, xb_with_st. cbn [and_then xb_st xb_outputs_ xb_correlations_].
  set (x1 := mkXBSender (mkSndSt (snd (xb_st s0)) sd1 (s_sent (xb_st s0))) correlations
                        (xb_outputs_ s0)).
  destruct (XCOTBitSender_SendMessages_ok x1 id n vs ltac:(done) ltac:(done) ltac:(done)
              ltac:(done) ltac:(lia) ltac:(done) ltac:(done) ltac:(done) ltac:(done)
              ltac:(done) ltac:(done) ltac:(done))
    as (buffer & Hsend & Hlb & Hbuf).
  rewrite Hsend. cbn [and_then].
  set (x2 := xb_with_st _ x1).
  destruct (XCOTBitSender_ComputeOutputs_ok x2 id n vs ltac:(done) ltac:(done) ltac:(done)
              ltac:(done) ltac:(lia) ltac:(done) ltac:(done) ltac:(done) ltac:(done)
              ltac:(done) ltac:(simpl; set_solver) ltac:(done) ltac:(done) ltac:(done)
              ltac:(done))
    as (x3 & Hcomp & Hst & Hls & Houts).
  rewrite Hcomp. cbn [ok_state mbind option_bind]. rewrite Hst.
  cbn [xb_st set_snd s_sent Send_s x2 x1 xb_with_st].
  rewrite new_msgs_app. unfold deliver_all_r.
  cbn [foldl deliver_to_receiver rdata message_promises_].
  rewrite Hprom.
  set (rd2 := with_message_promises_ _ _).
  set (r2 := mkRcvSt _ rd2 _).
  destruct (XCOTBitReceiver_ComputeOutputs_ok r2 id n vs buffer size ltac:(done)
              ltac:(done) ltac:(done) ltac:(done) ltac:(lia) ltac:(done) ltac:(done)
              ltac:(done) ltac:(done) ltac:(done)
              ltac:(simpl; by rewrite lookup_insert_eq) ltac:(done))
    as (r3 & Hrc & Hlr & Houtr); try done.
  { intros k Hk. cbn. rewrite list_lookup_total_alt, Hrot, <- list_lookup_total_alt by done.
    destruct (Hpads k Hk). by destruct (bit _ k). }
  rewrite Hrc. cbn [ok_state mbind option_bind]. eexists _, _. split; [done|].
  split; [done|]. split; [done|].
  intros i j Hi Hj. rewrite Houtr, Houts, Hbuf by done.
  cbn [x2 x1 xb_with_st xb_st sdata sd1 Send_s y0_ y1_ corrections_ r2 rcv choices_
       with_choices with_corrections_sent rdata rd2 with_message_promises_ outputs_
       xb_correlations_].
  unfold corrs. rewrite correction_bit by done.
  rewrite (list_lookup_total_alt (outputs_ (rdata r0))), Hrot, <- list_lookup_total_alt by lia.
  destruct (bit c i), (bit (random_choices_ (rdata r0)) (Z.to_nat id + i));
    cbn [xorb andb];
    repeat match goal with |- context [bit ?v ?k] => destruct (bit v k) end; done.
Qed.

Lemma xcot_bit_sample_ready :
  batch_ready 2 3 OTXCOTSamples.xcot_bit2_receiver (xb_st OTXCOTSamples.xcot_bit2_sender).
Proof.
  split;
    [lia | lia | lia | reflexivity | reflexivity | reflexivity | reflexivity
    | reflexivity | reflexivity | reflexivity
    | apply (bool_decide_unpack _); vm_compute; exact I
    | vm_compute; eauto
    | vm_compute; lia | vm_compute; lia | vm_compute; lia | vm_compute; lia
    | vm_compute; lia | ].
  - intros k Hk.
    assert (Hc : k = 2%nat \/ k = 3%nat \/ k = 4%nat) by lia.
    destruct Hc as [-> | [-> | ->]]; reflexivity.
Defined.

Lemma xcot_bit_sample_pads :
  pads_sized 2 3 2 (sdata (xb_st OTXCOTSamples.xcot_bit2_sender)).
Proof.
  intros k Hk.
  assert (Hc : k = 2%nat \/ k = 3%nat \/ k = 4%nat) by lia.
  destruct Hc as [-> | [-> | ->]]; split; reflexivity.
Defined.

Lemma xcot_bit_outputs_correlated_witness :
  exists r s,
    xcot_bit_run [true; false; true] [true; false; false; true; true; true]
                 OTXCOTSamples.xcot_bit2_receiver OTXCOTSamples.xcot_bit2_sender
    = Some (r, s) /\
    length (r_outputs_bits_ (rcv r)) = Z.to_nat (3 * 2) /\
    length (xb_outputs_ s) = Z.to_nat (3 * 2) /\
    forall i j, (i < Z.to_nat 3)%nat -> (j < Z.to_nat 2)%nat ->
      bit (r_outputs_bits_ (rcv r)) (i * Z.to_nat 2 + j)
      = xorb (bit (xb_outputs_ s) (i * Z.to_nat 2 + j))
             (bit [true; false; true] i
              && bit [true; false; false; true; true; true] (i * Z.to_nat 2 + j)).
Proof.
  apply (xcot_bit_outputs_correlated 2 3 2 [true; false; true]
           [true; false; false; true; true; true]
           OTXCOTSamples.xcot_bit2_receiver OTXCOTSamples.xcot_bit2_sender).
  - exact xcot_bit_sample_ready.
  - reflexivity.
  - reflexivity.
  - lia.
  - lia.
  - exact xcot_bit_sample_pads.
  - reflexivity.
  - reflexivity.
  - reflexivity.
  - reflexivity.
Defined.

(** The sample runs, evaluated: two bits per OT, and one bit per OT. *)
Example xcot_bit_sample_outputs :
  (fun '(r, s) => (r_outputs_bits_ (rcv r), xb_outputs_ s)) <$>
    xcot_bit_run [true; false; true] [true; false; false; true; true; true]
                 OTXCOTSamples.xcot_bit2_receiver OTXCOTSamples.xcot_bit2_sender
  = Some ([true; false; true; true; true; true], [false; false; true; true; false; false]).
Proof. vm_compute. reflexivity. Qed.

Example xcot_bit_sample_outputs_1 :
  (fun '(r, s) => (r_outputs_bits_ (rcv r), xb_outputs_ s)) <$>
    xcot_bit_run [true; false; true] [true; true; false]
                 OTXCOTSamples.xcot_bit_receiver OTXCOTSamples.xcot_bit_sender
  = Some ([true; true; false], [false; true; false]).
Proof. vm_compute. reflexivity. Qed.

End OTXCOTFacts.

(** * The general OT on single bits, end to end *)

Module OTGOTBitFacts.
Import OT OTXCOT OTFacts OTXCOTFacts OTGOTBit.

Lemma bit_insert_eq (l : BitVector) (i : nat) (b : bool) :
  (i < length l)%nat -> bit (<[i := b]> l) i = b.
Proof. intros H. by rewrite bit_lookup, list_lookup_insert_eq. Qed.

Lemma bit_insert_ne (l : BitVector) (i j : nat) (b : bool) :
  i <> j -> bit (<[i := b]> l) j = bit l j.
Proof. intros H. by rewrite !bit_lookup, list_lookup_insert_ne. Qed.

Lemma GOTBitSender_SendMessages_ok (x : GOTBitSender) (id n : Z) :
  s_ot_id_ (snd (gb_st x)) = id -> s_num_ots_ (snd (gb_st x)) = n ->
  0 <= id -> 0 <= n -> id + n < 2 ^ 64 ->
  id ∈ received_correction_offsets_cond_ (sdata (gb_st x)) ->
  id ∈ received_correction_offsets_ (sdata (gb_st x)) ->
  (Z.to_nat (id + n) <= length (y0_ (sdata (gb_st x))))%nat ->
  (Z.to_nat (id + n) <= length (y1_ (sdata (gb_st x))))%nat ->
  length (gb_inputs_ x) = (2 * Z.to_nat n)%nat ->
  exists buffer,
    GOTBitSender_SendMessages x
    = Ok (gb_with_st (Send_s (SenderMessage id (Bits buffer)) (gb_st x)) x) /\
    forall i, (i < Z.to_nat n)%nat ->
      let in0 := bit (gb_inputs_ x) (2 * i) in
      let in1 := bit (gb_inputs_ x) (2 * i + 1) in
      let swap := bit (Subset (corrections_ (sdata (gb_st x))) id (id + n)) i in
      bit buffer (2 * i)
      = xorb (if swap then in1 else in0)
             (bit (y0_ (sdata (gb_st x)) !!! (Z.to_nat id + i)%nat) 0) /\
      bit buffer (2 * i + 1)
      = xorb (if swap then in0 else in1)
             (bit (y1_ (sdata (gb_st x)) !!! (Z.to_nat id + i)%nat) 0).
Proof.
  intros Hid Hn Hid0 Hn0 Hfit Hcond Hrecv Hy0 Hy1 Hlen.
  unfold GOTBitSender_SendMessages, wait_corrections.
  rewrite Hid. rewrite decide_True by done. rewrite decide_True by done.
  cbn [map_outcome and_then gb_with_st gb_st gb_inputs_].
  rewrite Hn, (wrap_size_small (id + n)) by lia.
  set (swap := fun i : nat => bit (Subset (corrections_ (sdata (gb_st x))) id (id + n)) i).
  set (body := fun (i : nat) (buffer : BitVector) => _).
  destruct (for_each_upto body
    (fun m buf =>
       length buf = (2 * Z.to_nat n)%nat /\
       (forall j, (j < m)%nat ->
          bit buf (2 * j)
          = xorb (if swap j then bit (gb_inputs_ x) (2 * j + 1) else bit (gb_inputs_ x) (2 * j))
                 (bit (y0_ (sdata (gb_st x)) !!! (Z.to_nat id + j)%nat) 0) /\
          bit buf (2 * j + 1)
          = xorb (if swap j then bit (gb_inputs_ x) (2 * j) else bit (gb_inputs_ x) (2 * j + 1))
                 (bit (y1_ (sdata (gb_st x)) !!! (Z.to_nat id + j)%nat) 0)) /\
       (forall k, (2 * m <= k)%nat -> bit buf k = bit (gb_inputs_ x) k))
    (Z.to_nat n) (gb_inputs_ x)) as (buf & Hrun & Hl & Hlow & _).
  - split; [done|]. split; [intros; lia|done].
  - intros i buf Hi (Hl & Hlow & Hhigh). unfold body.
    rewrite !(at_batch_total _ id n) by done.
    eexists. split; [done|]. rewrite !length_insert. split; [done|].
    fold (swap i). rewrite !(Hhigh (2 * i)%nat), !(Hhigh (2 * i + 1)%nat) by lia.
    split.
    + intros j Hj. destruct (decide (j = i)) as [->|Hne].
      * rewrite bit_insert_ne by lia. rewrite bit_insert_eq by lia.
        rewrite bit_insert_eq by (rewrite length_insert; lia). done.
      * rewrite !bit_insert_ne by lia. apply Hlow. lia.
    + intros k Hk. rewrite !bit_insert_ne by lia. apply Hhigh. lia.
  - unfold upto. rewrite Hrun. cbn [with_buffer]. exists buf. split; [done|].
    intros i Hi. cbn zeta. by apply Hlow.
Qed.

Lemma GOTBitReceiver_ComputeOutputs_ok (r : RcvSt) (id n : Z) (msg : BitVector)
      (size : Z) :
  r_ot_id_ (rcv r) = id -> r_num_ots_ (rcv r) = n ->
  0 <= id -> 0 <= n -> id + n < 2 ^ 64 ->
  r_outputs_computed_ (rcv r) = false ->
  corrections_sent_ (rcv r) = true ->
  message_promises_ (rdata r) !! id = Some (size, Some (Bits msg)) ->
  (Z.to_nat (id + n) <= length (outputs_ (rdata r)))%nat ->
  length (r_outputs_bits_ (rcv r)) = Z.to_nat n ->
  exists outs,
    GOTBitReceiver_ComputeOutputs r
    = Ok (set_rcv (with_r_outputs_computed true) (set_rcv (with_r_outputs_bits outs) r)) /\
    length outs = Z.to_nat n /\
    forall i, (i < Z.to_nat n)%nat ->
      bit outs i
      = xorb (if bit (Subset (random_choices_ (rdata r)) id (id + n)) i
              then bit msg (2 * i + 1) else bit msg (2 * i))
             (bit (outputs_ (rdata r) !!! (Z.to_nat id + i)%nat) 0).
Proof.
  intros Hid Hn Hid0 Hn0 Hfit Hfresh Hsent Hmsg Hout Hlen.
  unfold GOTBitReceiver_ComputeOutputs.
  rewrite Hfresh, Hsent. cbn [negb]. unfold future_get.
  rewrite Hid, Hmsg, Hn. rewrite (wrap_size_small (id + n)) by lia.
  set (body := fun (i : nat) (outs : BitVector) => _).
  destruct (for_each_upto body
    (fun m outs =>
       length outs = Z.to_nat n /\
       forall j, (j < m)%nat ->
         bit outs j
         = xorb (if bit (Subset (random_choices_ (rdata r)) id (id + n)) j
                 then bit msg (2 * j + 1) else bit msg (2 * j))
                (bit (outputs_ (rdata r) !!! (Z.to_nat id + j)%nat) 0))
    (Z.to_nat n) (r_outputs_bits_ (rcv r))) as (outs & Hrun & Hl & Hlow).
  - split; [done|]. intros; lia.
  - intros i outs Hi (Hl & Hlow). unfold body.
    rewrite (at_batch_total _ id n) by done.
    eexists. split; [done|]. split; [by rewrite length_insert|].
    intros j Hj. destruct (decide (j = i)) as [->|Hne].
    + by rewrite bit_insert_eq by lia.
    + rewrite bit_insert_ne by done. apply Hlow. lia.
  - exists outs. split; [|done].
    unfold upto. rewrite Hrun. reflexivity.
Qed.

(** The general OT on single bits, end to end.  After the receiver has set
    its real choice bits and sent corrections, and the sender has set its
    [2 * num_ots] input bits and sent its message, every call has returned
    and the receiver's i-th output bit is the sender's input bit
    [inputs_[2 * i + c_i]] chosen by the real choice bit [c_i], whatever the
    precomputed random choice bit and pads were. *)
Theorem gotbit_outputs_selected (id n : Z) (c : BitVector) (inputs : BitVector)
        (r0 : RcvSt) (s0 : GOTBitSender) :
  batch_ready id n r0 (gb_st s0) ->
  length (r_outputs_bits_ (rcv r0)) = Z.to_nat n ->
  length c = Z.to_nat n -> length inputs = (2 * Z.to_nat n)%nat ->
  exists r s,
    gotbit_run c inputs r0 s0 = Some (r, s) /\
    length (r_outputs_bits_ (rcv r)) = Z.to_nat n /\
    forall i, (i < Z.to_nat n)%nat ->
      bit (r_outputs_bits_ (rcv r)) i
      = bit inputs (2 * i + (if bit c i then 1 else 0)).
Proof.
  intros [Hid0 Hn0 Hfit Hrid Hsid Hrn Hsn Hfr Hfs Hsetup Hcond [[size fut] Hprom]
            Hy0 Hy1 Hcorr Hout Hrand Hrot] Hlo Hc Hin.
  assert (Hcne : c <> []) by (intros ->; simpl in Hc; lia).
  unfold gotbit_run. rewrite (SendCorrections_after_SetChoices c r0 Hcne).
  cbn [ok_state mbind option_bind r_sent]. rewrite new_msgs_app.
  unfold gb_deliver, deliver_all_s. cbn [foldl deliver_to_sender].
  rewrite Hrid, Hrn, (wrap_size_small (id + n)) by lia.
  set (corrs := bv_xor c (Subset (random_choices_ (rdata r0)) id (id + n))).
  set (sd1 := mkSenderData _ _ _ _ _ _ _ _).
  unfold GOTBit_SetInputs, gb_with_st. cbn [and_then gb_st gb_inputs_].
  set (x1 := mkGBSender (mkSndSt (snd (gb_st s0)) sd1 (s_sent (gb_st s0))) inputs).
  destruct (GOTBitSender_SendMessages_ok x1 id n ltac:(done) ltac:(done) ltac:(done)
              ltac:(lia) ltac:(done) ltac:(done) ltac:(simpl; set_solver) ltac:(done)
              ltac:(done) ltac:(done))
    as (buffer & Hsend & Hbuf).
  rewrite Hsend. cbn [ok_state mbind option_bind gb_with_st gb_st x1 Send_s s_sent].
  rewrite new_msgs_app. unfold deliver_all_r.
  cbn [foldl deliver_to_receiver rdata message_promises_]. rewrite Hprom.
  set (rd2 := with_message_promises_ _ _).
  set (r2 := mkRcvSt _ rd2 _).
  destruct (GOTBitReceiver_ComputeOutputs_ok r2 id n buffer size ltac:(done) ltac:(done)
              ltac:(done) ltac:(lia) ltac:(done) ltac:(done) ltac:(done)
              ltac:(simpl; by rewrite lookup_insert_eq) ltac:(done) ltac:(done))
    as (outs_r & Hrc & Hlr & Houtr).
  rewrite Hrc. cbn [ok_state mbind option_bind]. eexists _, _. split; [done|].
  cbn [rcv set_rcv with_r_outputs_computed with_r_outputs_bits r_outputs_bits_].
  split; [done|].
  intros i Hi. rewrite Houtr by done.
  destruct (Hbuf i Hi) as [Hb0 Hb1]. cbn zeta in Hb0, Hb1.
  cbn [x1 gb_st gb_inputs_ sdata sd1 y0_ y1_ corrections_] in Hb0, Hb1.
  unfold corrs in Hb0, Hb1. rewrite correction_bit in Hb0, Hb1 by done.
  cbn [r2 rdata rd2 with_message_promises_ random_choices_ outputs_].
  rewrite bit_Subset by lia.
  rewrite (list_lookup_total_alt (outputs_ (rdata r0))), Hrot, <- list_lookup_total_alt by lia.
  rewrite Hb0, Hb1.
  destruct (bit c i), (bit (random_choices_ (rdata r0)) (Z.to_nat id + i));
    cbn [xorb]; rewrite ?Nat.add_0_r;
    repeat match goal with |- context [bit ?v ?k] => destruct (bit v k) end; done.
Qed.

Lemma gotbit_sample_ready :
  batch_ready 2 3 OTGOTBitSamples.gotbit_receiver (gb_st OTGOTBitSamples.gotbit_sender).
Proof.
  split;
    [lia | lia | lia | reflexivity | reflexivity | reflexivity | reflexivity
    | reflexivity | reflexivity | reflexivity
    | apply (bool_decide_unpack _); vm_compute; exact I
    | vm_compute; eauto
    | vm_compute; lia | vm_compute; lia | vm_compute; lia | vm_compute; lia
    | vm_compute; lia | ].
  - intros k Hk.
    assert (Hc : k = 2%nat \/ k = 3%nat \/ k = 4%nat) by lia.
    destruct Hc as [-> | [-> | ->]]; reflexivity.
Defined.

Lemma gotbit_outputs_selected_witness :
  exists r s,
    gotbit_run [true; false; true] [true; false; true; false; false; true]
               OTGOTBitSamples.gotbit_receiver OTGOTBitSamples.gotbit_sender = Some (r, s) /\
    length (r_outputs_bits_ (rcv r)) = Z.to_nat 3 /\
    forall i, (i < Z.to_nat 3)%nat ->
      bit (r_outputs_bits_ (rcv r)) i
      = bit [true; false; true; false; false; true]
            (2 * i + (if bit [true; false; true] i then 1 else 0)).
Proof.
  apply (gotbit_outputs_selected 2 3 [true; false; true]
           [true; false; true; false; false; true]
           OTGOTBitSamples.gotbit_receiver OTGOTBitSamples.gotbit_sender).
  - exact gotbit_sample_ready.
  - reflexivity.
  - reflexivity.
  - reflexivity.
Defined.

Example gotbit_sample_outputs :
  (fun '(r, _) => r_outputs_bits_ (rcv r)) <$>
    gotbit_run [true; false; true] [true; false; true; false; false; true]
               OTGOTBitSamples.gotbit_receiver OTGOTBitSamples.gotbit_sender
  = Some [false; true; true].
Proof. vm_compute. reflexivity. Qed.

End OTGOTBitFacts.

(** * ACOT on vectors, end to end *)

Module OTACOTVector.
Import OT OTXCOT OTFacts OTXCOTFacts.

Lemma foldl_insert_block {A} (g : nat -> A -> A) (d : A) (base vs : nat) (l : list A) :
  (base + vs <= length l)%nat ->
  let l' := foldl (fun b j => <[(base + j)%nat := g j (nth (base + j) b d)]> b) l (seq 0 vs) in
  length l' = length l /\
  (forall j, (j < vs)%nat -> l' !! (base + j)%nat = Some (g j (nth (base + j) l d))) /\
  (forall k, ~ (base <= k < base + vs)%nat -> l' !! k = l !! k).
Proof.
  induction vs as [|vs IH]; intros Hfit; cbn zeta.
  - split; [done|]. split; [intros; lia|done].
  - rewrite seq_S, foldl_app. cbn [foldl Nat.add].
    destruct IH as (Hl & Hin & Hout); [lia|]. cbn zeta in Hl, Hin, Hout.
    split; [by rewrite length_insert|]. split.
    + intros j Hj. destruct (decide (j = vs)) as [->|Hne].
      * rewrite list_lookup_insert_eq by lia. do 2 f_equal.
        rewrite !nth_lookup, Hout by lia. done.
      * rewrite list_lookup_insert_ne by lia. apply Hin. lia.
    + intros k Hk. rewrite list_lookup_insert_ne by lia. apply Hout. lia.
Qed.

Section ACOTVector.
Variable W : Z.

Lemma ACOTSender_SendMessages_vec_ok (s : SndSt) (id n vs : Z) :
  s_vector_size_ (snd s) = vs -> s_ot_id_ (snd s) = id -> s_num_ots_ (snd s) = n ->
  vs <> 1 -> 0 < vs -> 0 <= id -> 0 <= n -> id + n < 2 ^ 64 ->
  (Z.to_nat (id + n) <= length (y0_ (sdata s)))%nat ->
  (Z.to_nat (id + n) <= length (y1_ (sdata s)))%nat ->
  length (correlations_ (snd s)) = Z.to_nat (n * vs) ->
  exists buffer,
    ACOTSender_SendMessages W s = Ok (Send_s (SenderMessage id (Ints buffer)) s) /\
    length buffer = Z.to_nat (n * vs) /\
    forall i j, (i < Z.to_nat n)%nat -> (j < Z.to_nat vs)%nat ->
      buffer !! (i * Z.to_nat vs + j)%nat
      = Some (wrap W (nth (i * Z.to_nat vs + j) (correlations_ (snd s)) 0
                      + (read_T W (y0_ (sdata s) !!! (Z.to_nat id + i)%nat) j
                         + read_T W (y1_ (sdata s) !!! (Z.to_nat id + i)%nat) j))).
Proof.
  intros Hvs Hid Hn Hne Hvs0 Hid0 Hn0 Hfit Hy0 Hy1 Hlen.
  unfold ACOTSender_SendMessages. rewrite Hvs, Hid, Hn.
  rewrite decide_False by done.
  set (body := fun (ot_i : nat) (buffer : list Z) => _).
  destruct (for_each_upto body
    (fun m buf =>
       length buf = Z.to_nat (n * vs) /\
       (forall i j, (i < m)%nat -> (j < Z.to_nat vs)%nat ->
          buf !! (i * Z.to_nat vs + j)%nat
          = Some (wrap W (nth (i * Z.to_nat vs + j) (correlations_ (snd s)) 0
                          + (read_T W (y0_ (sdata s) !!! (Z.to_nat id + i)%nat) j
                             + read_T W (y1_ (sdata s) !!! (Z.to_nat id + i)%nat) j)))) /\
       (forall k, (m * Z.to_nat vs <= k)%nat -> buf !! k = correlations_ (snd s) !! k))
    (Z.to_nat n) (correlations_ (snd s))) as (buf & Hrun & Hl & Hlow & _).
  - split; [done|]. split; [intros; lia|done].
  - intros i buf Hi (Hl & Hlow & Hhigh). unfold body.
    rewrite !(at_batch_total _ id n) by done.
    eexists. split; [done|]. unfold upto.
    destruct (foldl_insert_block
                (fun j b => wrap W (b + (read_T W (y0_ (sdata s) !!! (Z.to_nat id + i)%nat) j
                                         + read_T W (y1_ (sdata s) !!! (Z.to_nat id + i)%nat) j)))
                0 (i * Z.to_nat vs) (Z.to_nat vs) buf) as (Hl' & Hin & Hout); [nia|].
    cbn zeta in Hl', Hin, Hout.
    split; [by rewrite Hl'|]. split.
    + intros i' j Hi' Hj. destruct (decide (i' = i)) as [->|Hne'].
      * rewrite Hin by done. do 3 f_equal. rewrite !nth_lookup, Hhigh by lia. done.
      * rewrite Hout by nia. apply Hlow; lia.
    + intros k Hk. rewrite Hout by nia. apply Hhigh. nia.
  - unfold upto. rewrite Hrun. cbn [map_outcome]. eauto.
Qed.

Lemma ACOTSender_ComputeOutputs_vec_ok (s : SndSt) (id n vs : Z) :
  s_vector_size_ (snd s) = vs -> s_ot_id_ (snd s) = id -> s_num_ots_ (snd s) = n ->
  vs <> 1 -> 0 < vs -> n * vs < 2 ^ 64 -> 0 <= id -> 0 <= n -> id + n < 2 ^ 64 ->
  s_outputs_computed_ (snd s) = false ->
  snd_setup_finished_ (sdata s) = true ->
  id ∈ received_correction_offsets_cond_ (sdata s) ->
  id ∈ received_correction_offsets_ (sdata s) ->
  (Z.to_nat (id + n) <= length (y0_ (sdata s)))%nat ->
  (Z.to_nat (id + n) <= length (y1_ (sdata s)))%nat ->
  exists outs,
    ACOTSender_ComputeOutputs W s =
      Ok (set_snd (with_s_outputs_computed true) (set_snd (with_s_outputs outs) s)) /\
    length outs = Z.to_nat (n * vs) /\
    forall i j, (i < Z.to_nat n)%nat -> (j < Z.to_nat vs)%nat ->
      outs !! (i * Z.to_nat vs + j)%nat
      = Some (read_T W ((if bit (Subset (corrections_ (sdata s)) id (id + n)) i
                         then y1_ (sdata s) else y0_ (sdata s))
                        !!! (Z.to_nat id + i)%nat) j).
Proof.
  intros Hvs Hid Hn Hne Hvs0 Hnv Hid0 Hn0 Hfit Hfresh Hsetup Hcond Hrecv Hy0 Hy1.
  unfold ACOTSender_ComputeOutputs, WaitSetup_s, wait_corrections.
  rewrite Hfresh, Hsetup. cbn [and_then]. rewrite Hid.
  rewrite decide_True by done. rewrite decide_True by done. cbn [and_then].
  rewrite Hvs, Hn, ?Hid. rewrite decide_False by done.
  rewrite (wrap_size_small (id + n)) by lia.
  rewrite (wrap_size_small (n * vs)) by nia.
  set (sel := fun i : nat =>
                if bit (Subset (corrections_ (sdata s)) id (id + n)) i
                then y1_ (sdata s) else y0_ (sdata s)).
  assert (Hsel : forall i, (i < Z.to_nat n)%nat ->
            at_ (sel i) (wrap_size (id + Z.of_nat i)) = Some (sel i !!! (Z.to_nat id + i)%nat)).
  { intros i Hi. apply (at_batch_total _ id n); try done. unfold sel. by destruct (bit _ i). }
  set (body := fun (ot_i : nat) (outs : list Z) => _).
  set (l0 := resize (Z.to_nat (n * vs)) 0 (s_outputs_ (snd s))).
  destruct (for_each_upto body
    (fun m outs =>
       length outs = Z.to_nat (n * vs) /\
       forall i j, (i < m)%nat -> (j < Z.to_nat vs)%nat ->
         outs !! (i * Z.to_nat vs + j)%nat
         = Some (read_T W (sel i !!! (Z.to_nat id + i)%nat) j))
    (Z.to_nat n) l0) as (outs & Hrun & Hl & Hlow).
  - split; [by unfold l0; rewrite length_resize|]. intros; lia.
  - intros i outs Hi (Hl & Hlow). unfold body. fold (sel i). rewrite Hsel by done.
    eexists. split; [done|]. unfold upto.
    destruct (foldl_insert_block
                (fun j (_ : Z) => read_T W (sel i !!! (Z.to_nat id + i)%nat) j)
                0 (i * Z.to_nat vs) (Z.to_nat vs) outs) as (Hl' & Hin & Hout); [nia|].
    cbn zeta in Hl', Hin, Hout.
    split; [by rewrite Hl'|].
    intros i' j Hi' Hj. destruct (decide (i' = i)) as [->|Hne'].
    + by rewrite Hin.
    + rewrite Hout by nia. apply Hlow; lia.
  - exists outs. split; [|done].
    unfold finish_s, upto. cbn [set_snd snd with_s_outputs s_outputs_ sdata].
    fold l0. rewrite Hrun. reflexivity.
Qed.

Lemma ACOTReceiver_ComputeOutputs_vec_ok (r : RcvSt) (id n vs : Z) (msg : list Z)
      (size : Z) :
  r_vector_size_ (rcv r) = vs -> r_ot_id_ (rcv r) = id -> r_num_ots_ (rcv r) = n ->
  vs <> 1 -> 0 < vs -> n * vs < 2 ^ 64 -> 0 <= id -> 0 <= n -> id + n < 2 ^ 64 ->
  r_outputs_computed_ (rcv r) = false ->
  corrections_sent_ (rcv r) = true ->
  message_promises_ (rdata r) !! id = Some (size, Some (Ints msg)) ->
  (Z.to_nat (id + n) <= length (outputs_ (rdata r)))%nat ->
  exists outs,
    ACOTReceiver_ComputeOutputs W r =
      Ok (set_rcv (with_r_outputs_computed true) (set_rcv (with_r_outputs outs) r)) /\
    length outs = Z.to_nat (n * vs) /\
    forall i j, (i < Z.to_nat n)%nat -> (j < Z.to_nat vs)%nat ->
      outs !! (i * Z.to_nat vs + j)%nat
      = Some (let ot_data := outputs_ (rdata r) !!! (Z.to_nat id + i)%nat in
              if bit (choices_ (rcv r)) i
              then wrap W (nth (i * Z.to_nat vs + j) msg 0 - read_T W ot_data j)
              else read_T W ot_data j).
Proof.
  intros Hvs Hid Hn Hne Hvs0 Hnv Hid0 Hn0 Hfit Hfresh Hsent Hmsg Hout.
  unfold ACOTReceiver_ComputeOutputs.
  rewrite Hfresh, Hsent. cbn [negb]. unfold future_get.
  cbn [set_rcv rcv rdata with_r_outputs r_ot_id_ r_outputs_].
  rewrite Hid, Hmsg, Hvs, Hn. rewrite decide_False by done.
  rewrite (wrap_size_small (n * vs)) by nia.
  set (body := fun (ot_i : nat) (outs : list Z) => _).
  set (l0 := resize (Z.to_nat (n * vs)) 0 (r_outputs_ (rcv r))).
  destruct (for_each_upto body
    (fun m outs =>
       length outs = Z.to_nat (n * vs) /\
       forall i j, (i < m)%nat -> (j < Z.to_nat vs)%nat ->
         outs !! (i * Z.to_nat vs + j)%nat
         = Some (let ot_data := outputs_ (rdata r) !!! (Z.to_nat id + i)%nat in
                 if bit (choices_ (rcv r)) i
                 then wrap W (nth (i * Z.to_nat vs + j) msg 0 - read_T W ot_data j)
                 else read_T W ot_data j))
    (Z.to_nat n) l0) as (outs & Hrun & Hl & Hlow).
  - split; [by unfold l0; rewrite length_resize|]. intros; lia.
  - intros i outs Hi (Hl & Hlow). unfold body.
    rewrite (at_batch_total _ id n) by done.
    eexists. split; [done|]. unfold upto.
    destruct (foldl_insert_block
                (fun j (_ : Z) =>
                   let ot_data := outputs_ (rdata r) !!! (Z.to_nat id + i)%nat in
                   if bit (choices_ (rcv r)) i
                   then wrap W (nth (i * Z.to_nat vs + j) msg 0 - read_T W ot_data j)
                   else read_T W ot_data j)
                0 (i * Z.to_nat vs) (Z.to_nat vs) outs) as (Hl' & Hin & Hout'); [nia|].
    cbn zeta in Hl', Hin, Hout'.
    split; [by rewrite Hl'|].
    intros i' j Hi' Hj. destruct (decide (i' = i)) as [->|Hne'].
    + by rewrite Hin.
    + rewrite Hout' by nia. apply Hlow; lia.
  - exists outs. split; [|done].
    unfold finish_r, upto. cbn [set_rcv rcv with_r_outputs r_outputs_].
    fold l0. rewrite Hrun. reflexivity.
Qed.

End ACOTVector.

(** ACOT with vectors of more than one element per OT, end to end.  Once the
    receiver has set its choices and sent corrections, the sender has set
    its [num_ots * vector_size] correlations, sent its message and computed
    its outputs, and the receiver has computed its outputs, every call has
    returned, both output vectors have [num_ots * vector_size] elements, and
    element [j] of the receiver's i-th output is the sender's element when
    choice bit i is 0, and the sender's element plus the correlation modulo
    2^W when it is 1. *)
Theorem acot_vector_outputs_correlated (W : Z) (id n vs : Z) (c : BitVector)
        (corr : list Z) (r0 : RcvSt) (s0 : SndSt) :
  batch_ready id n r0 s0 ->
  r_vector_size_ (rcv r0) = vs -> s_vector_size_ (snd s0) = vs ->
  1 < vs -> n * vs < 2 ^ 64 ->
  length c = Z.to_nat n -> length corr = Z.to_nat (n * vs) ->
  exists r s,
    acot_run W c corr r0 s0 = Some (r, s) /\
    length (s_outputs_ (snd s)) = Z.to_nat (n * vs) /\
    length (r_outputs_ (rcv r)) = Z.to_nat (n * vs) /\
    forall i j, (i < Z.to_nat n)%nat -> (j < Z.to_nat vs)%nat ->
      exists out_s out_r,
        s_outputs_ (snd s) !! (i * Z.to_nat vs + j)%nat = Some out_s /\
        r_outputs_ (rcv r) !! (i * Z.to_nat vs + j)%nat = Some out_r /\
        out_r = if bit c i
                then wrap W (out_s + nth (i * Z.to_nat vs + j) corr 0) else out_s.
Proof.
  intros [Hid0 Hn0 Hfit Hrid Hsid Hrn Hsn Hfr Hfs Hsetup Hcond [[size fut] Hprom]
            Hy0 Hy1 Hcorr Hout Hrand Hrot] Hrvs Hsvs Hvs1 Hnv Hc Hcr.
  assert (Hcne : c <> []) by (intros ->; simpl in Hc; lia).
  unfold acot_run. rewrite (SendCorrections_after_SetChoices c r0 Hcne).
  cbn [ok_state mbind option_bind r_sent]. rewrite new_msgs_app.
  unfold deliver_all_s. cbn [foldl deliver_to_sender sdata snd s_sent].
  rewrite Hrid, Hrn, (wrap_size_small (id + n)) by lia.
  set (corrs := bv_xor c (Subset (random_choices_ (rdata r0)) id (id + n))).
  set (sd1 := mkSenderData _ _ _ _ _ _ _ _).
  set (s1 := mkSndSt (with_correlations corr (snd s0)) sd1 (s_sent s0)).
  destruct (ACOTSender_SendMessages_vec_ok W s1 id n vs ltac:(done) ltac:(done) ltac:(done)
              ltac:(lia) ltac:(lia) ltac:(done) ltac:(lia) ltac:(done) ltac:(done)
              ltac:(done) ltac:(done))
    as (buffer & Hsend & Hlb & Hbuf).
  unfold SetCorrelations. cbn [and_then].
  replace (set_snd (with_correlations corr) (mkSndSt (snd s0) sd1 (s_sent s0)))
    with s1 by done.
  rewrite Hsend. cbn [and_then].
  set (s2 := Send_s _ s1).
  destruct (ACOTSender_ComputeOutputs_vec_ok W s2 id n vs ltac:(done) ltac:(done)
              ltac:(done) ltac:(lia) ltac:(lia) ltac:(done) ltac:(done) ltac:(lia)
              ltac:(done) ltac:(done) ltac:(done) ltac:(done)
              ltac:(simpl; set_solver) ltac:(done) ltac:(done))
    as (outs_s & Hcomp & Hls & Houts).
  rewrite Hcomp. cbn [ok_state mbind option_bind set_snd s_sent s2 s1 Send_s].
  rewrite new_msgs_app. unfold deliver_all_r.
  cbn [foldl deliver_to_receiver rdata message_promises_]. rewrite Hprom.
  set (rd2 := with_message_promises_ _ _).
  set (r2 := mkRcvSt _ rd2 _).
  destruct (ACOTReceiver_ComputeOutputs_vec_ok W r2 id n vs buffer size ltac:(done)
              ltac:(done) ltac:(done) ltac:(lia) ltac:(lia) ltac:(done) ltac:(done)
              ltac:(lia) ltac:(done) ltac:(done) ltac:(done)
              ltac:(simpl; by rewrite lookup_insert_eq) ltac:(done))
    as (outs_r & Hrc & Hlr & Houtr).
  rewrite Hrc. cbn [ok_state mbind option_bind]. eexists _, _. split; [done|].
  cbn [snd set_snd with_s_outputs_computed with_s_outputs s_outputs_
       rcv set_rcv with_r_outputs_computed with_r_outputs r_outputs_].
  split; [done|]. split; [done|].
  intros i j Hi Hj. eexists _, _. split; [by apply Houts|]. split; [by apply Houtr|].
  cbn [s2 s1 Send_s sdata sd1 y0_ y1_ corrections_ r2 rcv choices_ with_choices
       with_corrections_sent rdata rd2 with_message_promises_ outputs_].
  cbn zeta. unfold corrs. rewrite correction_bit by done.
  rewrite (list_lookup_total_alt (outputs_ (rdata r0))), Hrot, <- list_lookup_total_alt by lia.
  rewrite (nth_lookup buffer), Hbuf by done. unfold default, from_option, Datatypes.id.
  subst s1. cbn [snd sdata sd1 y0_ y1_ with_correlations correlations_].
  destruct (bit c i), (bit (random_choices_ (rdata r0)) (Z.to_nat id + i)); cbn [xorb];
    try done; rewrite wrap_sub_l; f_equal; lia.
Qed.

Lemma acot_vector_sample_ready :
  batch_ready 2 3 OTXCOTSamples.acot_vector_receiver OTXCOTSamples.acot_vector_sender.
Proof.
  split;
    [lia | lia | lia | reflexivity | reflexivity | reflexivity | reflexivity
    | reflexivity | reflexivity | reflexivity
    | apply (bool_decide_unpack _); vm_compute; exact I
    | vm_compute; eauto
    | vm_compute; lia | vm_compute; lia | vm_compute; lia | vm_compute; lia
    | vm_compute; lia | ].
  - intros k Hk.
    assert (Hc : k = 2%nat \/ k = 3%nat \/ k = 4%nat) by lia.
    destruct Hc as [-> | [-> | ->]]; reflexivity.
Defined.

Lemma acot_vector_outputs_correlated_witness :
  exists r s,
    acot_run 8 [true; false; true] [7; 9; 100; 200; 1; 255]
             OTXCOTSamples.acot_vector_receiver OTXCOTSamples.acot_vector_sender
    = Some (r, s) /\
    length (s_outputs_ (snd s)) = Z.to_nat (3 * 2) /\
    length (r_outputs_ (rcv r)) = Z.to_nat (3 * 2) /\
    forall i j, (i < Z.to_nat 3)%nat -> (j < Z.to_nat 2)%nat ->
      exists out_s out_r,
        s_outputs_ (snd s) !! (i * Z.to_nat 2 + j)%nat = Some out_s /\
        r_outputs_ (rcv r) !! (i * Z.to_nat 2 + j)%nat = Some out_r /\
        out_r = if bit [true; false; true] i
                then wrap 8 (out_s + nth (i * Z.to_nat 2 + j) [7; 9; 100; 200; 1; 255] 0)
                else out_s.
Proof.
  apply (acot_vector_outputs_correlated 8 2 3 2 [true; false; true]
           [7; 9; 100; 200; 1; 255]
           OTXCOTSamples.acot_vector_receiver OTXCOTSamples.acot_vector_sender).
  - exact acot_vector_sample_ready.
  - reflexivity.
  - reflexivity.
  - lia.
  - lia.
  - reflexivity.
  - reflexivity.
Defined.

End OTACOTVector.

(** * BEAVY gates: share arithmetic *)

Module BeavyFacts.
Import Beavy.

Lemma length_transform2 (W : Z) (f : Z -> Z -> Z) (a b out : list Z) :
  (length a <= length b)%nat -> (length a <= length out)%nat ->
  length (transform2 W f a b out) = length out.
Proof.
  intros Hb Ho. unfold transform2.
  rewrite length_app, length_zip_with, length_drop. lia.
Qed.

Lemma nth_transform2 (W : Z) (f : Z -> Z -> Z) (a b out : list Z) (j : nat) :
  (j < length a)%nat -> (length a <= length b)%nat ->
  nth j (transform2 W f a b out) 0 = wrap W (f (nth j a 0) (nth j b 0)).
Proof.
  intros Ha Hb. unfold transform2. rewrite !nth_lookup.
  rewrite lookup_app_l by (rewrite length_zip_with; lia).
  rewrite lookup_zip_with.
  destruct (lookup_lt_is_Some_2 a j Ha) as [x ->].
  destruct (lookup_lt_is_Some_2 b j ltac:(lia)) as [y ->]. done.
Qed.

Lemma length_transform1 (W : Z) (f : Z -> Z) (a out : list Z) :
  (length a <= length out)%nat -> length (transform1 W f a out) = length out.
Proof.
  intros Ho. unfold transform1. rewrite length_app, length_map, length_drop. lia.
Qed.

Lemma nth_transform1 (W : Z) (f : Z -> Z) (a out : list Z) (j : nat) :
  (j < length a)%nat -> nth j (transform1 W f a out) 0 = wrap W (f (nth j a 0)).
Proof.
  intros Ha. unfold transform1. rewrite !nth_lookup.
  rewrite lookup_app_l by (rewrite length_map; lia).
  rewrite list_lookup_fmap.
  destruct (lookup_lt_is_Some_2 a j Ha) as [x ->]. done.
Qed.

Lemma length_resize_T (n : Z) (v : list Z) : length (resize_T n v) = Z.to_nat n.
Proof. unfold resize_T. apply length_resize. Qed.

Lemma is_my_job_one_party (gate_id : Z) :
  is_my_job 0 gate_id = negb (is_my_job 1 gate_id).
Proof.
  unfold is_my_job.
  pose proof (Z.mod_pos_bound gate_id 2 ltac:(lia)).
  destruct (Z.eqb_spec (gate_id mod 2) 0), (Z.eqb_spec (gate_id mod 2) 1); try done; lia.
Qed.





(** *** The MUL gate, phase by phase *)

Lemma MUL_setup_spec (W n : Z) (random : list Z) (g : ArithmeticBEAVYMULGate) :
  a_setup_ready (mul_output_ g) = false ->
  a_setup_ready (mul_input_a_ g) = true -> a_setup_ready (mul_input_b_ g) = true ->
  a_num_simd (mul_input_a_ g) = n ->
  length (a_secret_share (mul_input_a_ g)) = Z.to_nat n ->
  length (a_secret_share (mul_input_b_ g)) = Z.to_nat n ->
  length random = Z.to_nat n ->
  length (im_outputs (mul_mult_sender_ g)) = Z.to_nat n ->
  length (im_outputs (mul_mult_receiver_ g)) = Z.to_nat n ->
  exists s,
    MUL_evaluate_setup W random g = Ok s /\
    mul_my_id s = mul_my_id g /\ mul_gate_id s = mul_gate_id g /\
    mul_sent s = mul_sent g /\
    a_secret_share (mul_output_ s) = random /\
    a_setup_ready (mul_output_ s) = true /\
    a_online_ready (mul_output_ s) = a_online_ready (mul_output_ g) /\
    im_inputs (mul_mult_sender_ s) = a_secret_share (mul_input_b_ g) /\
    im_inputs (mul_mult_receiver_ s) = a_secret_share (mul_input_a_ g) /\
    im_outputs (mul_mult_sender_ s) = im_outputs (mul_mult_sender_ g) /\
    im_outputs (mul_mult_receiver_ s) = im_outputs (mul_mult_receiver_ g) /\
    length (mul_Delta_y_share_ s) = Z.to_nat n /\
    forall j, (j < Z.to_nat n)%nat ->
      nth j (mul_Delta_y_share_ s) 0 =
      wrap W (wrap W (wrap W (wrap W (nth j (a_secret_share (mul_input_a_ g)) 0
                                      * nth j (a_secret_share (mul_input_b_ g)) 0)
                              + nth j random 0)
                      + nth j (im_outputs (mul_mult_receiver_ g)) 0)
              + nth j (im_outputs (mul_mult_sender_ g)) 0).
Proof.
  intros Hfresh Ha Hb Hn Hla Hlb Hlr Hls Hlrc.
  unfold MUL_evaluate_setup, a_set_setup_ready, lift_output.
  cbn [a_with_secret a_setup_ready]. rewrite Hfresh.
  cbn [map_outcome and_then mul_with_output mul_input_a_ mul_input_b_].
  rewrite Ha, Hb. cbn [negb]. eexists. split; [reflexivity|].
  unfold mul_with_Delta, mul_with_sessions, mul_with_output, a_with_secret, set_inputs,
    get_outputs.
  cbn [mul_with_Delta mul_with_sessions mul_my_id mul_gate_id mul_sent mul_output_
       a_secret_share a_setup_ready a_online_ready mul_mult_sender_ mul_mult_receiver_
       set_inputs im_inputs im_outputs mul_Delta_y_share_ get_outputs mul_input_a_
       mul_input_b_ a_num_simd].
  repeat (split; [done|]).
  rewrite Hn.
  set (D0 := resize_T n _).
  assert (L0 : length D0 = Z.to_nat n) by apply length_resize_T.
  set (D1 := transform2 W Z.mul _ _ D0).
  assert (L1 : length D1 = Z.to_nat n) by (unfold D1; rewrite length_transform2; lia).
  set (D2 := transform2 W Z.add D1 _ D1).
  assert (L2 : length D2 = Z.to_nat n) by (unfold D2; rewrite length_transform2; lia).
  set (D3 := transform2 W Z.add D2 _ D2).
  assert (L3 : length D3 = Z.to_nat n) by (unfold D3; rewrite length_transform2; lia).
  split; [rewrite length_transform2; lia|].
  intros j Hj.
  rewrite nth_transform2 by lia. unfold D3. rewrite nth_transform2 by lia.
  unfold D2. rewrite nth_transform2 by lia. unfold D1. rewrite nth_transform2 by lia.
  done.
Qed.

Lemma MUL_online_send_spec (W n : Z) (g : ArithmeticBEAVYMULGate) :
  a_online_ready (mul_input_a_ g) = true -> a_online_ready (mul_input_b_ g) = true ->
  a_num_simd (mul_input_a_ g) = n ->
  length (a_secret_share (mul_input_a_ g)) = Z.to_nat n ->
  length (a_secret_share (mul_input_b_ g)) = Z.to_nat n ->
  length (a_public_share (mul_input_a_ g)) = Z.to_nat n ->
  length (a_public_share (mul_input_b_ g)) = Z.to_nat n ->
  length (mul_Delta_y_share_ g) = Z.to_nat n ->
  exists o,
    MUL_evaluate_online_send W g = Ok o /\
    mul_output_ o = mul_output_ g /\
    mul_Delta_y_share_ o = last_sent o /\
    length (last_sent o) = Z.to_nat n /\
    forall j, (j < Z.to_nat n)%nat ->
      let Delta_a := nth j (a_public_share (mul_input_a_ g)) 0 in
      let Delta_b := nth j (a_public_share (mul_input_b_ g)) 0 in
      let base :=
        wrap W (wrap W (nth j (mul_Delta_y_share_ g) 0
                        - wrap W (Delta_a * nth j (a_secret_share (mul_input_b_ g)) 0))
                - wrap W (Delta_b * nth j (a_secret_share (mul_input_a_ g)) 0)) in
      nth j (last_sent o) 0 =
        if is_my_job (mul_my_id g) (mul_gate_id g)
        then wrap W (base + wrap W (Delta_a * Delta_b))
        else base.
Proof.
  intros Ha Hb Hn Hla Hlb Hpa Hpb Hd.
  unfold MUL_evaluate_online_send. rewrite Ha, Hb. cbn [negb]. rewrite Hn.
  eexists. split; [reflexivity|].
  unfold last_sent.
  cbn [mul_broadcast mul_with_Delta mul_output_ mul_Delta_y_share_ mul_sent mul_my_id
       mul_gate_id].
  rewrite last_snoc.
  set (tmp0 := replicate (Z.to_nat n) 0).
  assert (T0 : length tmp0 = Z.to_nat n) by apply length_replicate.
  set (tmp1 := transform2 W Z.mul _ _ tmp0).
  assert (T1 : length tmp1 = Z.to_nat n) by (unfold tmp1; rewrite length_transform2; lia).
  set (D1 := transform2 W Z.sub _ tmp1 _).
  assert (L1 : length D1 = Z.to_nat n) by (unfold D1; rewrite length_transform2; lia).
  set (tmp2 := transform2 W Z.mul _ _ tmp1).
  assert (T2 : length tmp2 = Z.to_nat n) by (unfold tmp2; rewrite length_transform2; lia).
  set (D2 := transform2 W Z.sub D1 tmp2 D1).
  assert (L2 : length D2 = Z.to_nat n) by (unfold D2; rewrite length_transform2; lia).
  set (tmp3 := transform2 W Z.mul _ _ tmp2).
  assert (T3 : length tmp3 = Z.to_nat n) by (unfold tmp3; rewrite length_transform2; lia).
  assert (HD2 : forall j, (j < Z.to_nat n)%nat ->
    nth j D2 0 =
    wrap W (wrap W (nth j (mul_Delta_y_share_ g) 0
                    - wrap W (nth j (a_public_share (mul_input_a_ g)) 0
                              * nth j (a_secret_share (mul_input_b_ g)) 0))
            - wrap W (nth j (a_public_share (mul_input_b_ g)) 0
                      * nth j (a_secret_share (mul_input_a_ g)) 0))).
  { intros j Hj. unfold D2. rewrite nth_transform2 by lia.
    unfold D1, tmp2. rewrite !nth_transform2 by lia.
    unfold tmp1. rewrite nth_transform2 by lia. done. }
  split; [done|]. split; [done|]. split.
  - destruct (is_my_job _ _); [rewrite length_transform2|]; lia.
  - intros j Hj. cbn zeta. destruct (is_my_job _ _).
    + rewrite nth_transform2 by lia. rewrite HD2 by done.
      unfold tmp3. rewrite nth_transform2 by lia. done.
    + by apply HD2.
Qed.

Lemma MUL_online_receive_spec (W n : Z) (other : list Z) (g : ArithmeticBEAVYMULGate) :
  a_online_ready (mul_output_ g) = false ->
  length (mul_Delta_y_share_ g) = Z.to_nat n -> length other = Z.to_nat n ->
  exists f,
    MUL_evaluate_online_receive W (mul_receive other g) = Ok f /\
    a_secret_share (mul_output_ f) = a_secret_share (mul_output_ g) /\
    a_setup_ready (mul_output_ f) = a_setup_ready (mul_output_ g) /\
    a_online_ready (mul_output_ f) = true /\
    mul_sent f = mul_sent g /\
    length (a_public_share (mul_output_ f)) = Z.to_nat n /\
    forall j, (j < Z.to_nat n)%nat ->
      nth j (a_public_share (mul_output_ f)) 0
      = wrap W (nth j (mul_Delta_y_share_ g) 0 + nth j other 0).
Proof.
  intros Hfresh Hd Ho.
  unfold MUL_evaluate_online_receive, a_set_online_ready, lift_output.
  cbn [mul_receive mul_share_future_ mul_Delta_y_share_ mul_output_ mul_with_Delta
       mul_with_output a_with_public a_online_ready].
  rewrite Hfresh. cbn [map_outcome]. eexists. split; [reflexivity|].
  unfold mul_with_output, mul_with_Delta, a_with_public.
  cbn [mul_with_output mul_output_ a_secret_share a_setup_ready a_online_ready mul_sent
       a_public_share a_num_simd].
  repeat (split; [done|]).
  split; [rewrite length_transform2; lia|].
  intros j Hj. by rewrite nth_transform2 by lia.
Qed.



(** One slot of the Beaver-style identity behind MUL: the two setup values
    and the online corrections add up to the product plus the output mask. *)
Lemma mul_slot_algebra (W xa xb la0 la1 lb0 lb1 r0 r1 so0 ro0 so1 ro1 Da Db : Z) :
  Da = wrap W (xa + la0 + la1) -> Db = wrap W (xb + lb0 + lb1) ->
  wrap W (so0 + ro1) = wrap W (lb0 * la1) ->
  wrap W (so1 + ro0) = wrap W (lb1 * la0) ->
  eqm (2 ^ W)
      ((la0 * lb0 + r0 + ro0 + so0 - Da * lb0 - Db * la0)
       + (la1 * lb1 + r1 + ro1 + so1 - Da * lb1 - Db * la1) + Da * Db)
      (xa * xb + r0 + r1).
Proof.
  intros HDa HDb H1 H2.
  destruct (eqm_multiple _ _ _ (eqm_wrap W (xa + la0 + la1))) as [ka Ha].
  destruct (eqm_multiple _ _ _ (eqm_wrap W (xb + lb0 + lb1))) as [kb Hb].
  rewrite <- HDa in Ha. rewrite <- HDb in Hb.
  apply wrap_eqm_iff, eqm_multiple in H1, H2.
  destruct H1 as [k1 H1], H2 as [k2 H2].
  apply (eqm_by_multiple _ _ _
           (k1 + k2 + ka * kb * 2 ^ W + ka * xb + kb * xa)).
  assert (so0 = lb0 * la1 + k1 * 2 ^ W - ro1) as -> by lia.
  assert (so1 = lb1 * la0 + k2 * 2 ^ W - ro0) as -> by lia.
  rewrite Ha, Hb. ring.
Qed.

(** C1: the two-party MUL gate.  For input wires that satisfy the BEAVY
    invariant and integer-multiplication sessions that return additive
    shares of the cross products, both parties finish; each party's
    broadcast is its stored setup value minus Delta_a * lambda_b_i minus
    Delta_b * lambda_a_i, plus Delta_a * Delta_b for exactly the one party
    whose job it is; and both parties end with the same output public share
    a * b + lambda_y0 + lambda_y1 modulo 2^W in every SIMD slot, the
    lambda_y being the secret shares the parties drew. *)
Theorem mul_gate_correct (W gate_id n : Z)
        (xa xb random0 random1 so0 ro0 so1 ro1 : list Z)
        (a b : wire_views) (g0 g1 : ArithmeticBEAVYMULGate) :
  W ∈ [8; 16; 32; 64] ->
  beavy_wire W n xa a -> beavy_wire W n xb b ->
  length random0 = Z.to_nat n -> length random1 = Z.to_nat n ->
  length so0 = Z.to_nat n -> length ro0 = Z.to_nat n ->
  length so1 = Z.to_nat n -> length ro1 = Z.to_nat n ->
  ArithmeticBEAVYMULGate_ctor 0 gate_id (at_setup_0 a) (at_setup_0 b) so0 ro0 = Ok g0 ->
  ArithmeticBEAVYMULGate_ctor 1 gate_id (at_setup_1 a) (at_setup_1 b) so1 ro1 = Ok g1 ->
  shares_of_product W (mkSession (a_secret_share (at_setup_0 b)) so0)
                      (mkSession (a_secret_share (at_setup_1 a)) ro1) ->
  shares_of_product W (mkSession (a_secret_share (at_setup_1 b)) so1)
                      (mkSession (a_secret_share (at_setup_0 a)) ro0) ->
  exists s0 s1 f0 f1,
    MUL_evaluate_setup W random0 g0 = Ok s0 /\
    MUL_evaluate_setup W random1 g1 = Ok s1 /\
    mul_protocol W random0 random1 a b g0 g1 = Some (f0, f1) /\
    (forall j, (j < Z.to_nat n)%nat ->
       let Delta_a := nth j (a_public_share (at_online_0 a)) 0 in
       let Delta_b := nth j (a_public_share (at_online_0 b)) 0 in
       let half (i : Z) (s : ArithmeticBEAVYMULGate) (la lb : ArithmeticBEAVYWire) :=
         let base :=
           wrap W (wrap W (nth j (mul_Delta_y_share_ s) 0
                           - wrap W (Delta_a * nth j (a_secret_share lb) 0))
                   - wrap W (Delta_b * nth j (a_secret_share la) 0)) in
         if is_my_job i gate_id then wrap W (base + wrap W (Delta_a * Delta_b))
         else base in
       nth j (last_sent f0) 0 = half 0 s0 (at_setup_0 a) (at_setup_0 b) /\
       nth j (last_sent f1) 0 = half 1 s1 (at_setup_1 a) (at_setup_1 b)) /\
    is_my_job 0 gate_id = negb (is_my_job 1 gate_id) /\
    a_secret_share (mul_output_ f0) = random0 /\
    a_secret_share (mul_output_ f1) = random1 /\
    a_setup_ready (mul_output_ f0) = true /\ a_online_ready (mul_output_ f0) = true /\
    a_setup_ready (mul_output_ f1) = true /\ a_online_ready (mul_output_ f1) = true /\
    a_public_share (mul_output_ f0) = a_public_share (mul_output_ f1) /\
    length (a_public_share (mul_output_ f0)) = Z.to_nat n /\
    forall j, (j < Z.to_nat n)%nat ->
      nth j (a_public_share (mul_output_ f0)) 0
      = wrap W (nth j xa 0 * nth j xb 0 + nth j random0 0 + nth j random1 0).
Proof.
  intros _ [Sa La0 La1 Lap Rsa Roa Ka0 Ka1 Pa Ia] [Sb Lb0 Lb1 Lbp Rsb Rob Kb0 Kb1 Pb Ib]
         Lr0 Lr1 Lso0 Lro0 Lso1 Lro1 C0 C1 Hp01 Hp10.
  destruct Sa as (Sa0 & Sa1 & Sa2 & Sa3), Sb as (Sb0 & Sb1 & Sb2 & Sb3).
  destruct Rsa as [Rsa0 Rsa1], Rsb as [Rsb0 Rsb1], Roa as [Roa0 Roa1], Rob as [Rob0 Rob1].
  unfold ArithmeticBEAVYMULGate_ctor in C0, C1.
  destruct (decide _) in C0; [|done]. destruct (decide _) in C1; [|done].
  injection C0 as <-. injection C1 as <-.
  (* setup *)
  destruct (MUL_setup_spec W n random0 (mkMUL 0 gate_id (at_setup_0 a) (at_setup_0 b)
              (new_awire (a_num_simd (at_setup_0 a))) [] (mkSession [] so0)
              (mkSession [] ro0) None []))
    as (s0 & E0 & Id0 & Gid0 & Sent0 & Sec0 & Rdy0 & Onl0 & _ & _ & _ & _ & LD0 & HD0);
    try done.
  destruct (MUL_setup_spec W n random1 (mkMUL 1 gate_id (at_setup_1 a) (at_setup_1 b)
              (new_awire (a_num_simd (at_setup_1 a))) [] (mkSession [] so1)
              (mkSession [] ro1) None []))
    as (s1 & E1 & Id1 & Gid1 & Sent1 & Sec1 & Rdy1 & Onl1 & _ & _ & _ & _ & LD1 & HD1);
    try done.
  cbn [mul_input_a_ mul_input_b_ mul_mult_sender_ mul_mult_receiver_ im_outputs
       mul_my_id mul_gate_id mul_output_ mul_sent] in *.
  (* online, up to the broadcast *)
  assert (Lsa0 : length (a_secret_share (at_online_0 a)) = Z.to_nat n) by by rewrite Ka0.
  assert (Lsa1 : length (a_secret_share (at_online_1 a)) = Z.to_nat n) by by rewrite Ka1.
  assert (Lsb0 : length (a_secret_share (at_online_0 b)) = Z.to_nat n) by by rewrite Kb0.
  assert (Lsb1 : length (a_secret_share (at_online_1 b)) = Z.to_nat n) by by rewrite Kb1.
  assert (Lap1 : length (a_public_share (at_online_1 a)) = Z.to_nat n) by by rewrite <- Pa.
  assert (Lbp1 : length (a_public_share (at_online_1 b)) = Z.to_nat n) by by rewrite <- Pb.
  destruct (MUL_online_send_spec W n (mul_inputs_now (at_online_0 a) (at_online_0 b) s0)
              Roa0 Rob0 Sa2 Lsa0 Lsb0 Lap Lbp LD0)
    as (o0 & F0 & Out0 & DS0 & LS0 & HS0).
  destruct (MUL_online_send_spec W n (mul_inputs_now (at_online_1 a) (at_online_1 b) s1)
              Roa1 Rob1 Sa3 Lsa1 Lsb1 Lap1 Lbp1 LD1)
    as (o1 & F1 & Out1 & DS1 & LS1 & HS1).
  cbn [mul_inputs_now mul_input_a_ mul_input_b_ mul_Delta_y_share_ mul_my_id mul_gate_id
       mul_output_] in *.
  (* the exchange and the rest of online *)
  assert (Fr0 : a_online_ready (mul_output_ o0) = false) by (by rewrite Out0, Onl0).
  assert (Fr1 : a_online_ready (mul_output_ o1) = false) by (by rewrite Out1, Onl1).
  assert (LO0 : length (mul_Delta_y_share_ o0) = Z.to_nat n) by (by rewrite DS0).
  assert (LO1 : length (mul_Delta_y_share_ o1) = Z.to_nat n) by (by rewrite DS1).
  destruct (MUL_online_receive_spec W n (last_sent o1) o0 Fr0 LO0 LS1)
    as (f0 & G0 & FSec0 & FRdy0 & FOnl0 & FSent0 & FL0 & FP0).
  destruct (MUL_online_receive_spec W n (last_sent o0) o1 Fr1 LO1 LS0)
    as (f1 & G1 & FSec1 & FRdy1 & FOnl1 & FSent1 & FL1 & FP1).
  exists s0, s1, f0, f1.
  assert (Hlast0 : last_sent f0 = last_sent o0) by (unfold last_sent; by rewrite FSent0).
  assert (Hlast1 : last_sent f1 = last_sent o1) by (unfold last_sent; by rewrite FSent1).
  assert (Hslot : forall j, (j < Z.to_nat n)%nat ->
            nth j (a_public_share (mul_output_ f0)) 0
            = wrap W (nth j xa 0 * nth j xb 0 + nth j random0 0 + nth j random1 0) /\
            nth j (a_public_share (mul_output_ f1)) 0
            = wrap W (nth j xa 0 * nth j xb 0 + nth j random0 0 + nth j random1 0)).
  { intros j Hj.
    rewrite FP0, FP1 by done. rewrite DS0, DS1.
    specialize (HS0 j Hj). specialize (HS1 j Hj). cbn zeta in HS0, HS1.
    rewrite Id0, Gid0 in HS0. rewrite Id1, Gid1 in HS1.
    rewrite HS0, HS1, HD0, HD1 by done.
    rewrite <- Pa, <- Pb, Ka0, Ka1, Kb0, Kb1.
    specialize (Hp01 j). specialize (Hp10 j). cbn [im_inputs im_outputs] in Hp01, Hp10.
    pose proof (mul_slot_algebra W _ _ _ _ _ _ (nth j random0 0) (nth j random1 0)
                  _ _ _ _ _ _ (Ia j Hj) (Ib j Hj) Hp01 Hp10) as Halg.
    rewrite (is_my_job_one_party gate_id).
    split; apply wrap_of_eqm; destruct (is_my_job 1 gate_id);
      (cbn [negb]; rewrite !eqm_wrap; etrans; [|exact Halg]; apply eqm_of_eq; ring). }
  split; [done|]. split; [done|]. split.
  { unfold mul_protocol. rewrite E0, E1. cbn [ok_state mbind option_bind].
    rewrite F0, F1. cbn [ok_state mbind option_bind].
    rewrite G0, G1. done. }
  split.
  { intros j Hj. cbn zeta. rewrite Hlast0, Hlast1.
    specialize (HS0 j Hj). specialize (HS1 j Hj). cbn zeta in HS0, HS1.
    rewrite Id0, Gid0 in HS0. rewrite Id1, Gid1 in HS1.
    rewrite HS0, HS1. rewrite <- Pa, <- Pb, Ka0, Ka1, Kb0, Kb1. done. }
  split; [apply is_my_job_one_party|].
  split; [congruence|]. split; [congruence|].
  split; [congruence|]. split; [done|]. split; [congruence|]. split; [done|].
  split.
  { apply (nth_ext _ _ 0 0); [lia|]. intros j Hj.
    destruct (Hslot j ltac:(lia)) as [-> ->]. done. }
  split; [done|]. intros j Hj. by apply Hslot.
Qed.

Lemma sample_wire_a_ok : beavy_wire 8 2 [3; 200] BeavySamples.wire_a.
Proof.
  split; try (repeat split; reflexivity).
  intros j Hj. assert (Hc : j = 0%nat \/ j = 1%nat) by lia.
  destruct Hc as [-> | ->]; reflexivity.
Defined.

Lemma sample_wire_b_ok : beavy_wire 8 2 [5; 7] BeavySamples.wire_b.
Proof.
  split; try (repeat split; reflexivity).
  intros j Hj. assert (Hc : j = 0%nat \/ j = 1%nat) by lia.
  destruct Hc as [-> | ->]; reflexivity.
Defined.

Lemma sample_sessions_ok :
  shares_of_product 8 (mkSession [1; 2] [7; 9]) (mkSession [30; 40] [23; 71]) /\
  shares_of_product 8 (mkSession [3; 4] [100; 200]) (mkSession [10; 20] [186; 136]).
Proof.
  split; intros [|[|[|j]]]; reflexivity.
Defined.

Lemma mul_gate_correct_witness :
  exists f0 f1,
    mul_protocol 8 [11; 12] [13; 14] BeavySamples.wire_a BeavySamples.wire_b
                 BeavySamples.mul_gate_0 BeavySamples.mul_gate_1 = Some (f0, f1) /\
    a_public_share (mul_output_ f0) = a_public_share (mul_output_ f1) /\
    forall j, (j < Z.to_nat 2)%nat ->
      nth j (a_public_share (mul_output_ f0)) 0
      = wrap 8 (nth j [3; 200] 0 * nth j [5; 7] 0 + nth j [11; 12] 0 + nth j [13; 14] 0).
Proof.
  destruct (mul_gate_correct 8 7 2 [3; 200] [5; 7] [11; 12] [13; 14]
              [7; 9] [186; 136] [100; 200] [23; 71]
              BeavySamples.wire_a BeavySamples.wire_b
              BeavySamples.mul_gate_0 BeavySamples.mul_gate_1)
    as (s0 & s1 & f0 & f1 & _ & _ & Hrun & _ & _ & _ & _ & _ & _ & _ & _ & Hsame & _ & Hval).
  - apply (bool_decide_unpack _). vm_compute. exact I.
  - exact sample_wire_a_ok.
  - exact sample_wire_b_ok.
  - reflexivity.
  - reflexivity.
  - reflexivity.
  - reflexivity.
  - reflexivity.
  - reflexivity.
  - reflexivity.
  - reflexivity.
  - exact (proj1 sample_sessions_ok).
  - exact (proj2 sample_sessions_ok).
  - exists f0, f1. split; [exact Hrun|]. split; [exact Hsame|exact Hval].
Defined.

(** The sample run: [3 * 5 + 11 + 13 = 39] and
    [200 * 7 + 12 + 14 = 1426 = 146] modulo 256. *)
Example mul_sample_outputs :
  (fun r => (a_public_share (mul_output_ r.1), a_public_share (mul_output_ r.2)))
    <$> mul_protocol 8 [11; 12] [13; 14] BeavySamples.wire_a BeavySamples.wire_b
                     BeavySamples.mul_gate_0 BeavySamples.mul_gate_1
  = Some ([39; 146], [39; 146]).
Proof. vm_compute. reflexivity. Qed.


(** *** The SQR gate *)

Import BeavySqr.

Lemma SQR_setup_spec (W n : Z) (random out : list Z) (my_id gate_id : Z)
      (input : ArithmeticBEAVYWire) :
  a_num_simd input = n ->
  length (a_secret_share input) = Z.to_nat n ->
  length random = Z.to_nat n -> length out = Z.to_nat n ->
  exists s,
    SQR_evaluate_setup W random (ArithmeticBEAVYSQRGate_ctor my_id gate_id input out) = Ok s /\
    sqr_my_id s = my_id /\ sqr_gate_id s = gate_id /\ sqr_sent s = [] /\
    a_secret_share (sqr_output_ s) = random /\
    a_setup_ready (sqr_output_ s) = true /\
    a_online_ready (sqr_output_ s) = false /\
    length (sqr_Delta_y_share_ s) = Z.to_nat n /\
    forall j, (j < Z.to_nat n)%nat ->
      nth j (sqr_Delta_y_share_ s) 0 =
      wrap W (wrap W (wrap W (nth j (a_secret_share input) 0
                              * nth j (a_secret_share input) 0)
                      + nth j random 0)
              + 2 * nth j out 0).
Proof.
  intros Hn Hla Hlr Hlo.
  assert (Hrest :
    let D1 := transform1 W (fun x => x * x) (a_secret_share input) (resize_T n []) in
    let D2 := transform2 W Z.add D1 random D1 in
    let D3 := transform2 W (fun x y => x + 2 * y) D2 out D2 in
    length D3 = Z.to_nat n /\
    forall j, (j < Z.to_nat n)%nat ->
      nth j D3 0 =
      wrap W (wrap W (wrap W (nth j (a_secret_share input) 0
                              * nth j (a_secret_share input) 0)
                      + nth j random 0)
              + 2 * nth j out 0)).
  { cbn zeta.
    set (D0 := resize_T n []).
    assert (L0 : length D0 = Z.to_nat n) by apply length_resize_T.
    set (D1 := transform1 W _ _ D0).
    assert (L1 : length D1 = Z.to_nat n) by (unfold D1; rewrite length_transform1; lia).
    set (D2 := transform2 W Z.add D1 random D1).
    assert (L2 : length D2 = Z.to_nat n) by (unfold D2; rewrite length_transform2; lia).
    split; [rewrite length_transform2; lia|].
    intros j Hj. rewrite nth_transform2 by lia.
    unfold D2. rewrite nth_transform2 by lia.
    unfold D1. rewrite nth_transform1 by lia. done. }
  cbn zeta in Hrest.
  unfold ArithmeticBEAVYSQRGate_ctor, SQR_evaluate_setup.
  destruct (my_id =? 0);
    (unfold sqr_lift, a_set_setup_ready, a_with_secret, new_awire;
     cbn [sqr_output_ a_setup_ready map_outcome and_then sqr_with_output sqr_input_
          sqr_mult_sender_ sqr_mult_receiver_ sqr_Delta_y_share_ set_inputs get_outputs
          im_outputs a_secret_share];
     rewrite Hn; eexists; split; [reflexivity|];
     unfold sqr_with_Delta, sqr_with_sessions;
     cbn [sqr_my_id sqr_gate_id sqr_sent sqr_output_ a_secret_share a_setup_ready
          a_online_ready sqr_Delta_y_share_];
     repeat (split; [done|]); exact Hrest).
Qed.

Lemma SQR_online_send_spec (W n : Z) (g : ArithmeticBEAVYSQRGate) :
  a_online_ready (sqr_input_ g) = true ->
  a_num_simd (sqr_input_ g) = n ->
  length (a_secret_share (sqr_input_ g)) = Z.to_nat n ->
  length (a_public_share (sqr_input_ g)) = Z.to_nat n ->
  length (sqr_Delta_y_share_ g) = Z.to_nat n ->
  exists o,
    SQR_evaluate_online_send W g = Ok o /\
    sqr_output_ o = sqr_output_ g /\
    sqr_Delta_y_share_ o = sqr_last_sent o /\
    length (sqr_last_sent o) = Z.to_nat n /\
    forall j, (j < Z.to_nat n)%nat ->
      let Delta_a := nth j (a_public_share (sqr_input_ g)) 0 in
      let base :=
        wrap W (nth j (sqr_Delta_y_share_ g) 0
                - wrap W (2 * Delta_a * nth j (a_secret_share (sqr_input_ g)) 0)) in
      nth j (sqr_last_sent o) 0 =
        if is_my_job (sqr_my_id g) (sqr_gate_id g)
        then wrap W (base + Delta_a * Delta_a)
        else base.
Proof.
  intros Ha Hn Hla Hpa Hd.
  unfold SQR_evaluate_online_send. rewrite Ha. cbn [negb]. rewrite Hn.
  eexists. split; [reflexivity|].
  unfold sqr_last_sent, sqr_broadcast, sqr_with_Delta.
  cbn [sqr_output_ sqr_Delta_y_share_ sqr_sent sqr_my_id sqr_gate_id].
  rewrite last_snoc.
  set (tmp0 := replicate (Z.to_nat n) 0).
  assert (T0 : length tmp0 = Z.to_nat n) by apply length_replicate.
  set (tmp := transform2 W _ _ _ tmp0).
  assert (T1 : length tmp = Z.to_nat n) by (unfold tmp; rewrite length_transform2; lia).
  set (D1 := transform2 W Z.sub _ tmp _).
  assert (L1 : length D1 = Z.to_nat n) by (unfold D1; rewrite length_transform2; lia).
  assert (HD1 : forall j, (j < Z.to_nat n)%nat ->
    nth j D1 0 =
    wrap W (nth j (sqr_Delta_y_share_ g) 0
            - wrap W (2 * nth j (a_public_share (sqr_input_ g)) 0
                      * nth j (a_secret_share (sqr_input_ g)) 0))).
  { intros j Hj. unfold D1. rewrite nth_transform2 by lia.
    unfold tmp. rewrite nth_transform2 by lia. done. }
  split; [done|]. split; [done|]. split.
  - destruct (is_my_job _ _); [rewrite length_transform2|]; lia.
  - intros j Hj. cbn zeta. destruct (is_my_job _ _).
    + rewrite nth_transform2 by lia. by rewrite HD1.
    + by apply HD1.
Qed.

Lemma SQR_online_receive_spec (W n : Z) (other : list Z) (g : ArithmeticBEAVYSQRGate) :
  a_online_ready (sqr_output_ g) = false ->
  length (sqr_Delta_y_share_ g) = Z.to_nat n -> length other = Z.to_nat n ->
  exists f,
    SQR_evaluate_online_receive W (sqr_receive other g) = Ok f /\
    a_secret_share (sqr_output_ f) = a_secret_share (sqr_output_ g) /\
    a_setup_ready (sqr_output_ f) = a_setup_ready (sqr_output_ g) /\
    a_online_ready (sqr_output_ f) = true /\
    sqr_sent f = sqr_sent g /\
    length (a_public_share (sqr_output_ f)) = Z.to_nat n /\
    forall j, (j < Z.to_nat n)%nat ->
      nth j (a_public_share (sqr_output_ f)) 0
      = wrap W (nth j (sqr_Delta_y_share_ g) 0 + nth j other 0).
Proof.
  intros Hfresh Hd Ho.
  unfold SQR_evaluate_online_receive, a_set_online_ready, sqr_lift.
  unfold sqr_receive, sqr_with_Delta, sqr_with_output, a_with_public.
  cbn [sqr_share_future_ sqr_Delta_y_share_ sqr_output_ a_online_ready].
  rewrite Hfresh. cbn [map_outcome]. eexists. split; [reflexivity|].
  cbn [sqr_output_ a_secret_share a_setup_ready a_online_ready sqr_sent
       a_public_share a_num_simd].
  repeat (split; [done|]).
  split; [rewrite length_transform2; lia|].
  intros j Hj. by rewrite nth_transform2 by lia.
Qed.

(** One slot of the squaring identity. *)
Lemma sqr_slot_algebra (W xa la0 la1 r0 r1 so ro Da : Z) :
  Da = wrap W (xa + la0 + la1) ->
  wrap W (so + ro) = wrap W (la0 * la1) ->
  eqm (2 ^ W)
      ((la0 * la0 + r0 + 2 * so - 2 * Da * la0)
       + (la1 * la1 + r1 + 2 * ro - 2 * Da * la1) + Da * Da)
      (xa * xa + r0 + r1).
Proof.
  intros HDa H1.
  destruct (eqm_multiple _ _ _ (eqm_wrap W (xa + la0 + la1))) as [ka Ha].
  rewrite <- HDa in Ha.
  apply wrap_eqm_iff, eqm_multiple in H1. destruct H1 as [k1 H1].
  apply (eqm_by_multiple _ _ _ (2 * k1 + ka * ka * 2 ^ W + 2 * ka * xa)).
  assert (so = la0 * la1 + k1 * 2 ^ W - ro) as -> by lia.
  rewrite Ha. ring.
Qed.

(** C5: the SQR gate.  Party 0 holds one session as sender and party 1 one
    as receiver, and neither holds another.  For an input wire that
    satisfies the BEAVY invariant and a session that returns additive
    shares of lambda_a0 * lambda_a1, both parties finish; the setup value of
    party i is lambda_a_i^2 + lambda_y_i + 2 * (session output); the
    broadcast is that value minus 2 * Delta_a * lambda_a_i, plus Delta_a^2
    for exactly the party whose job it is; and both parties end with the
    same output public share a^2 + lambda_y0 + lambda_y1 modulo 2^W in every
    SIMD slot. *)
Theorem sqr_gate_correct (W gate_id n : Z) (xa random0 random1 so ro : list Z)
        (a : wire_views) :
  W ∈ [8; 16; 32; 64] ->
  beavy_wire W n xa a ->
  length random0 = Z.to_nat n -> length random1 = Z.to_nat n ->
  length so = Z.to_nat n -> length ro = Z.to_nat n ->
  shares_of_product W (mkSession (a_secret_share (at_setup_0 a)) so)
                      (mkSession (a_secret_share (at_setup_1 a)) ro) ->
  let g0 := ArithmeticBEAVYSQRGate_ctor 0 gate_id (at_setup_0 a) so in
  let g1 := ArithmeticBEAVYSQRGate_ctor 1 gate_id (at_setup_1 a) ro in
  (sessions g0 = 1%nat /\ is_Some (sqr_mult_sender_ g0) /\ sqr_mult_receiver_ g0 = None) /\
  (sessions g1 = 1%nat /\ sqr_mult_sender_ g1 = None /\ is_Some (sqr_mult_receiver_ g1)) /\
  exists s0 s1 f0 f1,
    SQR_evaluate_setup W random0 g0 = Ok s0 /\
    SQR_evaluate_setup W random1 g1 = Ok s1 /\
    sqr_protocol W random0 random1 a g0 g1 = Some (f0, f1) /\
    (forall j, (j < Z.to_nat n)%nat ->
       let stored (la random out : list Z) :=
         wrap W (wrap W (wrap W (nth j la 0 * nth j la 0) + nth j random 0)
                 + 2 * nth j out 0) in
       nth j (sqr_Delta_y_share_ s0) 0
         = stored (a_secret_share (at_setup_0 a)) random0 so /\
       nth j (sqr_Delta_y_share_ s1) 0
         = stored (a_secret_share (at_setup_1 a)) random1 ro) /\
    (forall j, (j < Z.to_nat n)%nat ->
       let Delta_a := nth j (a_public_share (at_online_0 a)) 0 in
       let half (i : Z) (s : ArithmeticBEAVYSQRGate) (la : ArithmeticBEAVYWire) :=
         let base :=
           wrap W (nth j (sqr_Delta_y_share_ s) 0
                   - wrap W (2 * Delta_a * nth j (a_secret_share la) 0)) in
         if is_my_job i gate_id then wrap W (base + Delta_a * Delta_a) else base in
       nth j (sqr_last_sent f0) 0 = half 0 s0 (at_setup_0 a) /\
       nth j (sqr_last_sent f1) 0 = half 1 s1 (at_setup_1 a)) /\
    is_my_job 0 gate_id = negb (is_my_job 1 gate_id) /\
    a_secret_share (sqr_output_ f0) = random0 /\
    a_secret_share (sqr_output_ f1) = random1 /\
    a_setup_ready (sqr_output_ f0) = true /\ a_online_ready (sqr_output_ f0) = true /\
    a_setup_ready (sqr_output_ f1) = true /\ a_online_ready (sqr_output_ f1) = true /\
    a_public_share (sqr_output_ f0) = a_public_share (sqr_output_ f1) /\
    length (a_public_share (sqr_output_ f0)) = Z.to_nat n /\
    forall j, (j < Z.to_nat n)%nat ->
      nth j (a_public_share (sqr_output_ f0)) 0
      = wrap W (nth j xa 0 * nth j xa 0 + nth j random0 0 + nth j random1 0).
Proof.
  intros _ [Sa La0 La1 Lap Rsa Roa Ka0 Ka1 Pa Ia] Lr0 Lr1 Lso Lro Hp g0 g1.
  destruct Sa as (Sa0 & Sa1 & Sa2 & Sa3), Roa as [Roa0 Roa1].
  split; [by (split; [|split]; [reflexivity|eexists|reflexivity])|].
  split; [by (split; [|split]; [reflexivity|reflexivity|eexists])|].
  destruct (SQR_setup_spec W n random0 so 0 gate_id (at_setup_0 a) Sa0 La0 Lr0 Lso)
    as (s0 & E0 & Id0 & Gid0 & Sent0 & Sec0 & Rdy0 & Onl0 & LD0 & HD0).
  destruct (SQR_setup_spec W n random1 ro 1 gate_id (at_setup_1 a) Sa1 La1 Lr1 Lro)
    as (s1 & E1 & Id1 & Gid1 & Sent1 & Sec1 & Rdy1 & Onl1 & LD1 & HD1).
  fold g0 in E0. fold g1 in E1.
  assert (Lsa0 : length (a_secret_share (at_online_0 a)) = Z.to_nat n) by by rewrite Ka0.
  assert (Lsa1 : length (a_secret_share (at_online_1 a)) = Z.to_nat n) by by rewrite Ka1.
  assert (Lap1 : length (a_public_share (at_online_1 a)) = Z.to_nat n) by by rewrite <- Pa.
  destruct (SQR_online_send_spec W n (sqr_input_now (at_online_0 a) s0)
              Roa0 Sa2 Lsa0 Lap LD0) as (o0 & F0 & Out0 & DS0 & LS0 & HS0).
  destruct (SQR_online_send_spec W n (sqr_input_now (at_online_1 a) s1)
              Roa1 Sa3 Lsa1 Lap1 LD1) as (o1 & F1 & Out1 & DS1 & LS1 & HS1).
  cbn [sqr_input_now sqr_input_ sqr_Delta_y_share_ sqr_my_id sqr_gate_id sqr_output_] in *.
  assert (Fr0 : a_online_ready (sqr_output_ o0) = false) by (by rewrite Out0).
  assert (Fr1 : a_online_ready (sqr_output_ o1) = false) by (by rewrite Out1).
  assert (LO0 : length (sqr_Delta_y_share_ o0) = Z.to_nat n) by (by rewrite DS0).
  assert (LO1 : length (sqr_Delta_y_share_ o1) = Z.to_nat n) by (by rewrite DS1).
  destruct (SQR_online_receive_spec W n (sqr_last_sent o1) o0 Fr0 LO0 LS1)
    as (f0 & G0 & FSec0 & FRdy0 & FOnl0 & FSent0 & FL0 & FP0).
  destruct (SQR_online_receive_spec W n (sqr_last_sent o0) o1 Fr1 LO1 LS0)
    as (f1 & G1 & FSec1 & FRdy1 & FOnl1 & FSent1 & FL1 & FP1).
  exists s0, s1, f0, f1.
  assert (Hlast0 : sqr_last_sent f0 = sqr_last_sent o0)
    by (unfold sqr_last_sent; by rewrite FSent0).
  assert (Hlast1 : sqr_last_sent f1 = sqr_last_sent o1)
    by (unfold sqr_last_sent; by rewrite FSent1).
  assert (Hhalf : forall j, (j < Z.to_nat n)%nat ->
    nth j (sqr_last_sent o0) 0
    = (let base := wrap W (nth j (sqr_Delta_y_share_ s0) 0
                           - wrap W (2 * nth j (a_public_share (at_online_0 a)) 0
                                     * nth j (a_secret_share (at_setup_0 a)) 0)) in
       if is_my_job 0 gate_id
       then wrap W (base + nth j (a_public_share (at_online_0 a)) 0
                           * nth j (a_public_share (at_online_0 a)) 0)
       else base) /\
    nth j (sqr_last_sent o1) 0
    = (let base := wrap W (nth j (sqr_Delta_y_share_ s1) 0
                           - wrap W (2 * nth j (a_public_share (at_online_0 a)) 0
                                     * nth j (a_secret_share (at_setup_1 a)) 0)) in
       if is_my_job 1 gate_id
       then wrap W (base + nth j (a_public_share (at_online_0 a)) 0
                           * nth j (a_public_share (at_online_0 a)) 0)
       else base)).
  { intros j Hj. specialize (HS0 j Hj). specialize (HS1 j Hj). cbn zeta in *.
    rewrite Id0, Gid0 in HS0. rewrite Id1, Gid1 in HS1.
    rewrite HS0, HS1. rewrite <- Pa, Ka0, Ka1. done. }
  assert (Hslot : forall j, (j < Z.to_nat n)%nat ->
            nth j (a_public_share (sqr_output_ f0)) 0
            = wrap W (nth j xa 0 * nth j xa 0 + nth j random0 0 + nth j random1 0) /\
            nth j (a_public_share (sqr_output_ f1)) 0
            = wrap W (nth j xa 0 * nth j xa 0 + nth j random0 0 + nth j random1 0)).
  { intros j Hj.
    rewrite FP0, FP1 by done. rewrite DS0, DS1.
    destruct (Hhalf j Hj) as [-> ->]. cbn zeta. rewrite HD0, HD1 by done.
    specialize (Hp j). cbn [im_inputs im_outputs] in Hp.
    pose proof (sqr_slot_algebra W _ _ _ (nth j random0 0) (nth j random1 0)
                  _ _ _ (Ia j Hj) Hp) as Halg.
    rewrite (is_my_job_one_party gate_id).
    split; apply wrap_of_eqm; destruct (is_my_job 1 gate_id);
      (cbn [negb]; rewrite !eqm_wrap; etrans; [|exact Halg]; apply eqm_of_eq; ring). }
  split; [done|]. split; [done|]. split.
  { unfold sqr_protocol. rewrite E0, E1. cbn [ok_state mbind option_bind].
    rewrite F0, F1. cbn [ok_state mbind option_bind].
    rewrite G0, G1. done. }
  split.
  { intros j Hj. cbn zeta. split; [by apply HD0 | by apply HD1]. }
  split.
  { intros j Hj. cbn zeta. rewrite Hlast0, Hlast1. by apply Hhalf. }
  split; [apply is_my_job_one_party|].
  split; [congruence|]. split; [congruence|].
  split; [congruence|]. split; [done|]. split; [congruence|]. split; [done|].
  split.
  { apply (nth_ext _ _ 0 0); [lia|]. intros j Hj.
    destruct (Hslot j ltac:(lia)) as [-> ->]. done. }
  split; [done|]. intros j Hj. by apply Hslot.
Qed.

Lemma sqr_sample_session_ok :
  shares_of_product 8 (mkSession [10; 20] [50; 60]) (mkSession [30; 40] [250; 228]).
Proof. intros [|[|[|j]]]; reflexivity. Defined.

Lemma sqr_gate_correct_witness :
  exists f0 f1,
    sqr_protocol 8 [11; 12] [13; 14] BeavySamples.wire_a sqr_gate_0 sqr_gate_1
      = Some (f0, f1) /\
    a_public_share (sqr_output_ f0) = a_public_share (sqr_output_ f1) /\
    forall j, (j < Z.to_nat 2)%nat ->
      nth j (a_public_share (sqr_output_ f0)) 0
      = wrap 8 (nth j [3; 200] 0 * nth j [3; 200] 0 + nth j [11; 12] 0 + nth j [13; 14] 0).
Proof.
  destruct (sqr_gate_correct 8 7 2 [3; 200] [11; 12] [13; 14] [50; 60] [250; 228]
              BeavySamples.wire_a)
    as (_ & _ & s0 & s1 & f0 & f1 & _ & _ & Hrun & _ & _ & _ & _ & _ & _ & _ & _ & _
        & Hsame & _ & Hval).
  - apply (bool_decide_unpack _). vm_compute. exact I.
  - exact sample_wire_a_ok.
  - reflexivity.
  - reflexivity.
  - reflexivity.
  - reflexivity.
  - exact sqr_sample_session_ok.
  - exists f0, f1. split; [exact Hrun|]. split; [exact Hsame|exact Hval].
Defined.

(** The sample run: [3 * 3 + 11 + 13 = 33] and
    [200 * 200 + 12 + 14 = 40026 = 90] modulo 256. *)
Example sqr_sample_outputs :
  (fun r => (a_public_share (sqr_output_ r.1), a_public_share (sqr_output_ r.2)))
    <$> sqr_protocol 8 [11; 12] [13; 14] BeavySamples.wire_a sqr_gate_0 sqr_gate_1
  = Some ([33; 90], [33; 90]).
Proof. vm_compute. reflexivity. Qed.

(** *** The HAM gate *)

Import BeavyBool BeavyHam.
Import OT (BitVector, bit, bv_xor, Subset).

(** A loop all of whose iterations return. *)
Lemma run_each_upto {S} (body : nat -> S -> run S) (Inv : nat -> S -> Prop)
      (n : nat) (s : S) :
  Inv 0%nat s ->
  (forall i s', (i < n)%nat -> Inv i s' ->
                exists s'', body i s' = Done s'' /\ Inv (Datatypes.S i) s'') ->
  exists s', run_each body (seq 0 n) s = Done s' /\ Inv n s'.
Proof.
  intros H0 Hstep.
  assert (Hgen : forall a m s0, (a + m = n)%nat -> Inv a s0 ->
            exists s', run_each body (seq a m) s0 = Done s' /\ Inv n s').
  { intros a m. revert a. induction m as [|m IH]; intros a s0 Ham Ha.
    - exists s0. split; [done|]. by replace n with a by lia.
    - cbn [seq run_each]. destruct (Hstep a s0) as (s1 & -> & H1); [lia|done|].
      cbn [and_next]. apply IH; [lia|done]. }
  by apply (Hgen 0%nat n s).
Qed.

(** What a loop keeps, if every iteration that returns keeps it. *)
Lemma run_each_keeps {S} (body : nat -> S -> run S) (P : S -> Prop)
      (idx : list nat) (s s' : S) :
  (forall i s0 s1, body i s0 = Done s1 -> P s0 -> P s1) ->
  P s -> run_each body idx s = Done s' -> P s'.
Proof.
  intros Hstep. revert s. induction idx as [|i idx IH]; intros s Hs Hrun.
  - by injection Hrun as <-.
  - cbn [run_each] in Hrun. destruct (body i s) as [s1| | |] eqn:E; try done.
    cbn [and_next] in Hrun. by apply (IH s1); [apply (Hstep i s)|].
Qed.

(** A loop whose first iteration leaves defined behaviour. *)
Lemma run_each_undefined {S} (body : nat -> S -> run S) (n : nat) (s : S) (f : fault) :
  body 0%nat s = Undefined f -> run_each body (seq 0 (Datatypes.S n)) s = Undefined f.
Proof. intros H. cbn [seq run_each]. by rewrite H. Qed.

(** The fields of the gate that the phases leave alone. *)
Definition ham_frame (g g' : BooleanBEAVYHAMGate) : Prop :=
  ham_my_id g' = ham_my_id g /\ ham_num_wires_ g' = ham_num_wires_ g /\
  ham_input_ g' = ham_input_ g /\ ham_public_bits_ g' = ham_public_bits_ g /\
  ham_output_ g' = ham_output_ g.

Lemma ham_frame_refl (g : BooleanBEAVYHAMGate) : ham_frame g g.
Proof. by repeat split. Qed.

Lemma ham_frame_trans (g1 g2 g3 : BooleanBEAVYHAMGate) :
  ham_frame g1 g2 -> ham_frame g2 g3 -> ham_frame g1 g3.
Proof.
  intros (A1 & A2 & A3 & A4 & A5) (B1 & B2 & B3 & B4 & B5).
  repeat split; congruence.
Qed.

Lemma wait_through_frame (flag : ArithmeticBEAVYWire -> bool) (i : nat)
      (g g' : BooleanBEAVYHAMGate) :
  wait_through flag i g = Done g' -> g' = g.
Proof.
  unfold wait_through. destruct (vec_at _ _ i) as [f|[a|]]; try done.
  destruct (flag a); [|done]. by intros [= <-].
Qed.

(** The first part of the setup changes neither the output wire nor the
    public bits. *)
Lemma HAM_setup_send_frame (randoms : list BitVector)
      (converted : list ArithmeticBEAVYWire) (g p : BooleanBEAVYHAMGate) :
  HAM_setup_send randoms converted g = Done p -> ham_frame g p.
Proof.
  unfold HAM_setup_send.
  set (g0 := ham_with_random _ _ g).
  destruct (run_each _ (seq 0 (ham_num_wires_ g)) g0) as [g1| | |] eqn:E1; try done.
  assert (F1 : ham_frame g g1).
  { apply (run_each_keeps _ (ham_frame g) _ g0 g1) in E1; [done| |by repeat split].
    intros i s0 s1 Hb Hs0. apply (ham_frame_trans _ s0); [done|].
    destruct (make_boolean_wire _ _ _) as [x| |] eqn:Ex; try done.
    cbn [map_outcome of_outcome] in Hb. injection Hb as <-. by repeat split. }
  cbn [and_next].
  set (g2 := ham_with_arithmetic _ g1).
  assert (F2 : ham_frame g g2) by (apply (ham_frame_trans _ g1); [done|by repeat split]).
  destruct (run_each (wait_through a_setup_ready) _ g2) as [g3| | |] eqn:E3; try done.
  assert (F3 : ham_frame g g3).
  { apply (run_each_keeps _ (ham_frame g) _ g2 g3) in E3; [done| |done].
    intros i s0 s1 Hb Hs0. by rewrite (wait_through_frame _ _ _ _ Hb). }
  cbn [and_next].
  destruct (run_each (wait_through a_online_ready) _ g3) as [g4| | |] eqn:E4; try done.
  assert (F4 : ham_frame g g4).
  { apply (run_each_keeps _ (ham_frame g) _ g3 g4) in E4; [done| |done].
    intros i s0 s1 Hb Hs0. by rewrite (wait_through_frame _ _ _ _ Hb). }
  cbn [and_next].
  destruct (negb _); [done|]. intros [= <-].
  apply (ham_frame_trans _ g4); [done|by repeat split].
Qed.

(** The rest of the setup stores the output secret share and fires the
    setup flag; the output public share is not touched. *)
Lemma HAM_setup_receive_output (random : list Z) (g g' : BooleanBEAVYHAMGate) :
  HAM_setup_receive random g = Done g' ->
  ham_my_id g' = ham_my_id g /\ ham_num_wires_ g' = ham_num_wires_ g /\
  a_public_share (ham_output_ g') = a_public_share (ham_output_ g) /\
  a_secret_share (ham_output_ g') = random /\
  a_setup_ready (ham_output_ g') = true /\
  a_online_ready (ham_output_ g') = a_online_ready (ham_output_ g) /\
  length (ham_public_bits_ g')
  = (length (ham_public_bits_ g) + ham_num_wires_ g)%nat.
Proof.
  unfold HAM_setup_receive. destruct (ham_share_future_ g) as [m|]; [|done].
  unfold ham_lift, a_set_setup_ready. cbn [a_with_secret a_setup_ready ham_output_
    ham_with_public_bits].
  destruct (a_setup_ready (ham_output_ g)); [done|].
  cbn [map_outcome of_outcome]. intros [= <-]. cbn.
  repeat split. by rewrite length_app, length_map, length_seq.
Qed.

Lemma vec_at_nil {A} (what : string) (j : nat) :
  vec_at what ([] : list A) j = inl (OutOfRange what j 0).
Proof. unfold vec_at. by rewrite lookup_nil. Qed.

(** The online phase of a gate whose output public share has no slots. *)
Lemma HAM_online_slot_empty (W my_id : Z) (i j : nat) (ai : Z)
      (arith : ArithmeticBEAVYWire) :
  exists f, HAM_online_slot W my_id i j ai arith [] = inl f.
Proof.
  unfold HAM_online_slot. rewrite !vec_at_nil.
  destruct (my_id =? 0).
  - destruct (vec_at _ (a_public_share arith) j) as [f|x]; eauto.
  - destruct (vec_at _ (a_secret_share arith) j) as [f|x]; eauto.
Qed.

Lemma HAM_evaluate_online_undefined (W : Z) (g : BooleanBEAVYHAMGate) :
  a_public_share (ham_output_ g) = [] ->
  a_setup_ready (ham_output_ g) = true ->
  (0 < ham_num_wires_ g)%nat -> 0 < num_simd_of g ->
  b_online_ready (ham_input_ g !!! 0%nat) = true ->
  exists f, HAM_evaluate_online W g = Undefined f.
Proof.
  intros Hpub Hset Hw Hs Hin. unfold HAM_evaluate_online. rewrite Hset. cbn [negb].
  destruct (ham_num_wires_ g) as [|w]; [lia|].
  assert (Hfirst : exists f, HAM_online_wire W 0 g = Undefined f).
  { unfold HAM_online_wire. rewrite Hin. cbn [negb].
    destruct (vec_at "public_bits_" _ 0) as [f|bits]; [eauto|].
    rewrite decide_True by done.
    destruct (vec_at "beavy_arithmetic_wires_" _ 0) as [f|[arith|]]; [eauto| |eauto].
    rewrite Hpub.
    destruct (Z.to_nat (num_simd_of g)) as [|n] eqn:En; [lia|].
    cbn [seq HAM_online_slots].
    destruct (HAM_online_slot_empty W (ham_my_id g) 0 0
                (b2z (bit (bv_xor (b_public_share (ham_input_ g !!! 0%nat)) bits) 0)) arith)
      as [f ->]. eauto. }
  destruct Hfirst as [f Hf]. exists f.
  by rewrite (run_each_undefined _ w g f Hf).
Qed.

Lemma HAM_evaluate_online_not_done (W : Z) (g g' : BooleanBEAVYHAMGate) :
  a_public_share (ham_output_ g) = [] ->
  (0 < ham_num_wires_ g)%nat -> 0 < num_simd_of g ->
  HAM_evaluate_online W g <> Done g'.
Proof.
  intros Hpub Hw Hs. unfold HAM_evaluate_online.
  destruct (a_setup_ready (ham_output_ g)) eqn:Hset; [|done]. cbn [negb].
  destruct (b_online_ready (ham_input_ g !!! 0%nat)) eqn:Hin.
  - destruct (HAM_evaluate_online_undefined W g Hpub Hset Hw Hs Hin) as [f Hf].
    unfold HAM_evaluate_online in Hf. rewrite Hset in Hf. cbn [negb] in Hf.
    by rewrite Hf.
  - destruct (ham_num_wires_ g) as [|w]; [lia|]. cbn [seq run_each].
    unfold HAM_online_wire at 1. by rewrite Hin.
Qed.

(** The first loop of the setup on a gate as the constructor leaves it. *)
Lemma make_wires_done (randoms : list BitVector) (ns num_simd : Z) (w : nat)
      (g : BooleanBEAVYHAMGate) :
  ham_num_wires_ g = w ->
  ham_boolean_wires_ g = replicate w (new_bwire num_simd) ->
  exists g',
    run_each (fun i g0 =>
        let r := randoms !!! i in
        of_outcome
          (map_outcome (fun x => ham_with_random (<[i := r]> (ham_random_values_ g0))
                                                 (<[i := x]> (ham_boolean_wires_ g0)) g0)
                       (make_boolean_wire ns r (ham_boolean_wires_ g0 !!! i))))
      (seq 0 w)
      (ham_with_random (resize w [] (ham_random_values_ g)) (ham_boolean_wires_ g) g)
    = Done g' /\
    ham_frame g g' /\ ham_beavy_arithmetic_wires_ g' = ham_beavy_arithmetic_wires_ g.
Proof.
  intros Hw Hbool.
  destruct (run_each_upto
    (fun i g0 =>
        let r := randoms !!! i in
        of_outcome
          (map_outcome (fun x => ham_with_random (<[i := r]> (ham_random_values_ g0))
                                                 (<[i := x]> (ham_boolean_wires_ g0)) g0)
                       (make_boolean_wire ns r (ham_boolean_wires_ g0 !!! i))))
    (fun m g' =>
       ham_frame g g' /\ ham_beavy_arithmetic_wires_ g' = ham_beavy_arithmetic_wires_ g /\
       length (ham_boolean_wires_ g') = w /\
       forall i, (m <= i < w)%nat -> ham_boolean_wires_ g' !! i = Some (new_bwire num_simd))
    w (ham_with_random (resize w [] (ham_random_values_ g)) (ham_boolean_wires_ g) g))
    as (g' & Hrun & Hf & Ha & _).
  - split; [by repeat split|]. split; [done|]. cbn [ham_with_random ham_boolean_wires_].
    rewrite Hbool. split; [by rewrite length_replicate|].
    intros i Hi. apply lookup_replicate_2. lia.
  - intros i s' Hi (Hf & Ha & Hl & Hfresh). cbn zeta.
    rewrite (list_lookup_total_correct (ham_boolean_wires_ s') i (new_bwire num_simd))
      by (apply Hfresh; lia).
    unfold make_boolean_wire. cbn [new_bwire b_setup_ready b_online_ready].
    cbn [map_outcome of_outcome]. eexists. split; [done|].
    cbn [ham_with_random ham_boolean_wires_ ham_beavy_arithmetic_wires_].
    split; [apply (ham_frame_trans _ s'); [done|by repeat split]|].
    split; [done|]. split; [by rewrite length_insert|].
    intros k Hk. rewrite list_lookup_insert_ne by lia. apply Hfresh. lia.
  - exists g'. by rewrite Hrun.
Qed.

(** C3, as the code has it.  A gate built by the constructor on at least one
    input wire with at least one SIMD slot, for any ring width [W], either
    party and any gate id, never delivers an output value.  Its output wire
    is made without slots in its public share and nothing in the constructor
    or the setup gives it any.  For every width but 64 the setup goes through
    the null pointer that the cast of the 64-bit conversion wire gave, as
    soon as the first loop is done.  Whenever the setup does return (so
    [W = 64]), the output public share is still empty and the output secret
    share is the random vector just drawn; the online phase then never
    returns: with the first input wire online-ready, its first iteration
    indexes a vector outside its size. *)
Theorem ham_gate_never_delivers (W gate_id my_id : Z) (in_ : list BooleanBEAVYWire) :
  in_ <> [] -> 0 < b_num_simd (in_ !!! 0%nat) ->
  exists g,
    BooleanBEAVYHAMGate_ctor W gate_id my_id in_ = Done g /\
    a_public_share (ham_output_ g) = [] /\
    (W <> 64 ->
     forall randoms converted,
       HAM_setup_send randoms converted g
       = Undefined (NullDereference "beavy_arithmetic_wires_[i][0]")) /\
    (forall randoms converted message random p g1,
        HAM_setup_send randoms converted g = Done p ->
        HAM_setup_receive random (ham_receive message p) = Done g1 ->
        W = 64 /\
        a_public_share (ham_output_ g1) = [] /\
        a_secret_share (ham_output_ g1) = random /\
        forall ins_now,
          b_num_simd (ins_now !!! 0%nat) = b_num_simd (in_ !!! 0%nat) ->
          (b_online_ready (ins_now !!! 0%nat) = true ->
           exists f, HAM_evaluate_online W (ham_inputs_now ins_now g1) = Undefined f) /\
          (forall g2, HAM_evaluate_online W (ham_inputs_now ins_now g1) <> Done g2)).
Proof.
  intros Hne Hsimd. destruct in_ as [|in0 rest]; [done|].
  change ((in0 :: rest) !!! 0%nat) with in0 in *.
  eexists. split; [reflexivity|]. split; [reflexivity|].
  set (w := length (in0 :: rest)).
  assert (Hw : (0 < w)%nat) by (unfold w; cbn; lia).
  set (g := mkHAM _ _ _ _ _ _ _ _ _ _ _).
  assert (Hnull : W <> 64 -> forall randoms converted,
            HAM_setup_send randoms converted g
            = Undefined (NullDereference "beavy_arithmetic_wires_[i][0]")).
  { intros HW randoms converted. unfold HAM_setup_send.
    destruct (make_wires_done randoms (num_simd_of g) (b_num_simd in0) w g eq_refl eq_refl)
      as (g' & Hrun & (_ & Hnw & _) & Ha).
    cbv zeta in Hrun |- *. change (ham_num_wires_ g) with w in *.
    rewrite Hrun. cbn [and_next].
    rewrite Ha. cbn [g ham_beavy_arithmetic_wires_]. rewrite decide_False by done.
    destruct w as [|w']; [lia|].
    rewrite (run_each_undefined _ w' _ (NullDereference "beavy_arithmetic_wires_[i][0]"));
      [done|].
    unfold wait_through, vec_at. cbn [ham_with_arithmetic ham_beavy_arithmetic_wires_].
    by rewrite list_lookup_imap. }
  split; [exact Hnull|].
  intros randoms converted message random p g1 Hsend Hrecv.
  assert (HW : W = 64).
  { destruct (decide (W = 64)) as [|HW]; [done|]. by rewrite (Hnull HW) in Hsend. }
  split; [done|].
  destruct (HAM_setup_send_frame _ _ _ _ Hsend) as (P1 & P2 & P3 & P4 & P5).
  destruct (HAM_setup_receive_output _ _ _ Hrecv) as (Q1 & Q2 & Q3 & Q4 & Q5 & Q6 & Q7).
  cbn [ham_receive ham_output_ ham_num_wires_ ham_my_id ham_public_bits_] in *.
  assert (Hpub : a_public_share (ham_output_ g1) = []) by (by rewrite Q3, P5).
  split; [done|]. split; [done|].
  intros ins_now Hns.
  assert (Hnw : (0 < ham_num_wires_ (ham_inputs_now ins_now g1))%nat).
  { cbn [ham_inputs_now ham_num_wires_]. rewrite Q2, P2. done. }
  assert (Hs : 0 < num_simd_of (ham_inputs_now ins_now g1)).
  { unfold num_simd_of. cbn [ham_inputs_now ham_input_]. by rewrite Hns. }
  split.
  - intros Hin. by apply HAM_evaluate_online_undefined.
  - intros g2. by apply HAM_evaluate_online_not_done.
Qed.

Lemma ham_gate_never_delivers_witness :
  exists g,
    BooleanBEAVYHAMGate_ctor 64 3 0 (Sample.ins_setup Sample.mask0) = Done g /\
    a_public_share (ham_output_ g) = [] /\
    (64 <> 64 ->
     forall randoms converted,
       HAM_setup_send randoms converted g
       = Undefined (NullDereference "beavy_arithmetic_wires_[i][0]")) /\
    (forall randoms converted message random p g1,
        HAM_setup_send randoms converted g = Done p ->
        HAM_setup_receive random (ham_receive message p) = Done g1 ->
        64 = 64 /\
        a_public_share (ham_output_ g1) = [] /\
        a_secret_share (ham_output_ g1) = random /\
        forall ins_now,
          b_num_simd (ins_now !!! 0%nat)
          = b_num_simd (Sample.ins_setup Sample.mask0 !!! 0%nat) ->
          (b_online_ready (ins_now !!! 0%nat) = true ->
           exists f, HAM_evaluate_online 64 (ham_inputs_now ins_now g1) = Undefined f) /\
          (forall g2, HAM_evaluate_online 64 (ham_inputs_now ins_now g1) <> Done g2)).
Proof.
  apply (ham_gate_never_delivers 64 3 0 (Sample.ins_setup Sample.mask0)).
  - discriminate.
  - reflexivity.
Defined.

(** The spec's example on the code: 16 wires carrying the bits of [0x1234],
    one SIMD slot.  For [std::uint16_t] the setup goes through the null
    pointer.  For [std::uint64_t] the setup returns, with an output public
    share of no slots and the output secret share [7]; the online phase then
    stores into slot 0 of that empty vector. *)
Example ham_sample_16 :
  Sample.after_setup 16 = Undefined (NullDereference "beavy_arithmetic_wires_[i][0]").
Proof. vm_compute. reflexivity. Qed.

Example ham_sample_64 :
  (fun g => (ham_output_ g, length (ham_public_bits_ g), ham_last_sent g))
    <$> done_state (Sample.after_setup 64)
  = Some (mkAWire 1 [7] [] true false, 16%nat,
          map (fun i => xorb (Sample.mask0 i) (Sample.rand0 i)) (seq 0 16)) /\
  Sample.after_online 64 = Undefined (OutOfRange "output_->get_public_share()" 0 0).
Proof. split; vm_compute; reflexivity. Qed.

(** The arithmetic of the two assignments, had the slot been there: on
    party 0 the value that the first assignment stores for wire 0 is
    overwritten by the second one, so what wire 0 leaves in the slot is the
    same on both parties and does not depend on the public share [Delta] of
    the converted bit. *)
Remark online_slot_wire_0 (W my_id ai Delta lambda old : Z) :
  online_slot W my_id 0 ai Delta lambda old = wrap W (lambda * (2 * ai - 1)).
Proof. unfold online_slot. cbn. by destruct (my_id =? 0). Qed.
(** *** Gates without interaction: ADD and NEG *)

Import BeavyArith.

Lemma nth_slotwise (f : Z -> Z -> Z) (n : Z) (x y : list Z) (j : nat) :
  (j < Z.to_nat n)%nat -> nth j (slotwise f n x y) 0 = f (nth j x 0) (nth j y 0).
Proof.
  intros Hj. unfold slotwise. rewrite nth_lookup, list_lookup_fmap.
  rewrite lookup_seq_lt by done. done.
Qed.

Lemma resize_shares_new (n : Z) :
  resize_shares n (new_awire n)
  = mkAWire n (replicate (Z.to_nat n) 0) (replicate (Z.to_nat n) 0) false false.
Proof.
  unfold resize_shares, a_with_secret, a_with_public, new_awire, resize_T. cbn.
  by rewrite resize_nil.
Qed.

Lemma ADD_ctor_spec (gate_id : Z) (in_a in_b : ArithmeticBEAVYWire) :
  a_num_simd in_a = a_num_simd in_b ->
  ArithmeticBEAVYADDGate_ctor gate_id in_a in_b
  = Ok (mkABinary gate_id in_a in_b
          (mkAWire (a_num_simd in_a) (replicate (Z.to_nat (a_num_simd in_a)) 0)
                   (replicate (Z.to_nat (a_num_simd in_a)) 0) false false)).
Proof.
  intros Hn. unfold ArithmeticBEAVYADDGate_ctor, BasicArithmeticBEAVYBinaryGate_ctor.
  destruct (decide _) as [|_]; [congruence|]. cbn.
  by rewrite resize_shares_new.
Qed.

Lemma ADD_setup_spec (W n : Z) (g : BasicArithmeticBEAVYBinaryGate) :
  a_setup_ready (bin_output_ g) = false ->
  a_setup_ready (bin_input_a_ g) = true -> a_setup_ready (bin_input_b_ g) = true ->
  length (a_secret_share (bin_input_a_ g)) = Z.to_nat n ->
  length (a_secret_share (bin_input_b_ g)) = Z.to_nat n ->
  length (a_secret_share (bin_output_ g)) = Z.to_nat n ->
  exists s,
    ADD_evaluate_setup W g = Ok s /\
    a_num_simd (bin_output_ s) = a_num_simd (bin_output_ g) /\
    a_public_share (bin_output_ s) = a_public_share (bin_output_ g) /\
    a_setup_ready (bin_output_ s) = true /\
    a_online_ready (bin_output_ s) = a_online_ready (bin_output_ g) /\
    length (a_secret_share (bin_output_ s)) = Z.to_nat n /\
    forall j, (j < Z.to_nat n)%nat ->
      nth j (a_secret_share (bin_output_ s)) 0
      = wrap W (nth j (a_secret_share (bin_input_a_ g)) 0
                + nth j (a_secret_share (bin_input_b_ g)) 0).
Proof.
  intros Hfresh Ha Hb La Lb Lo.
  unfold ADD_evaluate_setup, a_set_setup_ready. rewrite Ha, Hb. cbn [negb].
  cbn [a_with_secret a_setup_ready]. rewrite Hfresh. cbn [map_outcome].
  eexists. split; [reflexivity|]. cbn.
  repeat (split; [done|]).
  split; [rewrite length_transform2; lia|].
  intros j Hj. by rewrite nth_transform2 by lia.
Qed.

Lemma ADD_online_spec (W n : Z) (g : BasicArithmeticBEAVYBinaryGate) :
  a_online_ready (bin_output_ g) = false ->
  a_online_ready (bin_input_a_ g) = true -> a_online_ready (bin_input_b_ g) = true ->
  length (a_public_share (bin_input_a_ g)) = Z.to_nat n ->
  length (a_public_share (bin_input_b_ g)) = Z.to_nat n ->
  length (a_public_share (bin_output_ g)) = Z.to_nat n ->
  exists s,
    ADD_evaluate_online W g = Ok s /\
    a_num_simd (bin_output_ s) = a_num_simd (bin_output_ g) /\
    a_secret_share (bin_output_ s) = a_secret_share (bin_output_ g) /\
    a_setup_ready (bin_output_ s) = a_setup_ready (bin_output_ g) /\
    a_online_ready (bin_output_ s) = true /\
    length (a_public_share (bin_output_ s)) = Z.to_nat n /\
    forall j, (j < Z.to_nat n)%nat ->
      nth j (a_public_share (bin_output_ s)) 0
      = wrap W (nth j (a_public_share (bin_input_a_ g)) 0
                + nth j (a_public_share (bin_input_b_ g)) 0).
Proof.
  intros Hfresh Ha Hb La Lb Lo.
  unfold ADD_evaluate_online, a_set_online_ready. rewrite Ha, Hb. cbn [negb].
  cbn [a_with_public a_online_ready]. rewrite Hfresh. cbn [map_outcome].
  eexists. split; [reflexivity|]. cbn.
  repeat (split; [done|]).
  split; [rewrite length_transform2; lia|].
  intros j Hj. by rewrite nth_transform2 by lia.
Qed.

(** The ADD gate keeps the wire invariant.  For input wires on [n] SIMD
    slots that satisfy it for [x] and [y], the constructor accepts them on
    both parties, both phases return on both parties, and the output wire
    satisfies the invariant for the slot-wise sum: each party's output
    secret share is the sum of its two input secret shares, and the common
    public share is [x_j + y_j] plus the two output secret shares, all
    modulo 2^W. *)
Theorem add_gate_keeps_invariant (W gate_id n : Z) (x y : list Z) (a b : wire_views) :
  beavy_wire W n x a -> beavy_wire W n y b ->
  exists g0 g1 v,
    ArithmeticBEAVYADDGate_ctor gate_id (at_setup_0 a) (at_setup_0 b) = Ok g0 /\
    ArithmeticBEAVYADDGate_ctor gate_id (at_setup_1 a) (at_setup_1 b) = Ok g1 /\
    add_protocol W a b g0 g1 = Some v /\
    beavy_wire W n (slotwise Z.add n x y) v /\ setup_kept v /\
    (forall j, (j < Z.to_nat n)%nat ->
       nth j (a_secret_share (at_setup_0 v)) 0
       = wrap W (nth j (a_secret_share (at_setup_0 a)) 0
                 + nth j (a_secret_share (at_setup_0 b)) 0) /\
       nth j (a_secret_share (at_setup_1 v)) 0
       = wrap W (nth j (a_secret_share (at_setup_1 a)) 0
                 + nth j (a_secret_share (at_setup_1 b)) 0)).
Proof.
  intros [(Na0 & Na1 & Na2 & Na3) La0 La1 Lap [Sa0 Sa1] [Oa0 Oa1] Ka0 Ka1 Pa Ia]
         [(Nb0 & Nb1 & Nb2 & Nb3) Lb0 Lb1 Lbp [Sb0 Sb1] [Ob0 Ob1] Kb0 Kb1 Pb Ib].
  do 2 eexists.
  rewrite !ADD_ctor_spec by congruence.
  set (g0 := mkABinary _ (at_setup_0 a) _ _). set (g1 := mkABinary _ (at_setup_1 a) _ _).
  destruct (ADD_setup_spec W n g0) as (s0 & E0 & N0 & P0 & R0 & Q0 & L0 & V0);
    try done; try (cbn; rewrite ?length_replicate; congruence).
  destruct (ADD_setup_spec W n g1) as (s1 & E1 & N1 & P1 & R1 & Q1 & L1 & V1);
    try done; try (cbn; rewrite ?length_replicate; congruence).
  assert (Lbp1 : length (a_public_share (at_online_1 b)) = Z.to_nat n) by congruence.
  assert (Lap1 : length (a_public_share (at_online_1 a)) = Z.to_nat n) by congruence.
  destruct (ADD_online_spec W n (bin_inputs_now (at_online_0 a) (at_online_0 b) s0))
    as (o0 & F0 & M0 & T0 & U0 & X0 & Y0 & Z0); try done;
    try (cbn [bin_inputs_now bin_output_]; rewrite ?Q0, ?P0; cbn;
         rewrite ?length_replicate; congruence).
  destruct (ADD_online_spec W n (bin_inputs_now (at_online_1 a) (at_online_1 b) s1))
    as (o1 & F1 & M1 & T1 & U1 & X1 & Y1 & Z1); try done;
    try (cbn [bin_inputs_now bin_output_]; rewrite ?Q1, ?P1; cbn;
         rewrite ?length_replicate; congruence).
  cbn [bin_inputs_now bin_output_ bin_input_a_ bin_input_b_] in *.
  subst g0 g1. cbn [bin_input_a_ bin_input_b_] in *.
  eexists. split; [reflexivity|]. split; [reflexivity|]. split.
  { unfold add_protocol. rewrite E0, E1. cbn [ok_state mbind option_bind].
    rewrite F0, F1. cbn [ok_state mbind option_bind]. reflexivity. }
  split.
  - split; cbn [at_setup_0 at_setup_1 at_online_0 at_online_1]; try done.
    + rewrite M0, M1, N0, N1. cbn. rewrite Na0, Na1. done.
    + apply (nth_ext _ _ 0 0); [lia|]. intros j Hj.
      rewrite Z0, Z1 by lia. by rewrite Pa, Pb.
    + intros j Hj. rewrite Z0, V0, V1 by done.
      rewrite nth_slotwise by done.
      rewrite (Ia j Hj), (Ib j Hj).
      apply wrap_of_eqm. rewrite !eqm_wrap. apply eqm_of_eq. ring.
  - split; [split; cbn; congruence|].
    intros j Hj. cbn [at_setup_0 at_setup_1]. rewrite V0, V1 by done. done.
Qed.

Lemma NEG_ctor_spec (gate_id : Z) (in_ : ArithmeticBEAVYWire) :
  ArithmeticBEAVYNEGGate_ctor gate_id in_
  = Ok (mkAUnary gate_id in_
          (mkAWire (a_num_simd in_) (replicate (Z.to_nat (a_num_simd in_)) 0)
                   (replicate (Z.to_nat (a_num_simd in_)) 0) false false)).
Proof.
  unfold ArithmeticBEAVYNEGGate_ctor, BasicArithmeticBEAVYUnaryGate_ctor. cbn.
  by rewrite resize_shares_new.
Qed.

Lemma NEG_setup_spec (W n : Z) (g : BasicArithmeticBEAVYUnaryGate) :
  a_setup_ready (un_output_ g) = false ->
  a_setup_ready (un_input_ g) = true ->
  length (a_secret_share (un_input_ g)) = Z.to_nat n ->
  length (a_secret_share (un_output_ g)) = Z.to_nat n ->
  exists s,
    NEG_evaluate_setup W g = Ok s /\
    a_num_simd (un_output_ s) = a_num_simd (un_output_ g) /\
    a_public_share (un_output_ s) = a_public_share (un_output_ g) /\
    a_setup_ready (un_output_ s) = true /\
    a_online_ready (un_output_ s) = a_online_ready (un_output_ g) /\
    length (a_secret_share (un_output_ s)) = Z.to_nat n /\
    forall j, (j < Z.to_nat n)%nat ->
      nth j (a_secret_share (un_output_ s)) 0
      = wrap W (- nth j (a_secret_share (un_input_ g)) 0).
Proof.
  intros Hfresh Ha La Lo.
  unfold NEG_evaluate_setup, a_set_setup_ready. rewrite Ha. cbn [negb].
  cbn [a_with_secret a_setup_ready]. rewrite Hfresh. cbn [map_outcome].
  eexists. split; [reflexivity|]. cbn.
  repeat (split; [done|]).
  split; [rewrite length_transform1; lia|].
  intros j Hj. by rewrite nth_transform1 by lia.
Qed.

Lemma NEG_online_spec (W n : Z) (g : BasicArithmeticBEAVYUnaryGate) :
  a_online_ready (un_output_ g) = false ->
  a_online_ready (un_input_ g) = true ->
  length (a_public_share (un_input_ g)) = Z.to_nat n ->
  length (a_public_share (un_output_ g)) = Z.to_nat n ->
  exists s,
    NEG_evaluate_online W g = Ok s /\
    a_num_simd (un_output_ s) = a_num_simd (un_output_ g) /\
    a_secret_share (un_output_ s) = a_secret_share (un_output_ g) /\
    a_setup_ready (un_output_ s) = a_setup_ready (un_output_ g) /\
    a_online_ready (un_output_ s) = true /\
    length (a_public_share (un_output_ s)) = Z.to_nat n /\
    forall j, (j < Z.to_nat n)%nat ->
      nth j (a_public_share (un_output_ s)) 0
      = wrap W (- nth j (a_public_share (un_input_ g)) 0).
Proof.
  intros Hfresh Ha La Lo.
  unfold NEG_evaluate_online, a_set_online_ready. rewrite Ha. cbn [negb].
  cbn [a_with_public a_online_ready]. rewrite Hfresh. cbn [map_outcome].
  eexists. split; [reflexivity|]. cbn.
  repeat (split; [done|]).
  split; [rewrite length_transform1; lia|].
  intros j Hj. by rewrite nth_transform1 by lia.
Qed.

#[local] Instance opp_eqm (N : Z) : Proper (eqm N ==> eqm N) Z.opp := Zopp_eqm N.

Lemma nth_map_opp (x : list Z) (j : nat) : nth j (map Z.opp x) 0 = - nth j x 0.
Proof. by rewrite <- (map_nth Z.opp). Qed.

(** The NEG gate keeps the wire invariant.  For an input wire that
    satisfies it for [x], both phases return on both parties and the output
    wire satisfies the invariant for the negated values: each party's output
    secret share is the negation of its input secret share, the public share
    the negation of the input's, modulo 2^W. *)
Theorem neg_gate_keeps_invariant (W gate_id n : Z) (x : list Z) (a : wire_views) :
  beavy_wire W n x a ->
  exists g0 g1 v,
    ArithmeticBEAVYNEGGate_ctor gate_id (at_setup_0 a) = Ok g0 /\
    ArithmeticBEAVYNEGGate_ctor gate_id (at_setup_1 a) = Ok g1 /\
    neg_protocol W a g0 g1 = Some v /\
    beavy_wire W n (map Z.opp x) v /\ setup_kept v /\
    (forall j, (j < Z.to_nat n)%nat ->
       nth j (a_secret_share (at_setup_0 v)) 0
       = wrap W (- nth j (a_secret_share (at_setup_0 a)) 0) /\
       nth j (a_secret_share (at_setup_1 v)) 0
       = wrap W (- nth j (a_secret_share (at_setup_1 a)) 0) /\
       nth j (a_public_share (at_online_0 v)) 0
       = wrap W (- nth j (a_public_share (at_online_0 a)) 0)).
Proof.
  intros [(Na0 & Na1 & Na2 & Na3) La0 La1 Lap [Sa0 Sa1] [Oa0 Oa1] Ka0 Ka1 Pa Ia].
  do 2 eexists.
  rewrite !NEG_ctor_spec.
  set (g0 := mkAUnary _ (at_setup_0 a) _). set (g1 := mkAUnary _ (at_setup_1 a) _).
  destruct (NEG_setup_spec W n g0) as (s0 & E0 & N0 & P0 & R0 & Q0 & L0 & V0);
    try done; try (cbn; rewrite ?length_replicate; congruence).
  destruct (NEG_setup_spec W n g1) as (s1 & E1 & N1 & P1 & R1 & Q1 & L1 & V1);
    try done; try (cbn; rewrite ?length_replicate; congruence).
  assert (Lap1 : length (a_public_share (at_online_1 a)) = Z.to_nat n) by congruence.
  destruct (NEG_online_spec W n (un_input_now (at_online_0 a) s0))
    as (o0 & F0 & M0 & T0 & U0 & X0 & Y0 & Z0); try done;
    try (cbn [un_input_now un_output_]; rewrite ?Q0, ?P0; cbn;
         rewrite ?length_replicate; congruence).
  destruct (NEG_online_spec W n (un_input_now (at_online_1 a) s1))
    as (o1 & F1 & M1 & T1 & U1 & X1 & Y1 & Z1); try done;
    try (cbn [un_input_now un_output_]; rewrite ?Q1, ?P1; cbn;
         rewrite ?length_replicate; congruence).
  cbn [un_input_now un_output_ un_input_] in *.
  subst g0 g1. cbn [un_input_] in *.
  eexists. split; [reflexivity|]. split; [reflexivity|]. split.
  { unfold neg_protocol. rewrite E0, E1. cbn [ok_state mbind option_bind].
    rewrite F0, F1. cbn [ok_state mbind option_bind]. reflexivity. }
  split.
  - split; cbn [at_setup_0 at_setup_1 at_online_0 at_online_1]; try done.
    + rewrite M0, M1, N0, N1. cbn. rewrite Na0, Na1. done.
    + apply (nth_ext _ _ 0 0); [lia|]. intros j Hj.
      rewrite Z0, Z1 by lia. by rewrite Pa.
    + intros j Hj. rewrite Z0, V0, V1 by done.
      rewrite nth_map_opp. rewrite (Ia j Hj).
      apply wrap_of_eqm. rewrite !eqm_wrap. apply eqm_of_eq. ring.
  - split; [split; cbn; congruence|].
    intros j Hj. cbn [at_setup_0 at_setup_1 at_online_0].
    rewrite V0, V1, Z0 by done. done.
Qed.

(** *** Input gates *)

(** What the owner's setup leaves in its public share: its secret share
    plus the stream it shares with the other party. *)
Lemma InS_setup_public (W owner : Z) (random stream : list Z)
      (rng : Z -> list Z) :
  0 <= owner <= 1 -> rng (1 - owner) = stream ->
  foldl (fun public party_id =>
           if decide (party_id = owner) then public
           else transform2 W Z.add public (rng party_id) public)
        random (map Z.of_nat (seq 0 (Z.to_nat 2)))
  = transform2 W Z.add random stream random.
Proof.
  intros Ho <-. assert (owner = 0 \/ owner = 1) as [-> | ->] by lia; cbn; done.
Qed.

Lemma input_protocol_spec (W gate_id owner n input_id : Z) (random input : list Z)
      (mbp_s mbp_r : MotionBaseProvider) :
  0 <= owner <= 1 ->
  length random = Z.to_nat n -> Z.of_nat (length input) = n ->
  length (get_my_randomness_generator mbp_s (1 - owner) input_id n) = Z.to_nat n ->
  get_their_randomness_generator mbp_r owner input_id n
  = get_my_randomness_generator mbp_s (1 - owner) input_id n ->
  exists s1 r1 s2 r2,
    input_protocol W random input
      (ArithmeticBEAVYInputGateSender_ctor gate_id owner 2 mbp_s n input_id)
      (ArithmeticBEAVYInputGateReceiver_ctor gate_id mbp_r n owner input_id)
    = Some (s1, r1, s2, r2) /\
    beavy_wire W n input (input_views owner s1 r1 s2 r2) /\
    setup_kept (input_views owner s1 r1 s2 r2) /\
    a_secret_share (ins_output_ s1) = random /\
    a_secret_share (inr_output_ r1)
    = get_my_randomness_generator mbp_s (1 - owner) input_id n /\
    ins_sent s2 = [Broadcast gate_id (a_public_share (ins_output_ s2))].
Proof.
  intros Ho Lr Li Ls Hsame.
  set (stream := get_my_randomness_generator mbp_s (1 - owner) input_id n) in *.
  unfold input_protocol, ArithmeticBEAVYInputGateSender_ctor,
    ArithmeticBEAVYInputGateReceiver_ctor.
  unfold InS_evaluate_setup, InR_evaluate_setup, a_set_setup_ready.
  cbn [ins_output_ inr_output_ new_awire a_with_secret a_with_public a_setup_ready
       a_public_share map_outcome and_then ins_with_output ok_state mbind option_bind
       ins_my_id ins_mbp ins_input_id_ ins_num_simd_ ins_num_parties a_secret_share
       a_num_simd a_online_ready inr_mbp inr_input_owner_ inr_input_id_ inr_num_simd_
       inr_with_output ins_gate_id ins_input_future_ ins_sent inr_gate_id
       inr_public_share_future_].
  rewrite (InS_setup_public W owner random stream
             (fun p => get_my_randomness_generator mbp_s p input_id n) Ho eq_refl).
  rewrite Hsame.
  unfold InS_evaluate_online, ins_set_input.
  unfold ins_with_output at 1.
  cbn [ins_input_future_ ins_num_simd_ ins_output_ ins_gate_id ins_my_id ins_num_parties
       ins_mbp ins_input_id_ ins_sent].
  unfold a_set_online_ready.
  cbn [a_with_public a_online_ready a_public_share map_outcome and_then ins_with_output
       ins_send ins_output_ ins_gate_id ins_sent ok_state mbind option_bind app
       a_num_simd a_secret_share a_setup_ready ins_my_id ins_num_parties ins_mbp
       ins_input_id_ ins_num_simd_ ins_input_future_].
  unfold ins_last_sent, InR_evaluate_online, inr_receive, a_set_online_ready.
  cbn [ins_sent last payload_of inr_public_share_future_ inr_output_ a_with_public
       a_online_ready map_outcome ok_state mbind option_bind inr_with_output
       a_num_simd a_secret_share a_setup_ready a_public_share inr_gate_id inr_mbp
       inr_num_simd_ inr_input_owner_ inr_input_id_].
  destruct (decide _) as [|_]; [done|].
  cbn [a_with_public a_online_ready a_public_share map_outcome and_then ins_with_output
       ins_send ins_output_ ins_gate_id ins_sent ok_state mbind option_bind app
       a_num_simd a_secret_share a_setup_ready ins_my_id ins_num_parties ins_mbp
       ins_input_id_ ins_num_simd_ ins_input_future_ last payload_of
       inr_public_share_future_ inr_output_ inr_with_output inr_gate_id inr_mbp
       inr_num_simd_ inr_input_owner_ inr_input_id_].
  do 4 eexists. split; [reflexivity|].
  unfold ins_send, ins_with_output, inr_with_output, a_with_public.
  cbn [ins_output_ inr_output_ ins_sent ins_gate_id a_num_simd a_secret_share
       a_public_share a_setup_ready a_online_ready app].
  set (P0 := transform2 W Z.add random stream random).
  assert (LP0 : length P0 = Z.to_nat n) by (unfold P0; rewrite length_transform2; lia).
  assert (Lin : length input = Z.to_nat n) by lia.
  assert (Hinv : forall j, (j < Z.to_nat n)%nat ->
            nth j (transform2 W Z.add P0 input P0) 0
            = wrap W (nth j input 0 + nth j random 0 + nth j stream 0)).
  { intros j Hj. rewrite nth_transform2 by lia. unfold P0.
    rewrite nth_transform2 by lia.
    apply wrap_of_eqm. rewrite !eqm_wrap. apply eqm_of_eq. ring. }
  split; [|split; [unfold input_views, setup_kept; by destruct (decide _)|done]].
  unfold input_views.
  destruct (decide (owner = 0)) as [->|Hne]; split;
    cbn [at_setup_0 at_setup_1 at_online_0 at_online_1 ins_output_ inr_output_
         a_num_simd a_secret_share a_public_share a_setup_ready a_online_ready];
    try done; try (rewrite length_transform2; lia).
  intros j Hj. rewrite Hinv by done. apply wrap_of_eqm, eqm_of_eq. ring.
Qed.

(** The two input gates establish the wire invariant.  The owner's gate
    (party [owner], 0 or 1) and the other party's gate, built for the same
    input id and [n] SIMD slots, with generators that give both the same
    stream: both phases return on both parties, the owner broadcasts one
    message, and the output wire satisfies the invariant for the owner's
    input, the owner's secret share being the vector it drew and the other
    party's the shared stream. *)
Theorem input_gates_establish_invariant (W gate_id owner n input_id : Z)
        (random input : list Z) (mbp_s mbp_r : MotionBaseProvider) :
  0 <= owner <= 1 ->
  length random = Z.to_nat n -> Z.of_nat (length input) = n ->
  length (get_my_randomness_generator mbp_s (1 - owner) input_id n) = Z.to_nat n ->
  get_their_randomness_generator mbp_r owner input_id n
  = get_my_randomness_generator mbp_s (1 - owner) input_id n ->
  exists s1 r1 s2 r2,
    input_protocol W random input
      (ArithmeticBEAVYInputGateSender_ctor gate_id owner 2 mbp_s n input_id)
      (ArithmeticBEAVYInputGateReceiver_ctor gate_id mbp_r n owner input_id)
    = Some (s1, r1, s2, r2) /\
    beavy_wire W n input (input_views owner s1 r1 s2 r2) /\
    setup_kept (input_views owner s1 r1 s2 r2) /\
    a_secret_share (ins_output_ s1) = random /\
    a_secret_share (inr_output_ r1)
    = get_my_randomness_generator mbp_s (1 - owner) input_id n /\
    ins_sent s2 = [Broadcast gate_id (a_public_share (ins_output_ s2))].
Proof. apply input_protocol_spec. Qed.

(** *** Output gate *)

Lemma output_value (W n : Z) (x public my other : list Z) :
  length public = Z.to_nat n -> length my = Z.to_nat n -> length other = Z.to_nat n ->
  (forall j, (j < Z.to_nat n)%nat ->
     nth j public 0 = wrap W (nth j x 0 + nth j my 0 + nth j other 0)) ->
  let sum := transform2 W Z.add my other my in
  let v := transform2 W Z.sub public sum sum in
  length v = Z.to_nat n /\
  forall j, (j < Z.to_nat n)%nat -> nth j v 0 = wrap W (nth j x 0).
Proof.
  intros Lp Lm Lo Hinv sum v.
  assert (Ls : length sum = Z.to_nat n) by (unfold sum; rewrite length_transform2; lia).
  split; [unfold v; rewrite length_transform2; lia|].
  intros j Hj. unfold v. rewrite nth_transform2 by lia.
  unfold sum. rewrite nth_transform2 by lia. rewrite Hinv by done.
  apply wrap_of_eqm. rewrite !eqm_wrap. apply eqm_of_eq. ring.
Qed.

Ltac settle :=
  repeat first
    [ rewrite bool_decide_eq_true_2 by (first [done | lia | congruence])
    | rewrite bool_decide_eq_false_2 by (first [done | lia | congruence])
    | rewrite decide_True by (first [done | lia | congruence])
    | rewrite decide_False by (first [done | lia | congruence])
    | progress cbn -[transform2 wrap] ].

Lemma output_protocol_spec (ALL_PARTIES W gate_id owner n : Z) (x : list Z)
      (a : wire_views) :
  beavy_wire W n x a -> setup_kept a -> ALL_PARTIES <> 0 -> ALL_PARTIES <> 1 ->
  owner = ALL_PARTIES \/ owner = 0 \/ owner = 1 ->
  exists f0 f1,
    output_protocol ALL_PARTIES W a
      (ArithmeticBEAVYOutputGate_ctor ALL_PARTIES gate_id 0 (at_setup_0 a) owner)
      (ArithmeticBEAVYOutputGate_ctor ALL_PARTIES gate_id 1 (at_setup_1 a) owner)
    = Some (f0, f1) /\
    (owner = ALL_PARTIES ->
       reveals ALL_PARTIES W n x f0 /\ reveals ALL_PARTIES W n x f1 /\
       out_sent f0 = [Broadcast gate_id (a_secret_share (at_setup_0 a))] /\
       out_sent f1 = [Broadcast gate_id (a_secret_share (at_setup_1 a))]) /\
    (owner = 0 ->
       reveals ALL_PARTIES W n x f0 /\
       get_output_future ALL_PARTIES f1 = inl "not this parties output"%string /\
       out_sent f0 = [] /\
       out_sent f1 = [SendTo 0 gate_id (a_secret_share (at_setup_1 a))]) /\
    (owner = 1 ->
       reveals ALL_PARTIES W n x f1 /\
       get_output_future ALL_PARTIES f0 = inl "not this parties output"%string /\
       out_sent f1 = [] /\
       out_sent f0 = [SendTo 1 gate_id (a_secret_share (at_setup_0 a))]).
Proof.
  intros [(Na0 & Na1 & Na2 & Na3) La0 La1 Lap [Sa0 Sa1] [Oa0 Oa1] Ka0 Ka1 Pa Ia]
         [Sk0 Sk1] HA0 HA1 Howner.
  assert (Lap1 : length (a_public_share (at_online_1 a)) = Z.to_nat n) by congruence.
  assert (Ia1 : forall j, (j < Z.to_nat n)%nat ->
            nth j (a_public_share (at_online_1 a)) 0
            = wrap W (nth j x 0 + nth j (a_secret_share (at_setup_1 a)) 0
                      + nth j (a_secret_share (at_setup_0 a)) 0)).
  { intros j Hj. rewrite <- Pa, (Ia j Hj). f_equal. ring. }
  destruct (output_value W n x _ _ _ Lap La0 La1 Ia) as [LV0 V0].
  destruct (output_value W n x _ _ _ Lap1 La1 La0 Ia1) as [LV1 V1].
  unfold reveals, output_protocol, ArithmeticBEAVYOutputGate_ctor, Out_evaluate_setup,
    Out_evaluate_online, get_output_future, mine, deliver.
  destruct Howner as [-> | [-> | ->]].
  - settle. rewrite Sa0, Sa1. settle.
    rewrite Sk0, Sk1, Oa0, Oa1, Ka0, Ka1. settle.
    do 2 eexists. split; [reflexivity|].
    split; [|split; intros; congruence].
    intros _. settle.
    split; [by eexists|]. split; [by eexists|]. done.
  - settle. rewrite Sa1. settle.
    rewrite Sk0, Oa0, Ka0. settle.
    do 2 eexists. split; [reflexivity|].
    split; [intros; congruence|]. split; [|intros; congruence].
    intros _. settle.
    split; [by eexists|]. done.
  - settle. rewrite Sa0. settle.
    rewrite Sk1, Oa1, Ka1. settle.
    do 2 eexists. split; [reflexivity|].
    split; [intros; congruence|]. split; [intros; congruence|].
    intros _. settle.
    split; [by eexists|]. done.
Qed.

(** The output gate opens a wire.  For a wire that satisfies the invariant
    for [x], with the output gate built on both parties for the same owner:
    both phases return on both parties; with [ALL_PARTIES] as owner each
    party broadcasts its secret share and each one's future holds [x] modulo
    2^W; with party 0 or 1 as owner only the other party sends, to the owner
    alone, the owner's future holds [x] modulo 2^W, and asking the other
    party's gate for its future raises the logic error. *)
Theorem output_gate_reveals_plaintext (ALL_PARTIES W gate_id owner n : Z) (x : list Z)
        (a : wire_views) :
  beavy_wire W n x a -> setup_kept a -> ALL_PARTIES <> 0 -> ALL_PARTIES <> 1 ->
  owner = ALL_PARTIES \/ owner = 0 \/ owner = 1 ->
  exists f0 f1,
    output_protocol ALL_PARTIES W a
      (ArithmeticBEAVYOutputGate_ctor ALL_PARTIES gate_id 0 (at_setup_0 a) owner)
      (ArithmeticBEAVYOutputGate_ctor ALL_PARTIES gate_id 1 (at_setup_1 a) owner)
    = Some (f0, f1) /\
    (owner = ALL_PARTIES ->
       reveals ALL_PARTIES W n x f0 /\ reveals ALL_PARTIES W n x f1 /\
       out_sent f0 = [Broadcast gate_id (a_secret_share (at_setup_0 a))] /\
       out_sent f1 = [Broadcast gate_id (a_secret_share (at_setup_1 a))]) /\
    (owner = 0 ->
       reveals ALL_PARTIES W n x f0 /\
       get_output_future ALL_PARTIES f1 = inl "not this parties output"%string /\
       out_sent f0 = [] /\
       out_sent f1 = [SendTo 0 gate_id (a_secret_share (at_setup_1 a))]) /\
    (owner = 1 ->
       reveals ALL_PARTIES W n x f1 /\
       get_output_future ALL_PARTIES f0 = inl "not this parties output"%string /\
       out_sent f1 = [] /\
       out_sent f0 = [SendTo 1 gate_id (a_secret_share (at_setup_0 a))]).
Proof. apply output_protocol_spec. Qed.

Lemma reveals_all (ALL_PARTIES W n : Z) (x : list Z) (f : ArithmeticBEAVYOutputGate) :
  length x = Z.to_nat n -> reveals ALL_PARTIES W n x f ->
  get_output_future ALL_PARTIES f = inr (Some (map (wrap W) x)).
Proof.
  intros Lx (v & -> & Lv & Hv). do 2 f_equal.
  apply (nth_ext _ _ 0 0); [rewrite length_map; lia|].
  intros j Hj. rewrite Hv by lia.
  destruct (lookup_lt_is_Some_2 x j ltac:(lia)) as [y Hy].
  rewrite !nth_lookup, list_lookup_fmap, Hy. done.
Qed.

(** An input that is shared and opened again comes back.  Party [owner]
    inputs [input] through the two input gates, and an output gate for all
    parties is put on the resulting wire: every phase returns on both
    parties and each party's future holds the input reduced modulo 2^W. *)
Theorem input_then_output_round_trip (ALL_PARTIES W in_gate out_gate owner n input_id : Z)
        (random input : list Z) (mbp_s mbp_r : MotionBaseProvider) :
  0 <= owner <= 1 -> ALL_PARTIES <> 0 -> ALL_PARTIES <> 1 ->
  length random = Z.to_nat n -> Z.of_nat (length input) = n ->
  length (get_my_randomness_generator mbp_s (1 - owner) input_id n) = Z.to_nat n ->
  get_their_randomness_generator mbp_r owner input_id n
  = get_my_randomness_generator mbp_s (1 - owner) input_id n ->
  exists s1 r1 s2 r2 f0 f1,
    input_protocol W random input
      (ArithmeticBEAVYInputGateSender_ctor in_gate owner 2 mbp_s n input_id)
      (ArithmeticBEAVYInputGateReceiver_ctor in_gate mbp_r n owner input_id)
    = Some (s1, r1, s2, r2) /\
    let w := input_views owner s1 r1 s2 r2 in
    output_protocol ALL_PARTIES W w
      (ArithmeticBEAVYOutputGate_ctor ALL_PARTIES out_gate 0 (at_setup_0 w) ALL_PARTIES)
      (ArithmeticBEAVYOutputGate_ctor ALL_PARTIES out_gate 1 (at_setup_1 w) ALL_PARTIES)
    = Some (f0, f1) /\
    get_output_future ALL_PARTIES f0 = inr (Some (map (wrap W) input)) /\
    get_output_future ALL_PARTIES f1 = inr (Some (map (wrap W) input)).
Proof.
  intros Ho HA0 HA1 Lr Li Ls Hsame.
  destruct (input_protocol_spec W in_gate owner n input_id random input mbp_s mbp_r
              Ho Lr Li Ls Hsame) as (s1 & r1 & s2 & r2 & Hin & Hw & Hk & _).
  destruct (output_protocol_spec ALL_PARTIES W out_gate ALL_PARTIES n input _
              Hw Hk HA0 HA1 ltac:(by left)) as (f0 & f1 & Hout & Hall & _).
  destruct (Hall eq_refl) as (R0 & R1 & _).
  exists s1, r1, s2, r2, f0, f1. split; [done|]. cbn zeta. split; [done|].
  split; apply (reveals_all _ _ n); try done; lia.
Qed.

(** *** The MUL gate without interaction *)

Lemma MULNI_setup_spec (W n : Z) (random : list Z) (g : ArithmeticBEAVYMULNIGate) :
  a_setup_ready (ni_output_ g) = false ->
  a_setup_ready (ni_input_a_ g) = true -> a_setup_ready (ni_input_b_ g) = true ->
  a_num_simd (ni_input_a_ g) = n ->
  length (a_secret_share (ni_input_a_ g)) = Z.to_nat n ->
  length (a_secret_share (ni_input_b_ g)) = Z.to_nat n ->
  length (im_outputs (ni_mult_sender_ g)) = Z.to_nat n ->
  length (im_outputs (ni_mult_receiver_ g)) = Z.to_nat n ->
  exists s,
    MULNI_evaluate_setup W random g = Ok s /\
    ni_my_id s = ni_my_id g /\ ni_gate_id s = ni_gate_id g /\
    a_secret_share (ni_output_ s) = random /\
    a_num_simd (ni_output_ s) = a_num_simd (ni_output_ g) /\
    a_setup_ready (ni_output_ s) = true /\
    a_online_ready (ni_output_ s) = a_online_ready (ni_output_ g) /\
    length (ni_Delta_y_share_ s) = Z.to_nat n /\
    forall j, (j < Z.to_nat n)%nat ->
      nth j (ni_Delta_y_share_ s) 0 =
      wrap W (wrap W (wrap W (nth j (a_secret_share (ni_input_a_ g)) 0
                              * nth j (a_secret_share (ni_input_b_ g)) 0)
                      + nth j (im_outputs (ni_mult_receiver_ g)) 0)
              + nth j (im_outputs (ni_mult_sender_ g)) 0).
Proof.
  intros Hfresh Ha Hb Hn Hla Hlb Hls Hlrc.
  unfold MULNI_evaluate_setup, a_set_setup_ready.
  cbn [a_with_secret a_setup_ready]. rewrite Hfresh.
  cbn [map_outcome and_then ni_with_output ni_input_a_ ni_input_b_].
  rewrite Ha, Hb. cbn [negb]. eexists. split; [reflexivity|].
  unfold ni_with_Delta, ni_with_sessions, ni_with_output, a_with_secret, set_inputs,
    get_outputs.
  cbn [ni_my_id ni_gate_id ni_output_ a_secret_share a_setup_ready a_online_ready
       ni_mult_sender_ ni_mult_receiver_ im_inputs im_outputs ni_Delta_y_share_
       ni_input_a_ ni_input_b_ a_num_simd].
  repeat (split; [done|]).
  rewrite Hn.
  set (D0 := resize_T n _).
  assert (L0 : length D0 = Z.to_nat n) by apply length_resize_T.
  set (D1 := transform2 W Z.mul _ _ D0).
  assert (L1 : length D1 = Z.to_nat n) by (unfold D1; rewrite length_transform2; lia).
  set (D2 := transform2 W Z.add D1 _ D1).
  assert (L2 : length D2 = Z.to_nat n) by (unfold D2; rewrite length_transform2; lia).
  split; [rewrite length_transform2; lia|].
  intros j Hj.
  rewrite nth_transform2 by lia. unfold D2. rewrite nth_transform2 by lia.
  unfold D1. rewrite nth_transform2 by lia. done.
Qed.

Lemma MULNI_online_spec (W n : Z) (g : ArithmeticBEAVYMULNIGate) :
  a_online_ready (ni_output_ g) = false ->
  a_online_ready (ni_input_a_ g) = true -> a_online_ready (ni_input_b_ g) = true ->
  a_num_simd (ni_input_a_ g) = n ->
  length (a_public_share (ni_input_a_ g)) = Z.to_nat n ->
  length (a_public_share (ni_input_b_ g)) = Z.to_nat n ->
  length (a_secret_share (ni_input_a_ g)) = Z.to_nat n ->
  length (a_secret_share (ni_input_b_ g)) = Z.to_nat n ->
  length (ni_Delta_y_share_ g) = Z.to_nat n ->
  exists f,
    MULNI_evaluate_online W g = Ok f /\
    a_secret_share (ni_output_ f) = a_secret_share (ni_output_ g) /\
    a_online_ready (ni_output_ f) = true /\
    length (a_public_share (ni_output_ f)) = Z.to_nat n /\
    forall j, (j < Z.to_nat n)%nat ->
      let base :=
        wrap W (wrap W (nth j (ni_Delta_y_share_ g) 0
                        - wrap W (nth j (a_public_share (ni_input_a_ g)) 0
                                  * nth j (a_secret_share (ni_input_b_ g)) 0))
                - wrap W (nth j (a_public_share (ni_input_b_ g)) 0
                          * nth j (a_secret_share (ni_input_a_ g)) 0)) in
      nth j (a_public_share (ni_output_ f)) 0
      = if is_my_job (ni_my_id g) (ni_gate_id g)
        then wrap W (base + wrap W (nth j (a_public_share (ni_input_a_ g)) 0
                                    * nth j (a_public_share (ni_input_b_ g)) 0))
        else base.
Proof.
  intros Hfresh Ha Hb Hn Lpa Lpb Lsa Lsb Ld.
  unfold MULNI_evaluate_online, a_set_online_ready. rewrite Ha, Hb. cbn [negb].
  unfold ni_with_Delta, ni_with_output, a_with_public.
  cbn [ni_output_ a_online_ready]. rewrite Hfresh. cbn [map_outcome].
  eexists. split; [reflexivity|].
  cbn [ni_output_ a_secret_share a_online_ready a_public_share].
  rewrite Hn.
  set (tmp0 := replicate (Z.to_nat n) 0).
  assert (Lt0 : length tmp0 = Z.to_nat n) by apply length_replicate.
  set (tmp1 := transform2 W Z.mul _ _ tmp0).
  assert (Lt1 : length tmp1 = Z.to_nat n) by (unfold tmp1; rewrite length_transform2; lia).
  set (D1 := transform2 W Z.sub _ tmp1 _).
  assert (L1 : length D1 = Z.to_nat n) by (unfold D1; rewrite length_transform2; lia).
  set (tmp2 := transform2 W Z.mul _ _ tmp1).
  assert (Lt2 : length tmp2 = Z.to_nat n) by (unfold tmp2; rewrite length_transform2; lia).
  set (D2 := transform2 W Z.sub D1 tmp2 D1).
  assert (L2 : length D2 = Z.to_nat n) by (unfold D2; rewrite length_transform2; lia).
  set (tmp3 := transform2 W Z.mul _ _ tmp2).
  assert (Lt3 : length tmp3 = Z.to_nat n) by (unfold tmp3; rewrite length_transform2; lia).
  assert (HD2 : forall j, (j < Z.to_nat n)%nat ->
    nth j D2 0 =
    wrap W (wrap W (nth j (ni_Delta_y_share_ g) 0
                    - wrap W (nth j (a_public_share (ni_input_a_ g)) 0
                              * nth j (a_secret_share (ni_input_b_ g)) 0))
            - wrap W (nth j (a_public_share (ni_input_b_ g)) 0
                      * nth j (a_secret_share (ni_input_a_ g)) 0))).
  { intros j Hj. unfold D2. rewrite nth_transform2 by lia.
    unfold D1, tmp2. rewrite !nth_transform2 by lia.
    unfold tmp1. rewrite nth_transform2 by lia. done. }
  split; [done|]. split; [done|]. split.
  - destruct (is_my_job _ _); [rewrite length_transform2|]; lia.
  - intros j Hj. cbn zeta. destruct (is_my_job _ _).
    + rewrite nth_transform2 by lia. rewrite HD2 by done.
      unfold tmp3. rewrite nth_transform2 by lia. done.
    + by apply HD2.
Qed.

(** The MUL gate without interaction leaves additive shares.  For input
    wires that satisfy the invariant for [xa] and [xb] and multiplication
    sessions that return additive shares of the cross products, both phases
    return on both parties, and the public-share fields the two parties end
    with differ in general and add up to [xa_j * xb_j] modulo 2^W in every
    slot; the output secret shares are the vectors drawn in the setup, which
    enter no public share. *)
Theorem mulni_gate_additive_shares (W gate_id n : Z)
        (xa xb random0 random1 so0 ro0 so1 ro1 : list Z) (a b : wire_views) :
  beavy_wire W n xa a -> beavy_wire W n xb b ->
  length so0 = Z.to_nat n -> length ro0 = Z.to_nat n ->
  length so1 = Z.to_nat n -> length ro1 = Z.to_nat n ->
  shares_of_product W (mkSession (a_secret_share (at_setup_0 b)) so0)
                      (mkSession (a_secret_share (at_setup_1 a)) ro1) ->
  shares_of_product W (mkSession (a_secret_share (at_setup_1 b)) so1)
                      (mkSession (a_secret_share (at_setup_0 a)) ro0) ->
  exists g0 g1 f0 f1,
    ArithmeticBEAVYMULNIGate_ctor 0 gate_id (at_setup_0 a) (at_setup_0 b) so0 ro0 = Ok g0 /\
    ArithmeticBEAVYMULNIGate_ctor 1 gate_id (at_setup_1 a) (at_setup_1 b) so1 ro1 = Ok g1 /\
    mulni_protocol W random0 random1 a b g0 g1 = Some (f0, f1) /\
    a_secret_share (ni_output_ f0) = random0 /\
    a_secret_share (ni_output_ f1) = random1 /\
    forall j, (j < Z.to_nat n)%nat ->
      wrap W (nth j (a_public_share (ni_output_ f0)) 0
              + nth j (a_public_share (ni_output_ f1)) 0)
      = wrap W (nth j xa 0 * nth j xb 0).
Proof.
  intros [(Na0 & Na1 & Na2 & Na3) La0 La1 Lap [Sa0 Sa1] [Oa0 Oa1] Ka0 Ka1 Pa Ia]
         [(Nb0 & Nb1 & Nb2 & Nb3) Lb0 Lb1 Lbp [Sb0 Sb1] [Ob0 Ob1] Kb0 Kb1 Pb Ib]
         Lso0 Lro0 Lso1 Lro1 Hp01 Hp10.
  unfold ArithmeticBEAVYMULNIGate_ctor, BasicArithmeticBEAVYBinaryGate_ctor.
  rewrite !decide_False by (intros ?; congruence).
  cbn [map_outcome bin_input_a_ bin_input_b_ bin_output_].
  set (g0 := mkMULNI 0 _ _ _ _ _ _ _). set (g1 := mkMULNI 1 _ _ _ _ _ _ _).
  exists g0, g1.
  destruct (MULNI_setup_spec W n random0 g0 eq_refl Sa0 Sb0 Na0 La0 Lb0 Lso0 Lro0)
    as (s0 & E0 & I0 & G0 & R0 & N0 & Q0 & T0 & L0 & V0).
  destruct (MULNI_setup_spec W n random1 g1 eq_refl Sa1 Sb1 Na1 La1 Lb1 Lso1 Lro1)
    as (s1 & E1 & I1 & G1 & R1 & N1 & Q1 & T1 & L1 & V1).
  assert (Lbp1 : length (a_public_share (at_online_1 b)) = Z.to_nat n) by (by rewrite <- Pb).
  assert (Lap1 : length (a_public_share (at_online_1 a)) = Z.to_nat n) by (by rewrite <- Pa).
  assert (Lsa0 : length (a_secret_share (at_online_0 a)) = Z.to_nat n) by (by rewrite Ka0).
  assert (Lsa1 : length (a_secret_share (at_online_1 a)) = Z.to_nat n) by (by rewrite Ka1).
  assert (Lsb0 : length (a_secret_share (at_online_0 b)) = Z.to_nat n) by (by rewrite Kb0).
  assert (Lsb1 : length (a_secret_share (at_online_1 b)) = Z.to_nat n) by (by rewrite Kb1).
  destruct (MULNI_online_spec W n (ni_inputs_now (at_online_0 a) (at_online_0 b) s0)
              T0 Oa0 Ob0 Na2 Lap Lbp Lsa0 Lsb0 L0)
    as (f0 & F0 & X0 & Y0 & Z0 & U0).
  destruct (MULNI_online_spec W n (ni_inputs_now (at_online_1 a) (at_online_1 b) s1)
              T1 Oa1 Ob1 Na3 Lap1 Lbp1 Lsa1 Lsb1 L1)
    as (f1 & F1 & X1 & Y1 & Z1 & U1).
  cbn [ni_inputs_now ni_output_ ni_input_a_ ni_input_b_ ni_Delta_y_share_ ni_my_id
       ni_gate_id] in *.
  exists f0, f1. split; [done|]. split; [done|]. split.
  { unfold mulni_protocol. rewrite E0, E1. cbn [ok_state mbind option_bind].
    rewrite F0, F1. done. }
  split; [congruence|]. split; [congruence|].
  intros j Hj.
  specialize (U0 j Hj). specialize (U1 j Hj). cbn zeta in U0, U1.
  rewrite U0, U1, I0, I1, G0, G1, V0, V1 by done.
  subst g0 g1.
  cbn [ni_my_id ni_gate_id ni_input_a_ ni_input_b_ ni_mult_sender_ ni_mult_receiver_
       im_outputs].
  rewrite <- Pa, <- Pb, Ka0, Ka1, Kb0, Kb1.
  specialize (Hp01 j). specialize (Hp10 j). cbn [im_inputs im_outputs] in Hp01, Hp10.
  pose proof (mul_slot_algebra W _ _ _ _ _ _ 0 0
                _ _ _ _ _ _ (Ia j Hj) (Ib j Hj) Hp01 Hp10) as Halg.
  rewrite (is_my_job_one_party gate_id).
  apply wrap_of_eqm; destruct (is_my_job 1 gate_id);
    (cbn [negb]; rewrite !eqm_wrap; etrans; [|etrans; [exact Halg|]];
     apply eqm_of_eq; ring).
Qed.

(** *** Sample runs: W = 8, two SIMD slots *)

Lemma sample_wire_a_kept : setup_kept BeavySamples.wire_a.
Proof. split; reflexivity. Defined.

Lemma add_gate_keeps_invariant_witness :
  exists g0 g1 v,
    ArithmeticBEAVYADDGate_ctor 7 (at_setup_0 BeavySamples.wire_a)
                                (at_setup_0 BeavySamples.wire_b) = Ok g0 /\
    ArithmeticBEAVYADDGate_ctor 7 (at_setup_1 BeavySamples.wire_a)
                                (at_setup_1 BeavySamples.wire_b) = Ok g1 /\
    add_protocol 8 BeavySamples.wire_a BeavySamples.wire_b g0 g1 = Some v /\
    beavy_wire 8 2 (slotwise Z.add 2 [3; 200] [5; 7]) v /\ setup_kept v /\
    (forall j, (j < Z.to_nat 2)%nat ->
       nth j (a_secret_share (at_setup_0 v)) 0
       = wrap 8 (nth j (a_secret_share (at_setup_0 BeavySamples.wire_a)) 0
                 + nth j (a_secret_share (at_setup_0 BeavySamples.wire_b)) 0) /\
       nth j (a_secret_share (at_setup_1 v)) 0
       = wrap 8 (nth j (a_secret_share (at_setup_1 BeavySamples.wire_a)) 0
                 + nth j (a_secret_share (at_setup_1 BeavySamples.wire_b)) 0)).
Proof.
  exact (add_gate_keeps_invariant 8 7 2 [3; 200] [5; 7] BeavySamples.wire_a
           BeavySamples.wire_b sample_wire_a_ok sample_wire_b_ok).
Defined.

Lemma neg_gate_keeps_invariant_witness :
  exists g0 g1 v,
    ArithmeticBEAVYNEGGate_ctor 7 (at_setup_0 BeavySamples.wire_a) = Ok g0 /\
    ArithmeticBEAVYNEGGate_ctor 7 (at_setup_1 BeavySamples.wire_a) = Ok g1 /\
    neg_protocol 8 BeavySamples.wire_a g0 g1 = Some v /\
    beavy_wire 8 2 (map Z.opp [3; 200]) v /\ setup_kept v /\
    (forall j, (j < Z.to_nat 2)%nat ->
       nth j (a_secret_share (at_setup_0 v)) 0
       = wrap 8 (- nth j (a_secret_share (at_setup_0 BeavySamples.wire_a)) 0) /\
       nth j (a_secret_share (at_setup_1 v)) 0
       = wrap 8 (- nth j (a_secret_share (at_setup_1 BeavySamples.wire_a)) 0) /\
       nth j (a_public_share (at_online_0 v)) 0
       = wrap 8 (- nth j (a_public_share (at_online_0 BeavySamples.wire_a)) 0)).
Proof.
  exact (neg_gate_keeps_invariant 8 7 2 [3; 200] BeavySamples.wire_a sample_wire_a_ok).
Defined.

Lemma input_gates_establish_invariant_witness :
  exists s1 r1 s2 r2,
    input_protocol 8 [5; 6] [3; 200] BeavyArithSamples.input_sender
                   BeavyArithSamples.input_receiver
    = Some (s1, r1, s2, r2) /\
    beavy_wire 8 2 [3; 200] (input_views 1 s1 r1 s2 r2) /\
    setup_kept (input_views 1 s1 r1 s2 r2) /\
    a_secret_share (ins_output_ s1) = [5; 6] /\
    a_secret_share (inr_output_ r1) = [40; 50] /\
    ins_sent s2 = [Broadcast 11 (a_public_share (ins_output_ s2))].
Proof.
  exact (input_gates_establish_invariant 8 11 1 2 3 [5; 6] [3; 200]
           BeavyArithSamples.mbp BeavyArithSamples.mbp
           ltac:(lia) eq_refl eq_refl eq_refl eq_refl).
Defined.

(** The owner's public share in that run: [3 + 5 + 40], [200 + 6 + 50]
    modulo 256. *)
Example input_sample_public :
  (fun r => match r with
            | Some (_, _, s2, r2) =>
                (a_public_share (ins_output_ s2), a_public_share (inr_output_ r2))
            | None => ([], [])
            end)
    (input_protocol 8 [5; 6] [3; 200] BeavyArithSamples.input_sender
                    BeavyArithSamples.input_receiver)
  = ([48; 0], [48; 0]).
Proof. vm_compute. reflexivity. Qed.

Lemma output_gate_reveals_plaintext_witness :
  exists f0 f1,
    output_protocol BeavyArithSamples.all_parties 8 BeavySamples.wire_a
      (BeavyArithSamples.output_gate 0 0 (at_setup_0 BeavySamples.wire_a))
      (BeavyArithSamples.output_gate 1 0 (at_setup_1 BeavySamples.wire_a))
    = Some (f0, f1) /\
    reveals BeavyArithSamples.all_parties 8 2 [3; 200] f0 /\
    get_output_future BeavyArithSamples.all_parties f1
    = inl "not this parties output"%string /\
    out_sent f0 = [] /\
    out_sent f1 = [SendTo 0 12 [30; 40]].
Proof.
  destruct (output_gate_reveals_plaintext BeavyArithSamples.all_parties 8 12 0 2
              [3; 200] BeavySamples.wire_a sample_wire_a_ok sample_wire_a_kept
              ltac:(done) ltac:(done) ltac:(by right; left))
    as (f0 & f1 & Hrun & _ & H0 & _).
  exists f0, f1. split; [exact Hrun|]. exact (H0 eq_refl).
Defined.

Lemma input_then_output_round_trip_witness :
  exists s1 r1 s2 r2 f0 f1,
    input_protocol 8 [5; 6] [3; 200] BeavyArithSamples.input_sender
                   BeavyArithSamples.input_receiver
    = Some (s1, r1, s2, r2) /\
    let w := input_views 1 s1 r1 s2 r2 in
    output_protocol BeavyArithSamples.all_parties 8 w
      (ArithmeticBEAVYOutputGate_ctor BeavyArithSamples.all_parties 12 0 (at_setup_0 w)
                                      BeavyArithSamples.all_parties)
      (ArithmeticBEAVYOutputGate_ctor BeavyArithSamples.all_parties 12 1 (at_setup_1 w)
                                      BeavyArithSamples.all_parties)
    = Some (f0, f1) /\
    get_output_future BeavyArithSamples.all_parties f0
    = inr (Some (map (wrap 8) [3; 200])) /\
    get_output_future BeavyArithSamples.all_parties f1
    = inr (Some (map (wrap 8) [3; 200])).
Proof.
  exact (input_then_output_round_trip BeavyArithSamples.all_parties 8 11 12 1 2 3
           [5; 6] [3; 200] BeavyArithSamples.mbp BeavyArithSamples.mbp
           ltac:(lia) ltac:(done) ltac:(done) eq_refl eq_refl eq_refl eq_refl).
Defined.

Lemma mulni_gate_additive_shares_witness :
  exists g0 g1 f0 f1,
    ArithmeticBEAVYMULNIGate_ctor 0 7 (at_setup_0 BeavySamples.wire_a)
                                  (at_setup_0 BeavySamples.wire_b) [7; 9] [186; 136]
    = Ok g0 /\
    ArithmeticBEAVYMULNIGate_ctor 1 7 (at_setup_1 BeavySamples.wire_a)
                                  (at_setup_1 BeavySamples.wire_b) [100; 200] [23; 71]
    = Ok g1 /\
    mulni_protocol 8 [11; 12] [13; 14] BeavySamples.wire_a BeavySamples.wire_b g0 g1
    = Some (f0, f1) /\
    a_secret_share (ni_output_ f0) = [11; 12] /\
    a_secret_share (ni_output_ f1) = [13; 14] /\
    forall j, (j < Z.to_nat 2)%nat ->
      wrap 8 (nth j (a_public_share (ni_output_ f0)) 0
              + nth j (a_public_share (ni_output_ f1)) 0)
      = wrap 8 (nth j [3; 200] 0 * nth j [5; 7] 0).
Proof.
  exact (mulni_gate_additive_shares 8 7 2 [3; 200] [5; 7] [11; 12] [13; 14]
           [7; 9] [186; 136] [100; 200] [23; 71]
           BeavySamples.wire_a BeavySamples.wire_b
           sample_wire_a_ok sample_wire_b_ok eq_refl eq_refl eq_refl eq_refl
           (proj1 sample_sessions_ok) (proj2 sample_sessions_ok)).
Defined.

(** The two public-share fields of that run differ and add up to
    [3 * 5 = 15] and [200 * 7 = 120] modulo 256. *)
Example mulni_sample_outputs :
  (fun r => match r with
            | Some (f0, f1) =>
                (a_public_share (ni_output_ f0), a_public_share (ni_output_ f1))
            | None => ([], [])
            end)
    (mulni_protocol 8 [11; 12] [13; 14] BeavySamples.wire_a BeavySamples.wire_b
                    BeavyArithSamples.mulni_gate_0 BeavyArithSamples.mulni_gate_1)
  = ([70; 173], [201; 203]).
Proof. vm_compute. reflexivity. Qed.

End BeavyFacts.

(** * Boolean XOR gate: locality *)

Module BeavyBoolFacts.
Import Beavy BeavyBool.

Lemma wire_at_same (w w' : World) (p : nat) :
  wires w' !! p = wires w !! p -> wire_at w' p = wire_at w p.
Proof. unfold wire_at. rewrite !list_lookup_total_alt. by intros ->. Qed.

Lemma wire_at_lookup (w : World) (p : nat) (x : BooleanBEAVYWire) :
  wires w !! p = Some x -> wire_at w p = x.
Proof. apply list_lookup_total_correct. Qed.

Lemma wire_at_put (w : World) (p : nat) (x : BooleanBEAVYWire) :
  (p < length (wires w))%nat -> wire_at (put p x w) p = x.
Proof. intros. unfold wire_at, put. cbn. by apply list_lookup_total_insert_eq. Qed.

Lemma input_a_in (g : BasicBooleanBEAVYBinaryGate) (base i : nat) :
  placed g base -> (i < num_wires_ g)%nat ->
  inputs_a_ g !!! i ∈ inputs_a_ g ++ inputs_b_ g.
Proof.
  intros [Ha _ _ _] Hi. apply elem_of_app. left.
  apply list_elem_of_lookup_total_2. lia.
Qed.

Lemma input_b_in (g : BasicBooleanBEAVYBinaryGate) (base i : nat) :
  placed g base -> (i < num_wires_ g)%nat ->
  inputs_b_ g !!! i ∈ inputs_a_ g ++ inputs_b_ g.
Proof.
  intros [_ Hb _ _] Hi. apply elem_of_app. right.
  apply list_elem_of_lookup_total_2. lia.
Qed.

(** The constructor places the gate after the wires that exist. *)
Lemma ctor_placed (gate_id : Z) (in_a in_b : list nat) (w0 w1 : World)
      (g : BasicBooleanBEAVYBinaryGate) :
  BooleanBEAVYXORGate_ctor gate_id in_a in_b w0 = inr (g, w1) ->
  (forall p, p ∈ in_a ++ in_b -> (p < length (wires w0))%nat) ->
  placed g (length (wires w0)) /\
  inputs_a_ g = in_b /\ inputs_b_ g = in_a /\
  num_wires_ g = length in_a /\ num_wires_ g <> 0%nat /\
  sent w1 = sent w0 /\
  wires w1 = wires w0
             ++ replicate (num_wires_ g)
                          (new_bwire (b_num_simd (wire_at w0 (in_b !!! 0%nat)))).
Proof.
  unfold BooleanBEAVYXORGate_ctor, BasicBooleanBEAVYBinaryGate_ctor.
  intros H Hin.
  destruct (decide (length in_b = 0%nat)) as [|Hne]; [done|].
  destruct (decide (length in_b <> length in_a)) as [|Heq]; [done|].
  destruct (forallb _ _); [|done].
  injection H as <- <-. cbn.
  assert (length in_b = length in_a) by lia.
  repeat split; try done.
  intros p Hp. apply Hin. apply elem_of_app. apply elem_of_app in Hp. tauto.
Qed.

(** *** The two phases *)

Lemma XOR_setup_spec (g : BasicBooleanBEAVYBinaryGate) (base : nat) (w : World) :
  placed g base ->
  (base + num_wires_ g <= length (wires w))%nat ->
  inputs_ready b_setup_ready g w ->
  (forall p, p ∈ outputs_ g -> b_setup_ready (wire_at w p) = false) ->
  exists w',
    XOR_evaluate_setup g w = Ok w' /\
    same_outside (outputs_ g) w w' /\
    forall i, (i < num_wires_ g)%nat ->
      wire_at w' (outputs_ g !!! i)
      = mkBWire (b_num_simd (wire_at w (outputs_ g !!! i)))
                (OT.bv_xor (b_secret_share (wire_at w (inputs_a_ g !!! i)))
                           (b_secret_share (wire_at w (inputs_b_ g !!! i))))
                (b_public_share (wire_at w (outputs_ g !!! i)))
                true
                (b_online_ready (wire_at w (outputs_ g !!! i))).
Proof.
  intros Hpl Hlen Hready Hfresh.
  pose proof Hpl as [Ha Hb Hout Hin].
  set (target i :=
         mkBWire (b_num_simd (wire_at w (base + i)%nat))
                 (OT.bv_xor (b_secret_share (wire_at w (inputs_a_ g !!! i)))
                            (b_secret_share (wire_at w (inputs_b_ g !!! i))))
                 (b_public_share (wire_at w (base + i)%nat))
                 true
                 (b_online_ready (wire_at w (base + i)%nat))).
  destruct (for_each_upto
    (fun wire_i w =>
       let w_a := inputs_a_ g !!! wire_i in
       let w_b := inputs_b_ g !!! wire_i in
       if negb (b_setup_ready (wire_at w w_a)) then Blocked w
       else if negb (b_setup_ready (wire_at w w_b)) then Blocked w
       else
         let w_o := outputs_ g !!! wire_i in
         let w := put w_o (b_with_secret
                             (OT.bv_xor (b_secret_share (wire_at w w_a))
                                        (b_secret_share (wire_at w w_b)))
                             (wire_at w w_o)) w in
         b_set_setup_ready w_o w)
    (fun k w' =>
       sent w' = sent w /\ length (wires w') = length (wires w) /\
       (forall p, ~ (base <= p < base + k)%nat -> wires w' !! p = wires w !! p) /\
       (forall i, (i < k)%nat -> wires w' !! (base + i)%nat = Some (target i)))
    (num_wires_ g) w) as (w' & Hrun & Hs & Hl & Hframe & Hset).
  - repeat split; try done. intros i Hi. lia.
  - intros i w1 Hi (Hs & Hl & Hframe & Hset). cbn zeta.
    assert (Hia : (inputs_a_ g !!! i < base)%nat)
      by (apply Hin; by eapply input_a_in).
    assert (Hib : (inputs_b_ g !!! i < base)%nat)
      by (apply Hin; by eapply input_b_in).
    rewrite Hout, lookup_total_seq_lt by done.
    rewrite (wire_at_same w w1 (inputs_a_ g !!! i)) by (apply Hframe; lia).
    rewrite (wire_at_same w w1 (inputs_b_ g !!! i)) by (apply Hframe; lia).
    rewrite (wire_at_same w w1 (base + i)%nat) by (apply Hframe; lia).
    rewrite (Hready (inputs_a_ g !!! i)) by by eapply input_a_in.
    rewrite (Hready (inputs_b_ g !!! i)) by by eapply input_b_in.
    cbn [negb]. unfold b_set_setup_ready.
    rewrite wire_at_put by lia.
    unfold b_with_secret at 1. cbn [b_setup_ready].
    rewrite (Hfresh (base + i)%nat) by (rewrite Hout; apply elem_of_seq; lia).
    eexists. split; [reflexivity|].
    unfold put, b_with_secret. cbn [wires sent b_num_simd b_secret_share b_public_share
                                    b_online_ready].
    rewrite list_insert_insert_eq.
    split; [done|]. split; [by rewrite length_insert|]. split.
    + intros p Hp. rewrite list_lookup_insert_ne by lia. apply Hframe. lia.
    + intros i' Hi'. destruct (decide (i' = i)) as [->|Hne].
      * rewrite list_lookup_insert_eq by lia. done.
      * rewrite list_lookup_insert_ne by lia. apply Hset. lia.
  - exists w'. split; [exact Hrun|]. split.
    + split; [done|]. split; [done|]. intros p Hp. apply Hframe.
      rewrite Hout in Hp. rewrite elem_of_seq in Hp. lia.
    + intros i Hi. rewrite Hout, lookup_total_seq_lt by done.
      apply wire_at_lookup. by apply Hset.
Qed.

Lemma XOR_online_spec (g : BasicBooleanBEAVYBinaryGate) (base : nat) (w : World) :
  placed g base ->
  (base + num_wires_ g <= length (wires w))%nat ->
  inputs_ready b_online_ready g w ->
  (forall p, p ∈ outputs_ g -> b_online_ready (wire_at w p) = false) ->
  exists w',
    XOR_evaluate_online g w = Ok w' /\
    same_outside (outputs_ g) w w' /\
    forall i, (i < num_wires_ g)%nat ->
      wire_at w' (outputs_ g !!! i)
      = mkBWire (b_num_simd (wire_at w (outputs_ g !!! i)))
                (b_secret_share (wire_at w (outputs_ g !!! i)))
                (OT.bv_xor (b_public_share (wire_at w (inputs_a_ g !!! i)))
                           (b_public_share (wire_at w (inputs_b_ g !!! i))))
                (b_setup_ready (wire_at w (outputs_ g !!! i)))
                true.
Proof.
  intros Hpl Hlen Hready Hfresh.
  pose proof Hpl as [Ha Hb Hout Hin].
  set (target i :=
         mkBWire (b_num_simd (wire_at w (base + i)%nat))
                 (b_secret_share (wire_at w (base + i)%nat))
                 (OT.bv_xor (b_public_share (wire_at w (inputs_a_ g !!! i)))
                            (b_public_share (wire_at w (inputs_b_ g !!! i))))
                 (b_setup_ready (wire_at w (base + i)%nat))
                 true).
  destruct (for_each_upto
    (fun wire_i w =>
       let w_a := inputs_a_ g !!! wire_i in
       let w_b := inputs_b_ g !!! wire_i in
       if negb (b_online_ready (wire_at w w_a)) then Blocked w
       else if negb (b_online_ready (wire_at w w_b)) then Blocked w
       else
         let w_o := outputs_ g !!! wire_i in
         let w := put w_o (b_with_public
                             (OT.bv_xor (b_public_share (wire_at w w_a))
                                        (b_public_share (wire_at w w_b)))
                             (wire_at w w_o)) w in
         b_set_online_ready w_o w)
    (fun k w' =>
       sent w' = sent w /\ length (wires w') = length (wires w) /\
       (forall p, ~ (base <= p < base + k)%nat -> wires w' !! p = wires w !! p) /\
       (forall i, (i < k)%nat -> wires w' !! (base + i)%nat = Some (target i)))
    (num_wires_ g) w) as (w' & Hrun & Hs & Hl & Hframe & Hset).
  - repeat split; try done. intros i Hi. lia.
  - intros i w1 Hi (Hs & Hl & Hframe & Hset). cbn zeta.
    assert (Hia : (inputs_a_ g !!! i < base)%nat)
      by (apply Hin; by eapply input_a_in).
    assert (Hib : (inputs_b_ g !!! i < base)%nat)
      by (apply Hin; by eapply input_b_in).
    rewrite Hout, lookup_total_seq_lt by done.
    rewrite (wire_at_same w w1 (inputs_a_ g !!! i)) by (apply Hframe; lia).
    rewrite (wire_at_same w w1 (inputs_b_ g !!! i)) by (apply Hframe; lia).
    rewrite (wire_at_same w w1 (base + i)%nat) by (apply Hframe; lia).
    rewrite (Hready (inputs_a_ g !!! i)) by by eapply input_a_in.
    rewrite (Hready (inputs_b_ g !!! i)) by by eapply input_b_in.
    cbn [negb]. unfold b_set_online_ready.
    rewrite wire_at_put by lia.
    unfold b_with_public at 1. cbn [b_online_ready].
    rewrite (Hfresh (base + i)%nat) by (rewrite Hout; apply elem_of_seq; lia).
    eexists. split; [reflexivity|].
    unfold put, b_with_public. cbn [wires sent b_num_simd b_secret_share b_public_share
                                    b_setup_ready].
    rewrite list_insert_insert_eq.
    split; [done|]. split; [by rewrite length_insert|]. split.
    + intros p Hp. rewrite list_lookup_insert_ne by lia. apply Hframe. lia.
    + intros i' Hi'. destruct (decide (i' = i)) as [->|Hne].
      * rewrite list_lookup_insert_eq by lia. done.
      * rewrite list_lookup_insert_ne by lia. apply Hset. lia.
  - exists w'. split; [exact Hrun|]. split.
    + split; [done|]. split; [done|]. intros p Hp. apply Hframe.
      rewrite Hout in Hp. rewrite elem_of_seq in Hp. lia.
    + intros i Hi. rewrite Hout, lookup_total_seq_lt by done.
      apply wire_at_lookup. by apply Hset.
Qed.

Lemma bv_xor_comm (a b : list bool) : OT.bv_xor a b = OT.bv_xor b a.
Proof.
  unfold OT.bv_xor. revert b. induction a as [|x a IH]; intros [|y b]; cbn; [done..|].
  by rewrite xorb_comm, IH.
Qed.

(** C8: the Boolean XOR gate is local.  For a gate that the constructor
    built on existing wires, on any later store whose input wires are ready
    for the phase and whose output wires have not been marked yet,

    - setup returns, with every output wire's secret share the componentwise
      XOR of the two input wires' secret shares,
    - online returns, with every output wire's public share the
      componentwise XOR of the two input wires' public shares,

    and in both phases the list of sent messages is what it was, every wire
    that is not an output wire of the gate is what it was, and of an output
    wire only the share of that phase and its readiness flag change. *)
Theorem xor_gate_local (gate_id : Z) (in_a in_b : list nat) (w0 w1 : World)
        (g : BasicBooleanBEAVYBinaryGate) :
  BooleanBEAVYXORGate_ctor gate_id in_a in_b w0 = inr (g, w1) ->
  (forall p, p ∈ in_a ++ in_b -> (p < length (wires w0))%nat) ->
  (forall p, p ∈ outputs_ g ->
     (p ∉ in_a ++ in_b) /\
     wire_at w1 p = new_bwire (b_num_simd (wire_at w0 (in_b !!! 0%nat)))) /\
  (forall w,
     (length (wires w1) <= length (wires w))%nat ->
     (forall p, p ∈ in_a ++ in_b -> b_setup_ready (wire_at w p) = true) ->
     (forall p, p ∈ outputs_ g -> b_setup_ready (wire_at w p) = false) ->
     exists w',
       XOR_evaluate_setup g w = Ok w' /\
       sent w' = sent w /\
       length (wires w') = length (wires w) /\
       (forall p, p ∉ outputs_ g -> wires w' !! p = wires w !! p) /\
       forall i, (i < length in_a)%nat ->
         let out := wire_at w (outputs_ g !!! i) in
         wire_at w' (outputs_ g !!! i)
         = mkBWire (b_num_simd out)
                   (OT.bv_xor (b_secret_share (wire_at w (in_a !!! i)))
                              (b_secret_share (wire_at w (in_b !!! i))))
                   (b_public_share out) true (b_online_ready out)) /\
  (forall w,
     (length (wires w1) <= length (wires w))%nat ->
     (forall p, p ∈ in_a ++ in_b -> b_online_ready (wire_at w p) = true) ->
     (forall p, p ∈ outputs_ g -> b_online_ready (wire_at w p) = false) ->
     exists w',
       XOR_evaluate_online g w = Ok w' /\
       sent w' = sent w /\
       length (wires w') = length (wires w) /\
       (forall p, p ∉ outputs_ g -> wires w' !! p = wires w !! p) /\
       forall i, (i < length in_a)%nat ->
         let out := wire_at w (outputs_ g !!! i) in
         wire_at w' (outputs_ g !!! i)
         = mkBWire (b_num_simd out) (b_secret_share out)
                   (OT.bv_xor (b_public_share (wire_at w (in_a !!! i)))
                              (b_public_share (wire_at w (in_b !!! i))))
                   (b_setup_ready out) true).
Proof.
  intros Hctor Hin.
  destruct (ctor_placed _ _ _ _ _ _ Hctor Hin)
    as (Hpl & Hga & Hgb & Hn & Hpos & Hsent & Hwires).
  pose proof Hpl as [_ _ Hout Hin'].
  assert (Hl1 : length (wires w1) = (length (wires w0) + num_wires_ g)%nat)
    by (rewrite Hwires, length_app, length_replicate; done).
  assert (Hready : forall (ready : BooleanBEAVYWire -> bool) w,
            (forall p, p ∈ in_a ++ in_b -> ready (wire_at w p) = true) ->
            inputs_ready ready g w).
  { intros ready w H p Hp. apply H. rewrite Hga, Hgb in Hp.
    apply elem_of_app. apply elem_of_app in Hp. tauto. }
  split; [|split].
  - intros p Hp. rewrite Hout in Hp. apply elem_of_seq in Hp. split.
    + intros Hp'. apply Hin in Hp'. lia.
    + unfold wire_at. rewrite Hwires, lookup_total_app_r by lia.
      apply lookup_total_replicate_2. lia.
  - intros w Hlen Hrdy Hfresh.
    destruct (XOR_setup_spec g (length (wires w0)) w Hpl ltac:(lia)
                (Hready _ _ Hrdy) Hfresh) as (w' & Hrun & (Hs & Hl & Hframe) & Hset).
    exists w'. repeat (split; [done|]).
    intros i Hi. cbn zeta. rewrite Hset by lia. rewrite Hga, Hgb.
    by rewrite bv_xor_comm.
  - intros w Hlen Hrdy Hfresh.
    destruct (XOR_online_spec g (length (wires w0)) w Hpl ltac:(lia)
                (Hready _ _ Hrdy) Hfresh) as (w' & Hrun & (Hs & Hl & Hframe) & Hset).
    exists w'. repeat (split; [done|]).
    intros i Hi. cbn zeta. rewrite Hset by lia. rewrite Hga, Hgb.
    by rewrite bv_xor_comm.
Qed.

Lemma sample_inputs_exist (p : nat) :
  p ∈ [0; 1]%nat ++ [2; 3]%nat -> (p < length (wires sample_world))%nat.
Proof.
  cbn. rewrite !elem_of_cons, elem_of_nil. lia.
Defined.

Lemma xor_gate_local_witness :
  exists w',
    XOR_evaluate_setup sample_xor_gate sample_world_1 = Ok w' /\
    sent w' = sent sample_world_1 /\
    length (wires w') = length (wires sample_world_1) /\
    (forall p, p ∉ outputs_ sample_xor_gate -> wires w' !! p = wires sample_world_1 !! p) /\
    forall i, (i < length [0; 1]%nat)%nat ->
      let out := wire_at sample_world_1 (outputs_ sample_xor_gate !!! i) in
      wire_at w' (outputs_ sample_xor_gate !!! i)
      = mkBWire (b_num_simd out)
                (OT.bv_xor (b_secret_share (wire_at sample_world_1 ([0; 1]%nat !!! i)))
                           (b_secret_share (wire_at sample_world_1 ([2; 3]%nat !!! i))))
                (b_public_share out) true (b_online_ready out).
Proof.
  destruct (xor_gate_local 9 [0; 1]%nat [2; 3]%nat sample_world sample_world_1
              sample_xor_gate) as (_ & Hsetup & _).
  - reflexivity.
  - exact sample_inputs_exist.
  - apply (Hsetup sample_world_1).
    + cbn. lia.
    + intros p Hp. cbn in Hp. rewrite !elem_of_cons, elem_of_nil in Hp.
      destruct Hp as [-> | [-> | [-> | [-> | []]]]]; reflexivity.
    + intros p Hp. cbn in Hp. rewrite !elem_of_cons, elem_of_nil in Hp.
      destruct Hp as [-> | [-> | []]]; reflexivity.
Defined.

(** The sample gate, both phases: the output wires hold the XOR of the
    shares, the message list is as before. *)
Example xor_sample_run :
  (XOR_evaluate_setup sample_xor_gate sample_world_1
     >>> XOR_evaluate_online sample_xor_gate)
  = Ok (mkWorld (wires sample_world
                 ++ [ mkBWire 3 [false; true; true] [false; true; false] true true;
                      mkBWire 3 [false; true; false] [false; true; true] true true ])
                [(5, [true])]).
Proof. vm_compute. reflexivity. Qed.

End BeavyBoolFacts.

(** * Boolean INV gate: one party inverts *)

Module BeavyInvFacts.
Import Beavy BeavyBool BeavyInv BeavyBoolFacts.

Lemma forallb_simd (in_ : list nat) (w : World) :
  (forall p, p ∈ in_ -> b_num_simd (wire_at w p) = b_num_simd (wire_at w (in_ !!! 0%nat))) ->
  forallb (fun wire_i =>
             bool_decide (b_num_simd (wire_at w (in_ !!! wire_i))
                          = b_num_simd (wire_at w (in_ !!! 0%nat))))
          (seq 0 (length in_)) = true.
Proof.
  intros H. apply forallb_forall. intros i Hi. apply in_seq in Hi.
  apply bool_decide_eq_true_2, H, list_elem_of_lookup_total_2. lia.
Qed.

(** The two phases on the party whose job the gate is. *)
Lemma INV_setup_spec (g : BasicBooleanBEAVYUnaryGate) (base : nat) (w : World) :
  length (u_inputs_ g) = u_num_wires_ g ->
  u_outputs_ g = seq base (u_num_wires_ g) ->
  (forall p, p ∈ u_inputs_ g -> (p < base)%nat) ->
  (base + u_num_wires_ g <= length (wires w))%nat ->
  (forall p, p ∈ u_inputs_ g -> b_setup_ready (wire_at w p) = true) ->
  (forall p, p ∈ u_outputs_ g -> b_setup_ready (wire_at w p) = false) ->
  exists w',
    INV_evaluate_setup (mkINV g true) w = Ok w' /\
    same_outside (u_outputs_ g) w w' /\
    forall i, (i < u_num_wires_ g)%nat ->
      wire_at w' (u_outputs_ g !!! i)
      = mkBWire (b_num_simd (wire_at w (u_outputs_ g !!! i)))
                (bv_not (b_secret_share (wire_at w (u_inputs_ g !!! i))))
                (b_public_share (wire_at w (u_outputs_ g !!! i)))
                true
                (b_online_ready (wire_at w (u_outputs_ g !!! i))).
Proof.
  intros Hlen Hout Hin Hfit Hready Hfresh.
  unfold INV_evaluate_setup. cbn [is_my_job_ negb inv_base].
  set (target i :=
         mkBWire (b_num_simd (wire_at w (base + i)%nat))
                 (bv_not (b_secret_share (wire_at w (u_inputs_ g !!! i))))
                 (b_public_share (wire_at w (base + i)%nat))
                 true
                 (b_online_ready (wire_at w (base + i)%nat))).
  destruct (for_each_upto
    (fun wire_i w =>
       let w_in := u_inputs_ g !!! wire_i in
       if negb (b_setup_ready (wire_at w w_in)) then Blocked w
       else
         let w_o := u_outputs_ g !!! wire_i in
         let w := put w_o (b_with_secret (bv_not (b_secret_share (wire_at w w_in)))
                                         (wire_at w w_o)) w in
         b_set_setup_ready w_o w)
    (fun k w' =>
       sent w' = sent w /\ length (wires w') = length (wires w) /\
       (forall p, ~ (base <= p < base + k)%nat -> wires w' !! p = wires w !! p) /\
       (forall i, (i < k)%nat -> wires w' !! (base + i)%nat = Some (target i)))
    (u_num_wires_ g) w) as (w' & Hrun & Hs & Hl & Hframe & Hset).
  - repeat split; try done. intros i Hi. lia.
  - intros i w1 Hi (Hs & Hl & Hframe & Hset). cbn zeta.
    assert (Hia : u_inputs_ g !!! i ∈ u_inputs_ g)
      by (apply list_elem_of_lookup_total_2; lia).
    assert (Hib : (u_inputs_ g !!! i < base)%nat) by by apply Hin.
    rewrite Hout, lookup_total_seq_lt by done.
    rewrite (wire_at_same w w1 (u_inputs_ g !!! i)) by (apply Hframe; lia).
    rewrite (wire_at_same w w1 (base + i)%nat) by (apply Hframe; lia).
    rewrite (Hready (u_inputs_ g !!! i)) by done.
    cbn [negb]. unfold b_set_setup_ready.
    rewrite wire_at_put by lia.
    unfold b_with_secret at 1. cbn [b_setup_ready].
    rewrite (Hfresh (base + i)%nat) by (rewrite Hout; apply elem_of_seq; lia).
    eexists. split; [reflexivity|].
    unfold put, b_with_secret. cbn [wires sent b_num_simd b_secret_share b_public_share
                                    b_online_ready].
    rewrite list_insert_insert_eq.
    split; [done|]. split; [by rewrite length_insert|]. split.
    + intros p Hp. rewrite list_lookup_insert_ne by lia. apply Hframe. lia.
    + intros i' Hi'. destruct (decide (i' = i)) as [->|Hne].
      * rewrite list_lookup_insert_eq by lia. done.
      * rewrite list_lookup_insert_ne by lia. apply Hset. lia.
  - exists w'. split; [exact Hrun|]. split.
    + split; [done|]. split; [done|]. intros p Hp. apply Hframe.
      rewrite Hout in Hp. rewrite elem_of_seq in Hp. lia.
    + intros i Hi. rewrite Hout, lookup_total_seq_lt by done.
      apply wire_at_lookup. by apply Hset.
Qed.

Lemma INV_online_spec (g : BasicBooleanBEAVYUnaryGate) (base : nat) (w : World) :
  length (u_inputs_ g) = u_num_wires_ g ->
  u_outputs_ g = seq base (u_num_wires_ g) ->
  (forall p, p ∈ u_inputs_ g -> (p < base)%nat) ->
  (base + u_num_wires_ g <= length (wires w))%nat ->
  (forall p, p ∈ u_inputs_ g -> b_online_ready (wire_at w p) = true) ->
  (forall p, p ∈ u_outputs_ g -> b_online_ready (wire_at w p) = false) ->
  exists w',
    INV_evaluate_online (mkINV g true) w = Ok w' /\
    same_outside (u_outputs_ g) w w' /\
    forall i, (i < u_num_wires_ g)%nat ->
      wire_at w' (u_outputs_ g !!! i)
      = mkBWire (b_num_simd (wire_at w (u_outputs_ g !!! i)))
                (b_secret_share (wire_at w (u_outputs_ g !!! i)))
                (b_public_share (wire_at w (u_inputs_ g !!! i)))
                (b_setup_ready (wire_at w (u_outputs_ g !!! i)))
                true.
Proof.
  intros Hlen Hout Hin Hfit Hready Hfresh.
  unfold INV_evaluate_online. cbn [is_my_job_ negb inv_base].
  set (target i :=
         mkBWire (b_num_simd (wire_at w (base + i)%nat))
                 (b_secret_share (wire_at w (base + i)%nat))
                 (b_public_share (wire_at w (u_inputs_ g !!! i)))
                 (b_setup_ready (wire_at w (base + i)%nat))
                 true).
  destruct (for_each_upto
    (fun wire_i w =>
       let w_in := u_inputs_ g !!! wire_i in
       if negb (b_online_ready (wire_at w w_in)) then Blocked w
       else
         let w_o := u_outputs_ g !!! wire_i in
         let w := put w_o (b_with_public (b_public_share (wire_at w w_in))
                                         (wire_at w w_o)) w in
         b_set_online_ready w_o w)
    (fun k w' =>
       sent w' = sent w /\ length (wires w') = length (wires w) /\
       (forall p, ~ (base <= p < base + k)%nat -> wires w' !! p = wires w !! p) /\
       (forall i, (i < k)%nat -> wires w' !! (base + i)%nat = Some (target i)))
    (u_num_wires_ g) w) as (w' & Hrun & Hs & Hl & Hframe & Hset).
  - repeat split; try done. intros i Hi. lia.
  - intros i w1 Hi (Hs & Hl & Hframe & Hset). cbn zeta.
    assert (Hia : u_inputs_ g !!! i ∈ u_inputs_ g)
      by (apply list_elem_of_lookup_total_2; lia).
    assert (Hib : (u_inputs_ g !!! i < base)%nat) by by apply Hin.
    rewrite Hout, lookup_total_seq_lt by done.
    rewrite (wire_at_same w w1 (u_inputs_ g !!! i)) by (apply Hframe; lia).
    rewrite (wire_at_same w w1 (base + i)%nat) by (apply Hframe; lia).
    rewrite (Hready (u_inputs_ g !!! i)) by done.
    cbn [negb]. unfold b_set_online_ready.
    rewrite wire_at_put by lia.
    unfold b_with_public at 1. cbn [b_online_ready].
    rewrite (Hfresh (base + i)%nat) by (rewrite Hout; apply elem_of_seq; lia).
    eexists. split; [reflexivity|].
    unfold put, b_with_public. cbn [wires sent b_num_simd b_secret_share b_public_share
                                    b_setup_ready].
    rewrite list_insert_insert_eq.
    split; [done|]. split; [by rewrite length_insert|]. split.
    + intros p Hp. rewrite list_lookup_insert_ne by lia. apply Hframe. lia.
    + intros i' Hi'. destruct (decide (i' = i)) as [->|Hne].
      * rewrite list_lookup_insert_eq by lia. done.
      * rewrite list_lookup_insert_ne by lia. apply Hset. lia.
  - exists w'. split; [exact Hrun|]. split.
    + split; [done|]. split; [done|]. intros p Hp. apply Hframe.
      rewrite Hout in Hp. rewrite elem_of_seq in Hp. lia.
    + intros i Hi. rewrite Hout, lookup_total_seq_lt by done.
      apply wire_at_lookup. by apply Hset.
Qed.

(** One party's gate, by whose job it is. *)
Lemma inv_run_spec (my_id gate_id : Z) (in_ : list nat) (w : World) :
  inv_inputs in_ w ->
  exists g w',
    inv_run my_id gate_id in_ w = Some (g, w') /\
    sent w' = sent w /\
    (forall p, (p < length (wires w))%nat -> wires w' !! p = wires w !! p) /\
    length (u_outputs_ (inv_base g)) = length in_ /\
    if is_my_job my_id gate_id
    then
      forall i, (i < length in_)%nat ->
        (length (wires w) <= u_outputs_ (inv_base g) !!! i)%nat /\
        wire_at w' (u_outputs_ (inv_base g) !!! i)
        = mkBWire (b_num_simd (wire_at w (in_ !!! 0%nat)))
                  (bv_not (b_secret_share (wire_at w (in_ !!! i))))
                  (b_public_share (wire_at w (in_ !!! i))) true true
    else w' = w /\ u_outputs_ (inv_base g) = in_.
Proof.
  intros [Hsome Hexist Hsimd Hsetup Honline].
  unfold inv_run, BooleanBEAVYINVGate_ctor, BasicBooleanBEAVYUnaryGate_ctor.
  destruct (decide (length in_ = 0%nat)) as [H0|Hpos];
    [by apply length_zero_iff_nil in H0|].
  rewrite forallb_simd by done.
  destruct (is_my_job my_id gate_id); cbn [negb].
  - set (n := length in_). set (base := length (wires w)).
    set (g := mkUnary gate_id n in_ (seq base n)).
    set (w1 := mkWorld (wires w ++ replicate n (new_bwire _)) (sent w)).
    assert (Hw1 : forall p, (p < base)%nat -> wire_at w1 p = wire_at w p).
    { intros p Hp. unfold wire_at, w1. cbn [wires]. by rewrite lookup_total_app_l. }
    assert (Hnew : forall p, (base <= p < base + n)%nat ->
              wire_at w1 p = new_bwire (b_num_simd (wire_at w (in_ !!! 0%nat)))).
    { intros p Hp. unfold wire_at, w1. cbn [wires].
      rewrite lookup_total_app_r by (fold base; lia).
      apply lookup_total_replicate_2. fold base. lia. }
    assert (Hl1 : length (wires w1) = (base + n)%nat)
      by (unfold w1; cbn [wires]; by rewrite length_app, length_replicate).
    destruct (INV_setup_spec g base w1) as (w2 & E2 & (S2 & L2 & F2) & V2); try done.
    { cbn [u_num_wires_ g]. lia. }
    { intros p Hp. rewrite Hw1 by by apply Hexist. by apply Hsetup. }
    { intros p Hp. cbn [u_outputs_ g] in Hp. apply elem_of_seq in Hp.
      by rewrite Hnew by lia. }
    destruct (INV_online_spec g base w2) as (w3 & E3 & (S3 & L3 & F3) & V3); try done.
    { cbn [u_num_wires_ g]. lia. }
    { intros p Hp. pose proof (Hexist p Hp).
      rewrite (wire_at_same w1 w2) by
        (apply F2; cbn [u_outputs_ g]; rewrite elem_of_seq; fold base; lia).
      rewrite Hw1 by done. by apply Honline. }
    { intros p Hp. cbn [u_outputs_ g] in Hp. apply elem_of_seq in Hp.
      assert (Hp' : p = u_outputs_ g !!! (p - base)%nat).
      { cbn [u_outputs_ g]. rewrite lookup_total_seq_lt by lia. lia. }
      rewrite Hp', V2 by (cbn [u_num_wires_ g]; lia). cbn [b_online_ready].
      rewrite <- Hp'. by rewrite Hnew by lia. }
    exists (mkINV g true), w3. rewrite E2. cbn [and_then]. rewrite E3.
    cbn [ok_state mbind option_bind]. split; [done|].
    split; [by rewrite S3, S2|]. split.
    { intros p Hp.
      rewrite F3, F2 by (cbn [u_outputs_ g]; rewrite elem_of_seq; fold base; lia).
      unfold w1. cbn [wires]. by rewrite lookup_app_l. }
    split; [cbn; by rewrite length_seq|].
    intros i Hi. cbn [inv_base u_outputs_ g].
    rewrite lookup_total_seq_lt by done. split; [fold base; lia|].
    assert (Ho : (base + i)%nat = u_outputs_ g !!! i)
      by (cbn [u_outputs_ g]; by rewrite lookup_total_seq_lt).
    rewrite Ho, V3 by done. rewrite !V2 by done.
    cbn [b_num_simd b_secret_share b_setup_ready u_inputs_ g].
    rewrite <- Ho, Hnew by (fold n; lia). cbn [new_bwire b_num_simd].
    assert (Hii : in_ !!! i ∈ in_) by (apply list_elem_of_lookup_total_2; done).
    rewrite (wire_at_same w1 w2 (in_ !!! i)).
    2:{ apply F2. cbn [u_outputs_ g]. rewrite elem_of_seq.
        pose proof (Hexist _ Hii). fold base in H. lia. }
    by rewrite !Hw1 by by apply Hexist.
  - unfold INV_evaluate_setup, INV_evaluate_online. cbn.
    exists (mkINV (mkUnary gate_id (length in_) in_ in_) false), w.
    repeat split; done.
Qed.

Lemma bv_not_xor_l (s0 s1 : list bool) :
  OT.bv_xor (bv_not s0) s1 = bv_not (OT.bv_xor s0 s1).
Proof.
  unfold OT.bv_xor, bv_not. revert s1.
  induction s0 as [|a s0 IH]; intros [|b s1]; cbn; try done.
  rewrite IH. f_equal. by destruct a, b.
Qed.

Lemma bv_not_xor_r (s0 s1 : list bool) :
  OT.bv_xor s0 (bv_not s1) = bv_not (OT.bv_xor s0 s1).
Proof.
  unfold OT.bv_xor, bv_not. revert s1.
  induction s0 as [|a s0 IH]; intros [|b s1]; cbn; try done.
  rewrite IH. f_equal. by destruct a, b.
Qed.

(** The INV gate inverts the shared value.  Two parties build the gate with
    the same gate id, each on its own input wires (as many on both sides,
    ready for both phases).  Both parties' phases return and neither sends
    anything.  The party whose job it is gets new output wires whose secret
    share is the inverted input secret share and whose public share is the
    input's; the other party's gate hands its input wires on as outputs and
    changes nothing.  So on every wire the public shares stay and the XOR of
    the two secret shares is inverted: the value the wire carries is
    inverted. *)
Theorem inv_gate_inverts (gate_id : Z) (in0 in1 : list nat) (w0 w1 : World) :
  inv_inputs in0 w0 -> inv_inputs in1 w1 -> length in0 = length in1 ->
  exists g0 g1 w0' w1',
    inv_run 0 gate_id in0 w0 = Some (g0, w0') /\
    inv_run 1 gate_id in1 w1 = Some (g1, w1') /\
    sent w0' = sent w0 /\ sent w1' = sent w1 /\
    (forall p, (p < length (wires w0))%nat -> wires w0' !! p = wires w0 !! p) /\
    (forall p, (p < length (wires w1))%nat -> wires w1' !! p = wires w1 !! p) /\
    (if is_my_job 0 gate_id
     then w1' = w1 /\ u_outputs_ (inv_base g1) = in1
     else w0' = w0 /\ u_outputs_ (inv_base g0) = in0) /\
    forall i, (i < length in0)%nat ->
      let i0 := wire_at w0 (in0 !!! i) in
      let i1 := wire_at w1 (in1 !!! i) in
      let o0 := wire_at w0' (u_outputs_ (inv_base g0) !!! i) in
      let o1 := wire_at w1' (u_outputs_ (inv_base g1) !!! i) in
      b_public_share o0 = b_public_share i0 /\
      b_public_share o1 = b_public_share i1 /\
      OT.bv_xor (b_secret_share o0) (b_secret_share o1)
      = bv_not (OT.bv_xor (b_secret_share i0) (b_secret_share i1)).
Proof.
  intros H0 H1 Hlen.
  destruct (inv_run_spec 0 gate_id in0 w0 H0) as (g0 & w0' & R0 & S0 & F0 & L0 & J0).
  destruct (inv_run_spec 1 gate_id in1 w1 H1) as (g1 & w1' & R1 & S1 & F1 & L1 & J1).
  exists g0, g1, w0', w1'. repeat (split; [done|]).
  rewrite (BeavyFacts.is_my_job_one_party gate_id) in *.
  destruct (is_my_job 1 gate_id); cbn [negb] in *.
  - destruct J0 as [-> ->]. split; [done|].
    intros i Hi. cbn zeta. destruct (J1 i ltac:(lia)) as [_ ->].
    cbn [b_public_share b_secret_share]. repeat split. apply bv_not_xor_r.
  - destruct J1 as [-> ->]. split; [done|].
    intros i Hi. cbn zeta. destruct (J0 i ltac:(lia)) as [_ ->].
    cbn [b_public_share b_secret_share]. repeat split. apply bv_not_xor_l.
Qed.

Lemma sample_inv_inputs_0 : inv_inputs [0; 1]%nat sample_world.
Proof.
  split; try done; intros p Hp; cbn in Hp; rewrite !elem_of_cons, elem_of_nil in Hp;
    destruct Hp as [-> | [-> | []]]; try reflexivity; cbn; lia.
Defined.

Lemma sample_inv_inputs_1 : inv_inputs [1; 0]%nat sample_world_party1.
Proof.
  split; try done; intros p Hp; cbn in Hp; rewrite !elem_of_cons, elem_of_nil in Hp;
    destruct Hp as [-> | [-> | []]]; try reflexivity; cbn; lia.
Defined.

Lemma inv_gate_inverts_witness :
  exists g0 g1 w0' w1',
    inv_run 0 8 [0; 1]%nat sample_world = Some (g0, w0') /\
    inv_run 1 8 [1; 0]%nat sample_world_party1 = Some (g1, w1') /\
    sent w0' = sent sample_world /\ sent w1' = sent sample_world_party1 /\
    (forall p, (p < length (wires sample_world))%nat ->
               wires w0' !! p = wires sample_world !! p) /\
    (forall p, (p < length (wires sample_world_party1))%nat ->
               wires w1' !! p = wires sample_world_party1 !! p) /\
    (if is_my_job 0 8
     then w1' = sample_world_party1 /\ u_outputs_ (inv_base g1) = [1; 0]%nat
     else w0' = sample_world /\ u_outputs_ (inv_base g0) = [0; 1]%nat) /\
    forall i, (i < length [0; 1]%nat)%nat ->
      let i0 := wire_at sample_world ([0; 1]%nat !!! i) in
      let i1 := wire_at sample_world_party1 ([1; 0]%nat !!! i) in
      let o0 := wire_at w0' (u_outputs_ (inv_base g0) !!! i) in
      let o1 := wire_at w1' (u_outputs_ (inv_base g1) !!! i) in
      b_public_share o0 = b_public_share i0 /\
      b_public_share o1 = b_public_share i1 /\
      OT.bv_xor (b_secret_share o0) (b_secret_share o1)
      = bv_not (OT.bv_xor (b_secret_share i0) (b_secret_share i1)).
Proof.
  exact (inv_gate_inverts 8 [0; 1]%nat [1; 0]%nat sample_world sample_world_party1
           sample_inv_inputs_0 sample_inv_inputs_1 eq_refl).
Defined.

(** Gate 8 is the job of party 0: its store gets two new wires with the
    inverted secret shares. *)
Example inv_sample_run :
  (fun r => match r with
            | Some (g, w') => (u_outputs_ (inv_base g), drop 4 (wires w'))
            | None => ([], [])
            end)
    (inv_run 0 8 [0; 1]%nat sample_world)
  = ([4; 5]%nat,
     [ mkBWire 3 [false; true; false] [false; false; true] true true;
       mkBWire 3 [true; true; true] [true; true; true] true true ]).
Proof. vm_compute. reflexivity. Qed.

End BeavyInvFacts.

(** * Readiness of output wires *)

Module ReadinessFacts.
Import Beavy BeavyBool BeavyInv BeavyBoolInput BeavyArith Readiness.
Import BeavySqr BeavyBoolFacts BeavyInvFacts.

(** ** Loops over the output wires of a gate *)

Lemma same_outside_one (p q : nat) (w w' : World) :
  same_outside [p] w w' -> q <> p -> wire_at w' q = wire_at w q.
Proof.
  intros (_ & _ & H) Hq. apply wire_at_same, H.
  apply not_elem_of_cons; split; [done|apply not_elem_of_nil].
Qed.

Lemma same_outside_put (p : nat) (x : BooleanBEAVYWire) (w : World) :
  same_outside [p] w (put p x w).
Proof.
  unfold put. split; [done|]. split; [cbn; by rewrite length_insert|].
  intros q Hq. cbn. apply list_lookup_insert_ne.
  apply not_elem_of_cons in Hq as [Hq _]. congruence.
Qed.

Lemma same_outside_trans (ps : list nat) (w1 w2 w3 : World) :
  same_outside ps w1 w2 -> same_outside ps w2 w3 -> same_outside ps w1 w3.
Proof.
  intros (S1 & L1 & F1) (S2 & L2 & F2). split; [congruence|]. split; [congruence|].
  intros p Hp. by rewrite F2, F1.
Qed.

Lemma same_outside_refl (ps : list nat) (w : World) : same_outside ps w w.
Proof. by repeat split. Qed.

(** Round [i] changes the wire [base + i] only and leaves it related by
    [R i] to what it was: after the loop every output wire is. *)
Lemma for_each_outputs (body : nat -> World -> outcome World)
      (R : nat -> BooleanBEAVYWire -> BooleanBEAVYWire -> Prop)
      (base n : nat) (w : World) :
  (forall i w1, (i < n)%nat ->
     length (wires w1) = length (wires w) ->
     (forall p, ~ (base <= p < base + i)%nat -> wires w1 !! p = wires w !! p) ->
     exists w2, body i w1 = Ok w2 /\ same_outside [(base + i)%nat] w1 w2 /\
                R i (wire_at w1 (base + i)%nat) (wire_at w2 (base + i)%nat)) ->
  exists w',
    for_each body (seq 0 n) w = Ok w' /\
    same_outside (seq base n) w w' /\
    forall i, (i < n)%nat -> R i (wire_at w (base + i)%nat) (wire_at w' (base + i)%nat).
Proof.
  intros Hstep.
  destruct (for_each_upto body
    (fun k w' =>
       sent w' = sent w /\ length (wires w') = length (wires w) /\
       (forall p, ~ (base <= p < base + k)%nat -> wires w' !! p = wires w !! p) /\
       (forall i, (i < k)%nat -> R i (wire_at w (base + i)%nat) (wire_at w' (base + i)%nat)))
    n w) as (w' & Hrun & Hs & Hl & Hframe & Hset).
  - repeat split; try done. intros i Hi. lia.
  - intros i w1 Hi (Hs & Hl & Hframe & Hset).
    destruct (Hstep i w1 Hi Hl Hframe) as (w2 & Hb & Hout & HR).
    exists w2. split; [done|]. pose proof Hout as (S2 & L2 & F2).
    split; [congruence|]. split; [congruence|]. split.
    + intros p Hp. rewrite F2 by (apply not_elem_of_cons; split; [lia|apply not_elem_of_nil]).
      apply Hframe. lia.
    + intros j Hj. destruct (decide (j = i)) as [->|Hne].
      * rewrite <- (wire_at_same w w1 (base + i)%nat) by (apply Hframe; lia). done.
      * rewrite (same_outside_one (base + i) (base + j) w1 w2) by (done || lia).
        apply Hset. lia.
  - exists w'. split; [done|]. split; [|done].
    split; [done|]. split; [done|]. intros p Hp. apply Hframe.
    rewrite elem_of_seq in Hp. lia.
Qed.

(** The first round throws: so does the loop. *)
Lemma for_each_first_throws {S} (body : nat -> S -> outcome S) (n : nat) (s : S)
      (what : string) :
  n <> 0%nat -> fatal what (body 0%nat s) -> fatal what (for_each body (seq 0 n) s).
Proof.
  intros Hn [s' Hb]. destruct n as [|n]; [done|]. cbn. rewrite Hb. by exists s'.
Qed.

Lemma wire_flags_seq (f : bool * bool) (base n : nat) (w : World) :
  Forall (eq f) (wire_flags (seq base n) w) <->
  forall i, (i < n)%nat ->
    b_setup_ready (wire_at w (base + i)%nat) = f.1 /\
    b_online_ready (wire_at w (base + i)%nat) = f.2.
Proof.
  unfold wire_flags. rewrite Forall_fmap, Forall_forall. split.
  - intros H i Hi.
    assert (E : f = (b_setup_ready (wire_at w (base + i)%nat),
                     b_online_ready (wire_at w (base + i)%nat)))
      by (apply (H (base + i)%nat); apply elem_of_seq; lia).
    by rewrite E.
  - intros H p Hp. apply elem_of_seq in Hp. cbn.
    destruct (H (p - base)%nat) as [H1 H2]; [lia|].
    replace (base + (p - base))%nat with p in * by lia.
    rewrite H1, H2. by destruct f.
Qed.

(** ** A gate whose output wires are the wires [base .. base + n - 1] *)

Section WorldGate.

Variables (base n : nat) (evaluate_setup evaluate_online : World -> outcome World).
Variable ready : World -> Prop.

Hypothesis ready_kept :
  forall w w', ready w ->
    (forall p, p ∉ seq base n -> wires w' !! p = wires w !! p) -> ready w'.
Hypothesis setup_marks :
  forall w, ready w -> (base + n <= length (wires w))%nat ->
    (forall i, (i < n)%nat -> b_setup_ready (wire_at w (base + i)%nat) = false) ->
    exists w',
      evaluate_setup w = Ok w' /\
      (length (wires w') = length (wires w) /\
       forall p, p ∉ seq base n -> wires w' !! p = wires w !! p) /\
      forall i, (i < n)%nat ->
        b_setup_ready (wire_at w' (base + i)%nat) = true /\
        b_online_ready (wire_at w' (base + i)%nat)
        = b_online_ready (wire_at w (base + i)%nat).
Hypothesis online_marks :
  forall w, ready w -> (base + n <= length (wires w))%nat ->
    (forall i, (i < n)%nat -> b_online_ready (wire_at w (base + i)%nat) = false) ->
    exists w',
      evaluate_online w = Ok w' /\
      (length (wires w') = length (wires w) /\
       forall p, p ∉ seq base n -> wires w' !! p = wires w !! p) /\
      forall i, (i < n)%nat ->
        b_setup_ready (wire_at w' (base + i)%nat)
        = b_setup_ready (wire_at w (base + i)%nat) /\
        b_online_ready (wire_at w' (base + i)%nat) = true.
Hypothesis setup_again :
  forall w, ready w -> (base + n <= length (wires w))%nat ->
    b_setup_ready (wire_at w base) = true ->
    fatal "setup-ready fired twice" (evaluate_setup w).
Hypothesis online_again :
  forall w, ready w -> (base + n <= length (wires w))%nat ->
    b_online_ready (wire_at w base) = true ->
    fatal "online-ready fired twice" (evaluate_online w).

Lemma world_gate_fires_once (w : World) :
  n <> 0%nat -> ready w -> (base + n <= length (wires w))%nat ->
  (forall i, (i < n)%nat ->
     b_setup_ready (wire_at w (base + i)%nat) = false /\
     b_online_ready (wire_at w (base + i)%nat) = false) ->
  fires_once (wire_flags (seq base n)) evaluate_setup evaluate_online w.
Proof.
  intros Hn Hr Hlen Hfresh. unfold fires_once.
  split. { unfold wire_flags. destruct n; [done|]. cbn. done. }
  split. { apply wire_flags_seq. exact Hfresh. }
  destruct (setup_marks w Hr Hlen) as (w1 & E1 & O1 & M1); [intros i Hi; by apply Hfresh|].
  pose proof O1 as (L1 & F1).
  assert (Hr1 : ready w1) by by eapply ready_kept.
  exists w1. split; [done|].
  split. { apply wire_flags_seq. intros i Hi. destruct (M1 i Hi) as [-> ->]. split; [done|].
           by apply Hfresh. }
  split. { apply setup_again; [done|lia|]. replace base with (base + 0)%nat by lia.
           apply M1. lia. }
  destruct (online_marks w1 Hr1) as (w2 & E2 & O2 & M2); [lia| |].
  { intros i Hi. destruct (M1 i Hi) as [_ ->]. by apply Hfresh. }
  pose proof O2 as (L2 & F2).
  assert (Hr2 : ready w2) by by eapply ready_kept.
  exists w2. split; [done|].
  split. { apply wire_flags_seq. intros i Hi. destruct (M2 i Hi) as [-> ->]. split; [|done].
           by apply M1. }
  split.
  - apply setup_again; [done|lia|]. replace base with (base + 0)%nat by lia.
    destruct (M2 0%nat) as [-> _]; [lia|]. apply M1. lia.
  - apply online_again; [done|lia|]. replace base with (base + 0)%nat by lia.
    apply M2. lia.
Qed.

End WorldGate.

(** A gate that the constructor placed behind the wires of [w0]: the old
    wires are as they were and the new ones are unmarked. *)
Lemma appended_old (w0 : World) (n : nat) (x : BooleanBEAVYWire) (p : nat) :
  (p < length (wires w0))%nat ->
  wire_at (mkWorld (wires w0 ++ replicate n x) (sent w0)) p = wire_at w0 p.
Proof. intros Hp. unfold wire_at. cbn [wires]. by rewrite lookup_total_app_l. Qed.

Lemma appended_new (w0 : World) (n : nat) (x : BooleanBEAVYWire) (i : nat) :
  (i < n)%nat ->
  wire_at (mkWorld (wires w0 ++ replicate n x) (sent w0)) (length (wires w0) + i) = x.
Proof.
  intros Hi. unfold wire_at. cbn [wires].
  rewrite lookup_total_app_r by lia. apply lookup_total_replicate_2. lia.
Qed.

(** ** The XOR gate *)

Lemma XOR_setup_again (g : BasicBooleanBEAVYBinaryGate) (base : nat) (w : World) :
  placed g base -> num_wires_ g <> 0%nat ->
  (base + num_wires_ g <= length (wires w))%nat ->
  inputs_ready b_setup_ready g w ->
  b_setup_ready (wire_at w base) = true ->
  fatal "setup-ready fired twice" (XOR_evaluate_setup g w).
Proof.
  intros Hpl Hn Hlen Hready Hdone. pose proof Hpl as [Ha Hb Hout Hin].
  apply for_each_first_throws; [done|]. cbn zeta.
  rewrite (Hready (inputs_a_ g !!! 0%nat)) by (eapply input_a_in; [done|lia]).
  rewrite (Hready (inputs_b_ g !!! 0%nat)) by (eapply input_b_in; [done|lia]).
  cbn [negb]. rewrite Hout, lookup_total_seq_lt by lia. rewrite Nat.add_0_r.
  unfold b_set_setup_ready. rewrite wire_at_put by lia.
  unfold b_with_secret at 1. cbn [b_setup_ready]. rewrite Hdone. by eexists.
Qed.

Lemma XOR_online_again (g : BasicBooleanBEAVYBinaryGate) (base : nat) (w : World) :
  placed g base -> num_wires_ g <> 0%nat ->
  (base + num_wires_ g <= length (wires w))%nat ->
  inputs_ready b_online_ready g w ->
  b_online_ready (wire_at w base) = true ->
  fatal "online-ready fired twice" (XOR_evaluate_online g w).
Proof.
  intros Hpl Hn Hlen Hready Hdone. pose proof Hpl as [Ha Hb Hout Hin].
  apply for_each_first_throws; [done|]. cbn zeta.
  rewrite (Hready (inputs_a_ g !!! 0%nat)) by (eapply input_a_in; [done|lia]).
  rewrite (Hready (inputs_b_ g !!! 0%nat)) by (eapply input_b_in; [done|lia]).
  cbn [negb]. rewrite Hout, lookup_total_seq_lt by lia. rewrite Nat.add_0_r.
  unfold b_set_online_ready. rewrite wire_at_put by lia.
  unfold b_with_public at 1. cbn [b_online_ready]. rewrite Hdone. by eexists.
Qed.

Lemma inputs_ready_kept (ready : BooleanBEAVYWire -> bool)
      (g : BasicBooleanBEAVYBinaryGate) (base : nat) (w w' : World) :
  placed g base -> inputs_ready ready g w ->
  (forall p, p ∉ outputs_ g -> wires w' !! p = wires w !! p) ->
  inputs_ready ready g w'.
Proof.
  intros [Ha Hb Hout Hin] Hr F p Hp.
  rewrite (wire_at_same w w'); [by apply Hr|]. apply F. rewrite Hout, elem_of_seq.
  specialize (Hin p Hp). lia.
Qed.

Lemma XOR_fires_once (gate_id : Z) (in_a in_b : list nat) (w0 w1 : World)
      (g : BasicBooleanBEAVYBinaryGate) :
  BooleanBEAVYXORGate_ctor gate_id in_a in_b w0 = inr (g, w1) ->
  ready_wires (in_a ++ in_b) w0 ->
  fires_once (wire_flags (outputs_ g)) (XOR_evaluate_setup g) (XOR_evaluate_online g) w1.
Proof.
  intros Hctor Hin.
  destruct (ctor_placed gate_id in_a in_b w0 w1 g Hctor) as
    (Hpl & Ha & Hb & Hn & Hpos & Hs & Hw); [intros p Hp; by apply Hin|].
  pose proof Hpl as [La Lb Hout Hbelow]. rewrite Hout.
  assert (Hw1 : w1 = mkWorld (wires w0 ++ replicate (num_wires_ g)
                   (new_bwire (b_num_simd (wire_at w0 (in_b !!! 0%nat))))) (sent w0)).
  { destruct w1. cbn in *. by subst. }
  apply (world_gate_fires_once _ _ _ _
           (fun w => inputs_ready b_setup_ready g w /\ inputs_ready b_online_ready g w)).
  - intros w w' [R1 R2] Hsame. rewrite <- Hout in Hsame.
    split; by eapply inputs_ready_kept.
  - intros w [R1 _] Hlen Hfresh.
    destruct (XOR_setup_spec g _ w Hpl Hlen R1) as (w' & E & O & V).
    { intros p Hp. rewrite Hout in Hp. apply elem_of_seq in Hp.
      replace p with (length (wires w0) + (p - length (wires w0)))%nat by lia.
      apply Hfresh. lia. }
    exists w'. split; [done|]. split; [rewrite <- Hout; by destruct O as (_ & ? & ?)|].
    intros i Hi. specialize (V i Hi). rewrite Hout, lookup_total_seq_lt in V by done.
    by rewrite V.
  - intros w [_ R2] Hlen Hfresh.
    destruct (XOR_online_spec g _ w Hpl Hlen R2) as (w' & E & O & V).
    { intros p Hp. rewrite Hout in Hp. apply elem_of_seq in Hp.
      replace p with (length (wires w0) + (p - length (wires w0)))%nat by lia.
      apply Hfresh. lia. }
    exists w'. split; [done|]. split; [rewrite <- Hout; by destruct O as (_ & ? & ?)|].
    intros i Hi. specialize (V i Hi). rewrite Hout, lookup_total_seq_lt in V by done.
    by rewrite V.
  - intros w [R1 _] Hlen Hdone. by eapply XOR_setup_again.
  - intros w [_ R2] Hlen Hdone. by eapply XOR_online_again.
  - done.
  - assert (Hold : forall p, p ∈ inputs_a_ g ++ inputs_b_ g -> p ∈ in_a ++ in_b).
    { intros p Hp. rewrite Ha, Hb in Hp. apply elem_of_app.
      apply elem_of_app in Hp. tauto. }
    split; intros p Hp; rewrite Hw1, appended_old by (by apply Hin, Hold);
      by apply Hin, Hold.
  - rewrite Hw. rewrite length_app, length_replicate. lia.
  - intros i Hi. rewrite Hw1, appended_new by done. done.
Qed.

(** ** The INV gate *)

Lemma INV_setup_again (g : BasicBooleanBEAVYUnaryGate) (base : nat) (w : World) :
  length (u_inputs_ g) = u_num_wires_ g ->
  u_outputs_ g = seq base (u_num_wires_ g) ->
  u_num_wires_ g <> 0%nat ->
  (base + u_num_wires_ g <= length (wires w))%nat ->
  (forall p, p ∈ u_inputs_ g -> b_setup_ready (wire_at w p) = true) ->
  b_setup_ready (wire_at w base) = true ->
  fatal "setup-ready fired twice" (INV_evaluate_setup (mkINV g true) w).
Proof.
  intros Hl Hout Hn Hlen Hready Hdone. unfold INV_evaluate_setup. cbn [is_my_job_ negb inv_base].
  apply for_each_first_throws; [done|]. cbn zeta.
  rewrite (Hready (u_inputs_ g !!! 0%nat)) by (apply list_elem_of_lookup_total_2; lia).
  cbn [negb]. rewrite Hout, lookup_total_seq_lt by lia. rewrite Nat.add_0_r.
  unfold b_set_setup_ready. rewrite wire_at_put by lia.
  unfold b_with_secret at 1. cbn [b_setup_ready]. rewrite Hdone. by eexists.
Qed.

Lemma INV_online_again (g : BasicBooleanBEAVYUnaryGate) (base : nat) (w : World) :
  length (u_inputs_ g) = u_num_wires_ g ->
  u_outputs_ g = seq base (u_num_wires_ g) ->
  u_num_wires_ g <> 0%nat ->
  (base + u_num_wires_ g <= length (wires w))%nat ->
  (forall p, p ∈ u_inputs_ g -> b_online_ready (wire_at w p) = true) ->
  b_online_ready (wire_at w base) = true ->
  fatal "online-ready fired twice" (INV_evaluate_online (mkINV g true) w).
Proof.
  intros Hl Hout Hn Hlen Hready Hdone. unfold INV_evaluate_online. cbn [is_my_job_ negb inv_base].
  apply for_each_first_throws; [done|]. cbn zeta.
  rewrite (Hready (u_inputs_ g !!! 0%nat)) by (apply list_elem_of_lookup_total_2; lia).
  cbn [negb]. rewrite Hout, lookup_total_seq_lt by lia. rewrite Nat.add_0_r.
  unfold b_set_online_ready. rewrite wire_at_put by lia.
  unfold b_with_public at 1. cbn [b_online_ready]. rewrite Hdone. by eexists.
Qed.

Lemma INV_fires_once (my_id gate_id : Z) (in_ : list nat) (w0 w1 : World)
      (g : BooleanBEAVYINVGate) :
  BooleanBEAVYINVGate_ctor my_id gate_id in_ w0 = inr (g, w1) ->
  ready_wires in_ w0 ->
  if is_my_job my_id gate_id
  then fires_once (wire_flags (u_outputs_ (inv_base g)))
                  (INV_evaluate_setup g) (INV_evaluate_online g) w1
  else u_outputs_ (inv_base g) = in_ /\ w1 = w0 /\
       forall w, INV_evaluate_setup g w = Ok w /\ INV_evaluate_online g w = Ok w.
Proof.
  unfold BooleanBEAVYINVGate_ctor, BasicBooleanBEAVYUnaryGate_ctor. intros Hctor Hin.
  destruct (decide (length in_ = 0%nat)) as [|Hpos]; [done|].
  destruct (forallb _ _); [|done].
  destruct (is_my_job my_id gate_id); cbn [negb] in Hctor; injection Hctor as <- <-.
  - cbn [inv_base u_outputs_].
    set (n := length in_). set (base := length (wires w0)).
    set (gb := mkUnary gate_id n in_ (seq base n)).
    apply (world_gate_fires_once _ _ _ _
             (fun w => forall p, p ∈ in_ ->
                         b_setup_ready (wire_at w p) = true /\
                         b_online_ready (wire_at w p) = true)).
    + intros w w' Hr F p Hp. rewrite (wire_at_same w w'); [by apply Hr|].
      apply F. rewrite elem_of_seq. destruct (Hin p Hp) as [Hlt _]. fold base in Hlt. lia.
    + intros w Hr Hlen Hfresh.
      destruct (INV_setup_spec gb base w) as (w' & E & O & V); try done.
      { intros p Hp. by apply Hin. }
      { intros p Hp. by apply Hr. }
      { intros p Hp. cbn [gb u_outputs_] in Hp. apply elem_of_seq in Hp.
        replace p with (base + (p - base))%nat by lia. apply Hfresh. lia. }
      exists w'. split; [done|]. split; [by destruct O as (_ & ? & ?)|].
      intros i Hi. specialize (V i Hi). cbn [gb u_outputs_] in V.
      rewrite lookup_total_seq_lt in V by done. by rewrite V.
    + intros w Hr Hlen Hfresh.
      destruct (INV_online_spec gb base w) as (w' & E & O & V); try done.
      { intros p Hp. by apply Hin. }
      { intros p Hp. by apply Hr. }
      { intros p Hp. cbn [gb u_outputs_] in Hp. apply elem_of_seq in Hp.
        replace p with (base + (p - base))%nat by lia. apply Hfresh. lia. }
      exists w'. split; [done|]. split; [by destruct O as (_ & ? & ?)|].
      intros i Hi. specialize (V i Hi). cbn [gb u_outputs_] in V.
      rewrite lookup_total_seq_lt in V by done. by rewrite V.
    + intros w Hr Hlen Hdone. apply (INV_setup_again gb base); try done.
      intros p Hp. by apply Hr.
    + intros w Hr Hlen Hdone. apply (INV_online_again gb base); try done.
      intros p Hp. by apply Hr.
    + done.
    + intros p Hp. destruct (Hin p Hp) as (Hlt & H1 & H2). by rewrite appended_old.
    + cbn [wires]. rewrite length_app, length_replicate. lia.
    + intros i Hi. by rewrite appended_new.
  - cbn. done.
Qed.

(** ** The Boolean input gates *)

Lemma keeps_flags_refl (p : nat) (w : World) : keeps_flags p w w.
Proof. split; [apply same_outside_refl|done]. Qed.

Lemma keeps_flags_trans (p : nat) (w1 w2 w3 : World) :
  keeps_flags p w1 w2 -> keeps_flags p w2 w3 -> keeps_flags p w1 w3.
Proof.
  intros (O1 & S1 & N1) (O2 & S2 & N2). split; [by eapply same_outside_trans|].
  split; congruence.
Qed.

Lemma keeps_flags_length (p : nat) (w w' : World) :
  keeps_flags p w w' -> length (wires w') = length (wires w).
Proof. by intros ((_ & L & _) & _). Qed.

Lemma put_secret_keeps (p : nat) (v : list bool) (w : World) :
  (p < length (wires w))%nat ->
  keeps_flags p w (put p (b_with_secret v (wire_at w p)) w).
Proof. intros Hp. split; [apply same_outside_put|]. by rewrite wire_at_put. Qed.

Lemma put_public_keeps (p : nat) (v : list bool) (w : World) :
  (p < length (wires w))%nat ->
  keeps_flags p w (put p (b_with_public v (wire_at w p)) w).
Proof. intros Hp. split; [apply same_outside_put|]. by rewrite wire_at_put. Qed.

Lemma foldl_keeps_flags {A} (step : World -> A -> World) (p : nat) (l : list A) (w : World) :
  (forall w a, step w a = w \/
               exists v, step w a = put p (b_with_public v (wire_at w p)) w) ->
  (p < length (wires w))%nat ->
  keeps_flags p w (foldl step w l).
Proof.
  intros Hstep. revert w. induction l as [|a l IH]; intros w Hp; [apply keeps_flags_refl|].
  cbn [foldl]. destruct (Hstep w a) as [->|[v ->]]; [by apply IH|].
  eapply keeps_flags_trans; [by apply put_public_keeps|].
  apply IH. unfold put. cbn [wires]. by rewrite length_insert.
Qed.

(** The readiness calls on a wire that is there. *)
Lemma b_set_setup_ready_fresh (p : nat) (w : World) :
  (p < length (wires w))%nat -> b_setup_ready (wire_at w p) = false ->
  exists w', b_set_setup_ready p w = Ok w' /\ same_outside [p] w w' /\
             b_setup_ready (wire_at w' p) = true /\
             b_online_ready (wire_at w' p) = b_online_ready (wire_at w p).
Proof.
  intros Hp Hf. unfold b_set_setup_ready. rewrite Hf. eexists. split; [done|].
  split; [apply same_outside_put|]. by rewrite wire_at_put.
Qed.

Lemma b_set_online_ready_fresh (p : nat) (w : World) :
  (p < length (wires w))%nat -> b_online_ready (wire_at w p) = false ->
  exists w', b_set_online_ready p w = Ok w' /\ same_outside [p] w w' /\
             b_setup_ready (wire_at w' p) = b_setup_ready (wire_at w p) /\
             b_online_ready (wire_at w' p) = true.
Proof.
  intros Hp Hf. unfold b_set_online_ready. rewrite Hf. eexists. split; [done|].
  split; [apply same_outside_put|]. by rewrite wire_at_put.
Qed.

Lemma b_set_setup_ready_again (p : nat) (w : World) :
  b_setup_ready (wire_at w p) = true ->
  b_set_setup_ready p w = Throw "setup-ready fired twice" w.
Proof. intros H. unfold b_set_setup_ready. by rewrite H. Qed.

Lemma b_set_online_ready_again (p : nat) (w : World) :
  b_online_ready (wire_at w p) = true ->
  b_set_online_ready p w = Throw "online-ready fired twice" w.
Proof. intros H. unfold b_set_online_ready. by rewrite H. Qed.

Section InputSender.

Variables (Random : nat -> list bool) (g : BooleanBEAVYInputGateSender) (base : nat).
Hypothesis outputs_placed : sender_outputs_ g = seq base (sender_num_wires_ g).

Lemma InputSender_setup_marks (w : World) :
  (base + sender_num_wires_ g <= length (wires w))%nat ->
  (forall i, (i < sender_num_wires_ g)%nat ->
     b_setup_ready (wire_at w (base + i)%nat) = false) ->
  exists w',
    InputSender_evaluate_setup Random g w = Ok w' /\
    same_outside (seq base (sender_num_wires_ g)) w w' /\
    forall i, (i < sender_num_wires_ g)%nat ->
      b_setup_ready (wire_at w' (base + i)%nat) = true /\
      b_online_ready (wire_at w' (base + i)%nat)
      = b_online_ready (wire_at w (base + i)%nat).
Proof.
  intros Hlen Hfresh. unfold InputSender_evaluate_setup.
  apply (for_each_outputs _
           (fun _ old new => b_setup_ready new = true /\
                             b_online_ready new = b_online_ready old)).
  intros i w1 Hi Hl Hframe. cbn zeta.
  rewrite outputs_placed, lookup_total_seq_lt by done.
  set (p := (base + i)%nat).
  pose proof (put_secret_keeps p (Random i) w1 ltac:(lia)) as KA.
  set (wA := put p _ w1) in *.
  destruct (b_set_setup_ready_fresh p wA) as (wS & ES & OS & SS & NS).
  { rewrite (keeps_flags_length _ _ _ KA). lia. }
  { destruct KA as (_ & -> & _).
    rewrite (wire_at_same w w1) by (apply Hframe; lia). by apply Hfresh. }
  rewrite ES. cbn [and_then].
  assert (LS : length (wires wS) = length (wires w1)).
  { destruct OS as (_ & -> & _). by apply keeps_flags_length in KA. }
  pose proof (put_public_keeps p (b_secret_share (wire_at wS p)) wS ltac:(lia)) as KB.
  set (wB := put p _ wS) in *.
  match goal with |- context [foldl ?step wB ?l] =>
    pose proof (foldl_keeps_flags step p l wB) as KF end.
  cbv beta in KF.
  destruct KF as (OF & SF & NF).
  { intros w2 a. destruct (decide (a = sender_my_id g)); [by left|right; by eexists]. }
  { rewrite (keeps_flags_length _ _ _ KB). lia. }
  eexists. split; [reflexivity|]. split.
  - eapply same_outside_trans; [apply KA|]. eapply same_outside_trans; [apply OS|].
    eapply same_outside_trans; [apply KB|]. exact OF.
  - destruct KA as (_ & _ & NA). destruct KB as (_ & SB & NB).
    split; congruence.
Qed.

Lemma InputSender_setup_again (w : World) :
  sender_num_wires_ g <> 0%nat ->
  (base + sender_num_wires_ g <= length (wires w))%nat ->
  b_setup_ready (wire_at w base) = true ->
  fatal "setup-ready fired twice" (InputSender_evaluate_setup Random g w).
Proof.
  intros Hn Hlen Hdone. apply for_each_first_throws; [done|]. cbn zeta.
  rewrite outputs_placed, lookup_total_seq_lt by lia. rewrite Nat.add_0_r.
  rewrite b_set_setup_ready_again; [by eexists|].
  by rewrite wire_at_put by lia.
Qed.

Variable inputs : list (list bool).
Hypothesis inputs_there : length inputs = sender_num_wires_ g.
Hypothesis inputs_sized :
  Forall (fun input_bits => Z.of_nat (length input_bits) = sender_num_simd_ g) inputs.

Lemma input_at (i : nat) :
  (i < sender_num_wires_ g)%nat ->
  exists input_bits, inputs !! i = Some input_bits /\
                     Z.of_nat (length input_bits) = sender_num_simd_ g.
Proof.
  intros Hi. destruct (lookup_lt_is_Some_2 inputs i) as [v Hv]; [lia|].
  exists v. split; [done|]. by eapply (proj1 (Forall_lookup _ _) inputs_sized).
Qed.

Lemma InputSender_online_marks (w : World) :
  (base + sender_num_wires_ g <= length (wires w))%nat ->
  (forall i, (i < sender_num_wires_ g)%nat ->
     b_online_ready (wire_at w (base + i)%nat) = false) ->
  exists w',
    InputSender_evaluate_online (Some inputs) g w = Ok w' /\
    (length (wires w') = length (wires w) /\
     forall p, p ∉ seq base (sender_num_wires_ g) -> wires w' !! p = wires w !! p) /\
    (exists public_shares, sent w' = sent w ++ [(sender_gate_id_ g, public_shares)]) /\
    forall i, (i < sender_num_wires_ g)%nat ->
      b_setup_ready (wire_at w' (base + i)%nat)
      = b_setup_ready (wire_at w (base + i)%nat) /\
      b_online_ready (wire_at w' (base + i)%nat) = true.
Proof.
  intros Hlen Hfresh. unfold InputSender_evaluate_online.
  match goal with |- context [for_each ?body _ _] =>
    destruct (for_each_upto body
      (fun k (s : World * list bool) =>
         sent s.1 = sent w /\ length (wires s.1) = length (wires w) /\
         (forall p, ~ (base <= p < base + k)%nat -> wires s.1 !! p = wires w !! p) /\
         (forall i, (i < k)%nat ->
            b_setup_ready (wire_at s.1 (base + i)%nat)
            = b_setup_ready (wire_at w (base + i)%nat) /\
            b_online_ready (wire_at s.1 (base + i)%nat) = true))
      (sender_num_wires_ g) (w, [])) as ([w' shares] & Hrun & Hs & Hl & Hframe & Hset)
  end.
  - repeat split; try done; intros; lia.
  - intros i [w1 acc] Hi (Hs & Hl & Hframe & Hset). cbn [fst] in *.
    destruct (input_at i Hi) as (input_bits & -> & Hsize).
    destruct (decide _) as [|_]; [done|].
    rewrite outputs_placed, lookup_total_seq_lt by done.
    set (p := (base + i)%nat).
    pose proof (put_public_keeps p (OT.bv_xor (b_public_share (wire_at w1 p)) input_bits)
                                 w1 ltac:(lia)) as KA.
    set (wA := put p _ w1) in *.
    destruct (b_set_online_ready_fresh p wA) as (wS & ES & OS & SS & NS).
    { rewrite (keeps_flags_length _ _ _ KA). lia. }
    { destruct KA as (_ & _ & ->).
      rewrite (wire_at_same w w1) by (apply Hframe; lia). by apply Hfresh. }
    rewrite ES. cbn [map_outcome and_then].
    eexists. split; [reflexivity|]. cbn [fst].
    destruct KA as ((SA & LA & FA) & StA & _). destruct OS as (S2 & L2 & F2).
    split; [congruence|]. split; [congruence|]. split.
    + intros q Hq.
      rewrite F2, FA by (apply not_elem_of_cons; split; [unfold p; lia|apply not_elem_of_nil]).
      apply Hframe. lia.
    + intros j Hj. destruct (decide (j = i)) as [->|Hne].
      * fold p. rewrite SS, StA, NS.
        by rewrite (wire_at_same w w1) by (apply Hframe; lia).
      * rewrite (wire_at_same wA wS), (wire_at_same w1 wA).
        -- apply Hset. lia.
        -- apply FA. apply not_elem_of_cons; split; [unfold p; lia|apply not_elem_of_nil].
        -- apply F2. apply not_elem_of_cons; split; [unfold p; lia|apply not_elem_of_nil].
  - rewrite Hrun. cbn [and_then map_outcome fst] in *.
    eexists. split; [reflexivity|]. cbn [wires sent].
    split. { split; [done|]. intros p Hp. apply Hframe. rewrite elem_of_seq in Hp. lia. }
    split; [exists shares; by rewrite Hs|].
    intros i Hi. apply (Hset i Hi).
Qed.

Lemma InputSender_online_again (w : World) :
  sender_num_wires_ g <> 0%nat ->
  (base + sender_num_wires_ g <= length (wires w))%nat ->
  b_online_ready (wire_at w base) = true ->
  fatal "online-ready fired twice" (InputSender_evaluate_online (Some inputs) g w).
Proof.
  intros Hn Hlen Hdone. unfold InputSender_evaluate_online.
  match goal with |- context [for_each ?body _ ?s] =>
    destruct (for_each_first_throws body (sender_num_wires_ g) s
                "online-ready fired twice" Hn) as [[w' acc] ->]
  end.
  - destruct (input_at 0) as (input_bits & -> & Hsize); [lia|].
    destruct (decide _) as [|_]; [done|].
    rewrite outputs_placed, lookup_total_seq_lt by lia. rewrite Nat.add_0_r.
    rewrite b_set_online_ready_again; [by eexists|].
    by rewrite wire_at_put by lia.
  - by eexists.
Qed.

End InputSender.

Lemma InputSender_fires_once (gate_id my_id num_parties : Z) (mbp : BitGenerators)
      (num_wires : nat) (num_simd input_id : Z) (Random : nat -> list bool)
      (inputs : list (list bool)) (w0 w1 : World) (g : BooleanBEAVYInputGateSender) :
  BooleanBEAVYInputGateSender_ctor gate_id my_id num_parties mbp num_wires num_simd
                                   input_id w0 = (g, w1) ->
  num_wires <> 0%nat -> length inputs = num_wires ->
  Forall (fun input_bits => Z.of_nat (length input_bits) = num_simd) inputs ->
  fires_once (wire_flags (sender_outputs_ g))
             (InputSender_evaluate_setup Random g)
             (InputSender_evaluate_online (Some inputs) g) w1.
Proof.
  unfold BooleanBEAVYInputGateSender_ctor. intros [= <- <-] Hn Hlen Hsized.
  set (base := length (wires w0)).
  set (g := mkInputSender gate_id my_id num_parties mbp num_wires num_simd input_id
                          (seq base num_wires)).
  change (sender_outputs_ g) with (seq base num_wires).
  apply (world_gate_fires_once _ _ _ _ (fun _ => True)); try done.
  - intros w _ Hl Hfresh.
    destruct (InputSender_setup_marks Random g base eq_refl w Hl Hfresh)
      as (w' & E & (_ & L & F) & M).
    by exists w'.
  - intros w _ Hl Hfresh.
    destruct (InputSender_online_marks g base eq_refl inputs Hlen Hsized w Hl Hfresh)
      as (w' & E & O & _ & M).
    by exists w'.
  - intros w _ Hl Hdone. by apply (InputSender_setup_again Random g base).
  - intros w _ Hl Hdone. by apply (InputSender_online_again g base).
  - cbn [wires]. rewrite length_app, length_replicate. lia.
  - intros i Hi. by rewrite appended_new.
Qed.

Section InputReceiver.

Variables (g : BooleanBEAVYInputGateReceiver) (base : nat).
Hypothesis outputs_placed : receiver_outputs_ g = seq base (receiver_num_wires_ g).

Lemma InputReceiver_setup_marks (w : World) :
  (base + receiver_num_wires_ g <= length (wires w))%nat ->
  (forall i, (i < receiver_num_wires_ g)%nat ->
     b_setup_ready (wire_at w (base + i)%nat) = false) ->
  exists w',
    InputReceiver_evaluate_setup g w = Ok w' /\
    same_outside (seq base (receiver_num_wires_ g)) w w' /\
    forall i, (i < receiver_num_wires_ g)%nat ->
      b_setup_ready (wire_at w' (base + i)%nat) = true /\
      b_online_ready (wire_at w' (base + i)%nat)
      = b_online_ready (wire_at w (base + i)%nat).
Proof.
  intros Hlen Hfresh. unfold InputReceiver_evaluate_setup.
  apply (for_each_outputs _
           (fun _ old new => b_setup_ready new = true /\
                             b_online_ready new = b_online_ready old)).
  intros i w1 Hi Hl Hframe. cbn zeta.
  rewrite outputs_placed, lookup_total_seq_lt by done.
  set (p := (base + i)%nat).
  match goal with |- context [put p (b_with_secret ?v _) w1] =>
    pose proof (put_secret_keeps p v w1 ltac:(lia)) as KA end.
  set (wA := put p _ w1) in *.
  destruct (b_set_setup_ready_fresh p wA) as (wS & ES & OS & SS & NS).
  { rewrite (keeps_flags_length _ _ _ KA). lia. }
  { destruct KA as (_ & -> & _).
    rewrite (wire_at_same w w1) by (apply Hframe; lia). by apply Hfresh. }
  exists wS. split; [done|]. split.
  - eapply same_outside_trans; [apply KA|exact OS].
  - destruct KA as (_ & _ & NA). split; congruence.
Qed.

Lemma InputReceiver_setup_again (w : World) :
  receiver_num_wires_ g <> 0%nat ->
  (base + receiver_num_wires_ g <= length (wires w))%nat ->
  b_setup_ready (wire_at w base) = true ->
  fatal "setup-ready fired twice" (InputReceiver_evaluate_setup g w).
Proof.
  intros Hn Hlen Hdone. apply for_each_first_throws; [done|]. cbn zeta.
  rewrite outputs_placed, lookup_total_seq_lt by lia. rewrite Nat.add_0_r.
  rewrite b_set_setup_ready_again; [by eexists|].
  by rewrite wire_at_put by lia.
Qed.

Variable public_shares : list bool.

Lemma InputReceiver_online_marks (w : World) :
  (base + receiver_num_wires_ g <= length (wires w))%nat ->
  (forall i, (i < receiver_num_wires_ g)%nat ->
     b_online_ready (wire_at w (base + i)%nat) = false) ->
  exists w',
    InputReceiver_evaluate_online (Some public_shares) g w = Ok w' /\
    same_outside (seq base (receiver_num_wires_ g)) w w' /\
    forall i, (i < receiver_num_wires_ g)%nat ->
      b_setup_ready (wire_at w' (base + i)%nat)
      = b_setup_ready (wire_at w (base + i)%nat) /\
      b_online_ready (wire_at w' (base + i)%nat) = true.
Proof.
  intros Hlen Hfresh. unfold InputReceiver_evaluate_online.
  apply (for_each_outputs _
           (fun _ old new => b_setup_ready new = b_setup_ready old /\
                             b_online_ready new = true)).
  intros i w1 Hi Hl Hframe. cbn zeta.
  rewrite outputs_placed, lookup_total_seq_lt by done.
  set (p := (base + i)%nat).
  match goal with |- context [put p (b_with_public ?v _) w1] =>
    pose proof (put_public_keeps p v w1 ltac:(lia)) as KA end.
  set (wA := put p _ w1) in *.
  destruct (b_set_online_ready_fresh p wA) as (wS & ES & OS & SS & NS).
  { rewrite (keeps_flags_length _ _ _ KA). lia. }
  { destruct KA as (_ & _ & ->).
    rewrite (wire_at_same w w1) by (apply Hframe; lia). by apply Hfresh. }
  exists wS. split; [done|]. split.
  - eapply same_outside_trans; [apply KA|exact OS].
  - destruct KA as (_ & SA & _). split; congruence.
Qed.

Lemma InputReceiver_online_again (w : World) :
  receiver_num_wires_ g <> 0%nat ->
  (base + receiver_num_wires_ g <= length (wires w))%nat ->
  b_online_ready (wire_at w base) = true ->
  fatal "online-ready fired twice" (InputReceiver_evaluate_online (Some public_shares) g w).
Proof.
  intros Hn Hlen Hdone. apply for_each_first_throws; [done|]. cbn zeta.
  rewrite outputs_placed, lookup_total_seq_lt by lia. rewrite Nat.add_0_r.
  rewrite b_set_online_ready_again; [by eexists|].
  by rewrite wire_at_put by lia.
Qed.

End InputReceiver.

Lemma InputReceiver_fires_once (gate_id : Z) (mbp : BitGenerators) (num_wires : nat)
      (num_simd input_owner input_id : Z) (public_shares : list bool)
      (w0 w1 : World) (g : BooleanBEAVYInputGateReceiver) :
  BooleanBEAVYInputGateReceiver_ctor gate_id mbp num_wires num_simd input_owner
                                     input_id w0 = (g, w1) ->
  num_wires <> 0%nat ->
  fires_once (wire_flags (receiver_outputs_ g))
             (InputReceiver_evaluate_setup g)
             (InputReceiver_evaluate_online (Some public_shares) g) w1.
Proof.
  unfold BooleanBEAVYInputGateReceiver_ctor. intros [= <- <-] Hn.
  set (base := length (wires w0)).
  set (g := mkInputReceiver gate_id mbp num_wires num_simd input_owner input_id
                            (seq base num_wires)).
  change (receiver_outputs_ g) with (seq base num_wires).
  apply (world_gate_fires_once _ _ _ _ (fun _ => True)); try done.
  - intros w _ Hl Hfresh.
    destruct (InputReceiver_setup_marks g base eq_refl w Hl Hfresh)
      as (w' & E & (_ & L & F) & M).
    by exists w'.
  - intros w _ Hl Hfresh.
    destruct (InputReceiver_online_marks g base eq_refl public_shares w Hl Hfresh)
      as (w' & E & (_ & L & F) & M).
    by exists w'.
  - intros w _ Hl Hdone. by apply (InputReceiver_setup_again g base).
  - intros w _ Hl Hdone. by apply (InputReceiver_online_again g base).
  - cbn [wires]. rewrite length_app, length_replicate. lia.
  - intros i Hi. by rewrite appended_new.
Qed.

(** ** Arithmetic gates: one output wire, held by the gate *)

Lemma ADD_fires_once (W gate_id : Z) (in_a in_b : ArithmeticBEAVYWire)
      (g : BasicArithmeticBEAVYBinaryGate) :
  ArithmeticBEAVYADDGate_ctor gate_id in_a in_b = Ok g ->
  a_ready in_a -> a_ready in_b ->
  fires_once (fun g => a_flags (bin_output_ g))
             (ADD_evaluate_setup W) (ADD_evaluate_online W) g.
Proof.
  unfold ArithmeticBEAVYADDGate_ctor, BasicArithmeticBEAVYBinaryGate_ctor.
  intros Hctor [Sa Oa] [Sb Ob]. destruct (decide _) as [|_]; [done|].
  cbn in Hctor. injection Hctor as <-.
  unfold fires_once, fatal, a_flags, ADD_evaluate_setup, ADD_evaluate_online.
  cbn. rewrite ?Sa, ?Sb, ?Oa, ?Ob. cbn.
  split; [done|]. split; [by repeat constructor|].
  eexists. split; [reflexivity|]. cbn. rewrite ?Sa, ?Sb, ?Oa, ?Ob. cbn.
  split; [by repeat constructor|]. split; [by eexists|].
  eexists. split; [reflexivity|]. cbn. rewrite ?Sa, ?Sb, ?Oa, ?Ob. cbn.
  split; [by repeat constructor|]. split; by eexists.
Qed.

Lemma NEG_fires_once (W gate_id : Z) (in_ : ArithmeticBEAVYWire)
      (g : BasicArithmeticBEAVYUnaryGate) :
  ArithmeticBEAVYNEGGate_ctor gate_id in_ = Ok g ->
  a_ready in_ ->
  fires_once (fun g => a_flags (un_output_ g))
             (NEG_evaluate_setup W) (NEG_evaluate_online W) g.
Proof.
  unfold ArithmeticBEAVYNEGGate_ctor, BasicArithmeticBEAVYUnaryGate_ctor.
  intros Hctor [Sa Oa]. cbn in Hctor. injection Hctor as <-.
  unfold fires_once, fatal, a_flags, NEG_evaluate_setup, NEG_evaluate_online.
  cbn. rewrite ?Sa, ?Oa. cbn.
  split; [done|]. split; [by repeat constructor|].
  eexists. split; [reflexivity|]. cbn. rewrite ?Sa, ?Oa. cbn.
  split; [by repeat constructor|]. split; [by eexists|].
  eexists. split; [reflexivity|]. cbn. rewrite ?Sa, ?Oa. cbn.
  split; [by repeat constructor|]. split; by eexists.
Qed.

Lemma arithmetic_input_sender_fires_once (W gate_id my_id num_parties : Z)
      (mbp : MotionBaseProvider) (num_simd input_id : Z) (random input : list Z) :
  Z.of_nat (length input) = num_simd ->
  fires_once (fun g => a_flags (ins_output_ g))
             (InS_evaluate_setup W random)
             (fun g => InS_evaluate_online W (ins_set_input input g))
             (ArithmeticBEAVYInputGateSender_ctor gate_id my_id num_parties mbp
                                                  num_simd input_id).
Proof.
  intros Hlen.
  unfold fires_once, fatal, a_flags, InS_evaluate_setup, InS_evaluate_online,
    ArithmeticBEAVYInputGateSender_ctor.
  cbn. split; [done|]. split; [by repeat constructor|].
  eexists. split; [reflexivity|]. cbn.
  split; [by repeat constructor|]. split; [by eexists|].
  destruct (decide _) as [|_]; [done|]. cbn.
  eexists. split; [reflexivity|]. cbn.
  split; [by repeat constructor|]. split; [by eexists|].
  destruct (decide _) as [|_]; [done|]. cbn. by eexists.
Qed.

Lemma arithmetic_input_receiver_fires_once (gate_id : Z) (mbp : MotionBaseProvider)
      (num_simd input_owner input_id : Z) (public : list Z) :
  fires_once (fun g => a_flags (inr_output_ g))
             InR_evaluate_setup
             (fun g => InR_evaluate_online (inr_receive public g))
             (ArithmeticBEAVYInputGateReceiver_ctor gate_id mbp num_simd input_owner
                                                    input_id).
Proof.
  unfold fires_once, fatal, a_flags, InR_evaluate_setup, InR_evaluate_online,
    ArithmeticBEAVYInputGateReceiver_ctor.
  cbn. split; [done|]. split; [by repeat constructor|].
  eexists. split; [reflexivity|]. cbn.
  split; [by repeat constructor|]. split; [by eexists|].
  eexists. split; [reflexivity|]. cbn.
  split; [by repeat constructor|]. split; by eexists.
Qed.

Lemma MUL_fires_once (W my_id gate_id : Z) (in_a in_b : ArithmeticBEAVYWire)
      (snd_out rcv_out random other : list Z) (g : ArithmeticBEAVYMULGate) :
  ArithmeticBEAVYMULGate_ctor my_id gate_id in_a in_b snd_out rcv_out = Ok g ->
  a_ready in_a -> a_ready in_b ->
  fires_once (fun g => a_flags (mul_output_ g))
             (MUL_evaluate_setup W random)
             (fun g => MUL_evaluate_online_send W g
                       >>> (fun g => MUL_evaluate_online_receive W (mul_receive other g)))
             g.
Proof.
  unfold ArithmeticBEAVYMULGate_ctor.
  intros Hctor [Sa Oa] [Sb Ob]. destruct (decide _) as [_|]; [|done].
  injection Hctor as <-.
  unfold fires_once, fatal, a_flags, MUL_evaluate_setup, MUL_evaluate_online_send,
    MUL_evaluate_online_receive, lift_output.
  cbn. rewrite ?Sa, ?Sb, ?Oa, ?Ob. cbn.
  split; [done|]. split; [by repeat constructor|].
  eexists. split; [reflexivity|]. cbn. rewrite ?Sa, ?Sb, ?Oa, ?Ob. cbn.
  split; [by repeat constructor|]. split; [by eexists|].
  eexists. split; [reflexivity|]. cbn. rewrite ?Sa, ?Sb, ?Oa, ?Ob. cbn.
  split; [by repeat constructor|]. split; by eexists.
Qed.

Lemma SQR_fires_once (W my_id gate_id : Z) (input : ArithmeticBEAVYWire)
      (session_out random other : list Z) :
  a_ready input ->
  fires_once (fun g => a_flags (sqr_output_ g))
             (SQR_evaluate_setup W random)
             (fun g => SQR_evaluate_online_send W g
                       >>> (fun g => SQR_evaluate_online_receive W (sqr_receive other g)))
             (ArithmeticBEAVYSQRGate_ctor my_id gate_id input session_out).
Proof.
  intros [Sa Oa].
  unfold fires_once, fatal, a_flags, ArithmeticBEAVYSQRGate_ctor, SQR_evaluate_setup,
    SQR_evaluate_online_send, SQR_evaluate_online_receive, sqr_lift.
  destruct (my_id =? 0).
  all: cbn; rewrite ?Sa, ?Oa; cbn.
  all: split; [done|]; split; [by repeat constructor|].
  all: eexists; split; [reflexivity|]; cbn; rewrite ?Sa, ?Oa; cbn.
  all: split; [by repeat constructor|]; split; [by eexists|].
  all: eexists; split; [reflexivity|]; cbn; rewrite ?Sa, ?Oa; cbn.
  all: split; [by repeat constructor|]; split; by eexists.
Qed.

(** ** Every embedded gate that makes its output wires *)



(** The sample input gate, both phases: the two new wires carry the shares
    and both flags, the two old wires are as they were, and the public
    shares went out in one message. *)
Example input_sender_sample_run :
  (InputSender_evaluate_setup sample_Random sample_sender.1 sample_sender.2
     >>> InputSender_evaluate_online (Some sample_inputs) sample_sender.1)
  = Ok (mkWorld [ new_bwire 3; new_bwire 3;
                  mkBWire 3 [true; false; false] [true; false; true] true true;
                  mkBWire 3 [false; true; true] [false; true; false] true true ]
                [(6, [true; false; true; false; true; false])]).
Proof. vm_compute. reflexivity. Qed.


End ReadinessFacts.

(** * FSS gates: what the DPF functions compute *)

Module FSSFacts.
Import FSS.

Section Gates.

Variable sizeof_R_t : nat.
Variable G : list Z -> list Z.
Variable rand_bytes : list Z.

(** [G] fills [g_out], which has [G_OUT_LEN_64] bytes. *)
Hypothesis G_length : forall s, length (G s) = G_OUT_LEN sizeof_R_t.

#[local] Abbreviation R_bits := (R_bits sizeof_R_t).
#[local] Abbreviation to_R := (to_R sizeof_R_t).
#[local] Abbreviation TO_R_t := (TO_R_t sizeof_R_t).
#[local] Abbreviation gen_round := (gen_round sizeof_R_t G).
#[local] Abbreviation gen_rounds := (gen_rounds sizeof_R_t G).
#[local] Abbreviation eval_round := (eval_round sizeof_R_t G).
#[local] Abbreviation eval_rounds := (eval_rounds sizeof_R_t G).
#[local] Abbreviation eval_last := (eval_last sizeof_R_t).
Notation "x ≡ y" := (eqm (2 ^ R_bits) x y) (at level 70).

Lemma to_R_eqm (v : Z) : to_R v ≡ v.
Proof. apply eqm_wrap. Qed.

#[local] Instance to_R_proper :
  Proper (eqm (2 ^ R_bits) ==> eqm (2 ^ R_bits)) to_R.
Proof.
  intros x y H. etrans; [apply to_R_eqm|]. etrans; [exact H|].
  symmetry. apply to_R_eqm.
Qed.

(** Drop the reductions modulo 2^N_BITS in a congruence. *)
Ltac strip_to_R :=
  repeat match goal with
         | |- context [FSS.to_R _ ?v] => rewrite (to_R_eqm v)
         end.

Lemma gen_loop_rounds_from (bits : list bool) (pre : list correction_word)
      (st : gen_state) :
  foldl (fun acc i =>
           let '(cw, st) := gen_round (bits !!! i) acc.2 in (acc.1 ++ [cw], st))
        (pre, st) (seq 0 (length bits))
  = (pre ++ (gen_rounds bits st).1, (gen_rounds bits st).2).
Proof.
  revert pre st. induction bits as [|a bits IH]; intros pre st.
  - cbn. by rewrite app_nil_r.
  - cbn [length seq foldl]. rewrite <- fmap_S_seq, foldl_fmap.
    cbn [gen_rounds fst snd]. change ((a :: bits) !!! 0%nat) with a.
    destruct (gen_round a st) as [cw st1] eqn:Hround.
    rewrite (foldl_ext _ (fun acc i =>
               let '(cw, st) := gen_round (bits !!! i) acc.2 in (acc.1 ++ [cw], st)))
      by done.
    rewrite (IH (pre ++ [cw]) st1).
    destruct (gen_rounds bits st1) as [chain st2]. cbn [fst snd].
    by rewrite <- app_assoc.
Qed.

Lemma gen_loop_rounds (bits : list bool) (st : gen_state) :
  length bits = N_BITS sizeof_R_t ->
  gen_loop sizeof_R_t G bits st = gen_rounds bits st.
Proof.
  intros Hlen. unfold gen_loop. rewrite <- Hlen, gen_loop_rounds_from.
  by destruct (gen_rounds bits st).
Qed.

Lemma eval_loop_rounds (b : bool) (xs : list bool) (chain : list correction_word)
      (st : eval_state) :
  length chain = length xs ->
  foldl (fun st i => eval_round b (xs !!! i) (chain !!! i) st) st (seq 0 (length xs))
  = eval_rounds b xs chain st.
Proof.
  revert chain st. induction xs as [|x xs IH]; intros [|cw chain] st Hlen; try done.
  cbn [length seq foldl]. rewrite <- fmap_S_seq, foldl_fmap.
  cbn [eval_rounds].
  rewrite (foldl_ext _ (fun st i => eval_round b (xs !!! i) (chain !!! i) st)) by done.
  apply IH. cbn in Hlen. lia.
Qed.

Lemma length_gen_rounds (bits : list bool) (st : gen_state) :
  length (gen_rounds bits st).1 = length bits.
Proof.
  revert st. induction bits as [|a bits IH]; intros st; [done|].
  cbn [gen_rounds]. destruct (gen_round a st) as [cw st1].
  specialize (IH st1). destruct (gen_rounds bits st1). cbn in *. by rewrite IH.
Qed.

Lemma length_bit_decomposition (v : Z) :
  length (bit_decomposition sizeof_R_t v) = N_BITS sizeof_R_t.
Proof. unfold bit_decomposition. by rewrite length_map, length_seq. Qed.

(** *** The pieces of [g_out] *)

Lemma G_OUT_LEN_32 : (2 * S_LEN <= G_OUT_LEN sizeof_R_t)%nat.
Proof.
  unfold G_OUT_LEN, OUT_LEN, S_LEN, G_IN_LEN, CEIL, N_BITS, SEC_PARAM.
  change ((128 - 1) / 8 + 1)%nat with 16%nat.
  assert (32 <= (2 * 128 + 2 * (sizeof_R_t * 8) + 2 - 1) / 8)%nat
    by (apply Nat.div_le_lower_bound; lia).
  assert (2 <= ((2 * 128 + 2 * (sizeof_R_t * 8) + 2 - 1) / 8 + 1 - 1) / 16)%nat
    by (apply Nat.div_le_lower_bound; lia).
  lia.
Qed.

Lemma length_S_piece (s : list Z) (p : nat) :
  (p <= S_LEN)%nat -> length (take S_LEN (ptr (G s) p)) = S_LEN.
Proof.
  intros Hp. unfold ptr. rewrite length_take, length_drop, G_length.
  pose proof G_OUT_LEN_32. lia.
Qed.

Lemma zip_lxor_cancel (X Y : list Z) :
  length X = length Y -> zip_with Z.lxor X (zip_with Z.lxor X Y) = Y.
Proof.
  revert Y. induction X as [|x X IH]; intros [|y Y] H; try done.
  cbn in *. rewrite IH by lia. f_equal.
  by rewrite <- Z.lxor_assoc, Z.lxor_nilpotent, Z.lxor_0_l.
Qed.

Lemma zip_lxor_cancel_r (X Y : list Z) :
  length X = length Y -> zip_with Z.lxor Y (zip_with Z.lxor X Y) = X.
Proof.
  revert Y. induction X as [|x X IH]; intros [|y Y] H; try done.
  cbn in *. rewrite IH by lia. f_equal.
  by rewrite (Z.lxor_comm x y), <- Z.lxor_assoc, Z.lxor_nilpotent, Z.lxor_0_l.
Qed.

(** The state that the party whose bit is set gets on the lose side is the
    other party's. *)
Lemma xor_cond_lose (s0 s1 : list Z) (p : nat) (t : bool) :
  (p <= S_LEN)%nat ->
  xor_cond (ptr (G s0) p) (xor_c (ptr (G s0) p) (ptr (G s1) p) S_LEN) S_LEN (negb t)
  = xor_cond (ptr (G s1) p) (xor_c (ptr (G s0) p) (ptr (G s1) p) S_LEN) S_LEN t.
Proof.
  intros Hp. unfold xor_cond, xor_c.
  pose proof (length_S_piece s0 p Hp) as L0. pose proof (length_S_piece s1 p Hp) as L1.
  set (X := take S_LEN (ptr (G s0) p)) in *. set (Y := take S_LEN (ptr (G s1) p)) in *.
  rewrite (take_ge (zip_with Z.lxor X Y)) by (rewrite length_zip_with; lia).
  destruct t; cbn [negb].
  - by rewrite zip_lxor_cancel_r by lia.
  - by rewrite zip_lxor_cancel by lia.
Qed.

(** *** One round *)

Lemma sign_negb (t : bool) : b2z (negb t) - b2z t = sign t.
Proof. by destruct t. Qed.

Lemma sign_sign (t : bool) : sign t * sign t = 1.
Proof. by destruct t. Qed.

(** Off the path of [alpha] the two parties hold the same state, and their
    values move by opposite amounts. *)
Lemma round_off (x : bool) (cw : correction_word) (s : list Z) (t : bool) (V0 V1 : Z) :
  let e0 := eval_round false x cw (mkEval s t V0) in
  let e1 := eval_round true x cw (mkEval s t V1) in
  e_s e0 = e_s e1 /\ e_t e0 = e_t e1 /\ e_V e0 + e_V e1 ≡ V0 + V1.
Proof.
  cbn zeta. unfold FSS.eval_round. cbn [e_s e_t e_V].
  destruct x; cbn [negb e_s e_t e_V]; (split; [done|]; split; [done|]);
    strip_to_R; apply eqm_of_eq; cbn [sign]; ring.
Qed.

(** On the path, with the bit of [x] equal to the bit of [alpha]: the
    parties' states are the generator's, and their values add up to
    [V_alpha]. *)
Lemma round_keep (a : bool) (st : gen_state) (V0 V1 : Z) :
  t0 st = negb (t1 st) -> V0 + V1 ≡ V_alpha st ->
  let e0 := eval_round false a (gen_round a st).1 (mkEval (s0_i st) (t0 st) V0) in
  let e1 := eval_round true a (gen_round a st).1 (mkEval (s1_i st) (t1 st) V1) in
  let st' := (gen_round a st).2 in
  e_s e0 = s0_i st' /\ e_t e0 = t0 st' /\ e_s e1 = s1_i st' /\ e_t e1 = t1 st' /\
  t0 st' = negb (t1 st') /\ e_V e0 + e_V e1 ≡ V_alpha st'.
Proof.
  intros Ht HV. cbn zeta. unfold FSS.gen_round, FSS.eval_round.
  cbn [fst snd e_s e_t e_V s_cw V_cw t_cw_L t_cw_R s0_i s1_i t0 t1 V_alpha].
  rewrite Ht.
  destruct a; cbn [negb];
    cbn [fst snd e_s e_t e_V s_cw V_cw t_cw_L t_cw_R s0_i s1_i t0 t1 V_alpha];
    (split; [done|]; split; [done|]; split; [done|]; split; [done|]; split;
     [ destruct (t1 st);
       repeat match goal with |- context [TO_BOOL ?p] => destruct (TO_BOOL p) end; done
     | strip_to_R; rewrite <- HV; destruct (t1 st); cbn [negb b2z sign];
       apply eqm_of_eq; ring ]).
Qed.

(** Leaving the path, with the bit of [x] other than the bit of [alpha]:
    the parties' states become equal, and their values add up to [BETA] when
    the bit of [alpha] is set and to [0] otherwise. *)
Lemma round_lose (a : bool) (st : gen_state) (V0 V1 : Z) :
  t0 st = negb (t1 st) -> V0 + V1 ≡ V_alpha st ->
  let e0 := eval_round false (negb a) (gen_round a st).1 (mkEval (s0_i st) (t0 st) V0) in
  let e1 := eval_round true (negb a) (gen_round a st).1 (mkEval (s1_i st) (t1 st) V1) in
  e_s e0 = e_s e1 /\ e_t e0 = e_t e1 /\ e_V e0 + e_V e1 ≡ b2z a * BETA.
Proof.
  intros Ht HV. cbn zeta. unfold FSS.gen_round, FSS.eval_round.
  cbn [fst snd e_s e_t e_V s_cw V_cw t_cw_L t_cw_R s0_i s1_i t0 t1 V_alpha].
  rewrite Ht.
  destruct a; cbn [negb];
    cbn [fst snd e_s e_t e_V s_cw V_cw t_cw_L t_cw_R s0_i s1_i t0 t1 V_alpha];
    (split; [apply xor_cond_lose; unfold S_R_PTR, S_L_PTR; lia|]; split;
     [ destruct (t1 st);
       repeat match goal with |- context [TO_BOOL ?p] => destruct (TO_BOOL p) end; done
     | strip_to_R;
       assert (V_alpha st ≡ V0 + V1) as -> by done;
       destruct (t1 st); cbn [negb b2z sign]; apply eqm_of_eq; ring ]).
Qed.

(** *** The whole evaluation *)

Lemma eval_state_eta (e : eval_state) : e = mkEval (e_s e) (e_t e) (e_V e).
Proof. by destruct e. Qed.

Lemma off_path (xs : list bool) (chain : list correction_word) (last : Z)
      (s : list Z) (t : bool) (V0 V1 : Z) :
  eval_last false last (eval_rounds false xs chain (mkEval s t V0))
  + eval_last true last (eval_rounds true xs chain (mkEval s t V1))
  ≡ V0 + V1.
Proof.
  revert chain s t V0 V1.
  induction xs as [|x xs IH]; intros chain s t V0 V1.
  - cbn. unfold FSS.eval_last. cbn [e_s e_t e_V sign].
    strip_to_R. apply eqm_of_eq. ring.
  - destruct chain as [|cw chain].
    + cbn. unfold FSS.eval_last. cbn [e_s e_t e_V sign].
      strip_to_R. apply eqm_of_eq. ring.
    + cbn [FSS.eval_rounds].
      destruct (round_off x cw s t V0 V1) as (Hs & Ht & HV). cbn zeta in *.
      rewrite (eval_state_eta (eval_round false x cw _)).
      rewrite (eval_state_eta (eval_round true x cw _)).
      rewrite Hs, Ht, IH. exact HV.
Qed.

Lemma on_path (abits xs : list bool) (st : gen_state) (V0 V1 : Z) :
  length xs = length abits ->
  t0 st = negb (t1 st) -> V0 + V1 ≡ V_alpha st ->
  let chain := (gen_rounds abits st).1 in
  let st' := (gen_rounds abits st).2 in
  let last := to_R (sign (t1 st') * (TO_R_t (s1_i st') - TO_R_t (s0_i st') - V_alpha st')) in
  eval_last false last (eval_rounds false xs chain (mkEval (s0_i st) (t0 st) V0))
  + eval_last true last (eval_rounds true xs chain (mkEval (s1_i st) (t1 st) V1))
  ≡ BETA * b2z (bits_lt xs abits).
Proof.
  revert xs st V0 V1.
  induction abits as [|a abits IH]; intros [|x xs] st V0 V1 Hlen Ht HV; try done.
  - cbn. unfold FSS.eval_last. cbn [e_s e_t e_V].
    strip_to_R. rewrite Ht.
    assert (V_alpha st ≡ V0 + V1) as -> by done.
    destruct (t1 st); cbn [negb b2z sign]; apply eqm_of_eq; ring.
  - cbn zeta. cbn [FSS.gen_rounds FSS.bits_lt].
    destruct (gen_round a st) as [cw st1] eqn:Hround.
    destruct (gen_rounds abits st1) as [chain st2] eqn:Hrounds.
    cbn [fst snd FSS.eval_rounds].
    destruct (Bool.eqb_spec x a) as [->|Hne].
    + destruct (round_keep a st V0 V1 Ht HV) as (Hs0 & Ht0 & Hs1 & Ht1 & Ht' & HV').
      cbn zeta in *. rewrite Hround in *. cbn [fst snd] in *.
      rewrite (eval_state_eta (eval_round false a cw _)).
      rewrite (eval_state_eta (eval_round true a cw _)).
      rewrite Hs0, Ht0, Hs1, Ht1.
      specialize (IH xs st1 _ _ ltac:(cbn in Hlen; lia) Ht' HV').
      cbn zeta in IH. rewrite Hrounds in IH. exact IH.
    + assert (x = negb a) as -> by (by destruct x, a).
      destruct (round_lose a st V0 V1 Ht HV) as (Hs & Ht' & HV').
      cbn zeta in *. rewrite Hround in *. cbn [fst snd] in *.
      rewrite (eval_state_eta (eval_round false (negb a) cw _)).
      rewrite (eval_state_eta (eval_round true (negb a) cw _)).
      rewrite Hs, Ht', off_path. rewrite HV'.
      apply eqm_of_eq. ring.
Qed.

(** The two evaluations of the keys of [DPF_gen_64] add up to [BETA] when
    [x_hat] is below [alpha], bit by bit from the most significant one, and
    to [0] otherwise. *)
Lemma DPF_sum_bits (alpha x_hat : Z) :
  let keys := DPF_gen_64 sizeof_R_t G rand_bytes alpha in
  DPF_eval_64 sizeof_R_t G false keys.1 x_hat
  + DPF_eval_64 sizeof_R_t G true keys.2 x_hat
  ≡ BETA * b2z (bits_lt (bit_decomposition sizeof_R_t x_hat)
                        (bit_decomposition sizeof_R_t alpha)).
Proof.
  cbn zeta. unfold DPF_gen_64, DCF_gen_seeded_64, DPF_eval_64.
  rewrite gen_loop_rounds by apply length_bit_decomposition.
  set (st := mkGen _ _ false true 0).
  pose proof (length_gen_rounds (bit_decomposition sizeof_R_t alpha) st) as Hlen.
  pose proof (on_path (bit_decomposition sizeof_R_t alpha)
                (bit_decomposition sizeof_R_t x_hat) st 0 0) as Hon.
  destruct (gen_rounds (bit_decomposition sizeof_R_t alpha) st) as [chain st'].
  cbn [fst snd k_s k_chain k_last] in *.
  rewrite <- (length_bit_decomposition x_hat) at 1 2.
  rewrite !eval_loop_rounds
    by (rewrite Hlen, !length_bit_decomposition; done).
  unfold random_buffer, random_buffer_seeded. rewrite take_take, Nat.min_id.
  apply Hon; [by rewrite !length_bit_decomposition|done|done].
Qed.

(** *** The comparison gate, with and without seeds *)

Lemma DCF_eval_is_DPF_eval (b : bool) (kb : key) (x_hat : Z) :
  FSSGates.DCF_eval_64 sizeof_R_t G b kb x_hat = DPF_eval_64 sizeof_R_t G b kb x_hat.
Proof. reflexivity. Qed.

Lemma DCF_sum_bits_seeded (alpha x_hat : Z) (s0 s1 : option (list Z)) :
  let keys := DCF_gen_seeded_64 sizeof_R_t G rand_bytes alpha s0 s1 in
  FSSGates.DCF_eval_64 sizeof_R_t G false keys.1 x_hat
  + FSSGates.DCF_eval_64 sizeof_R_t G true keys.2 x_hat
  ≡ BETA * b2z (bits_lt (bit_decomposition sizeof_R_t x_hat)
                        (bit_decomposition sizeof_R_t alpha)).
Proof.
  cbn zeta. change (FSSGates.DCF_eval_64 sizeof_R_t G) with (DPF_eval_64 sizeof_R_t G).
  unfold DCF_gen_seeded_64, DPF_eval_64.
  set (seeds := match s0, s1 with
                | Some s0, Some s1 => (take S_LEN s0, take S_LEN s1)
                | _, _ => (random_buffer rand_bytes S_LEN, random_buffer rand_bytes S_LEN)
                end).
  assert (Hseeds : take S_LEN seeds.1 = seeds.1 /\ take S_LEN seeds.2 = seeds.2).
  { unfold seeds, random_buffer, random_buffer_seeded.
    destruct s0, s1; cbn [fst snd]; by rewrite !take_take, Nat.min_id. }
  destruct seeds as [s0_first s1_first]. cbn [fst snd] in Hseeds.
  rewrite gen_loop_rounds by apply length_bit_decomposition.
  set (st := mkGen _ _ false true 0).
  pose proof (length_gen_rounds (bit_decomposition sizeof_R_t alpha) st) as Hlen.
  pose proof (on_path (bit_decomposition sizeof_R_t alpha)
                (bit_decomposition sizeof_R_t x_hat) st 0 0) as Hon.
  destruct (gen_rounds (bit_decomposition sizeof_R_t alpha) st) as [chain st'].
  cbn [fst snd k_s k_chain k_last] in *.
  rewrite <- (length_bit_decomposition x_hat) at 1 2.
  rewrite !eval_loop_rounds
    by (rewrite Hlen, !length_bit_decomposition; done).
  destruct Hseeds as [-> ->].
  apply Hon; [by rewrite !length_bit_decomposition|done|done].
Qed.

(** *** Bit by bit is the order of the unsigned values *)

Lemma bits_S (n : nat) (v : Z) :
  map (fun i => Z.testbit v (Z.of_nat (S n - i - 1))) (seq 0 (S n))
  = Z.testbit v (Z.of_nat n)
    :: map (fun i => Z.testbit v (Z.of_nat (n - i - 1))) (seq 0 n).
Proof.
  cbn [seq map]. f_equal; [f_equal; lia|].
  rewrite <- fmap_S_seq. change (map ?f (S <$> ?l)) with (f <$> (S <$> l)).
  rewrite <- list_fmap_compose. apply list_fmap_ext. intros i k _. cbn. done.
Qed.

Lemma mod_pow2_S (n : nat) (v : Z) :
  v mod 2 ^ Z.of_nat (S n)
  = v mod 2 ^ Z.of_nat n + 2 ^ Z.of_nat n * Z.b2z (Z.testbit v (Z.of_nat n)).
Proof.
  rewrite Nat2Z.inj_succ, Z.pow_succ_r by lia.
  rewrite (Z.mul_comm 2), Z.rem_mul_r by lia.
  by rewrite Z.testbit_spec' by lia.
Qed.

Lemma bits_lt_mod (n : nat) (x a : Z) :
  bits_lt (map (fun i => Z.testbit x (Z.of_nat (n - i - 1))) (seq 0 n))
          (map (fun i => Z.testbit a (Z.of_nat (n - i - 1))) (seq 0 n))
  = (x mod 2 ^ Z.of_nat n <? a mod 2 ^ Z.of_nat n).
Proof.
  induction n as [|n IH].
  - cbn. by rewrite !Z.mod_1_r.
  - rewrite !bits_S. cbn [bits_lt]. rewrite IH, !mod_pow2_S.
    pose proof (Z.mod_pos_bound x (2 ^ Z.of_nat n) ltac:(lia)).
    pose proof (Z.mod_pos_bound a (2 ^ Z.of_nat n) ltac:(lia)).
    destruct (Z.testbit x (Z.of_nat n)), (Z.testbit a (Z.of_nat n)); cbn [eqb Z.b2z];
      repeat match goal with |- context [?u <? ?v] => destruct (Z.ltb_spec u v) end;
      try done; lia.
Qed.

Lemma bits_lt_unsigned (x_hat alpha : Z) :
  bits_lt (bit_decomposition sizeof_R_t x_hat) (bit_decomposition sizeof_R_t alpha)
  = (to_R x_hat <? to_R alpha).
Proof. apply bits_lt_mod. Qed.

(** *** The interval gate: what the two evaluations add up to *)

Lemma IC_sum (random_dtype r_in r_out p q x_hat : Z) :
  let keys := FSSGates.IC_gen_64 sizeof_R_t G rand_bytes random_dtype r_in r_out p q in
  FSSGates.IC_eval_64 sizeof_R_t G false p q keys.1 x_hat
  + FSSGates.IC_eval_64 sizeof_R_t G true p q keys.2 x_hat
  ≡ r_out
    + ((b2z (FSSGates.U p <? FSSGates.U x_hat)
        - b2z (FSSGates.U (q + 1) <? FSSGates.U x_hat))
       - b2z (to_R (x_hat - p - 1) <? to_R (r_in - 1))
       + b2z (to_R (x_hat - q - 2) <? to_R (r_in - 1))
       + (b2z (FSSGates.U (q + r_in) <? FSSGates.U (p + r_in))
          - b2z (FSSGates.U p <? FSSGates.U (p + r_in))
          + b2z (FSSGates.U (q + 1) <? FSSGates.U (q + r_in + 1))
          + b2z (FSSGates.U (q + r_in + 1) =? FSSGates.U 0))).
Proof.
  cbn zeta. unfold FSSGates.IC_gen_64, FSSGates.IC_eval_64.
  pose proof (DCF_sum_bits_seeded (r_in - 1) (x_hat - p - 1) None None) as H1.
  pose proof (DCF_sum_bits_seeded (r_in - 1) (x_hat - q - 2) None None) as H2.
  cbn zeta in H1, H2. rewrite bits_lt_unsigned in H1, H2.
  fold (FSSGates.DCF_gen_64 sizeof_R_t G rand_bytes (r_in - 1)) in H1, H2.
  destruct (FSSGates.DCF_gen_64 sizeof_R_t G rand_bytes (r_in - 1)) as [k0 k1].
  cbn [fst snd FSSGates.ic_dcf FSSGates.ic_z] in *.
  set (c1 := b2z (to_R (x_hat - p - 1) <? to_R (r_in - 1))) in *.
  set (c2 := b2z (to_R (x_hat - q - 2) <? to_R (r_in - 1))) in *.
  set (o10 := FSSGates.DCF_eval_64 _ _ false k0 (x_hat - p - 1)) in *.
  set (o11 := FSSGates.DCF_eval_64 _ _ true k1 (x_hat - p - 1)) in *.
  set (o20 := FSSGates.DCF_eval_64 _ _ false k0 (x_hat - q - 2)) in *.
  set (o21 := FSSGates.DCF_eval_64 _ _ true k1 (x_hat - q - 2)) in *.
  set (i1 := b2z (_ <? _)). set (i2 := b2z (_ <? _)). set (i3 := b2z (_ <? _)).
  set (i4 := b2z (_ <? _)). set (i5 := b2z (_ <? _)). set (i6 := b2z (_ =? _)).
  set (z0 := to_R random_dtype).
  clearbody c1 c2 o10 o11 o20 o21 i1 i2 i3 i4 i5 i6 z0.
  rewrite (to_R_eqm (_ + z0)), (to_R_eqm (_ + to_R _)), (to_R_eqm (_ + i6)).
  cbn [b2z]. unfold BETA in H1, H2.
  transitivity (r_out + (i1 - i2 - (o10 + o11) + (o20 + o21) + (i3 - i4 + i5 + i6))).
  { apply eqm_of_eq. ring. }
  rewrite H1, H2. apply eqm_of_eq. ring.
Qed.

End Gates.

Lemma gen_loop_length (sizeof_R_t : nat) (G : list Z -> list Z) (bits : list bool)
      (st : gen_state) :
  length (gen_loop sizeof_R_t G bits st).1 = N_BITS sizeof_R_t.
Proof.
  unfold gen_loop.
  assert (H : forall idx acc,
             length (foldl (fun acc i =>
                              let '(cw, st) := gen_round sizeof_R_t G (bits !!! i) acc.2 in
                              (acc.1 ++ [cw], st)) acc idx).1
             = (length acc.1 + length idx)%nat).
  { induction idx as [|i idx IH]; intros acc; cbn [foldl length]; [lia|].
    rewrite IH. destruct (gen_round _ _ _ _). cbn. rewrite length_app. cbn. lia. }
  rewrite H. cbn. by rewrite length_seq.
Qed.

(** C4 does not hold of the code.  [DPF_gen_64] calls the key generation of
    the comparison gate and [DPF_eval_64] has the body of its evaluation:
    for every generator, every [alpha] and every [x_hat], the two
    evaluations add up, modulo 2^N_BITS, to [BETA] when [x_hat] is below
    [alpha] as an unsigned value and to [0] otherwise; at the point
    [x_hat = alpha] they add up to [0], and below it to [BETA]. *)
Theorem DPF_eval_sum_is_comparison (sizeof_R_t : nat) (G : list Z -> list Z)
        (rand_bytes : list Z) (alpha x_hat : Z) :
  (forall s, length (G s) = G_OUT_LEN sizeof_R_t) ->
  let keys := DPF_gen_64 sizeof_R_t G rand_bytes alpha in
  let sum (x : Z) :=
    to_R sizeof_R_t (DPF_eval_64 sizeof_R_t G false keys.1 x
                     + DPF_eval_64 sizeof_R_t G true keys.2 x) in
  sum x_hat
  = to_R sizeof_R_t
      (BETA * b2z (to_R sizeof_R_t x_hat <? to_R sizeof_R_t alpha)) /\
  sum alpha = 0.
Proof.
  intros HG. cbn zeta. split.
  - apply wrap_of_eqm. rewrite <- bits_lt_unsigned.
    by apply DPF_sum_bits.
  - unfold to_R at 1. erewrite wrap_of_eqm; [|by apply DPF_sum_bits].
    rewrite bits_lt_unsigned, Z.ltb_irrefl. cbn. unfold wrap.
    apply Z.mod_0_l. apply Z.pow_nonzero; unfold R_bits; lia.
Qed.

Lemma G_toy_length (n : nat) (s : list Z) : length (G_toy n s) = G_OUT_LEN n.
Proof. unfold G_toy. by rewrite length_map, length_seq. Defined.

Lemma DPF_eval_sum_is_comparison_witness :
  let keys := DPF_gen_64 1 (G_toy 1) rand_toy 5 in
  let sum (x : Z) :=
    to_R 1 (DPF_eval_64 1 (G_toy 1) false keys.1 x
            + DPF_eval_64 1 (G_toy 1) true keys.2 x) in
  sum 3 = to_R 1 (BETA * b2z (to_R 1 3 <? to_R 1 5)) /\ sum 5 = 0.
Proof.
  exact (DPF_eval_sum_is_comparison 1 (G_toy 1) rand_toy 5 3 (G_toy_length 1)).
Defined.

(** The toy generator, [alpha = 5], one-byte ring: the evaluations add up
    to [1] for every [x_hat] below [5] and to [0] from [5] on, where a point
    function would give [1] at [5] only. *)
Example DPF_toy_table :
  let keys := DPF_gen_64 1 (G_toy 1) rand_toy 5 in
  map (fun x => to_R 1 (DPF_eval_64 1 (G_toy 1) false keys.1 x
                        + DPF_eval_64 1 (G_toy 1) true keys.2 x))
      [0; 1; 2; 3; 4; 5; 6; 7; 255]
  = [1; 1; 1; 1; 1; 0; 0; 0; 0].
Proof. vm_compute. reflexivity. Qed.

(** The same in the 64-bit ring. *)
Example DPF_toy_table_64 :
  let keys := DPF_gen_64 8 (G_toy 8) rand_toy 5 in
  map (fun x => to_R 8 (DPF_eval_64 8 (G_toy 8) false keys.1 x
                        + DPF_eval_64 8 (G_toy 8) true keys.2 x))
      [0; 4; 5; 6; 2 ^ 64 - 1]
  = [1; 1; 0; 0; 0].
Proof. vm_compute. reflexivity. Qed.

(** The comparison gate.  For every generator of the right output length,
    every [alpha] and [x_hat], and whatever seeds are passed (two seeds, or
    a null pointer, in which case both states are drawn), the evaluations
    of the two keys of [DCF_gen_seeded_64] add up, modulo 2^N_BITS, to
    [BETA] when [x_hat] is below [alpha] as an unsigned value and to [0]
    otherwise; so do those of the keys of [DCF_gen_64]. *)
Theorem DCF_eval_sum_is_comparison (sizeof_R_t : nat) (G : list Z -> list Z)
        (rand_bytes : list Z) (alpha x_hat : Z) (s0 s1 : option (list Z)) :
  (forall s, length (G s) = G_OUT_LEN sizeof_R_t) ->
  let sum (keys : key * key) :=
    to_R sizeof_R_t (FSSGates.DCF_eval_64 sizeof_R_t G false keys.1 x_hat
                     + FSSGates.DCF_eval_64 sizeof_R_t G true keys.2 x_hat) in
  let below := to_R sizeof_R_t
                 (BETA * b2z (to_R sizeof_R_t x_hat <? to_R sizeof_R_t alpha)) in
  sum (DCF_gen_seeded_64 sizeof_R_t G rand_bytes alpha s0 s1) = below /\
  sum (FSSGates.DCF_gen_64 sizeof_R_t G rand_bytes alpha) = below.
Proof.
  intros HG. cbn zeta. unfold FSSGates.DCF_gen_64.
  split; apply wrap_of_eqm; rewrite <- bits_lt_unsigned;
    by apply DCF_sum_bits_seeded.
Qed.

Lemma DCF_eval_sum_is_comparison_witness :
  let sum (keys : key * key) :=
    to_R 1 (FSSGates.DCF_eval_64 1 (G_toy 1) false keys.1 200
            + FSSGates.DCF_eval_64 1 (G_toy 1) true keys.2 200) in
  let below := to_R 1 (BETA * b2z (to_R 1 200 <? to_R 1 (-3))) in
  sum (DCF_gen_seeded_64 1 (G_toy 1) rand_toy (-3)
         (Some (replicate 16 7)) (Some (replicate 16 9))) = below /\
  sum (FSSGates.DCF_gen_64 1 (G_toy 1) rand_toy (-3)) = below.
Proof.
  exact (DCF_eval_sum_is_comparison 1 (G_toy 1) rand_toy (-3) 200
           (Some (replicate 16 7)) (Some (replicate 16 9)) (G_toy_length 1)).
Defined.

(** Seeded keys for [alpha = 253]: [1] below [253], [0] from there on. *)
Example DCF_toy_table :
  let keys := DCF_gen_seeded_64 1 (G_toy 1) rand_toy (-3)
                (Some (replicate 16 7)) (Some (replicate 16 9)) in
  map (fun x => to_R 1 (FSSGates.DCF_eval_64 1 (G_toy 1) false keys.1 x
                        + FSSGates.DCF_eval_64 1 (G_toy 1) true keys.2 x))
      [0; 100; 252; 253; 254; -1]
  = [1; 1; 1; 0; 0; 0].
Proof. vm_compute. reflexivity. Qed.

(** *** The interval gate for the ring type of the header, [int8_t] *)

Lemma mod256_cases (e : Z) :
  -512 <= e < 512 ->
  (e < -256 /\ e mod 256 = e + 512) \/ (-256 <= e < 0 /\ e mod 256 = e + 256) \/
  (0 <= e < 256 /\ e mod 256 = e) \/ (256 <= e /\ e mod 256 = e - 256).
Proof.
  intros He.
  destruct (Z_lt_le_dec e (-256)); [left; split; [done|]|right].
  { symmetry. apply (Z.mod_unique_pos _ _ (-2)); lia. }
  destruct (Z_lt_le_dec e 0); [left; split; [done|]|right].
  { symmetry. apply (Z.mod_unique_pos _ _ (-1)); lia. }
  destruct (Z_lt_le_dec e 256); [left; split; [done|]|right; split; [done|]].
  { symmetry. apply (Z.mod_unique_pos _ _ 0); lia. }
  symmetry. apply (Z.mod_unique_pos _ _ 1); lia.
Qed.

Lemma U_cases (e : Z) :
  -4294967296 <= e < 4294967296 ->
  (e < 0 /\ e mod 4294967296 = e + 4294967296) \/ (0 <= e /\ e mod 4294967296 = e).
Proof.
  intros He.
  destruct (Z_lt_le_dec e 0); [left|right]; (split; [done|]); symmetry.
  - apply (Z.mod_unique_pos _ _ (-1)); lia.
  - apply (Z.mod_unique_pos _ _ 0); lia.
Qed.

(** Every reduction modulo 256 or 2^32 in the goal and the hypotheses is
    replaced by its value in each range of its argument. *)
Ltac elim_mods :=
  repeat match goal with
  | |- context [?e mod 256] =>
      let H := fresh in
      destruct (mod256_cases e ltac:(lia)) as [[? H]|[[? H]|[[? H]|[? H]]]];
      rewrite ?H in *; clear H; try (exfalso; lia)
  | H0 : context [?e mod 256] |- _ =>
      let H := fresh in
      destruct (mod256_cases e ltac:(lia)) as [[? H]|[[? H]|[[? H]|[? H]]]];
      rewrite ?H in *; clear H; try (exfalso; lia)
  | |- context [?e mod 4294967296] =>
      let H := fresh in
      destruct (U_cases e ltac:(lia)) as [[? H]|[? H]];
      rewrite ?H in *; clear H; try (exfalso; lia)
  end.

(** The indicators of the gate for operands of type [int8_t]. *)
Lemma IC_indicators (p q r_in x_hat : Z) :
  -128 <= p <= 127 -> -128 <= q <= 127 -> -128 <= r_in <= 127 ->
  -128 <= x_hat <= 127 ->
  p mod 256 <= q mod 256 -> q <> 127 ->
  (b2z (FSSGates.U p <? FSSGates.U x_hat)
   - b2z (FSSGates.U (q + 1) <? FSSGates.U x_hat))
  - b2z ((x_hat - p - 1) mod 256 <? (r_in - 1) mod 256)
  + b2z ((x_hat - q - 2) mod 256 <? (r_in - 1) mod 256)
  + (b2z (FSSGates.U (q + r_in) <? FSSGates.U (p + r_in))
     - b2z (FSSGates.U p <? FSSGates.U (p + r_in))
     + b2z (FSSGates.U (q + 1) <? FSSGates.U (q + r_in + 1))
     + b2z (FSSGates.U (q + r_in + 1) =? FSSGates.U 0))
  = b2z ((p mod 256 <=? (x_hat - r_in) mod 256)
         && ((x_hat - r_in) mod 256 <=? q mod 256)).
Proof.
  intros Hp Hq Hr Hx Hpq Hq'. unfold FSSGates.U.
  change (2 ^ 32) with 4294967296. change (0 mod 4294967296) with 0.
  elim_mods.
  all: repeat match goal with
         | |- context [?u <? ?v] => destruct (Z.ltb_spec u v); try (exfalso; lia)
         | |- context [?u <=? ?v] => destruct (Z.leb_spec u v); try (exfalso; lia)
         | |- context [?u =? ?v] => destruct (Z.eqb_spec u v); try (exfalso; lia)
         end.
  all: cbn [andb b2z]; lia.
Qed.

(** The interval gate, for the ring type the header defines ([int8_t], one
    byte).  For bounds [p], [q] with [p <= q] as unsigned bytes and [q]
    other than 127, every input mask [r_in], output mask [r_out] and masked
    input [x_hat] (values of [int8_t]), and every generator of the right
    output length: the two evaluations add up, modulo 2^8, to [r_out] plus
    [1] when [x = x_hat - r_in] lies in [[p, q]] as an unsigned byte, and to
    [r_out] otherwise. *)
Theorem IC_eval_sum_is_interval (G : list Z -> list Z) (rand_bytes : list Z)
        (random_dtype r_in r_out p q x_hat : Z) :
  (forall s, length (G s) = G_OUT_LEN 1) ->
  -128 <= p <= 127 -> -128 <= q <= 127 -> -128 <= r_in <= 127 ->
  -128 <= x_hat <= 127 ->
  p mod 256 <= q mod 256 -> q <> 127 ->
  let keys := FSSGates.IC_gen_64 1 G rand_bytes random_dtype r_in r_out p q in
  let x := (x_hat - r_in) mod 256 in
  to_R 1 (FSSGates.IC_eval_64 1 G false p q keys.1 x_hat
          + FSSGates.IC_eval_64 1 G true p q keys.2 x_hat)
  = to_R 1 (r_out + b2z ((p mod 256 <=? x) && (x <=? q mod 256))).
Proof.
  intros HG Hp Hq Hr Hx Hpq Hq'. cbn zeta.
  apply wrap_of_eqm. etrans; [by apply IC_sum|].
  apply eqm_of_eq. f_equal.
  change (to_R 1 ?v) with (v mod 256).
  by apply IC_indicators.
Qed.

Lemma IC_eval_sum_is_interval_witness :
  let keys := FSSGates.IC_gen_64 1 (G_toy 1) rand_toy 99 (-77) 5 10 20 in
  let x := (-62 - -77) mod 256 in
  to_R 1 (FSSGates.IC_eval_64 1 (G_toy 1) false 10 20 keys.1 (-62)
          + FSSGates.IC_eval_64 1 (G_toy 1) true 10 20 keys.2 (-62))
  = to_R 1 (5 + b2z ((10 mod 256 <=? x) && (x <=? 20 mod 256))).
Proof.
  apply (IC_eval_sum_is_interval (G_toy 1) rand_toy 99 (-77) 5 10 20 (-62)
           (G_toy_length 1)); try lia.
  vm_compute. discriminate.
Defined.

(** The interval [[10, 20]] with input mask [-77] and output mask [5]:
    [6] for the inputs [10], [15] and [20], [5] for [9], [21] and [200]
    (the inputs are given masked, [x + r_in] as an [int8_t]). *)
Example IC_toy_table :
  let keys := FSSGates.IC_gen_64 1 (G_toy 1) rand_toy 99 (-77) 5 10 20 in
  map (fun x_hat => to_R 1 (FSSGates.IC_eval_64 1 (G_toy 1) false 10 20 keys.1 x_hat
                            + FSSGates.IC_eval_64 1 (G_toy 1) true 10 20 keys.2 x_hat))
      [10 - 77; 15 - 77; 20 - 77; 9 - 77; 21 - 77; 123]
  = [6; 6; 6; 5; 5; 5].
Proof. vm_compute. reflexivity. Qed.

(** The upper bound 127 is left out above: [q + 1] is then 128 as an
    [int], not [-128].  With [[0, 127]], input mask [-126] and output mask
    [5], the input [-2] (254 as an unsigned byte, outside the interval) gives
    [4]. *)
Example IC_toy_upper_bound_127 :
  let keys := FSSGates.IC_gen_64 1 (G_toy 1) rand_toy 99 (-126) 5 0 127 in
  to_R 1 (FSSGates.IC_eval_64 1 (G_toy 1) false 0 127 keys.1 (-128)
          + FSSGates.IC_eval_64 1 (G_toy 1) true 0 127 keys.2 (-128))
  = 4.
Proof. vm_compute. reflexivity. Qed.

End FSSFacts.

(** * Wires of the older core: the online flag fires once *)

Module AbynWireFacts.
Import AbynWire.

(** [SetOnlineFinished] fires once.  On a wire that is not done the call
    returns, the wire is done and ready from then on, and
    [UnregisterWireIdFromGate] has been called once for every gate waiting
    on the wire, with the wire's id, and for no other; a second call throws
    and leaves the wire and the calls made as they are. *)
Theorem SetOnlineFinished_fires_once (s : State) :
  is_done_ (wire s) = false ->
  exists s1,
    SetOnlineFinished s = Ok s1 /\
    is_done_ (wire s1) = true /\ IsReady (wire s1) = true /\
    waiting_gate_ids_ (wire s1) = waiting_gate_ids_ (wire s) /\
    (exists calls,
       unregistered s1 = unregistered s ++ calls /\ NoDup calls /\
       forall gate_id wire_id,
         (gate_id, wire_id) ∈ calls <->
         gate_id ∈ waiting_gate_ids_ (wire s) /\ wire_id = wire_id_ (wire s)) /\
    SetOnlineFinished s1 = Throw "Marking wire as online phase ready twice" s1.
Proof.
  intros Hdone. unfold SetOnlineFinished. rewrite Hdone.
  eexists. split; [reflexivity|]. cbn [wire is_done_ unregistered waiting_gate_ids_].
  split; [done|]. split; [unfold IsReady; cbn; by destruct (is_constant_ _)|].
  split; [done|]. split; [|done].
  eexists. split; [reflexivity|]. split.
  - apply NoDup_fmap_2; [intros x y [= ->]; done|apply NoDup_elements].
  - intros gate_id wire_id. rewrite list_elem_of_fmap. split.
    + intros (g & [= -> ->] & Hg). by apply elem_of_elements in Hg.
    + intros [Hg ->]. exists gate_id. split; [done|]. by apply elem_of_elements.
Qed.

Lemma SetOnlineFinished_fires_once_witness :
  exists s1,
    SetOnlineFinished sample_wire = Ok s1 /\
    is_done_ (wire s1) = true /\ IsReady (wire s1) = true /\
    waiting_gate_ids_ (wire s1) = waiting_gate_ids_ (wire sample_wire) /\
    (exists calls,
       unregistered s1 = unregistered sample_wire ++ calls /\ NoDup calls /\
       forall gate_id wire_id,
         (gate_id, wire_id) ∈ calls <->
         gate_id ∈ waiting_gate_ids_ (wire sample_wire) /\
         wire_id = wire_id_ (wire sample_wire)) /\
    SetOnlineFinished s1 = Throw "Marking wire as online phase ready twice" s1.
Proof. exact (SetOnlineFinished_fires_once sample_wire eq_refl). Defined.

(** Who is told.  A gate that registered on the wire, any number of times,
    and did not unregister afterwards is told exactly once when the wire
    finishes; a gate that unregistered last is not told, whatever it
    registered before. *)
Theorem waiting_gates_are_told (gate_id : Z) (s : State) :
  is_done_ (wire s) = false ->
  let told (s' : State) :=
    match SetOnlineFinished s' with
    | Ok s1 => drop (length (unregistered s')) (unregistered s1)
    | _ => []
    end in
  let count (l : list (Z * Z)) :=
    length (filter (fun c => c = (gate_id, wire_id_ (wire s))) l) in
  count (told (with_wire (RegisterWaitingGate gate_id) s)) = 1%nat /\
  count (told (with_wire (fun w => RegisterWaitingGate gate_id
                                     (RegisterWaitingGate gate_id w)) s)) = 1%nat /\
  count (told (with_wire (fun w => UnregisterWaitingGate gate_id
                                     (RegisterWaitingGate gate_id w)) s)) = 0%nat /\
  with_wire (fun w => RegisterWaitingGate gate_id (RegisterWaitingGate gate_id w)) s
  = with_wire (RegisterWaitingGate gate_id) s.
Proof.
  intros Hdone told count.
  assert (Hcount : forall X : gset Z,
            count (map (fun g => (g, wire_id_ (wire s))) (elements X))
            = if decide (gate_id ∈ X) then 1%nat else 0%nat).
  { intros X. unfold count.
    assert (Hnd := NoDup_elements X).
    assert (Hin : gate_id ∈ X <-> gate_id ∈ elements X) by (by rewrite elem_of_elements).
    destruct (decide (gate_id ∈ X)) as [Hx|Hx].
    - apply Hin in Hx. clear Hin. induction (elements X) as [|g l IH]; [by inversion Hx|].
      apply NoDup_cons in Hnd as [Hg Hnd]. cbn [map].
      rewrite filter_cons. destruct (decide (g = gate_id)) as [->|Hne].
      + rewrite decide_True by done. cbn [length]. f_equal.
        clear IH Hx. induction l as [|h l IH]; [done|].
        cbn [map]. rewrite filter_cons.
        apply not_elem_of_cons in Hg as [Hh Hg]. apply NoDup_cons in Hnd as [_ Hnd].
        rewrite decide_False by (intros [= ->]; done). by apply IH.
      + rewrite decide_False by (intros [= ->]; done).
        apply elem_of_cons in Hx as [->|Hx]; [done|]. by apply IH.
    - assert (Hx' : gate_id ∉ elements X) by (by rewrite <- Hin). clear Hin Hx.
      induction (elements X) as [|g l IH]; [done|].
      apply not_elem_of_cons in Hx' as [Hne Hx']. apply NoDup_cons in Hnd as [_ Hnd].
      cbn [map]. rewrite filter_cons.
      rewrite decide_False by (intros [= ->]; done). by apply IH. }
  assert (Htold : forall f : Wire -> Wire,
            is_done_ (f (wire s)) = false -> wire_id_ (f (wire s)) = wire_id_ (wire s) ->
            told (with_wire f s)
            = map (fun g => (g, wire_id_ (wire s))) (elements (waiting_gate_ids_ (f (wire s))))).
  { intros f Hd Hid. unfold told, SetOnlineFinished, with_wire.
    cbn [wire unregistered]. rewrite Hd, Hid. cbn [unregistered].
    by rewrite drop_app_length. }
  rewrite !Htold by done. rewrite !Hcount. cbn [RegisterWaitingGate UnregisterWaitingGate
    waiting_gate_ids_].
  rewrite decide_True by (apply elem_of_union; left; by apply elem_of_singleton).
  rewrite decide_True by (apply elem_of_union; left; by apply elem_of_singleton).
  rewrite decide_False
    by (rewrite elem_of_difference, elem_of_singleton; intros [_ Hne]; by apply Hne).
  repeat split. unfold with_wire, RegisterWaitingGate. cbn. do 2 f_equal.
  by rewrite (assoc_L (∪)), (idemp_L (∪)).
Qed.

Lemma waiting_gates_are_told_witness :
  let told (s' : State) :=
    match SetOnlineFinished s' with
    | Ok s1 => drop (length (unregistered s')) (unregistered s1)
    | _ => []
    end in
  let count (l : list (Z * Z)) :=
    length (filter (fun c => c = (7, wire_id_ (wire sample_wire))) l) in
  count (told (with_wire (RegisterWaitingGate 7) sample_wire)) = 1%nat /\
  count (told (with_wire (fun w => RegisterWaitingGate 7 (RegisterWaitingGate 7 w))
                         sample_wire)) = 1%nat /\
  count (told (with_wire (fun w => UnregisterWaitingGate 7 (RegisterWaitingGate 7 w))
                         sample_wire)) = 0%nat /\
  with_wire (fun w => RegisterWaitingGate 7 (RegisterWaitingGate 7 w)) sample_wire
  = with_wire (RegisterWaitingGate 7) sample_wire.
Proof. exact (waiting_gates_are_told 7 sample_wire eq_refl). Defined.

End AbynWireFacts.
